(** * weston-greeter: the desktop-shell client (clients/desktop-shell.c)

    A shallow embedding of the output/surface lifecycle manager, the
    shell-protocol handlers, the lock flow and the readiness tracker of
    [clients/desktop-shell.c], and the properties its specification
    states about them.

    The C program is single threaded and event driven.  Every handler is
    embedded as a computation in a small monad [M] that threads the
    program state ([world]: [struct desktop] plus the heap of objects it
    points to), logs the calls the handler makes on its collaborators
    (protocol requests, toolkit calls) in a trace, and can [crash] where
    the C code dereferences a NULL or dangling pointer.

    Rendering (cairo), the panel clock and the launchers are not part of
    the state machine and are left out of the structures. *)

From stdpp Require Import gmap strings list fin_maps.
From Stdlib Require Import ZArith Ascii.

Local Open Scope Z_scope.

(** ** Data model *)

(** Addresses of heap objects ([xzalloc], [calloc], toolkit windows). *)
Abbreviation ptr := nat.

(** [enum cursor_type] of the toolkit, as far as [desktop_shell_grab_cursor]
    uses it. *)
Inductive cursor_type :=
| CURSOR_BOTTOM_LEFT | CURSOR_BOTTOM_RIGHT | CURSOR_BOTTOM | CURSOR_DRAGGING
| CURSOR_LEFT_PTR | CURSOR_LEFT | CURSOR_RIGHT | CURSOR_TOP_LEFT
| CURSOR_TOP_RIGHT | CURSOR_TOP | CURSOR_WATCH | CURSOR_BLANK.

(** [enum desktop_shell_cursor] of the protocol; [DESKTOP_SHELL_CURSOR_other]
    stands for any value the [switch] does not name. *)
Inductive desktop_shell_cursor :=
| DESKTOP_SHELL_CURSOR_NONE | DESKTOP_SHELL_CURSOR_RESIZE_TOP
| DESKTOP_SHELL_CURSOR_RESIZE_BOTTOM | DESKTOP_SHELL_CURSOR_ARROW
| DESKTOP_SHELL_CURSOR_RESIZE_LEFT | DESKTOP_SHELL_CURSOR_RESIZE_TOP_LEFT
| DESKTOP_SHELL_CURSOR_RESIZE_BOTTOM_LEFT | DESKTOP_SHELL_CURSOR_MOVE
| DESKTOP_SHELL_CURSOR_RESIZE_RIGHT | DESKTOP_SHELL_CURSOR_RESIZE_TOP_RIGHT
| DESKTOP_SHELL_CURSOR_RESIZE_BOTTOM_RIGHT | DESKTOP_SHELL_CURSOR_BUSY
| DESKTOP_SHELL_CURSOR_other (n : Z).

(** [struct panel]: the window, the painted flag, and the user name kept in
    [panel->switcher->username]. *)
Record panel := mk_panel {
  panel_window : ptr;
  panel_painted : bool;
  panel_switcher_username : string;
}.

(** [struct background]. *)
Record background := mk_background {
  background_window : ptr;
  background_painted : bool;
  background_username : string;
}.

(** [struct unlock_dialog]: [user_list] holds the entries in list order. *)
Record unlock_dialog_t := mk_unlock_dialog {
  ud_window : ptr;
  ud_user_list : list ptr;
  ud_closing : bool;
}.

(** [struct user_entry]. *)
Record user_entry := mk_user_entry {
  ue_name : string;
  ue_dialog : ptr;
}.

(** [struct password_dialog]: [text] is the C string without its
    terminator, [cursor_pos] is an [int]. *)
Record password_dialog := mk_password_dialog {
  pd_window : ptr;
  pd_text : list ascii;
  pd_cursor_pos : Z;
  pd_entry : ptr;
}.

(** What lives at an address.  A toolkit window carries the user data set
    by [window_set_user_data] (the address of its owner). *)
Inductive object :=
| O_panel (x : panel)
| O_background (x : background)
| O_unlock_dialog (x : unlock_dialog_t)
| O_user_entry (x : user_entry)
| O_password_dialog (x : password_dialog)
| O_window (user_data : option ptr).

(** [struct output].  [calloc] zeroes it: the two list heads are not valid
    lists ([None]) until [output_init] runs [wl_list_init] on them, and a
    [wl_list_for_each] over a zeroed head dereferences NULL. *)
Record output := mk_output {
  wl_output : Z;
  server_output_id : Z;
  out_panel : option ptr;
  out_panels : option (list ptr);
  out_background : option ptr;
  out_backgrounds : option (list ptr);
}.

(** [struct desktop].  [shell] is the bound proxy (named by the id of the
    global it was bound from) or NULL. *)
Record desktop := mk_desktop {
  shell : option Z;
  interface_version : Z;
  unlock_dialog : option ptr;
  outputs : list output;
  locking : bool;
  grab_cursor : cursor_type;
  painted : bool;
  current_user : string;
}.

(** The one task the program defers: [desktop.unlock_task], whose [run] is
    [unlock_dialog_finish]. *)
Inductive task := unlock_task.

(** The program state: the desktop, the heap, the allocator's next fresh
    address and the toolkit's list of deferred tasks (most recently queued
    first, as [display_defer] inserts at the head). *)
Record world := mk_world {
  desk : desktop;
  heap : gmap ptr object;
  next : ptr;
  deferred : list task;
}.

(** Requests of the [desktop_shell] protocol. *)
Inductive request :=
| set_background (output : Z) (surface : ptr)
| set_panel (output : Z) (surface : ptr)
| set_lock_surface (surface : ptr)
| unlock
| set_grab_surface (surface : ptr)
| desktop_ready
| lock
| switch_user (username : string).

(** What a handler does to the outside, in order. *)
Inductive action :=
| Request (r : request)
| DisplayBind (id : Z) (interface : string) (version : Z)
| AddListener (proxy : Z)
| WlOutputDestroy (proxy : Z)
| WindowScheduleResize (window : ptr) (width height : Z)
| WidgetScheduleResize (window : ptr) (width height : Z)
| WidgetScheduleRedraw (window : ptr)
| PanelCreate (p : ptr)
| BackgroundCreate (b : ptr)
| PanelDestroy (p : ptr)
| BackgroundDestroy (b : ptr)
| UnlockDialogCreate (d : ptr)
| UnlockDialogDestroy (d : option ptr)
| PasswordDialogCreate (d : ptr)
| PasswordDialogDestroy (d : ptr).

Global Instance request_eq_dec : EqDecision request.
Proof. solve_decision. Defined.
Global Instance action_eq_dec : EqDecision action.
Proof. solve_decision. Defined.

(** ** Field updates *)

Definition set_shell (v : option Z) (d : desktop) : desktop :=
  mk_desktop v (interface_version d) (unlock_dialog d) (outputs d)
             (locking d) (grab_cursor d) (painted d) (current_user d).
Definition set_interface_version (v : Z) (d : desktop) : desktop :=
  mk_desktop (shell d) v (unlock_dialog d) (outputs d)
             (locking d) (grab_cursor d) (painted d) (current_user d).
Definition set_unlock_dialog (v : option ptr) (d : desktop) : desktop :=
  mk_desktop (shell d) (interface_version d) v (outputs d)
             (locking d) (grab_cursor d) (painted d) (current_user d).
Definition set_outputs (v : list output) (d : desktop) : desktop :=
  mk_desktop (shell d) (interface_version d) (unlock_dialog d) v
             (locking d) (grab_cursor d) (painted d) (current_user d).
Definition set_grab_cursor (v : cursor_type) (d : desktop) : desktop :=
  mk_desktop (shell d) (interface_version d) (unlock_dialog d) (outputs d)
             (locking d) v (painted d) (current_user d).
Definition set_painted (v : bool) (d : desktop) : desktop :=
  mk_desktop (shell d) (interface_version d) (unlock_dialog d) (outputs d)
             (locking d) (grab_cursor d) v (current_user d).
Definition set_current_user (v : string) (d : desktop) : desktop :=
  mk_desktop (shell d) (interface_version d) (unlock_dialog d) (outputs d)
             (locking d) (grab_cursor d) (painted d) v.

Definition with_desk (f : desktop → desktop) (w : world) : world :=
  mk_world (f (desk w)) (heap w) (next w) (deferred w).
Definition with_heap (f : gmap ptr object → gmap ptr object) (w : world) : world :=
  mk_world (desk w) (f (heap w)) (next w) (deferred w).

(** ** The monad of handlers *)

(** A computation reads the world, logs actions and either returns a value
    with the new world or crashes ([None]); the actions logged before a
    crash are kept. *)
Definition M (A : Type) : Type := world → list action * option (A * world).

Definition ret {A} (a : A) : M A := λ w, ([], Some (a, w)).
Definition bind {A B} (m : M A) (k : A → M B) : M B := λ w,
  match m w with
  | (t, None) => (t, None)
  | (t, Some (a, w')) => let '(t', r) := k a w' in (t ++ t', r)
  end.

Notation "x <- m ;; k" := (bind m (λ x, k))
  (at level 100, m at next level, right associativity).
Notation "m ;;; k" := (bind m (λ _, k))
  (at level 100, right associativity).

Definition crash {A} : M A := λ w, ([], None).
Definition emit (a : action) : M unit := λ w, ([a], Some ((), w)).
Definition gets {A} (f : world → A) : M A := λ w, ([], Some (f w, w)).
Definition modify (f : world → world) : M unit := λ w, ([], Some ((), f w)).

(** The trace and the outcome of running a computation. *)
Definition trace_of {A} (m : M A) (w : world) : list action := (m w).1.
Definition outcome {A} (m : M A) (w : world) : option (A * world) := (m w).2.
Definition final {A} (m : M A) (w : world) : option world :=
  snd <$> outcome m w.

(** *** Heap primitives *)

(** [xzalloc]/[calloc]/[window_create_custom]: a fresh address.  Running
    out of memory is not modelled. *)
Definition alloc (o : object) : M ptr := λ w,
  ([], Some (next w, mk_world (desk w) (<[next w := o]> (heap w))
                              (S (next w)) (deferred w))).

(** Reading through a pointer: a dangling pointer crashes. *)
Definition load (p : ptr) : M object := λ w,
  match heap w !! p with
  | Some o => ([], Some (o, w))
  | None => ([], None)
  end.

(** Writing through a pointer. *)
Definition store (p : ptr) (o : object) : M unit := λ w,
  match heap w !! p with
  | Some _ => ([], Some ((), with_heap (insert p o) w))
  | None => ([], None)
  end.

(** [free], and the toolkit's [window_destroy]. *)
Definition free (p : ptr) : M unit := λ w,
  match heap w !! p with
  | Some _ => ([], Some ((), with_heap (delete p) w))
  | None => ([], None)
  end.

Definition load_panel (p : ptr) : M panel :=
  o <- load p ;; match o with O_panel x => ret x | _ => crash end.
Definition load_background (p : ptr) : M background :=
  o <- load p ;; match o with O_background x => ret x | _ => crash end.
Definition load_unlock_dialog (p : ptr) : M unlock_dialog_t :=
  o <- load p ;; match o with O_unlock_dialog x => ret x | _ => crash end.
Definition load_user_entry (p : ptr) : M user_entry :=
  o <- load p ;; match o with O_user_entry x => ret x | _ => crash end.
Definition load_password_dialog (p : ptr) : M password_dialog :=
  o <- load p ;; match o with O_password_dialog x => ret x | _ => crash end.

(** [window_get_user_data]. *)
Definition window_get_user_data (window : ptr) : M (option ptr) :=
  o <- load window ;; match o with O_window d => ret d | _ => crash end.

(** [window_create_custom] followed by [window_set_user_data]. *)
Definition window_create_custom : M ptr := alloc (O_window None).
Definition window_set_user_data (window : ptr) (data : ptr) : M unit :=
  window_get_user_data window ;;; store window (O_window (Some data)).

(** A [desktop_shell_*] request marshals on [desktop->shell]; on a NULL
    proxy it dereferences NULL. *)
Definition shell_request (r : request) : M unit :=
  s <- gets (λ w, shell (desk w)) ;;
  match s with
  | Some _ => emit (Request r)
  | None => crash
  end.

(** ** The program *)

(** One record of the account database, as [getpwent] returns it. *)
Record passwd := mk_passwd {
  pw_name : string;
  pw_uid : Z;
  pw_shell : string;
}.

(** Key symbols of xkbcommon-keysyms.h that the key handler names. *)
Definition XKB_KEY_BackSpace : Z := 0xff08.
Definition XKB_KEY_Tab : Z := 0xff09.
Definition XKB_KEY_Return : Z := 0xff0d.
Definition XKB_KEY_Escape : Z := 0xff1b.
Definition XKB_KEY_Left : Z := 0xff51.
Definition XKB_KEY_Right : Z := 0xff53.
Definition XKB_KEY_KP_Enter : Z := 0xff8d.
Definition XKB_KEY_Delete : Z := 0xffff.

Inductive wl_keyboard_key_state :=
| WL_KEYBOARD_KEY_STATE_RELEASED | WL_KEYBOARD_KEY_STATE_PRESSED.
Inductive wl_pointer_button_state :=
| WL_POINTER_BUTTON_STATE_RELEASED | WL_POINTER_BUTTON_STATE_PRESSED.

(** A global announced by the registry. *)
Record global := mk_global {
  g_id : Z;
  g_interface : string;
  g_version : Z;
}.

(** Events the toolkit and the compositor deliver to the handlers. *)
Inductive event :=
| GlobalAdded (g : global)
| GlobalRemoved (id : Z) (interface : string)
| Configure (surface : ptr) (edges width height : Z)
| PrepareLock
| GrabCursor (cursor : desktop_shell_cursor)
| UserSwitched (username : string)
| PanelRedraw (p : ptr)
| BackgroundDraw (b : ptr)
| PanelResize (p : ptr) (width height : Z)
| UserEntryButton (entry : ptr) (state : wl_pointer_button_state)
| PasswordKey (d : ptr) (state : wl_keyboard_key_state) (sym : Z)
| RunDeferred.

Section Program.

(** The collaborators outside this file: the key symbol conversion of
    libxkbcommon (the UTF-8 units written to the buffer, without the
    terminator; none when the symbol has no encoding, in which case the C
    function returns 0), the account database read by [getpwent], and the
    [locking] key of weston.ini. *)
Variable xkb_keysym_to_utf8 : Z → list ascii.
Variable accounts : list passwd.
Variable config_locking : bool.

(** *** Readiness *)

(** The tests [output->panel && !output->panel->painted] and
    [output->background && !output->background->painted]. *)
Definition panel_unpainted (p : option ptr) : M bool :=
  match p with
  | Some p => x <- load_panel p ;; ret (negb (panel_painted x))
  | None => ret false
  end.

Definition background_unpainted (b : option ptr) : M bool :=
  match b with
  | Some b => x <- load_background b ;; ret (negb (background_painted x))
  | None => ret false
  end.

(** [is_desktop_painted]: the loop returns 0 at the first active panel or
    background that is not painted. *)
Fixpoint is_desktop_painted_from (os : list output) : M bool :=
  match os with
  | [] => ret true
  | o :: os' =>
      c <- panel_unpainted (out_panel o) ;;
      if c then ret false else
      c' <- background_unpainted (out_background o) ;;
      if c' then ret false else
      is_desktop_painted_from os'
  end.

Definition is_desktop_painted : M bool :=
  os <- gets (λ w, outputs (desk w)) ;; is_desktop_painted_from os.

(** [check_desktop_ready].  [&&] does not evaluate [is_desktop_painted]
    once [desktop->painted] is set. *)
Definition check_desktop_ready : M unit :=
  p <- gets (λ w, painted (desk w)) ;;
  if p then ret () else
  b <- is_desktop_painted ;;
  if b then
    modify (with_desk (set_painted true)) ;;;
    v <- gets (λ w, interface_version (desk w)) ;;
    if bool_decide (2 ≤ v) then shell_request desktop_ready else ret ()
  else ret ().

(** [panel_redraw_handler]: after the drawing, sets the flag and checks. *)
Definition panel_redraw_handler (p : ptr) : M unit :=
  x <- load_panel p ;;
  store p (O_panel (mk_panel (panel_window x) true
                                 (panel_switcher_username x))) ;;;
  check_desktop_ready.

(** [background_draw]. *)
Definition background_draw (b : ptr) : M unit :=
  x <- load_background b ;;
  store b (O_background (mk_background (background_window x) true
                                           (background_username x))) ;;;
  check_desktop_ready.

(** *** Configure and resize *)

(** [panel_configure]. *)
Definition panel_configure (window : ptr) (width height : Z) : M unit :=
  d <- window_get_user_data window ;;
  match d with
  | Some p => x <- load_panel p ;;
              emit (WindowScheduleResize (panel_window x) width 32)
  | None => crash
  end.

(** [background_configure]. *)
Definition background_configure (window : ptr) (width height : Z) : M unit :=
  d <- window_get_user_data window ;;
  match d with
  | Some b => x <- load_background b ;;
              emit (WidgetScheduleResize (background_window x) width height)
  | None => crash
  end.

(** [desktop_shell_configure]: calls [s->configure] of the [struct surface]
    at the head of the window's user data; only panels and backgrounds have
    one. *)
Definition desktop_shell_configure (surface : ptr) (edges width height : Z)
  : M unit :=
  d <- window_get_user_data surface ;;
  match d with
  | Some s =>
      o <- load s ;;
      match o with
      | O_panel _ => panel_configure surface width height
      | O_background _ => background_configure surface width height
      | _ => crash
      end
  | None => crash
  end.

(** [panel_resize_handler]: lays out the launchers, the switcher and the
    clock inside the panel; it reads the panel and changes nothing that is
    modelled here. *)
Definition panel_resize_handler (p : ptr) (width height : Z) : M unit :=
  load_panel p ;;; ret ().

(** *** Panels and backgrounds *)

(** [panel_create]: the switcher shows [desktop->current_user]. *)
Definition panel_create : M ptr :=
  window <- window_create_custom ;;
  u <- gets (λ w, current_user (desk w)) ;;
  p <- alloc (O_panel (mk_panel window false u)) ;;
  window_set_user_data window p ;;;
  emit (PanelCreate p) ;;;
  ret p.

(** [background_create]. *)
Definition background_create : M ptr :=
  window <- window_create_custom ;;
  u <- gets (λ w, current_user (desk w)) ;;
  b <- alloc (O_background (mk_background window false u)) ;;
  window_set_user_data window b ;;;
  emit (BackgroundCreate b) ;;;
  ret b.

(** [panel_destroy]. *)
Definition panel_destroy (p : ptr) : M unit :=
  x <- load_panel p ;;
  free (panel_window x) ;;;
  free p ;;;
  emit (PanelDestroy p).

(** [background_destroy]. *)
Definition background_destroy (b : ptr) : M unit :=
  x <- load_background b ;;
  free (background_window x) ;;;
  free b ;;;
  emit (BackgroundDestroy b).

(** Running a handler on each element of a list, in order. *)
Fixpoint for_each {A} (f : A → M unit) (l : list A) : M unit :=
  match l with
  | [] => ret ()
  | x :: l' => f x ;;; for_each f l'
  end.

(** *** Outputs *)

(** [output_init]: the output as it is after the call. *)
Definition output_init (o : output) : M output :=
  p <- panel_create ;;
  x <- load_panel p ;;
  shell_request (set_panel (wl_output o) (panel_window x)) ;;;
  b <- background_create ;;
  y <- load_background b ;;
  shell_request (set_background (wl_output o) (background_window y)) ;;;
  ret (mk_output (wl_output o) (server_output_id o)
                  (Some p) (Some [p]) (Some b) (Some [b])).

(** [create_output]: the new output goes to the head of
    [desktop->outputs]; it gets its panel and background only if the shell
    is bound already. *)
Definition create_output (id : Z) : M unit :=
  emit (DisplayBind id "wl_output" 2) ;;;
  let o := mk_output id id None None None None in
  os <- gets (λ w, outputs (desk w)) ;;
  modify (with_desk (set_outputs (o :: os))) ;;;
  s <- gets (λ w, shell (desk w)) ;;
  match s with
  | Some _ => o' <- output_init o ;;
              modify (with_desk (set_outputs (o' :: os)))
  | None => ret ()
  end.

(** [output_destroy], on the output at position [i] of the list. *)
Definition output_destroy (i : nat) : M unit :=
  os <- gets (λ w, outputs (desk w)) ;;
  match os !! i with
  | None => crash
  | Some o =>
      match out_backgrounds o, out_panels o with
      | Some bs, Some ps =>
          for_each background_destroy bs ;;;
          for_each panel_destroy ps ;;;
          emit (WlOutputDestroy (wl_output o)) ;;;
          modify (with_desk (set_outputs (delete i os)))
      | Some bs, None => for_each background_destroy bs ;;; crash
      | None, _ => crash
      end
  end.

(** [global_handler]. *)
Definition global_handler (g : global) : M unit :=
  if bool_decide (g_interface g = "desktop_shell") then
    let v := if bool_decide (g_version g < 2) then g_version g else 2 in
    modify (with_desk (set_interface_version v)) ;;;
    emit (DisplayBind (g_id g) "desktop_shell" v) ;;;
    modify (with_desk (set_shell (Some (g_id g)))) ;;;
    emit (AddListener (g_id g))
  else if bool_decide (g_interface g = "wl_output") then
    create_output (g_id g)
  else ret ().

(** [global_handler_remove]: the first output with that id, if any. *)
Definition global_handler_remove (id : Z) (interface : string) : M unit :=
  if bool_decide (interface = "wl_output") then
    os <- gets (λ w, outputs (desk w)) ;;
    match list_find (λ o, server_output_id o = id) os with
    | Some (i, _) => output_destroy i
    | None => ret ()
    end
  else ret ().

(** *** Lock flow *)

(** [unlock_dialog_add_user_entry]: the entry goes to the tail of
    [dialog->user_list]. *)
Definition unlock_dialog_add_user_entry (d : ptr) (name : string) : M unit :=
  e <- alloc (O_user_entry (mk_user_entry name d)) ;;
  x <- load_unlock_dialog d ;;
  store d (O_unlock_dialog
             (mk_unlock_dialog (ud_window x) (ud_user_list x ++ [e])
                               (ud_closing x))).

(** The test [unlock_dialog_create] applies to each account. *)
Definition selectable (pwd : passwd) : bool :=
  bool_decide (1000 ≤ pw_uid pwd) && bool_decide (pw_uid pwd ≤ 6000)
  && negb (bool_decide (pw_shell pwd = "/bin/false"))
  && negb (bool_decide (pw_shell pwd = "/sbin/nologin")).

(** The [getpwent] loop of [unlock_dialog_create], threading [extwidth]
    and [usercount]. *)
Fixpoint unlock_dialog_add_accounts (d : ptr) (l : list passwd)
    (extwidth usercount : Z) : M (Z * Z) :=
  match l with
  | [] => ret (extwidth, usercount)
  | pwd :: l' =>
      if selectable pwd then
        unlock_dialog_add_user_entry d (pw_name pwd) ;;;
        let extchars := Z.of_nat (String.length (pw_name pwd)) - 7 in
        let extwidth' :=
          if bool_decide (extchars > 0) then
            if bool_decide (extchars > extwidth) then extchars else extwidth
          else extwidth in
        unlock_dialog_add_accounts d l' extwidth' (usercount + 1)
      else unlock_dialog_add_accounts d l' extwidth usercount
  end.

(** [unlock_dialog_create]. *)
Definition unlock_dialog_create : M ptr :=
  window <- window_create_custom ;;
  d <- alloc (O_unlock_dialog (mk_unlock_dialog window [] false)) ;;
  window_set_user_data window d ;;;
  emit (UnlockDialogCreate d) ;;;
  r <- unlock_dialog_add_accounts d accounts 0 0 ;;
  shell_request (set_lock_surface window) ;;;
  emit (WindowScheduleResize window (260 + r.1 * 10) (200 + (r.2 - 1) * 68)) ;;;
  ret d.

(** [unlock_dialog_destroy]: walks [dialog->user_list], which on a NULL
    dialog dereferences NULL; the window is left alone (the call that
    would destroy it is commented out in the source). *)
Definition unlock_dialog_destroy (dialog : option ptr) : M unit :=
  emit (UnlockDialogDestroy dialog) ;;;
  match dialog with
  | None => crash
  | Some d =>
      x <- load_unlock_dialog d ;;
      for_each free (ud_user_list x) ;;;
      free d
  end.

(** [unlock_dialog_finish], the [run] function of [desktop.unlock_task]. *)
Definition unlock_dialog_finish : M unit :=
  shell_request unlock ;;;
  d <- gets (λ w, unlock_dialog (desk w)) ;;
  unlock_dialog_destroy d ;;;
  modify (with_desk (set_unlock_dialog None)).

(** [desktop_shell_prepare_lock_surface]. *)
Definition desktop_shell_prepare_lock_surface : M unit :=
  l <- gets (λ w, locking (desk w)) ;;
  if negb l then shell_request unlock else
  d <- gets (λ w, unlock_dialog (desk w)) ;;
  match d with
  | Some _ => ret ()
  | None =>
      d' <- unlock_dialog_create ;;
      modify (with_desk (set_unlock_dialog (Some d')))
  end.

(** [password_dialog_create]: reaches the shell through
    [entry->dialog->desktop]. *)
Definition password_dialog_create (entry : ptr) : M unit :=
  e <- load_user_entry entry ;;
  load_unlock_dialog (ue_dialog e) ;;;
  window <- window_create_custom ;;
  d <- alloc (O_password_dialog (mk_password_dialog window [] 0 entry)) ;;
  window_set_user_data window d ;;;
  emit (PasswordDialogCreate d) ;;;
  shell_request (set_lock_surface window) ;;;
  emit (WindowScheduleResize window 400 100).

(** [password_dialog_destroy]. *)
Definition password_dialog_destroy (d : ptr) : M unit :=
  emit (PasswordDialogDestroy d) ;;;
  x <- load_password_dialog d ;;
  free (pd_window x) ;;;
  free d.

(** [user_entry_button_handler]: the redraw of the entry's widget is
    scheduled on every button event, before the state is tested; the
    widget of an entry is named by the entry. *)
Definition user_entry_button_handler (entry : ptr)
    (state : wl_pointer_button_state) : M unit :=
  emit (WidgetScheduleRedraw entry) ;;;
  match state with
  | WL_POINTER_BUTTON_STATE_RELEASED => password_dialog_create entry
  | WL_POINTER_BUTTON_STATE_PRESSED => ret ()
  end.

(** The two text edits of the key handler.  [strncpy]/[strcpy] read
    [dialog->text] at [cursor_pos]: outside the string that is an
    out-of-bounds access. *)
Definition text_backspace (x : password_dialog) : M password_dialog :=
  let n := pd_cursor_pos x in
  if bool_decide (1 ≤ n ≤ Z.of_nat (length (pd_text x))) then
    ret (mk_password_dialog (pd_window x)
           (take (Z.to_nat (n - 1)) (pd_text x) ++ drop (Z.to_nat n) (pd_text x))
           (n - 1) (pd_entry x))
  else crash.

Definition text_insert (x : password_dialog) (c : ascii) : M password_dialog :=
  let n := pd_cursor_pos x in
  if bool_decide (0 ≤ n ≤ Z.of_nat (length (pd_text x))) then
    ret (mk_password_dialog (pd_window x)
           (take (Z.to_nat n) (pd_text x) ++ c :: drop (Z.to_nat n) (pd_text x))
           (n + 1) (pd_entry x))
  else crash.

(** The [switch (sym)] of the key handler: the dialog after the key. *)
Definition password_dialog_edit (x : password_dialog) (sym : Z)
  : M password_dialog :=
  if bool_decide (sym = XKB_KEY_BackSpace) then
    if bool_decide (pd_cursor_pos x = 0) then ret x else text_backspace x
  else if bool_decide (sym = XKB_KEY_Delete ∨ sym = XKB_KEY_Left ∨
                       sym = XKB_KEY_Right ∨ sym = XKB_KEY_Tab) then ret x
  else if bool_decide (Z.of_nat (length (pd_text x)) >= 30) then ret x
  else
    match xkb_keysym_to_utf8 sym with
    | [] => ret x
    | [c] => text_insert x c
    | _ :: _ :: _ => ret x
    end.

(** [password_dialog_key_handler]. *)
Definition password_dialog_key_handler (d : ptr)
    (state : wl_keyboard_key_state) (sym : Z) : M unit :=
  x <- load_password_dialog d ;;
  e <- load_user_entry (pd_entry x) ;;
  ud <- load_unlock_dialog (ue_dialog e) ;;
  match state with
  | WL_KEYBOARD_KEY_STATE_RELEASED => ret ()
  | WL_KEYBOARD_KEY_STATE_PRESSED =>
      if bool_decide (sym = XKB_KEY_Escape) then password_dialog_destroy d
      else if bool_decide (sym = XKB_KEY_Return ∨ sym = XKB_KEY_KP_Enter) then
        (if ud_closing ud then ret () else
           shell_request (switch_user (ue_name e)) ;;;
           store (ue_dialog e)
                 (O_unlock_dialog
                    (mk_unlock_dialog (ud_window ud) (ud_user_list ud) true))) ;;;
        password_dialog_destroy d
      else
        x' <- password_dialog_edit x sym ;;
        store d (O_password_dialog x') ;;;
        emit (WidgetScheduleRedraw (pd_window x))
  end.

(** *** The remaining shell events *)

(** [desktop_shell_grab_cursor]. *)
Definition desktop_shell_grab_cursor (cursor : desktop_shell_cursor) : M unit :=
  modify (with_desk (set_grab_cursor
    match cursor with
    | DESKTOP_SHELL_CURSOR_NONE => CURSOR_BLANK
    | DESKTOP_SHELL_CURSOR_BUSY => CURSOR_WATCH
    | DESKTOP_SHELL_CURSOR_MOVE => CURSOR_DRAGGING
    | DESKTOP_SHELL_CURSOR_RESIZE_TOP => CURSOR_TOP
    | DESKTOP_SHELL_CURSOR_RESIZE_BOTTOM => CURSOR_BOTTOM
    | DESKTOP_SHELL_CURSOR_RESIZE_LEFT => CURSOR_LEFT
    | DESKTOP_SHELL_CURSOR_RESIZE_RIGHT => CURSOR_RIGHT
    | DESKTOP_SHELL_CURSOR_RESIZE_TOP_LEFT => CURSOR_TOP_LEFT
    | DESKTOP_SHELL_CURSOR_RESIZE_TOP_RIGHT => CURSOR_TOP_RIGHT
    | DESKTOP_SHELL_CURSOR_RESIZE_BOTTOM_LEFT => CURSOR_BOTTOM_LEFT
    | DESKTOP_SHELL_CURSOR_RESIZE_BOTTOM_RIGHT => CURSOR_BOTTOM_RIGHT
    | DESKTOP_SHELL_CURSOR_ARROW | DESKTOP_SHELL_CURSOR_other _ =>
        CURSOR_LEFT_PTR
    end)).

(** The first inner loop of [desktop_shell_user_switched]: every cached
    panel of the user becomes [output->panel] and is announced; the result
    is [panel_exists] and the new [output->panel]. *)
Fixpoint rebind_panels (username : string) (wl : Z) (ps : list ptr)
    (st : bool * option ptr) : M (bool * option ptr) :=
  match ps with
  | [] => ret st
  | p :: ps' =>
      x <- load_panel p ;;
      if bool_decide (panel_switcher_username x = username) then
        shell_request (set_panel wl (panel_window x)) ;;;
        rebind_panels username wl ps' (true, Some p)
      else rebind_panels username wl ps' st
  end.

(** The second inner loop, for backgrounds. *)
Fixpoint rebind_backgrounds (username : string) (wl : Z) (bs : list ptr)
    (st : bool * option ptr) : M (bool * option ptr) :=
  match bs with
  | [] => ret st
  | b :: bs' =>
      x <- load_background b ;;
      if bool_decide (background_username x = username) then
        shell_request (set_background wl (background_window x)) ;;;
        rebind_backgrounds username wl bs' (true, Some b)
      else rebind_backgrounds username wl bs' st
  end.

(** The first half of the body of the loop over outputs in
    [desktop_shell_user_switched]: the cached panels of the user are
    rebound, and if there was none ([!panel_exists]) a panel is created,
    put at the head of [output->panels] and announced.  The result is the
    new [output->panel] and the new list. *)
Definition switch_panel (username : string) (o : output) (ps : list ptr)
  : M (option ptr * list ptr) :=
  r <- rebind_panels username (wl_output o) ps (false, out_panel o) ;;
  if r.1 then ret (r.2, ps) else
    p <- panel_create ;;
    x <- load_panel p ;;
    shell_request (set_panel (wl_output o) (panel_window x)) ;;;
    ret (Some p, p :: ps).

(** The second half, for the background. *)
Definition switch_background (username : string) (o : output)
    (bs : list ptr) : M (option ptr * list ptr) :=
  r <- rebind_backgrounds username (wl_output o) bs
         (false, out_background o) ;;
  if r.1 then ret (r.2, bs) else
    b <- background_create ;;
    y <- load_background b ;;
    shell_request (set_background (wl_output o) (background_window y)) ;;;
    ret (Some b, b :: bs).

(** The body of the loop over outputs in [desktop_shell_user_switched]:
    the output as it is after the iteration. *)
Definition switch_output (username : string) (o : output) : M output :=
  match out_panels o with
  | None => crash
  | Some ps =>
      pp <- switch_panel username o ps ;;
      match out_backgrounds o with
      | None => crash
      | Some bs =>
          bb <- switch_background username o bs ;;
          ret (mk_output (wl_output o) (server_output_id o)
                         pp.1 (Some pp.2) bb.1 (Some bb.2))
      end
  end.

(** A loop that updates every element of a list in place. *)
Fixpoint map_each {A} (f : A → M A) (l : list A) : M (list A) :=
  match l with
  | [] => ret []
  | x :: l' => y <- f x ;; k <- map_each f l' ;; ret (y :: k)
  end.

(** Modelled from the spec: [display_defer] of the toolkit (window.c, not
    part of the sources embedded here) queues the task for a later turn
    of the event loop; the task goes to the head of the deferred list. *)
Definition display_defer (t : task) : M unit :=
  modify (λ w, mk_world (desk w) (heap w) (next w) (t :: deferred w)).

(** [desktop_shell_user_switched]. *)
Definition desktop_shell_user_switched (username : string) : M unit :=
  modify (with_desk (set_current_user username)) ;;;
  os <- gets (λ w, outputs (desk w)) ;;
  os' <- map_each (switch_output username) os ;;
  modify (with_desk (set_outputs os')) ;;;
  display_defer unlock_task.

(** *** Start-up and the event loop *)

(** [grab_surface_create]. *)
Definition grab_surface_create : M unit :=
  window <- window_create_custom ;;
  shell_request (set_grab_surface window).

(** [struct desktop desktop = { 0 }] with the fields [main] sets before it
    connects. *)
Definition initial_world : world :=
  mk_world (mk_desktop None 0 None [] config_locking CURSOR_BOTTOM_LEFT
                       false "Guest")
           ∅ 1%nat [].

(** The body of the loop of [main] over the outputs. *)
Definition init_missing (o : output) : M output :=
  match out_panel o with
  | None => output_init o
  | Some _ => ret o
  end.

(** [main] up to [display_run]: [display_set_global_handler] (toolkit)
    calls the handler on every global announced so far, then the outputs
    that have no panel yet are initialised, then the grab surface is
    created. *)
Definition main_startup (globals : list global) : M unit :=
  for_each global_handler globals ;;;
  os <- gets (λ w, outputs (desk w)) ;;
  os' <- map_each init_missing os ;;
  modify (with_desk (set_outputs os')) ;;;
  grab_surface_create.

(** Modelled from the spec: the toolkit runs a deferred task on a later
    turn of the loop, once, and has no way to cancel it; it takes the
    task at the tail of its list. *)
Definition run_deferred : M unit :=
  ts <- gets deferred ;;
  match reverse ts with
  | [] => ret ()
  | unlock_task :: rest =>
      modify (λ w, mk_world (desk w) (heap w) (next w) (reverse rest)) ;;;
      unlock_dialog_finish
  end.

(** Dispatch of one event to its handler. *)
Definition handle (e : event) : M unit :=
  match e with
  | GlobalAdded g => global_handler g
  | GlobalRemoved id interface => global_handler_remove id interface
  | Configure surface edges width height =>
      desktop_shell_configure surface edges width height
  | PrepareLock => desktop_shell_prepare_lock_surface
  | GrabCursor c => desktop_shell_grab_cursor c
  | UserSwitched u => desktop_shell_user_switched u
  | PanelRedraw p => panel_redraw_handler p
  | BackgroundDraw b => background_draw b
  | PanelResize p width height => panel_resize_handler p width height
  | UserEntryButton entry state => user_entry_button_handler entry state
  | PasswordKey d state sym => password_dialog_key_handler d state sym
  | RunDeferred => run_deferred
  end.

(** [display_run] on a sequence of events. *)
Definition run (es : list event) : M unit := for_each handle es.

End Program.
(** ** The rest of the program

    The functions of [clients/desktop-shell.c] that the handlers above do
    not need: the teardown of [main], the grab surface, the switcher
    menu, the parsing of a launcher's command line and the parameters of
    drawing. *)

(** *** Teardown, grab surface and switcher menu *)

(** [desktop_destroy_outputs]: [wl_list_for_each_safe] over the registry.
    Every [output_destroy] unlinks the output it is called on, so the
    output of each turn is the head of what is left. *)
Definition desktop_destroy_outputs : M unit :=
  os <- gets (λ w, outputs (desk w)) ;;
  for_each (λ _ : output, output_destroy 0) os.


(** [switcher_menu_func]: the callback of the two entries ("Switch user",
    "Logout") of the switcher menu; [data] is the panel's window. *)
Definition switcher_menu_func (window : ptr) (index : Z) : M unit :=
  d <- window_get_user_data window ;;
  match d with
  | Some p =>
      load_panel p ;;;
      v <- gets (λ w, interface_version (desk w)) ;;
      if bool_decide (v >= 2) then shell_request lock else ret ()
  | None => crash
  end.

(** ** Launchers

    [panel_add_launcher] splits the [path] of a launcher section into the
    environment and the argument vector [panel_launcher_activate] hands to
    [execve].  Strings are the characters before the terminator; the two
    [wl_array]s are lists, without their closing NULL. *)

Section Launcher.

(** [isspace] of <ctype.h>. *)
Variable isspace : ascii → bool.

(** The scan of one word, [for (p = start, eq = NULL; ...; p++)], which
    stops at the terminator or at white space and leaves in [eq] the last
    '=' it passed: the offsets of [p] and of [eq] from [start]. *)
Fixpoint scan_word (s : list ascii) (off : nat) (eq : option nat)
  : nat * option nat :=
  match s with
  | [] => (off, eq)
  | c :: s' =>
      if isspace c then (off, eq)
      else scan_word s' (S off)
             (if bool_decide (c = "="%char) then Some off else eq)
  end.

(** The loop that overwrites the white space after a word with
    terminators: what is left at [p]. *)
Fixpoint skip_space (s : list ascii) : list ascii :=
  match s with
  | [] => []
  | c :: s' => if isspace c then skip_space s' else s
  end.

(** [strncmp(a, b, n) == 0]. *)
Definition strncmp_eq (a b : list ascii) (n : nat) : bool :=
  bool_decide (take n a = take n b).

(** The loop [for (k = 0; k < i; k++)] over [envp]: the first entry whose
    first [n] characters are those of the word is replaced by the word;
    when there is none ([k == i]) the word is added at the end. *)
Fixpoint env_set (ps : list (list ascii)) (word : list ascii) (n : nat)
  : list (list ascii) :=
  match ps with
  | [] => [word]
  | e :: ps' =>
      if strncmp_eq e word n then word :: ps' else e :: env_set ps' word n
  end.

(** The outer loop, over [start]: one word per turn.  A word with a '=' is
    an assignment as long as no argument has been seen ([j == 0]),
    everything else is an argument.  [fuel] bounds the number of turns. *)
Fixpoint parse_words (fuel : nat) (start : list ascii)
    (envp argv : list (list ascii)) (j : nat)
  : option (list (list ascii) * list (list ascii)) :=
  match fuel with
  | O => None
  | S fuel' =>
      match start with
      | [] => Some (envp, argv)
      | _ :: _ =>
          let pe := scan_word start 0 None in
          let word := take pe.1 start in
          let rest := skip_space (drop pe.1 start) in
          match pe.2, j with
          | Some n, O => parse_words fuel' rest (env_set envp word n) argv j
          | _, _ => parse_words fuel' rest envp (argv ++ [word]) (S j)
          end
      end
  end.

(** [panel_add_launcher]: [envp] starts as a copy of [environ], [argv]
    empty; every turn of the loop consumes at least one character. *)
Definition panel_add_launcher (environ : list (list ascii))
    (path : list ascii) : option (list (list ascii) * list (list ascii)) :=
  parse_words (S (length path)) path environ [] 0.

End Launcher.

(** [isspace] in the "C" locale. *)
Definition c_isspace (c : ascii) : bool :=
  bool_decide (c = " "%char) || (bool_decide (9 ≤ nat_of_ascii c)%nat
                                 && bool_decide (nat_of_ascii c ≤ 13)%nat).

(** ** Drawing parameters *)

(** [set_hex_color]: the four arguments of [cairo_set_source_rgba], red,
    green, blue and alpha, as the numerators the source divides by 255.0;
    [color] is a [uint32_t]. *)
Definition set_hex_color (color : Z) : Z * Z * Z * Z :=
  (Z.land (Z.shiftr color 16) 0xff,
   Z.land (Z.shiftr color 8) 0xff,
   Z.land (Z.shiftr color 0) 0xff,
   Z.land (Z.shiftr color 24) 0xff).

(** A [struct rectangle] of the toolkit. *)
Record rectangle := mk_rectangle {
  rect_x : Z;
  rect_y : Z;
  rect_width : Z;
  rect_height : Z;
}.

(** The values of an [int]; arithmetic that leaves them is undefined. *)
Definition int_range (z : Z) : Prop := - 2 ^ 31 ≤ z < 2 ^ 31.

Definition int_add (a b : Z) : option Z :=
  if bool_decide (int_range (a + b)) then Some (a + b) else None.

(** The first loop of [panel_resize_handler]: the allocation of every
    launcher, from its icon's width and height.  [x] starts at 10 and
    [y] is 16; the division is that of C. *)
Fixpoint panel_resize_launchers (x : Z) (icons : list (Z * Z))
  : option (list rectangle) :=
  match icons with
  | [] => Some []
  | (w, h) :: rest =>
      w1 ← int_add w 1 ;
      h1 ← int_add h 1 ;
      y ← (if bool_decide (int_range (16 - Z.quot h 2))
           then Some (16 - Z.quot h 2) else None) ;
      w10 ← int_add w 10 ;
      x' ← int_add x w10 ;
      rs ← panel_resize_launchers x' rest ;
      Some (mk_rectangle x y w1 h1 :: rs)
  end.

(** [enum] of the background types; [-1] is what [background_create]
    stores for a type it does not know. *)
Definition BACKGROUND_SCALE : Z := 0.
Definition BACKGROUND_SCALE_CROP : Z := 1.
Definition BACKGROUND_TILE : Z := 2.

Section Background.

(** The [shell] section of weston.ini as the config parser answers for
    it: the string, and the unsigned number, of a key that is present
    (and well formed); and the installation directory. *)
Variable config_string : string → option string.
Variable config_uint : string → option Z.
Variable DATADIR : string.

(** Modelled from the spec: the configuration store (shared/config-parser.c,
    not part of [clients/desktop-shell.c]) is a read-only key-value
    lookup; a key that is absent is answered with the default the caller
    passes. *)
Definition weston_config_section_get_string (key : string)
    (default_value : string) : string :=
  default default_value (config_string key).
Definition weston_config_section_get_uint (key : string) (default_value : Z)
  : Z :=
  default default_value (config_uint key).

(** The image, the colour and the type [background_create] stores in the
    background of a user. *)
Definition background_image (username : string) : string :=
  let pattern := DATADIR +:+ "/weston/pattern.png" in
  let image :=
    weston_config_section_get_string ("background-image-" +:+ username)
                                     pattern in
  if bool_decide (image = pattern)
  then weston_config_section_get_string "background-image" pattern
  else image.

Definition background_color (username : string) : Z :=
  let color :=
    weston_config_section_get_uint ("background-color-" +:+ username) 0 in
  if bool_decide (color = 0)
  then weston_config_section_get_uint "background-color" 0
  else color.

Definition background_type : Z :=
  let type := weston_config_section_get_string "background-type" "tile" in
  if bool_decide (type = "scale") then BACKGROUND_SCALE
  else if bool_decide (type = "scale-crop") then BACKGROUND_SCALE_CROP
  else if bool_decide (type = "tile") then BACKGROUND_TILE
  else -1.

(** What [background_draw] paints with: the image as a pattern of the
    given type when the image was loaded and the type is known, the
    colour otherwise.  [background->image] is never NULL after
    [background_create], so the load is that of the image; [loaded] is
    whether [load_cairo_surface] gave a surface. *)
Inductive background_source :=
| SourcePattern (image : string) (type : Z)
| SourceColor (channels : Z * Z * Z * Z).

Definition background_draw_source (username : string) (loaded : bool)
  : background_source :=
  if loaded && negb (bool_decide (background_type = -1))
  then SourcePattern (background_image username) background_type
  else SourceColor (set_hex_color (background_color username)).

End Background.


(** ** Specification vocabulary *)

(** A computation that logs nothing and leaves the world alone is
    determined by the value it returns, if any. *)
Definition reads {A} (m : M A) (w : world) (r : option A) : Prop :=
  m w = ([], (λ a, (a, w)) <$> r).

(** [preserves P Q m]: whatever the start, every action [m] logs
    satisfies [Q], and if [m] returns, the start and the end are related
    by [P]. *)
Definition preserves (P : world → world → Prop) (Q : action → Prop)
    {A} (m : M A) : Prop :=
  ∀ w, Forall Q (m w).1 ∧ ∀ a w', (m w).2 = Some (a, w') → P w w'.

(** How many times a request appears in a trace. *)
Definition sent (r : request) (t : list action) : nat :=
  count_occ action_eq_dec t (Request r).

(** *** Readiness *)

(** An active panel or background that has painted. *)
Definition panel_is_painted (w : world) (p : ptr) : Prop :=
  ∃ x, heap w !! p = Some (O_panel x) ∧ panel_painted x = true.
Definition background_is_painted (w : world) (b : ptr) : Prop :=
  ∃ x, heap w !! b = Some (O_background x) ∧ background_painted x = true.

(** Every active panel and background of an output has painted; an output
    without active surfaces asks nothing. *)
Definition output_painted (w : world) (o : output) : Prop :=
  (∀ p, out_panel o = Some p → panel_is_painted w p)
  ∧ (∀ b, out_background o = Some b → background_is_painted w b).

Definition all_active_painted (w : world) : Prop :=
  Forall (output_painted w) (outputs (desk w)).

(** The readiness flag is never reset, and no request but
    [check_desktop_ready]'s own is a desktop-ready signal: the two facts
    every other piece of the program satisfies. *)
Definition stays_ready (w w' : world) : Prop :=
  painted (desk w) = true → painted (desk w') = true.
Definition not_ready (a : action) : Prop := a ≠ Request desktop_ready.

Definition quiet {A} (m : M A) : Prop := preserves stays_ready not_ready m.

(** How many desktop-ready signals the program may still send: one until
    the readiness flag is set, none after. *)
Definition ready_left (w : world) : nat :=
  if painted (desk w) then 0%nat else 1%nat.

(** A computation stays within the budget: what it sends plus what is
    left afterwards is at most what was left before. *)
Definition within_budget {A} (m : M A) : Prop :=
  ∀ w, (sent desktop_ready (m w).1
        + match (m w).2 with
          | Some (_, w') => ready_left w'
          | None => 0
          end ≤ ready_left w)%nat.

(** The world after a panel or a background has set its painted flag. *)
Definition panel_painted_now (p : ptr) (x : panel) (w : world) : world :=
  with_heap (insert p (O_panel (mk_panel (panel_window x) true
                                         (panel_switcher_username x)))) w.
Definition background_painted_now (b : ptr) (x : background) (w : world)
  : world :=
  with_heap (insert b (O_background
                         (mk_background (background_window x) true
                                        (background_username x)))) w.

(** *** Allocation *)

(** Nothing lives at or above the allocator's next address. *)
Definition heap_ok (w : world) : Prop :=
  ∀ p, (next w ≤ p)%nat → heap w !! p = None.

(** The world after [panel_create] and after [background_create]: the
    window at the next address, the panel or background right after it. *)
Definition panel_created (w : world) : world :=
  mk_world (desk w)
    (<[next w := O_window (Some (S (next w)))]>
       (<[S (next w) := O_panel (mk_panel (next w) false
                                          (current_user (desk w)))]>
          (<[next w := O_window None]> (heap w))))
    (S (S (next w))) (deferred w).

Definition background_created (w : world) : world :=
  mk_world (desk w)
    (<[next w := O_window (Some (S (next w)))]>
       (<[S (next w) := O_background
                          (mk_background (next w) false
                                         (current_user (desk w)))]>
          (<[next w := O_window None]> (heap w))))
    (S (S (next w))) (deferred w).

(** The output as [output_init] leaves it when it starts in world [w]. *)
Definition output_inited (w : world) (o : output) : output :=
  mk_output (wl_output o) (server_output_id o)
            (Some (S (next w))) (Some [S (next w)])
            (Some (S (S (S (next w))))) (Some [S (S (S (next w)))]).

(** *** Start-up *)

(** Counting the actions of a trace that pass a test. *)
Definition count_if (f : action → bool) (t : list action) : nat :=
  length (List.filter f t).

Definition is_set_panel (id : Z) (a : action) : bool :=
  match a with
  | Request (set_panel o _) => bool_decide (o = id)
  | _ => false
  end.

Definition is_set_background (id : Z) (a : action) : bool :=
  match a with
  | Request (set_background o _) => bool_decide (o = id)
  | _ => false
  end.

Definition is_panel_create (a : action) : bool :=
  match a with PanelCreate _ => true | _ => false end.

Definition is_background_create (a : action) : bool :=
  match a with BackgroundCreate _ => true | _ => false end.

(** The ids of the output globals of a list of globals, in order. *)
Definition output_ids (globals : list global) : list Z :=
  g_id <$> List.filter
             (λ g, negb (bool_decide (g_interface g = "desktop_shell"))
                   && bool_decide (g_interface g = "wl_output")) globals.

(** The outputs with a given id that have their panel (their
    background). *)
Definition with_panel (id : Z) (os : list output) : nat :=
  length (List.filter (λ o, bool_decide (wl_output o = id)
                            && bool_decide (is_Some (out_panel o))) os).
Definition with_background (id : Z) (os : list output) : nat :=
  length (List.filter (λ o, bool_decide (wl_output o = id)
                            && bool_decide (is_Some (out_background o))) os).

(** An output that went through [output_init]: its panel and background
    are bound, they are the only members of its lists, and they are live
    objects of the right kind. *)
Definition output_bound (w : world) (o : output) : Prop :=
  ∃ p b x y, out_panel o = Some p ∧ out_panels o = Some [p]
             ∧ out_background o = Some b ∧ out_backgrounds o = Some [b]
             ∧ heap w !! p = Some (O_panel x)
             ∧ heap w !! b = Some (O_background y).

(** An output as [create_output] leaves it while the shell is not bound. *)
Definition output_unbound (o : output) : Prop :=
  out_panel o = None ∧ out_background o = None.

(** What one step of start-up keeps and does: the heap stays well formed
    and only grows, every output is either untouched by [output_init] or
    bound, the outputs gain the given ids at the head, and the requests of
    the step are matched by newly bound outputs. *)
Definition startup_step (ids : list Z) (w : world) (t : list action)
    (w' : world) : Prop :=
  heap_ok w' ∧ heap w ⊆ heap w'
  ∧ Forall (λ o, output_unbound o ∨ output_bound w' o) (outputs (desk w'))
  ∧ wl_output <$> outputs (desk w')
    = reverse ids ++ (wl_output <$> outputs (desk w))
  ∧ ∀ id,
      (count_if (is_set_panel id) t + with_panel id (outputs (desk w))
       = with_panel id (outputs (desk w')))%nat
      ∧ (count_if (is_set_background id) t
         + with_background id (outputs (desk w))
         = with_background id (outputs (desk w')))%nat.

(** *** User switch *)

(** An output whose lists are initialised and hold live panels and live
    backgrounds. *)
Definition output_ok (w : world) (o : output) : Prop :=
  ∃ ps bs, out_panels o = Some ps ∧ out_backgrounds o = Some bs
    ∧ Forall (λ p, ∃ x, heap w !! p = Some (O_panel x)) ps
    ∧ Forall (λ b, ∃ x, heap w !! b = Some (O_background x)) bs.

(** The panel (the background) at an address belongs to a user. *)
Definition panel_for (w : world) (u : string) (p : ptr) : bool :=
  match heap w !! p with
  | Some (O_panel x) => bool_decide (panel_switcher_username x = u)
  | _ => false
  end.
Definition background_for (w : world) (u : string) (b : ptr) : bool :=
  match heap w !! b with
  | Some (O_background x) => bool_decide (background_username x = u)
  | _ => false
  end.

(** The output has a cached panel (background) for the user. *)
Definition cached_panel (w : world) (u : string) (o : output) : bool :=
  match out_panels o with
  | Some ps => existsb (panel_for w u) ps
  | None => false
  end.
Definition cached_background (w : world) (u : string) (o : output) : bool :=
  match out_backgrounds o with
  | Some bs => existsb (background_for w u) bs
  | None => false
  end.

(** What a user switch does to the panel of one output: either a cached
    panel of the user is made active and announced again, the cache
    unchanged; or there is none, and a new panel is allocated for the user
    (unpainted), put at the head of the cache, made active and
    announced. *)
Inductive panel_switched (w w' : world) (u : string) (t : list action)
    (o o' : output) : Prop :=
| panel_reused p x ps :
    cached_panel w u o = true →
    out_panels o = Some ps → p ∈ ps →
    heap w !! p = Some (O_panel x) → panel_switcher_username x = u →
    out_panel o' = Some p → out_panels o' = Some ps →
    Request (set_panel (wl_output o) (panel_window x)) ∈ t →
    panel_switched w w' u t o o'
| panel_made p x ps :
    cached_panel w u o = false →
    out_panels o = Some ps →
    heap w !! p = None → heap w' !! p = Some (O_panel x) →
    panel_switcher_username x = u → panel_painted x = false →
    out_panel o' = Some p → out_panels o' = Some (p :: ps) →
    PanelCreate p ∈ t →
    Request (set_panel (wl_output o) (panel_window x)) ∈ t →
    panel_switched w w' u t o o'.

Inductive background_switched (w w' : world) (u : string) (t : list action)
    (o o' : output) : Prop :=
| background_reused b x bs :
    cached_background w u o = true →
    out_backgrounds o = Some bs → b ∈ bs →
    heap w !! b = Some (O_background x) → background_username x = u →
    out_background o' = Some b → out_backgrounds o' = Some bs →
    Request (set_background (wl_output o) (background_window x)) ∈ t →
    background_switched w w' u t o o'
| background_made b x bs :
    cached_background w u o = false →
    out_backgrounds o = Some bs →
    heap w !! b = None → heap w' !! b = Some (O_background x) →
    background_username x = u → background_painted x = false →
    out_background o' = Some b → out_backgrounds o' = Some (b :: bs) →
    BackgroundCreate b ∈ t →
    Request (set_background (wl_output o) (background_window x)) ∈ t →
    background_switched w w' u t o o'.

(** The actions of a user switch: allocations and announcements. *)
Definition rebinding (a : action) : Prop :=
  match a with
  | PanelCreate _ | BackgroundCreate _
  | Request (set_panel _ _) | Request (set_background _ _) => True
  | _ => False
  end.

(** What a user switch does to one output. *)
Definition output_switched (w w' : world) (u : string) (t : list action)
    (o o' : output) : Prop :=
  wl_output o' = wl_output o ∧ server_output_id o' = server_output_id o
  ∧ panel_switched w w' u t o o' ∧ background_switched w w' u t o o'.

(** The outputs that have no cached panel (background) for the user. *)
Definition without_panel (w : world) (u : string) (os : list output) : nat :=
  length (List.filter (λ o, negb (cached_panel w u o)) os).
Definition without_background (w : world) (u : string) (os : list output)
  : nat :=
  length (List.filter (λ o, negb (cached_background w u o)) os).

(** *** Removal of an output *)

(** The addresses [background_destroy] ([panel_destroy]) frees: the window
    and the object. *)
Definition background_cells (w : world) (b : ptr) : list ptr :=
  match heap w !! b with
  | Some (O_background x) => [background_window x; b]
  | _ => []
  end.
Definition panel_cells (w : world) (p : ptr) : list ptr :=
  match heap w !! p with
  | Some (O_panel x) => [panel_window x; p]
  | _ => []
  end.

(** A live background (panel) whose window is live. *)
Definition background_live (w : world) (b : ptr) : Prop :=
  ∃ x, heap w !! b = Some (O_background x)
       ∧ is_Some (heap w !! background_window x).
Definition panel_live (w : world) (p : ptr) : Prop :=
  ∃ x, heap w !! p = Some (O_panel x)
       ∧ is_Some (heap w !! panel_window x).

(** Everything [output_destroy] frees for lists [bs] and [ps]. *)
Definition surface_cells (w : world) (bs ps : list ptr) : list ptr :=
  concat (background_cells w <$> bs) ++ concat (panel_cells w <$> ps).

(** An output [output_destroy] can run on: its lists are initialised,
    they hold live surfaces with live windows, no address is owned twice,
    and the active panel and background are members of the lists. *)
Definition output_owned (w : world) (o : output) : Prop :=
  ∃ ps bs, out_panels o = Some ps ∧ out_backgrounds o = Some bs
    ∧ Forall (panel_live w) ps ∧ Forall (background_live w) bs
    ∧ NoDup (surface_cells w bs ps)
    ∧ (∀ p, out_panel o = Some p → p ∈ ps)
    ∧ (∀ b, out_background o = Some b → b ∈ bs).

(** [w'] is [w] with the addresses of [cells] freed and nothing else
    changed in the heap. *)
Definition freed (cells : list ptr) (w w' : world) : Prop :=
  ∀ q, heap w' !! q = if bool_decide (q ∈ cells) then None else heap w !! q.

(** *** Lock flow *)

(** The live unlock dialogs are exactly the one [desktop->unlock_dialog]
    refers to: none when it is NULL, one otherwise. *)
Definition dialogs_match (w : world) : Prop :=
  ∀ p, (∃ x, heap w !! p = Some (O_unlock_dialog x))
       ↔ unlock_dialog (desk w) = Some p.

Definition is_unlock_dialog_create (a : action) : bool :=
  match a with UnlockDialogCreate _ => true | _ => false end.

(** What adding user entries to the dialog at [d] does to the world: the
    desktop is untouched, the allocator only advances, every other object
    below the allocator's old mark is as it was, no unlock dialog appears
    anywhere else, and the dialog at [d] keeps its window and its closing
    flag. *)
Definition entries_added (d : ptr) (w1 w2 : world) : Prop :=
  desk w2 = desk w1 ∧ deferred w2 = deferred w1
  ∧ (next w1 ≤ next w2)%nat
  ∧ (heap_ok w1 → heap_ok w2)
  ∧ (∀ p, p ≠ d → (p < next w1)%nat → heap w2 !! p = heap w1 !! p)
  ∧ (∀ p x, p ≠ d → heap w2 !! p = Some (O_unlock_dialog x) →
            heap w1 !! p = Some (O_unlock_dialog x))
  ∧ ∀ x1, heap w1 !! d = Some (O_unlock_dialog x1) →
          ∃ x2, heap w2 !! d = Some (O_unlock_dialog x2)
                ∧ ud_window x2 = ud_window x1
                ∧ ud_closing x2 = ud_closing x1.

(** The cursor is inside the text. *)
Definition cursor_ok (x : password_dialog) : Prop :=
  0 ≤ pd_cursor_pos x ≤ Z.of_nat (length (pd_text x)).

(** A password sub-dialog that can take keys: it is live, its cursor is
    inside its text, and its entry and the unlock dialog of its entry are
    live. *)
Definition typing_ok (w : world) (d : ptr) : Prop :=
  ∃ x e ud, heap w !! d = Some (O_password_dialog x)
            ∧ heap w !! pd_entry x = Some (O_user_entry e)
            ∧ heap w !! ue_dialog e = Some (O_unlock_dialog ud)
            ∧ cursor_ok x.

(** A key event that edits: a release, or a press of a key other than
    Escape, Return and Enter (which close the sub-dialog). *)
Definition edit_key (k : wl_keyboard_key_state * Z) : Prop :=
  k.1 = WL_KEYBOARD_KEY_STATE_PRESSED →
  k.2 ≠ XKB_KEY_Escape ∧ k.2 ≠ XKB_KEY_Return ∧ k.2 ≠ XKB_KEY_KP_Enter.

(** The result of one edit, as the specification describes it. *)
Definition edited (xkb : Z → list ascii) (sym : Z) (x x' : password_dialog)
  : Prop :=
  pd_window x' = pd_window x ∧ pd_entry x' = pd_entry x
  ∧ cursor_ok x'
  ∧ ((length (pd_text x) ≤ 30)%nat → (length (pd_text x') ≤ 30)%nat)
  ∧ (sym = XKB_KEY_BackSpace → pd_cursor_pos x = 0 → x' = x)
  ∧ (sym = XKB_KEY_BackSpace → pd_cursor_pos x ≠ 0 →
     pd_text x' = take (Z.to_nat (pd_cursor_pos x - 1)) (pd_text x)
                  ++ drop (Z.to_nat (pd_cursor_pos x)) (pd_text x)
     ∧ pd_cursor_pos x' = pd_cursor_pos x - 1)
  ∧ (sym ≠ XKB_KEY_BackSpace → (30 ≤ length (pd_text x))%nat → x' = x)
  ∧ (sym ≠ XKB_KEY_BackSpace → (1 < length (xkb sym))%nat → x' = x)
  ∧ (sym ≠ XKB_KEY_BackSpace → x' ≠ x →
     ∃ c, xkb sym = [c]
          ∧ pd_text x' = take (Z.to_nat (pd_cursor_pos x)) (pd_text x)
                         ++ c :: drop (Z.to_nat (pd_cursor_pos x)) (pd_text x)
          ∧ pd_cursor_pos x' = pd_cursor_pos x + 1).

(** The last clause of the property as the specification words it: only
    printable characters, those from the space to the tilde, are ever
    inserted, so that the text of a sub-dialog that was given keys holds
    printable characters only. *)
Definition printable (c : ascii) : Prop := (32 ≤ nat_of_ascii c ≤ 126)%nat.

Definition only_printable_inserted (xkb : Z → list ascii)
    (accounts : list passwd) (w : world) (d : ptr)
    (keys : list (wl_keyboard_key_state * Z)) : Prop :=
  ∀ w' x',
    final (run xkb accounts ((λ k, PasswordKey d k.1 k.2) <$> keys)) w
    = Some w' →
    heap w' !! d = Some (O_password_dialog x') →
    Forall printable (pd_text x').

(** *** Submitting *)

(** The Enter key delivered to a sub-dialog. *)
Definition submit (d : ptr) : event :=
  PasswordKey d WL_KEYBOARD_KEY_STATE_PRESSED XKB_KEY_Return.

Definition is_switch_user (a : action) : bool :=
  match a with Request (switch_user _) => true | _ => false end.

Definition is_password_destroy (d : ptr) (a : action) : bool :=
  match a with PasswordDialogDestroy d' => bool_decide (d' = d) | _ => false end.

(** A live password sub-dialog of the unlock dialog at [udp], with a live
    window and a live entry. *)
Definition sub_dialog (w : world) (udp : ptr) (d : ptr) : Prop :=
  ∃ x e data, heap w !! d = Some (O_password_dialog x)
              ∧ heap w !! pd_entry x = Some (O_user_entry e)
              ∧ ue_dialog e = udp
              ∧ heap w !! pd_window x = Some (O_window data).

(** The addresses [password_dialog_destroy] frees. *)
Definition password_cells (w : world) (d : ptr) : list ptr :=
  match heap w !! d with
  | Some (O_password_dialog x) => [pd_window x; d]
  | _ => []
  end.

(** The unlock dialog at [udp] is live and its closing flag is [c]. *)
Definition closing_is (w : world) (udp : ptr) (c : bool) : Prop :=
  ∃ ud, heap w !! udp = Some (O_unlock_dialog ud) ∧ ud_closing ud = c.

(** What one submit does to the heap: the sub-dialog and its window are
    freed, the unlock dialog is closing, and every other address is as it
    was. *)
Definition submitted (udp d : ptr) (w w' : world) : Prop :=
  desk w' = desk w
  ∧ closing_is w' udp true
  ∧ heap w' !! d = None
  ∧ (∀ q, heap w !! q = None → heap w' !! q = None)
  ∧ ∀ q, q ∉ password_cells w d → q ≠ udp → heap w' !! q = heap w !! q.

(** The keys that submit, and the presses of such keys delivered to one
    sub-dialog. *)
Definition enter_key (sym : Z) : Prop :=
  sym = XKB_KEY_Return ∨ sym = XKB_KEY_KP_Enter.

Definition submits (d : ptr) (syms : list Z) : list event :=
  PasswordKey d WL_KEYBOARD_KEY_STATE_PRESSED <$> syms.

(** *** Painted flags *)

(** The reading on which a resize clears the painted flag of a panel: after a
    configure event on the panel's surface, the panel does not count as
    painted. *)
Definition resize_clears_painted (w : world) (p : ptr) : Prop :=
  ∀ x edges width height w',
    heap w !! p = Some (O_panel x) →
    final (desktop_shell_configure (panel_window x) edges width height) w
    = Some w' →
    ∃ x', heap w' !! p = Some (O_panel x') ∧ panel_painted x' = false.

(** A computation that leaves the world as it is, whatever it logs. *)
Definition read_only {A} (m : M A) : Prop := preserves eq (λ _, True) m.

(** ** Concrete states *)

(** A key symbol conversion that knows printable ASCII only. *)
Definition example_xkb (sym : Z) : list ascii :=
  if bool_decide (32 ≤ sym ≤ 126) then [ascii_of_nat (Z.to_nat sym)] else [].

(** A conversion that also knows the line feed key (XKB_KEY_Linefeed,
    0xff0a): its encoding is one unit long, the control character 10. *)
Definition linefeed_xkb (sym : Z) : list ascii :=
  if bool_decide (sym = 0xff0a) then ["010"%char] else example_xkb sym.

Definition example_accounts : list passwd :=
  [mk_passwd "root" 0 "/bin/bash"; mk_passwd "alice" 1000 "/bin/bash";
   mk_passwd "bob" 1001 "/bin/false"; mk_passwd "carolcarol" 1002 "/bin/sh"].

(** The globals of a compositor that announces an output before the
    shell. *)
Definition example_globals : list global :=
  [mk_global 7 "wl_output" 2; mk_global 1 "desktop_shell" 3].

Definition example_output : output :=
  mk_output 7 7 (Some 2%nat) (Some [2%nat]) (Some 4%nat) (Some [4%nat]).

(** The state [main] reaches on [example_globals]: one output with the
    panel and the background of "Guest". *)
Definition example_world : world :=
  mk_world
    (mk_desktop (Some 1) 2 None [example_output] true CURSOR_BOTTOM_LEFT
                false "Guest")
    (list_to_map
       [(1%nat, O_window (Some 2%nat));
        (2%nat, O_panel (mk_panel 1 false "Guest"));
        (3%nat, O_window (Some 4%nat));
        (4%nat, O_background (mk_background 3 false "Guest"));
        (5%nat, O_window None)])
    6 [].

(** The same state once the panel has painted. *)
Definition painted_world : world :=
  with_heap (insert 2%nat (O_panel (mk_panel 1 true "Guest"))) example_world.

(** The state after a prepare-lock event and two activations of the entry
    of "alice": the unlock dialog at 7 with its entries at 8 and 9, and
    two password sub-dialogs, at 11 and at 13. *)
Definition locked_world : world :=
  mk_world
    (mk_desktop (Some 1) 2 (Some 7%nat) [example_output] true
                CURSOR_BOTTOM_LEFT false "Guest")
    (list_to_map
       [(1%nat, O_window (Some 2%nat));
        (2%nat, O_panel (mk_panel 1 false "Guest"));
        (3%nat, O_window (Some 4%nat));
        (4%nat, O_background (mk_background 3 false "Guest"));
        (5%nat, O_window None);
        (6%nat, O_window (Some 7%nat));
        (7%nat, O_unlock_dialog (mk_unlock_dialog 6 [8%nat; 9%nat] false));
        (8%nat, O_user_entry (mk_user_entry "alice" 7));
        (9%nat, O_user_entry (mk_user_entry "carolcarol" 7));
        (10%nat, O_window (Some 11%nat));
        (11%nat, O_password_dialog (mk_password_dialog 10 [] 0 8));
        (12%nat, O_window (Some 13%nat));
        (13%nat, O_password_dialog (mk_password_dialog 12 [] 0 8))])
    14 [].
(** ** Vocabulary of the further properties *)

(** *** Lock flow *)

(** The names [unlock_dialog_create] makes entries for, in the order of
    the account database. *)
Definition selectable_names (accounts : list passwd) : list string :=
  pw_name <$> List.filter selectable accounts.

(** By how many characters the longest name exceeds 7; 0 when none
    does. *)
Definition name_excess (names : list string) : Z :=
  foldr (λ n acc, Z.max (Z.of_nat (String.length n) - 7) acc) 0 names.

(** The cursor of a sub-dialog is at the end of its text. *)
Definition cursor_at_end (x : password_dialog) : Prop :=
  pd_cursor_pos x = Z.of_nat (length (pd_text x)).

(** A password sub-dialog that can take keys and whose cursor is at the
    end of its text. *)
Definition typing_at_end (w : world) (d : ptr) : Prop :=
  ∃ x e ud, heap w !! d = Some (O_password_dialog x)
            ∧ heap w !! pd_entry x = Some (O_user_entry e)
            ∧ heap w !! ue_dialog e = Some (O_unlock_dialog ud)
            ∧ cursor_at_end x.

(** The world after [password_dialog_create]: the window at the next
    address, the sub-dialog (empty text, cursor at 0) right after it. *)
Definition password_dialog_created (entry : ptr) (w : world) : world :=
  mk_world (desk w)
    (<[next w := O_window (Some (S (next w)))]>
       (<[S (next w) := O_password_dialog
                          (mk_password_dialog (next w) [] 0 entry)]>
          (<[next w := O_window None]> (heap w))))
    (S (S (next w))) (deferred w).

Definition is_password_create (a : action) : bool :=
  match a with PasswordDialogCreate _ => true | _ => false end.

Definition is_set_lock_surface (a : action) : bool :=
  match a with Request (set_lock_surface _) => true | _ => false end.

(** The redraw of the widget of a user entry is scheduled. *)
Definition is_redraw_of (entry : ptr) (a : action) : bool :=
  match a with
  | WidgetScheduleRedraw p => bool_decide (p = entry)
  | _ => false
  end.

(** *** Outputs and users *)

(** Everything [output_destroy] frees for an output. *)
Definition output_cells (w : world) (o : output) : list ptr :=
  match out_backgrounds o, out_panels o with
  | Some bs, Some ps => surface_cells w bs ps
  | _, _ => []
  end.

(** What [output_destroy] logs for an output: its backgrounds, its
    panels, then the proxy. *)
Definition output_teardown (o : output) : list action :=
  match out_backgrounds o, out_panels o with
  | Some bs, Some ps =>
      (BackgroundDestroy <$> bs) ++ (PanelDestroy <$> ps)
        ++ [WlOutputDestroy (wl_output o)]
  | _, _ => []
  end.

(** Every output has a cached panel and a cached background for the
    user. *)
Definition all_cached (w : world) (u : string) : Prop :=
  Forall (λ o, cached_panel w u o = true ∧ cached_background w u o = true)
         (outputs (desk w)).

(** A state in which a user switch can run: the shell is bound, the heap
    is well formed and every output is initialised with live surfaces. *)
Definition switchable (w : world) : Prop :=
  is_Some (shell (desk w)) ∧ heap_ok w
  ∧ Forall (output_ok w) (outputs (desk w)).

(** *** Requests and settings *)

(** Every request a computation sends satisfies [Q]. *)
Definition sends (Q : request → Prop) {A} (m : M A) : Prop :=
  preserves (λ _ _, True) (λ a, ∀ r, a = Request r → Q r) m.

(** The requests each event can lead to. *)
Definition request_allowed (e : event) (r : request) : Prop :=
  match e, r with
  | GlobalAdded _, (set_panel _ _ | set_background _ _) => True
  | PrepareLock, (unlock | set_lock_surface _) => True
  | UserSwitched _, (set_panel _ _ | set_background _ _) => True
  | (PanelRedraw _ | BackgroundDraw _), desktop_ready => True
  | UserEntryButton _ _, set_lock_surface _ => True
  | PasswordKey _ _ _, switch_user _ => True
  | RunDeferred, unlock => True
  | _, _ => False
  end.

(** What no handler changes: a bound shell stays bound, the locking
    policy stays as configured, and a negotiated version of at most 2
    stays so. *)
Definition settings_kept (w w' : world) : Prop :=
  (is_Some (shell (desk w)) → is_Some (shell (desk w')))
  ∧ locking (desk w') = locking (desk w)
  ∧ (interface_version (desk w) ≤ 2 → interface_version (desk w') ≤ 2).

(** A computation keeps the settings, whatever it logs. *)
Definition keeps {A} (m : M A) : Prop :=
  preserves settings_kept (λ _, True) m.

(** *** Readiness *)

(** The active panel and background of every output are live objects of
    their kind. *)
Definition surfaces_live (w : world) : Prop :=
  Forall (λ o, (∀ p, out_panel o = Some p →
                     ∃ x, heap w !! p = Some (O_panel x))
               ∧ (∀ b, out_background o = Some b →
                       ∃ y, heap w !! b = Some (O_background y)))
         (outputs (desk w)).

(** The completion of a paint of a live panel or background. *)
Definition paint_of (w : world) (e : event) : Prop :=
  match e with
  | PanelRedraw p => ∃ x, heap w !! p = Some (O_panel x)
  | BackgroundDraw b => ∃ y, heap w !! b = Some (O_background y)
  | _ => False
  end.

(** Every active surface has painted already or paints in [es]. *)
Definition paints_cover (w : world) (es : list event) : Prop :=
  Forall (λ o, (∀ p, out_panel o = Some p →
                     panel_is_painted w p ∨ PanelRedraw p ∈ es)
               ∧ (∀ b, out_background o = Some b →
                       background_is_painted w b ∨ BackgroundDraw b ∈ es))
         (outputs (desk w)).

(** What a paint keeps: the registry, the shell and the version, the kind
    of every panel and background, and the painted flags that are set. *)
Definition paint_step (w w1 : world) : Prop :=
  outputs (desk w1) = outputs (desk w)
  ∧ shell (desk w1) = shell (desk w)
  ∧ interface_version (desk w1) = interface_version (desk w)
  ∧ (painted (desk w) = true → painted (desk w1) = true)
  ∧ (∀ q x, heap w !! q = Some (O_panel x) →
        ∃ x', heap w1 !! q = Some (O_panel x')
              ∧ (panel_painted x = true → panel_painted x' = true))
  ∧ (∀ q y, heap w !! q = Some (O_background y) →
        ∃ y', heap w1 !! q = Some (O_background y')
              ∧ (background_painted y = true → background_painted y' = true)).

(** *** Launchers *)

(** A string without white space, and one without '='. *)
Definition space_free (isspace : ascii → bool) (s : list ascii) : Prop :=
  Forall (λ c, isspace c = false) s.
Definition no_assignment (s : list ascii) : Prop :=
  Forall (λ c, c ≠ "="%char) s.

(** A string that is empty or starts with white space: where a word
    ends. *)
Definition word_end (isspace : ascii → bool) (s : list ascii) : Prop :=
  match s with
  | [] => True
  | c :: _ => isspace c = true
  end.

(** A string that is empty or starts with a character other than white
    space: where a word starts. *)
Definition word_start (isspace : ascii → bool) (s : list ascii) : Prop :=
  match s with
  | [] => True
  | c :: _ => isspace c = false
  end.

(** A run of white space. *)
Definition white (isspace : ascii → bool) (s : list ascii) : Prop :=
  Forall (λ c, isspace c = true) s.

(** A path split into its words: [ws] are the maximal runs of characters
    other than white space, in the order of the path, and [seps] the run
    of white space after each of them.  The path is the words and the
    runs put together again; only the first word can be empty (the path
    starts with white space) and only the last run (the path ends with a
    word); the empty path has no word. *)
Definition split_into_words (isspace : ascii → bool) (path : list ascii)
    (ws seps : list (list ascii)) : Prop :=
  length seps = length ws
  ∧ path = concat (zip_with app ws seps)
  ∧ Forall (space_free isspace) ws
  ∧ Forall (white isspace) seps
  ∧ Forall (λ w, w ≠ []) (tail ws)
  ∧ Forall (λ s, s ≠ []) (removelast seps)
  ∧ (path = [] → ws = []).

(** The first word of a string, what follows it, and the offset of the
    last '=' of a word. *)
Fixpoint word_of (isspace : ascii → bool) (s : list ascii) : list ascii :=
  match s with
  | [] => []
  | c :: s' => if isspace c then [] else c :: word_of isspace s'
  end.
Fixpoint after_word (isspace : ascii → bool) (s : list ascii) : list ascii :=
  match s with
  | [] => []
  | c :: s' => if isspace c then s else after_word isspace s'
  end.
Fixpoint last_assign (w : list ascii) : option nat :=
  match w with
  | [] => None
  | c :: w' =>
      match last_assign w' with
      | Some n => Some (S n)
      | None => if bool_decide (c = "="%char) then Some 0%nat else None
      end
  end.

(** A word with a '=' set in an environment, as an assignment is: the
    first entry that agrees with the word up to its last '=' is
    replaced. *)
Definition assign (envp : list (list ascii)) (w : list ascii)
  : list (list ascii) :=
  match last_assign w with
  | Some n => env_set envp w n
  | None => envp
  end.

(** The width the launchers take: every icon and the 10 pixels to the
    next one. *)
Definition launchers_extent (icons : list (Z * Z)) : Z :=
  foldr (λ i acc, i.1 + 10 + acc) 0 icons.

(** The characters of a string literal. *)
Definition chars (s : string) : list ascii := String.list_ascii_of_string s.

(** * Proofs *)

(** ** Reasoning about computations *)

Lemma bind_eq {A B} (m : M A) (k : A → M B) w t a w' :
  m w = (t, Some (a, w')) →
  bind m k w = (t ++ (k a w').1, (k a w').2).
Proof. intros H. unfold bind. rewrite H. by destruct (k a w'). Qed.

Lemma bind_eq2 {A B} (m : M A) (k : A → M B) w t a w' t' r :
  m w = (t, Some (a, w')) → k a w' = (t', r) →
  bind m k w = (t ++ t', r).
Proof. intros H1 H2. unfold bind. by rewrite H1, H2. Qed.

Lemma bind_pure {A B} (m : M A) (k : A → M B) w a w' :
  m w = ([], Some (a, w')) → bind m k w = k a w'.
Proof. intros H. unfold bind. rewrite H. by destruct (k a w'). Qed.

Lemma bind_crash {A B} (m : M A) (k : A → M B) w t :
  m w = (t, None) → bind m k w = (t, None).
Proof. intros H. unfold bind. by rewrite H. Qed.

Lemma bind_ret {A B} (a : A) (k : A → M B) w : bind (ret a) k w = k a w.
Proof. unfold bind, ret. by destruct (k a w). Qed.

Lemma bind_gets {A B} (f : world → A) (k : A → M B) w :
  bind (gets f) k w = k (f w) w.
Proof. unfold bind, gets. by destruct (k (f w) w). Qed.

Lemma bind_modify {B} f (k : unit → M B) w :
  bind (modify f) k w = k () (f w).
Proof. unfold bind, modify. by destruct (k () (f w)). Qed.

Lemma bind_emit {B} a (k : unit → M B) w :
  bind (emit a) k w = (a :: (k () w).1, (k () w).2).
Proof. unfold bind, emit. by destruct (k () w). Qed.

Lemma bind_ext {A B} (m : M A) (k k' : A → M B) w :
  (∀ a w', k a w' = k' a w') → bind m k w = bind m k' w.
Proof.
  intros H. unfold bind. destruct (m w) as [t [[a w1]|]]; [|done].
  by rewrite H.
Qed.

Lemma bind_assoc {A B C} (m : M A) (k : A → M B) (h : B → M C) w :
  bind (bind m k) h w = bind m (λ a, bind (k a) h) w.
Proof.
  unfold bind. destruct (m w) as [t [[a w1]|]]; [|done].
  destruct (k a w1) as [t1 [[b w2]|]]; [|done].
  destruct (h b w2) as [t2 r]. by rewrite app_assoc.
Qed.

Lemma load_eq p o w : heap w !! p = Some o → load p w = ([], Some (o, w)).
Proof. intros H. unfold load. by rewrite H. Qed.

Lemma load_panel_eq p x w :
  heap w !! p = Some (O_panel x) → load_panel p w = ([], Some (x, w)).
Proof. intros H. unfold load_panel. by rewrite (bind_eq _ _ _ _ _ _ (load_eq _ _ _ H)). Qed.

Lemma load_background_eq p x w :
  heap w !! p = Some (O_background x) → load_background p w = ([], Some (x, w)).
Proof. intros H. unfold load_background. by rewrite (bind_eq _ _ _ _ _ _ (load_eq _ _ _ H)). Qed.

Lemma window_get_user_data_eq p d w :
  heap w !! p = Some (O_window d) → window_get_user_data p w = ([], Some (d, w)).
Proof. intros H. unfold window_get_user_data. by rewrite (bind_eq _ _ _ _ _ _ (load_eq _ _ _ H)). Qed.


(** *** Closed forms of the typed loads *)

Lemma load_panel_unfold p w :
  load_panel p w = match heap w !! p with
                   | Some (O_panel x) => ([], Some (x, w))
                   | _ => ([], None)
                   end.
Proof.
  unfold load_panel, bind, load.
  by destruct (heap w !! p) as [[]|].
Qed.

Lemma load_background_unfold p w :
  load_background p w = match heap w !! p with
                        | Some (O_background x) => ([], Some (x, w))
                        | _ => ([], None)
                        end.
Proof.
  unfold load_background, bind, load.
  by destruct (heap w !! p) as [[]|].
Qed.

Lemma bind_reads {A B} (m : M A) (k : A → M B) w r :
  reads m w r →
  bind m k w = match r with Some a => k a w | None => ([], None) end.
Proof.
  unfold reads, bind. intros ->. destruct r as [a|]; simpl; [|done].
  by destruct (k a w).
Qed.


(** *** Invariants of computations *)
Section Preserves.

Variable P : world → world → Prop.
Variable Q : action → Prop.
Hypothesis P_refl : ∀ w, P w w.
Hypothesis P_trans : ∀ w1 w2 w3, P w1 w2 → P w2 w3 → P w1 w3.

Lemma preserves_ret {A} (a : A) : preserves P Q (ret a).
Proof. intros w. split; [constructor|]. intros ? ? ?; simplify_eq/=. apply P_refl. Qed.

Lemma preserves_crash {A} : preserves P Q (@crash A).
Proof. intros w. split; [constructor|]. intros ? ? [=]. Qed.

Lemma preserves_gets {A} (f : world → A) : preserves P Q (gets f).
Proof. intros w. split; [constructor|]. intros ? ? ?; simplify_eq/=. apply P_refl. Qed.

Lemma preserves_emit a : Q a → preserves P Q (emit a).
Proof.
  intros Ha w. split; [by repeat constructor|].
  intros ? ? ?; simplify_eq/=. apply P_refl.
Qed.

Lemma preserves_modify f : (∀ w, P w (f w)) → preserves P Q (modify f).
Proof. intros Hf w. split; [constructor|]. intros ? ? ?; simplify_eq/=. apply Hf. Qed.

Lemma preserves_bind {A B} (m : M A) (k : A → M B) :
  preserves P Q m → (∀ a, preserves P Q (k a)) → preserves P Q (bind m k).
Proof.
  intros Hm Hk w. unfold bind.
  destruct (Hm w) as [Ht Hw]. destruct (m w) as [t [[a w1]|]]; simpl in *.
  - destruct (Hk a w1) as [Ht' Hw']. destruct (k a w1) as [t' r]; simpl in *.
    split; [by apply Forall_app|].
    intros b w' ->. eapply P_trans; eauto.
  - split; [done|]. intros ? ? [=].
Qed.

Lemma preserves_load p : preserves P Q (load p).
Proof.
  intros w. unfold load. destruct (heap w !! p); simpl.
  - split; [constructor|]. intros ? ? ?; simplify_eq/=. apply P_refl.
  - split; [constructor|]. intros ? ? [=].
Qed.

Hypothesis P_alloc : ∀ w o,
  P w (mk_world (desk w) (<[next w := o]> (heap w)) (S (next w)) (deferred w)).
Hypothesis P_store : ∀ w p o o',
  heap w !! p = Some o → P w (with_heap (insert p o') w).
Hypothesis P_free : ∀ w p o,
  heap w !! p = Some o → P w (with_heap (delete p) w).

Lemma preserves_alloc o : preserves P Q (alloc o).
Proof. intros w. split; [constructor|]. intros ? ? ?; simplify_eq/=. apply P_alloc. Qed.

Lemma preserves_store p o : preserves P Q (store p o).
Proof.
  intros w. unfold store. destruct (heap w !! p) eqn:E; simpl.
  - split; [constructor|]. intros ? ? ?; simplify_eq/=. by eapply P_store.
  - split; [constructor|]. intros ? ? [=].
Qed.

Lemma preserves_free p : preserves P Q (free p).
Proof.
  intros w. unfold free. destruct (heap w !! p) eqn:E; simpl.
  - split; [constructor|]. intros ? ? ?; simplify_eq/=. by eapply P_free.
  - split; [constructor|]. intros ? ? [=].
Qed.

Lemma preserves_for_each {A} (f : A → M unit) l :
  (∀ x, preserves P Q (f x)) → preserves P Q (for_each f l).
Proof.
  intros Hf. induction l as [|x l IH]; simpl.
  - apply preserves_ret.
  - apply preserves_bind; auto.
Qed.

Lemma preserves_map_each {A} (f : A → M A) l :
  (∀ x, preserves P Q (f x)) → preserves P Q (map_each f l).
Proof.
  intros Hf. induction l as [|x l IH]; simpl.
  - apply preserves_ret.
  - apply preserves_bind; [auto|]. intros y.
    apply preserves_bind; [auto|]. intros k. apply preserves_ret.
Qed.

End Preserves.

(** *** Counting *)

Lemma count_if_app f t1 t2 :
  count_if f (t1 ++ t2) = (count_if f t1 + count_if f t2)%nat.
Proof. unfold count_if. by rewrite List.filter_app, length_app. Qed.


(** *** Creation in closed form *)

Lemma panel_create_eq w :
  panel_create w = ([PanelCreate (S (next w))],
                    Some (S (next w), panel_created w)).
Proof.
  unfold panel_create, window_create_custom, window_set_user_data,
    window_get_user_data, bind, alloc, gets, load, store, emit, ret; simpl.
  rewrite lookup_insert_ne, lookup_insert_eq by lia. simpl.
  rewrite lookup_insert_ne, lookup_insert_eq by lia. done.
Qed.

Lemma background_create_eq w :
  background_create w = ([BackgroundCreate (S (next w))],
                         Some (S (next w), background_created w)).
Proof.
  unfold background_create, window_create_custom, window_set_user_data,
    window_get_user_data, bind, alloc, gets, load, store, emit, ret; simpl.
  rewrite lookup_insert_ne, lookup_insert_eq by lia. simpl.
  rewrite lookup_insert_ne, lookup_insert_eq by lia. done.
Qed.

Lemma panel_created_lookup w :
  heap (panel_created w) !! S (next w)
  = Some (O_panel (mk_panel (next w) false (current_user (desk w)))).
Proof. simpl. by rewrite lookup_insert_ne, lookup_insert_eq by lia. Qed.

Lemma background_created_lookup w :
  heap (background_created w) !! S (next w)
  = Some (O_background (mk_background (next w) false (current_user (desk w)))).
Proof. simpl. by rewrite lookup_insert_ne, lookup_insert_eq by lia. Qed.

Lemma panel_created_old w p :
  (p < next w)%nat → heap (panel_created w) !! p = heap w !! p.
Proof. intros H. simpl. by rewrite !lookup_insert_ne by lia. Qed.

Lemma background_created_old w p :
  (p < next w)%nat → heap (background_created w) !! p = heap w !! p.
Proof. intros H. simpl. by rewrite !lookup_insert_ne by lia. Qed.

Lemma heap_ok_lt w p o : heap_ok w → heap w !! p = Some o → (p < next w)%nat.
Proof.
  intros Hok Hp. destruct (decide (p < next w)%nat); [done|].
  rewrite Hok in Hp by lia. done.
Qed.

Lemma panel_created_ok w : heap_ok w → heap_ok (panel_created w).
Proof.
  intros Hok p Hp. simpl in *. rewrite !lookup_insert_ne by lia.
  apply Hok. lia.
Qed.

Lemma background_created_ok w : heap_ok w → heap_ok (background_created w).
Proof.
  intros Hok p Hp. simpl in *. rewrite !lookup_insert_ne by lia.
  apply Hok. lia.
Qed.

Lemma panel_created_subseteq w : heap_ok w → heap w ⊆ heap (panel_created w).
Proof.
  intros Hok. apply map_subseteq_spec. intros p o Hp.
  rewrite panel_created_old; [done|]. by eapply heap_ok_lt.
Qed.

Lemma background_created_subseteq w :
  heap_ok w → heap w ⊆ heap (background_created w).
Proof.
  intros Hok. apply map_subseteq_spec. intros p o Hp.
  rewrite background_created_old; [done|]. by eapply heap_ok_lt.
Qed.

Lemma shell_request_eq r s w :
  shell (desk w) = Some s → shell_request r w = ([Request r], Some ((), w)).
Proof. intros H. unfold shell_request. by rewrite bind_gets, H. Qed.

Lemma shell_request_null r w :
  shell (desk w) = None → shell_request r w = ([], None).
Proof. intros H. unfold shell_request. by rewrite bind_gets, H. Qed.

(** [output_init] on a bound shell: one panel, one background, one
    request for each. *)
Lemma output_init_eq o s w :
  shell (desk w) = Some s →
  output_init o w =
    ([PanelCreate (S (next w));
      Request (set_panel (wl_output o) (next w));
      BackgroundCreate (S (S (S (next w))));
      Request (set_background (wl_output o) (S (S (next w))))],
     Some (output_inited w o, background_created (panel_created w))).
Proof.
  intros Hs. unfold output_init.
  rewrite (bind_eq _ _ _ _ _ _ (panel_create_eq w)).
  rewrite (bind_eq _ _ _ _ _ _
             (load_panel_eq _ _ _ (panel_created_lookup w))).
  rewrite (bind_eq _ _ _ _ _ _
             (shell_request_eq _ s (panel_created w) Hs)).
  rewrite (bind_eq _ _ _ _ _ _ (background_create_eq (panel_created w))).
  rewrite (bind_eq _ _ _ _ _ _
             (load_background_eq _ _ _
                (background_created_lookup (panel_created w)))).
  rewrite (bind_eq _ _ _ _ _ _
             (shell_request_eq _ s (background_created (panel_created w)) Hs)).
  done.
Qed.

Lemma output_init_null o w :
  shell (desk w) = None →
  output_init o w = ([PanelCreate (S (next w))], None).
Proof.
  intros Hs. unfold output_init.
  rewrite (bind_eq _ _ _ _ _ _ (panel_create_eq w)).
  rewrite (bind_eq _ _ _ _ _ _
             (load_panel_eq _ _ _ (panel_created_lookup w))).
  by rewrite (bind_crash _ _ _ _ (shell_request_null _ (panel_created w) Hs)).
Qed.

(** ** C3: readiness *)

Lemma panel_unpainted_spec op w :
  ∃ r, reads (panel_unpainted op) w r
       ∧ (r = Some false ↔ ∀ p, op = Some p → panel_is_painted w p).
Proof.
  unfold reads, panel_unpainted, panel_is_painted.
  destruct op as [p|].
  - unfold bind. rewrite load_panel_unfold.
    destruct (heap w !! p) as [[x| | | | |]|] eqn:Hp;
      try (exists None; split; [done|]; split; [done|];
           intros H; destruct (H p eq_refl) as (? & ? & ?); congruence).
    exists (Some (negb (panel_painted x))). split; [done|]. split.
    + intros [= Hx] ? [= <-]. exists x. by destruct (panel_painted x).
    + intros H. destruct (H p eq_refl) as (x' & ? & Hx'). by simplify_eq/=; rewrite Hx'.
  - exists (Some false). split; [done|]. split; [|done]. by intros _ ? [=].
Qed.

Lemma background_unpainted_spec ob w :
  ∃ r, reads (background_unpainted ob) w r
       ∧ (r = Some false ↔ ∀ b, ob = Some b → background_is_painted w b).
Proof.
  unfold reads, background_unpainted, background_is_painted.
  destruct ob as [b|].
  - unfold bind. rewrite load_background_unfold.
    destruct (heap w !! b) as [[|x| | | |]|] eqn:Hb;
      try (exists None; split; [done|]; split; [done|];
           intros H; destruct (H b eq_refl) as (? & ? & ?); congruence).
    exists (Some (negb (background_painted x))). split; [done|]. split.
    + intros [= Hx] ? [= <-]. exists x. by destruct (background_painted x).
    + intros H. destruct (H b eq_refl) as (x' & ? & Hx'). by simplify_eq/=; rewrite Hx'.
  - exists (Some false). split; [done|]. split; [|done]. by intros _ ? [=].
Qed.

(** The loop of [is_desktop_painted] logs nothing, leaves the world as it
    is, and answers 1 exactly when every active surface has painted. *)
Lemma is_desktop_painted_from_spec os w :
  ∃ r, reads (is_desktop_painted_from os) w r
       ∧ (r = Some true ↔ Forall (output_painted w) os).
Proof.
  induction os as [|o os (r & Hr & IH)].
  - exists (Some true). split; [done|]. split; [constructor | done].
  - destruct (panel_unpainted_spec (out_panel o) w) as (c & Hc & Hcp).
    destruct (background_unpainted_spec (out_background o) w)
      as (c' & Hc' & Hcb).
    assert (E : is_desktop_painted_from (o :: os) w =
                match c, c' with
                | Some false, Some false => is_desktop_painted_from os w
                | Some true, _ | Some false, Some true => ([], Some (false, w))
                | _, _ => ([], None)
                end).
    { cbn [is_desktop_painted_from]. rewrite (bind_reads _ _ _ _ Hc). destruct c as [[|]|]; try done.
      rewrite (bind_reads _ _ _ _ Hc'). by destruct c' as [[|]|]. }
    unfold reads. rewrite E. clear E.
    unfold output_painted. setoid_rewrite Forall_cons.
    destruct c as [[|]|].
    + exists (Some false). split; [done|]. split; [done|].
      intros [[H _] _]. apply Hcp in H. done.
    + destruct c' as [[|]|].
      * exists (Some false). split; [done|]. split; [done|].
        intros [[_ H] _]. apply Hcb in H. done.
      * exists r. split; [done|]. rewrite IH. split; [|by intros [_ ?]].
        intros H. split; [|done]. split; [by apply Hcp | by apply Hcb].
      * exists None. split; [done|]. split; [done|].
        intros [[_ H] _]. apply Hcb in H. done.
    + exists None. split; [done|]. split; [done|].
      intros [[H _] _]. apply Hcp in H. done.
Qed.

Lemma is_desktop_painted_spec w :
  ∃ r, reads is_desktop_painted w r ∧ (r = Some true ↔ all_active_painted w).
Proof.
  destruct (is_desktop_painted_from_spec (outputs (desk w)) w) as (r & Hr & H).
  exists r. split; [|done]. unfold reads, is_desktop_painted, bind, gets.
  rewrite Hr. by destruct r.
Qed.

Lemma sent_app r t1 t2 : sent r (t1 ++ t2) = (sent r t1 + sent r t2)%nat.
Proof. apply count_occ_app. Qed.

Lemma sent_none r t : Forall (λ a, a ≠ Request r) t → sent r t = 0%nat.
Proof.
  intros H. apply count_occ_not_In. intros Hin.
  rewrite Forall_forall in H. apply list_elem_of_In in Hin. by apply (H _ Hin).
Qed.

(** [check_desktop_ready] in closed form. *)
Lemma check_desktop_ready_unfold w r :
  reads is_desktop_painted w r →
  check_desktop_ready w =
    if painted (desk w) then ([], Some ((), w)) else
    match r with
    | Some true =>
        if bool_decide (2 ≤ interface_version (desk w)) then
          match shell (desk w) with
          | Some _ => ([Request desktop_ready],
                       Some ((), with_desk (set_painted true) w))
          | None => ([], None)
          end
        else ([], Some ((), with_desk (set_painted true) w))
    | Some false => ([], Some ((), w))
    | None => ([], None)
    end.
Proof.
  intros Hr. unfold check_desktop_ready. rewrite bind_gets.
  destruct (painted (desk w)); [done|].
  rewrite (bind_reads _ _ _ _ Hr). destruct r as [[|]|]; try done.
  rewrite bind_modify, bind_gets. simpl.
  destruct (bool_decide _); [|done].
  unfold shell_request. rewrite bind_gets. simpl.
  by destruct (shell (desk w)).
Qed.

Lemma stays_ready_refl w : stays_ready w w.
Proof. by intros ?. Qed.
Lemma stays_ready_trans w1 w2 w3 :
  stays_ready w1 w2 → stays_ready w2 w3 → stays_ready w1 w3.
Proof. unfold stays_ready. auto. Qed.

Lemma quiet_ret {A} (a : A) : quiet (ret a).
Proof. apply preserves_ret, stays_ready_refl. Qed.
Lemma quiet_crash {A} : quiet (@crash A).
Proof. apply preserves_crash. Qed.
Lemma quiet_gets {A} (f : world → A) : quiet (gets f).
Proof. apply preserves_gets, stays_ready_refl. Qed.
Lemma quiet_emit a : a ≠ Request desktop_ready → quiet (emit a).
Proof. intros H. by apply (preserves_emit _ not_ready stays_ready_refl). Qed.
Lemma quiet_modify f :
  (∀ w, painted (desk w) = true → painted (desk (f w)) = true) →
  quiet (modify f).
Proof. intros H. by apply (preserves_modify stays_ready). Qed.
Lemma quiet_bind {A B} (m : M A) (k : A → M B) :
  quiet m → (∀ a, quiet (k a)) → quiet (bind m k).
Proof.
  apply preserves_bind; [apply stays_ready_refl | apply stays_ready_trans].
Qed.
Lemma quiet_load p : quiet (load p).
Proof. apply preserves_load, stays_ready_refl. Qed.
Lemma quiet_alloc o : quiet (alloc o).
Proof. apply preserves_alloc. by intros ? ? ?. Qed.
Lemma quiet_store p o : quiet (store p o).
Proof. apply preserves_store. by intros ? ? ? ? ? ?. Qed.
Lemma quiet_free p : quiet (free p).
Proof. apply preserves_free. by intros ? ? ? ? ?. Qed.
Lemma quiet_for_each {A} (f : A → M unit) l :
  (∀ x, quiet (f x)) → quiet (for_each f l).
Proof.
  apply preserves_for_each; [apply stays_ready_refl | apply stays_ready_trans].
Qed.
Lemma quiet_map_each {A} (f : A → M A) l :
  (∀ x, quiet (f x)) → quiet (map_each f l).
Proof.
  apply preserves_map_each; [apply stays_ready_refl | apply stays_ready_trans].
Qed.

Lemma quiet_shell_request r : r ≠ desktop_ready → quiet (shell_request r).
Proof.
  intros Hr. unfold shell_request. apply quiet_bind; [apply quiet_gets|].
  intros [s|]; [|apply quiet_crash]. apply quiet_emit. congruence.
Qed.

Create HintDb quiet.

(** One step of a proof that a handler is quiet. *)
Ltac quiet_step :=
  first
    [ apply quiet_ret | apply quiet_crash | apply quiet_gets
    | apply quiet_load | apply quiet_alloc | apply quiet_store
    | apply quiet_free
    | apply quiet_emit; discriminate
    | apply quiet_shell_request; discriminate
    | apply quiet_modify; done
    | apply quiet_bind; [|intros ?]
    | apply quiet_for_each; intros ?
    | apply quiet_map_each; intros ?
    | solve [auto with quiet]
    | match goal with
      | |- quiet (match ?x with _ => _ end) => destruct x
      | |- quiet (let _ := _ in _) => cbv zeta
      end ].
Ltac quiet_tac := repeat quiet_step.

Lemma quiet_load_panel p : quiet (load_panel p).
Proof. unfold load_panel. quiet_tac. Qed.
Lemma quiet_load_background p : quiet (load_background p).
Proof. unfold load_background. quiet_tac. Qed.
Lemma quiet_load_unlock_dialog p : quiet (load_unlock_dialog p).
Proof. unfold load_unlock_dialog. quiet_tac. Qed.
Lemma quiet_load_user_entry p : quiet (load_user_entry p).
Proof. unfold load_user_entry. quiet_tac. Qed.
Lemma quiet_load_password_dialog p : quiet (load_password_dialog p).
Proof. unfold load_password_dialog. quiet_tac. Qed.
Lemma quiet_window_get_user_data p : quiet (window_get_user_data p).
Proof. unfold window_get_user_data. quiet_tac. Qed.
#[export] Hint Resolve quiet_load_panel quiet_load_background
  quiet_load_unlock_dialog quiet_load_user_entry quiet_load_password_dialog
  quiet_window_get_user_data : quiet.

Lemma quiet_window_create_custom : quiet window_create_custom.
Proof. unfold window_create_custom. quiet_tac. Qed.
Lemma quiet_window_set_user_data p d : quiet (window_set_user_data p d).
Proof. unfold window_set_user_data. quiet_tac. Qed.
#[export] Hint Resolve quiet_window_create_custom quiet_window_set_user_data
  : quiet.

Lemma quiet_panel_create : quiet panel_create.
Proof. unfold panel_create. quiet_tac. Qed.
Lemma quiet_background_create : quiet background_create.
Proof. unfold background_create. quiet_tac. Qed.
Lemma quiet_panel_destroy p : quiet (panel_destroy p).
Proof. unfold panel_destroy. quiet_tac. Qed.
Lemma quiet_background_destroy p : quiet (background_destroy p).
Proof. unfold background_destroy. quiet_tac. Qed.
#[export] Hint Resolve quiet_panel_create quiet_background_create
  quiet_panel_destroy quiet_background_destroy : quiet.

Lemma quiet_output_init o : quiet (output_init o).
Proof. unfold output_init. quiet_tac. Qed.
#[export] Hint Resolve quiet_output_init : quiet.

Lemma quiet_global_handler g : quiet (global_handler g).
Proof. unfold global_handler, create_output. quiet_tac. Qed.

Lemma quiet_global_handler_remove id i : quiet (global_handler_remove id i).
Proof. unfold global_handler_remove, output_destroy. quiet_tac. Qed.

Lemma quiet_desktop_shell_configure s e width height :
  quiet (desktop_shell_configure s e width height).
Proof.
  unfold desktop_shell_configure, panel_configure, background_configure.
  quiet_tac.
Qed.

Lemma quiet_unlock_dialog_add_accounts d l ew uc :
  quiet (unlock_dialog_add_accounts d l ew uc).
Proof.
  revert ew uc. induction l as [|pwd l IH]; intros ew uc; simpl.
  - quiet_tac.
  - unfold unlock_dialog_add_user_entry. quiet_tac.
Qed.
#[export] Hint Resolve quiet_unlock_dialog_add_accounts : quiet.

Lemma quiet_prepare_lock accounts :
  quiet (desktop_shell_prepare_lock_surface accounts).
Proof.
  unfold desktop_shell_prepare_lock_surface, unlock_dialog_create. quiet_tac.
Qed.

Lemma quiet_rebind_panels u wl ps st : quiet (rebind_panels u wl ps st).
Proof. revert st. induction ps as [|p ps IH]; intros st; simpl; quiet_tac. Qed.
Lemma quiet_rebind_backgrounds u wl bs st :
  quiet (rebind_backgrounds u wl bs st).
Proof. revert st. induction bs as [|b bs IH]; intros st; simpl; quiet_tac. Qed.
#[export] Hint Resolve quiet_rebind_panels quiet_rebind_backgrounds : quiet.

Lemma quiet_user_switched u : quiet (desktop_shell_user_switched u).
Proof.
  unfold desktop_shell_user_switched, switch_output, switch_panel,
    switch_background, display_defer.
  quiet_tac.
Qed.

Lemma quiet_password_dialog_destroy d : quiet (password_dialog_destroy d).
Proof. unfold password_dialog_destroy. quiet_tac. Qed.
#[export] Hint Resolve quiet_password_dialog_destroy : quiet.

Lemma quiet_password_dialog_key_handler xkb d st sym :
  quiet (password_dialog_key_handler xkb d st sym).
Proof.
  unfold password_dialog_key_handler, password_dialog_edit, text_backspace,
    text_insert.
  quiet_tac.
Qed.

Lemma quiet_user_entry_button_handler e st :
  quiet (user_entry_button_handler e st).
Proof.
  unfold user_entry_button_handler, password_dialog_create. quiet_tac.
Qed.

Lemma quiet_run_deferred : quiet run_deferred.
Proof.
  unfold run_deferred, unlock_dialog_finish, unlock_dialog_destroy. quiet_tac.
Qed.

Lemma quiet_handle xkb accounts e :
  (∀ p, e ≠ PanelRedraw p) → (∀ b, e ≠ BackgroundDraw b) →
  quiet (handle xkb accounts e).
Proof.
  intros Hp Hb. destruct e; simpl.
  - apply quiet_global_handler.
  - apply quiet_global_handler_remove.
  - apply quiet_desktop_shell_configure.
  - apply quiet_prepare_lock.
  - unfold desktop_shell_grab_cursor. quiet_tac.
  - apply quiet_user_switched.
  - by destruct (Hp p).
  - by destruct (Hb b).
  - unfold panel_resize_handler. quiet_tac.
  - apply quiet_user_entry_button_handler.
  - apply quiet_password_dialog_key_handler.
  - apply quiet_run_deferred.
Qed.

Lemma quiet_within_budget {A} (m : M A) : quiet m → within_budget m.
Proof.
  intros Hm w. destruct (Hm w) as [Ht Hw].
  rewrite (sent_none _ _ Ht). simpl.
  destruct ((m w).2) as [[a w']|]; [|lia].
  specialize (Hw a w' eq_refl). unfold ready_left, stays_ready in *.
  destruct (painted (desk w)); [by rewrite Hw | destruct (painted (desk w')); lia].
Qed.

Lemma within_budget_bind {A B} (m : M A) (k : A → M B) :
  within_budget m → (∀ a, within_budget (k a)) → within_budget (bind m k).
Proof.
  intros Hm Hk w. specialize (Hm w). unfold bind.
  destruct (m w) as [t [[a w1]|]]; simpl in *; [|lia].
  specialize (Hk a w1). destruct (k a w1) as [t' r]; simpl in *.
  rewrite sent_app. lia.
Qed.

Lemma within_budget_check_desktop_ready : within_budget check_desktop_ready.
Proof.
  intros w. destruct (is_desktop_painted_spec w) as (r & Hr & _).
  rewrite (check_desktop_ready_unfold _ _ Hr). unfold ready_left.
  destruct (painted (desk w)) eqn:Hp; simpl; [by rewrite Hp|].
  destruct r as [[|]|]; simpl; [|by rewrite Hp|lia].
  destruct (bool_decide _); [destruct (shell (desk w))|]; simpl; lia.
Qed.

Lemma within_budget_handle xkb accounts e :
  within_budget (handle xkb accounts e).
Proof.
  destruct e;
    try (apply quiet_within_budget, quiet_handle; intros ?; discriminate).
  - simpl. unfold panel_redraw_handler.
    apply within_budget_bind; [apply quiet_within_budget; quiet_tac|intros x].
    apply within_budget_bind; [apply quiet_within_budget; quiet_tac|intros _].
    apply within_budget_check_desktop_ready.
  - simpl. unfold background_draw.
    apply within_budget_bind; [apply quiet_within_budget; quiet_tac|intros x].
    apply within_budget_bind; [apply quiet_within_budget; quiet_tac|intros _].
    apply within_budget_check_desktop_ready.
Qed.

Lemma within_budget_run xkb accounts es : within_budget (run xkb accounts es).
Proof.
  unfold run. induction es as [|e es IH]; simpl.
  - apply quiet_within_budget, quiet_ret.
  - apply within_budget_bind; [apply within_budget_handle | done].
Qed.

Lemma panel_redraw_handler_unfold p w :
  panel_redraw_handler p w =
    match heap w !! p with
    | Some (O_panel x) => check_desktop_ready (panel_painted_now p x w)
    | _ => ([], None)
    end.
Proof.
  unfold panel_redraw_handler, bind at 1. rewrite load_panel_unfold.
  destruct (heap w !! p) as [[x| | | | |]|] eqn:Hp; try done.
  unfold bind, store. rewrite Hp. simpl.
  by destruct (check_desktop_ready _).
Qed.

Lemma background_draw_unfold b w :
  background_draw b w =
    match heap w !! b with
    | Some (O_background x) => check_desktop_ready (background_painted_now b x w)
    | _ => ([], None)
    end.
Proof.
  unfold background_draw, bind at 1. rewrite load_background_unfold.
  destruct (heap w !! b) as [[|x| | | |]|] eqn:Hb; try done.
  unfold bind, store. rewrite Hb. simpl.
  by destruct (check_desktop_ready _).
Qed.

Lemma check_desktop_ready_sends w :
  Request desktop_ready ∈ (check_desktop_ready w).1
  ↔ painted (desk w) = false ∧ all_active_painted w
    ∧ 2 ≤ interface_version (desk w) ∧ is_Some (shell (desk w)).
Proof.
  destruct (is_desktop_painted_spec w) as (r & Hr & Hall).
  rewrite (check_desktop_ready_unfold _ _ Hr), <- Hall.
  destruct (painted (desk w)); simpl.
  { split; [by intros ?%elem_of_nil | by intros [? _]]. }
  destruct r as [[|]|]; simpl;
    try (split; [by intros ?%elem_of_nil | by intros (_ & ? & _)]).
  case_bool_decide as Hv; simpl.
  - destruct (shell (desk w)) as [s|]; simpl.
    + split; [by eauto | intros _; apply list_elem_of_here].
    + split; [by intros ?%elem_of_nil | by intros (_ & _ & _ & ?%is_Some_None)].
  - split; [by intros ?%elem_of_nil | by intros (_ & _ & ? & _)].
Qed.

(** C3. Over every sequence of events, from every state, the desktop-ready
    signal is sent at most once.  Only the completion of a paint sends it,
    and only when the readiness flag is still false, the negotiated
    version is at least 2 and, the painting surface included, every active
    panel and background of every output has its painted flag set; this is
    exactly when [check_desktop_ready] sends it (on a bound shell).  The
    check that finds everything painted sets the flag, and once the flag
    is set a call of the check does nothing, no later event sends the
    signal, and the flag stays set. *)
Theorem desktop_ready_at_most_once (xkb : Z → list ascii)
    (accounts : list passwd) :
  (∀ es w,
     (sent desktop_ready (trace_of (run xkb accounts es) w) ≤ 1)%nat)
  ∧ (∀ e w,
       Request desktop_ready ∈ trace_of (handle xkb accounts e) w →
       painted (desk w) = false ∧ 2 ≤ interface_version (desk w)
       ∧ ((∃ p x, e = PanelRedraw p ∧ heap w !! p = Some (O_panel x)
                  ∧ all_active_painted (panel_painted_now p x w))
          ∨ (∃ b x, e = BackgroundDraw b
                    ∧ heap w !! b = Some (O_background x)
                    ∧ all_active_painted (background_painted_now b x w))))
  ∧ (∀ w,
       Request desktop_ready ∈ trace_of check_desktop_ready w
       ↔ painted (desk w) = false ∧ all_active_painted w
         ∧ 2 ≤ interface_version (desk w) ∧ is_Some (shell (desk w)))
  ∧ (∀ w w',
       all_active_painted w → final check_desktop_ready w = Some w' →
       painted (desk w') = true)
  ∧ (∀ w, painted (desk w) = true →
          check_desktop_ready w = ([], Some ((), w)))
  ∧ (∀ es w,
       painted (desk w) = true →
       sent desktop_ready (trace_of (run xkb accounts es) w) = 0%nat
       ∧ ∀ w', final (run xkb accounts es) w = Some w' →
               painted (desk w') = true).
Proof.
  split; [|split; [|split; [|split; [|split]]]].
  - intros es w. pose proof (within_budget_run xkb accounts es w) as H.
    unfold trace_of, ready_left in *. destruct (painted (desk w)); lia.
  - intros e w Hin. unfold trace_of in Hin.
    assert (Hq : (∀ p, e ≠ PanelRedraw p) → (∀ b, e ≠ BackgroundDraw b) →
                 False).
    { intros H1 H2. destruct (quiet_handle xkb accounts e H1 H2 w) as [Hq _].
      rewrite Forall_forall in Hq. by apply (Hq _ Hin). }
    destruct e; try (exfalso; by apply Hq).
    + simpl in Hin. rewrite panel_redraw_handler_unfold in Hin.
      destruct (heap w !! p) as [[x| | | | |]|] eqn:Hp;
        try by apply elem_of_nil in Hin.
      apply check_desktop_ready_sends in Hin as (H1 & H2 & H3 & _).
      split; [done|]. split; [done|]. left. by exists p, x.
    + simpl in Hin. rewrite background_draw_unfold in Hin.
      destruct (heap w !! b) as [[|x| | | |]|] eqn:Hb;
        try by apply elem_of_nil in Hin.
      apply check_desktop_ready_sends in Hin as (H1 & H2 & H3 & _).
      split; [done|]. split; [done|]. right. by exists b, x.
  - intros w. apply check_desktop_ready_sends.
  - intros w w' Hall. unfold final, outcome.
    destruct (is_desktop_painted_spec w) as (r & Hr & Hr').
    apply Hr' in Hall as ->.
    rewrite (check_desktop_ready_unfold _ _ Hr).
    destruct (painted (desk w)) eqn:Hp; simpl; [by intros [= <-]|].
    destruct (bool_decide _); [destruct (shell (desk w))|]; simpl;
      by intros [= <-].
  - intros w Hp. destruct (is_desktop_painted_spec w) as (r & Hr & _).
    by rewrite (check_desktop_ready_unfold _ _ Hr), Hp.
  - intros es w Hp. pose proof (within_budget_run xkb accounts es w) as H.
    unfold trace_of, final, outcome, ready_left in *. rewrite Hp in H.
    split; [lia|]. intros w' Hw'.
    destruct ((run xkb accounts es w).2) as [[[] w1]|]; simplify_eq/=.
    destruct (painted (desk w')); [done | lia].
Qed.

(** ** C1: prepare-lock *)

Lemma entries_added_refl d w : entries_added d w w.
Proof. repeat split; try done. intros x1 H. by exists x1. Qed.

Lemma entries_added_trans d w1 w2 w3 :
  entries_added d w1 w2 → entries_added d w2 w3 → entries_added d w1 w3.
Proof.
  intros (A1 & A2 & A3 & A4 & A5 & A6 & A7) (B1 & B2 & B3 & B4 & B5 & B6 & B7).
  split; [congruence|]. split; [congruence|]. split; [lia|].
  split; [auto|]. split.
  { intros p Hp Hlt. rewrite B5 by (done || lia). by apply A5. }
  split.
  { intros p x Hp H. by apply A6, B6. }
  intros x1 H1. destruct (A7 x1 H1) as (x2 & H2 & E1 & E2).
  destruct (B7 x2 H2) as (x3 & H3 & F1 & F2).
  exists x3. split; [done|]. split; congruence.
Qed.

Lemma add_user_entry_spec d name x w :
  heap w !! d = Some (O_unlock_dialog x) → (d < next w)%nat →
  ∃ w', unlock_dialog_add_user_entry d name w = ([], Some ((), w'))
        ∧ entries_added d w w'.
Proof.
  intros Hd Hlt. unfold unlock_dialog_add_user_entry.
  set (w1 := mk_world (desk w)
               (<[next w := O_user_entry (mk_user_entry name d)]> (heap w))
               (S (next w)) (deferred w)).
  assert (Hd1 : heap w1 !! d = Some (O_unlock_dialog x)).
  { simpl. rewrite lookup_insert_ne by lia. done. }
  eexists. split.
  { rewrite (bind_pure _ _ _ _ _ (eq_refl : alloc _ w = ([], Some (_, w1)))).
    unfold load_unlock_dialog.
    rewrite bind_assoc, (bind_pure _ _ _ _ _ (load_eq _ _ _ Hd1)), bind_ret.
    unfold store. rewrite Hd1. reflexivity. }
  split; [done|]. split; [done|]. split; [simpl; lia|]. split.
  { intros Hok p Hp. simpl in *. rewrite !lookup_insert_ne by lia.
    apply Hok. lia. }
  split.
  { intros p Hp Hl. simpl. by rewrite !lookup_insert_ne by lia. }
  split.
  { intros p y Hp. simpl. rewrite lookup_insert_ne by done.
    destruct (decide (p = next w)) as [->|Hn].
    - by rewrite lookup_insert_eq.
    - by rewrite lookup_insert_ne. }
  intros x1 Hx1. eexists. split; [simpl; by rewrite lookup_insert_eq|].
  by simplify_eq.
Qed.

Lemma add_accounts_spec d accounts ew uc x w :
  heap w !! d = Some (O_unlock_dialog x) → (d < next w)%nat →
  ∃ r w', unlock_dialog_add_accounts d accounts ew uc w = ([], Some (r, w'))
          ∧ entries_added d w w'.
Proof.
  revert ew uc x w. induction accounts as [|pwd l IH]; intros ew uc x w Hd Hlt.
  - exists (ew, uc), w. split; [done|]. apply entries_added_refl.
  - simpl. destruct (selectable pwd).
    + destruct (add_user_entry_spec d (pw_name pwd) x w Hd Hlt)
        as (w1 & E1 & R1).
      pose proof R1 as (_ & _ & Hn & _ & _ & _ & Hx).
      destruct (Hx x Hd) as (x2 & Hd2 & _).
      rewrite (bind_pure _ _ _ _ _ E1). cbv zeta.
      match goal with
      | |- ∃ r w', unlock_dialog_add_accounts d l ?e ?c w1 = _ ∧ _ =>
          destruct (IH e c x2 w1 Hd2) as (r & w2 & E2 & R2); [lia|]
      end.
      exists r, w2. split; [exact E2|]. by eapply entries_added_trans.
    + by apply (IH _ _ x).
Qed.

(** [unlock_dialog_create] on a bound shell: the dialog is a new object,
    created once, not closing, and nothing else that is an unlock dialog
    appears. *)
Lemma unlock_dialog_create_spec accounts s w :
  shell (desk w) = Some s →
  ∃ t w', unlock_dialog_create accounts w = (t, Some (S (next w), w'))
    ∧ desk w' = desk w ∧ deferred w' = deferred w
    ∧ count_if is_unlock_dialog_create t = 1%nat
    ∧ (Request unlock ∉ t)
    ∧ (∃ x, heap w' !! S (next w) = Some (O_unlock_dialog x)
            ∧ ud_closing x = false)
    ∧ (heap_ok w → heap_ok w' ∧ heap w ⊆ heap w'
       ∧ ∀ p x, heap w' !! p = Some (O_unlock_dialog x) →
                p = S (next w) ∨ heap w !! p = Some (O_unlock_dialog x)).
Proof.
  intros Hs. unfold unlock_dialog_create, window_create_custom.
  set (n := next w). set (d := S n).
  set (x0 := mk_unlock_dialog n [] false).
  set (w1 := mk_world (desk w)
               (<[n := O_window (Some d)]>
                  (<[d := O_unlock_dialog x0]>
                     (<[n := O_window None]> (heap w))))
               (S d) (deferred w)).
  assert (Hd1 : heap w1 !! d = Some (O_unlock_dialog x0)).
  { simpl. rewrite lookup_insert_ne, lookup_insert_eq by (unfold d; lia).
    done. }
  destruct (add_accounts_spec d accounts 0 0 x0 w1 Hd1) as (r & w2 & E2 & R2);
    [simpl; lia|].
  destruct R2 as (Hdk & Hdf & Hn & Hok2 & Hold & Hnew & Hx).
  destruct (Hx x0 Hd1) as (x2 & Hd2 & Hw2 & Hc2).
  assert (Hs2 : shell (desk w2) = Some s) by (by rewrite Hdk).
  eexists _, w2. split.
  { unfold alloc at 1. rewrite bind_pure with (a := n)
      (w' := mk_world (desk w) (<[n := O_window None]> (heap w)) (S n)
                      (deferred w)) by done.
    unfold alloc at 1. rewrite bind_pure with (a := d)
      (w' := mk_world (desk w)
               (<[d := O_unlock_dialog x0]>
                  (<[n := O_window None]> (heap w))) (S d) (deferred w))
      by done.
    rewrite bind_pure with (a := ()) (w' := w1).
    2:{ unfold window_set_user_data, window_get_user_data, bind, load, store.
        simpl. rewrite lookup_insert_ne, lookup_insert_eq by (unfold d; lia).
        simpl. rewrite lookup_insert_ne, lookup_insert_eq by (unfold d; lia).
        done. }
    eapply bind_eq2; [reflexivity|].
    eapply bind_eq2; [exact E2|].
    eapply bind_eq2; [by eapply shell_request_eq|].
    eapply bind_eq2; [reflexivity|]. reflexivity. }
  split; [done|]. split; [done|]. split; [done|]. split.
  { simpl. intros Hin. repeat (apply elem_of_cons in Hin as [Hin|Hin]; [done|]).
    by apply elem_of_nil in Hin. }
  split; [exists x2; split; [done|]; by rewrite Hc2|].
  intros Hok.
  assert (Hok1 : heap_ok w1).
  { intros p Hp. simpl in *. rewrite !lookup_insert_ne by (unfold d, n in *; lia).
    apply Hok. unfold d, n in *. lia. }
  split; [by apply Hok2|]. split.
  - apply map_subseteq_spec. intros p o Hp.
    pose proof (heap_ok_lt _ _ _ Hok Hp) as Hlt. fold n in Hlt.
    rewrite Hold by (unfold d; simpl; lia). simpl.
    rewrite !lookup_insert_ne by (unfold d; lia). done.
  - intros p x Hp. destruct (decide (p = d)) as [->|Hne]; [by left|right].
    apply Hnew in Hp; [|done]. simpl in Hp.
    destruct (decide (p = n)) as [->|Hnn].
    + by rewrite lookup_insert_eq in Hp.
    + by rewrite !lookup_insert_ne in Hp by done.
Qed.

(** One prepare-lock event with locking enabled. *)
Lemma prepare_lock_locking accounts s w :
  shell (desk w) = Some s → locking (desk w) = true →
  ∃ t w', desktop_shell_prepare_lock_surface accounts w = (t, Some ((), w'))
    ∧ shell (desk w') = Some s ∧ locking (desk w') = true
    ∧ (Request unlock ∉ t)
    ∧ count_if is_unlock_dialog_create t
      = match unlock_dialog (desk w) with Some _ => 0%nat | None => 1%nat end
    ∧ (∀ d, unlock_dialog (desk w) = Some d → t = [] ∧ w' = w)
    ∧ (unlock_dialog (desk w) = None →
       ∃ x, unlock_dialog (desk w') = Some (S (next w))
            ∧ heap w' !! S (next w) = Some (O_unlock_dialog x)
            ∧ ud_closing x = false)
    ∧ is_Some (unlock_dialog (desk w'))
    ∧ (heap_ok w → heap_ok w' ∧ heap w ⊆ heap w')
    ∧ (heap_ok w → dialogs_match w → dialogs_match w').
Proof.
  intros Hs Hl. unfold desktop_shell_prepare_lock_surface.
  rewrite bind_gets, Hl. simpl. rewrite bind_gets.
  destruct (unlock_dialog (desk w)) as [d|] eqn:Hd.
  - exists [], w. split; [done|]. split; [done|]. split; [done|].
    split; [apply not_elem_of_nil|]. split; [done|].
    split; [done|]. split; [done|]. split; [by rewrite Hd|]. done.
  - destruct (unlock_dialog_create_spec accounts s w Hs)
      as (t & w1 & E & Hdk & Hdf & Hc & Hnu & (x & Hx & Hcl) & Hheap).
    exists (t ++ []), (with_desk (set_unlock_dialog (Some (S (next w)))) w1).
    split.
    { eapply bind_eq2; [exact E|]. reflexivity. }
    rewrite app_nil_r. simpl. rewrite Hdk.
    split; [done|]. split; [done|]. split; [done|]. split; [done|].
    split; [done|]. split; [by exists x|]. split; [done|].
    split; [intros Hok; by destruct (Hheap Hok) as (? & ? & _)|].
    intros Hok Hm p. simpl. destruct (Hheap Hok) as (_ & _ & Hnew). split.
    + intros [y Hy]. destruct (Hnew p y Hy) as [->|Hold]; [done|].
      assert (unlock_dialog (desk w) = Some p) by (apply Hm; eauto).
      congruence.
    + intros [= <-]. eauto.
Qed.

(** C1. For every state of the desktop session with the shell bound,
    handling a prepare-lock event behaves as follows.  With locking
    disabled, the unlock acknowledgment is sent at once, nothing else is
    done and the state is unchanged, so no dialog is created.  With
    locking enabled, no acknowledgment is sent, and a dialog is created
    exactly when none exists: if one exists the event does nothing; if
    none exists one is created (a new object, not closing) and recorded.
    Two consecutive prepare-lock events create one dialog if none existed
    and none otherwise, a dialog exists afterwards, and if the live unlock
    dialogs were exactly the recorded one before, they are exactly the
    recorded one after: exactly one unlock dialog exists. *)
Theorem prepare_lock_idempotent (accounts : list passwd) (w : world) :
  is_Some (shell (desk w)) →
  (locking (desk w) = false →
   desktop_shell_prepare_lock_surface accounts w
   = ([Request unlock], Some ((), w)))
  ∧ (locking (desk w) = true →
     (∃ t w',
        desktop_shell_prepare_lock_surface accounts w = (t, Some ((), w'))
        ∧ (Request unlock ∉ t)
        ∧ (count_if is_unlock_dialog_create t = 1%nat
           ↔ unlock_dialog (desk w) = None)
        ∧ (count_if is_unlock_dialog_create t = 0%nat
           ↔ is_Some (unlock_dialog (desk w)))
        ∧ (∀ d, unlock_dialog (desk w) = Some d → t = [] ∧ w' = w)
        ∧ (unlock_dialog (desk w) = None →
           ∃ x, unlock_dialog (desk w') = Some (S (next w))
                ∧ heap w' !! S (next w) = Some (O_unlock_dialog x)
                ∧ ud_closing x = false))
     ∧ (∃ t w',
          (desktop_shell_prepare_lock_surface accounts ;;;
           desktop_shell_prepare_lock_surface accounts) w
          = (t, Some ((), w'))
          ∧ count_if is_unlock_dialog_create t
            = match unlock_dialog (desk w) with Some _ => 0%nat | None => 1%nat end
          ∧ is_Some (unlock_dialog (desk w'))
          ∧ (heap_ok w → dialogs_match w → dialogs_match w'))).
Proof.
  intros [s Hs]. split.
  - intros Hl. unfold desktop_shell_prepare_lock_surface.
    rewrite bind_gets, Hl. simpl. by apply (shell_request_eq _ s).
  - intros Hl.
    destruct (prepare_lock_locking accounts s w Hs Hl)
      as (t1 & w1 & E1 & Hs1 & Hl1 & Hnu1 & Hc1 & Hsome1 & Hnone1 & Hex1
          & Hok1 & Hm1).
    split.
    + exists t1, w1. split; [done|]. split; [done|].
      rewrite Hc1. destruct (unlock_dialog (desk w)) as [d|].
      * split; [split; [lia|done]|]. split; [split; [by eexists|done]|].
        split; [done|]. done.
      * split; [done|]. split; [split; [lia|by intros [? ?]]|].
        split; [done|]. done.
    + destruct (prepare_lock_locking accounts s w1 Hs1 Hl1)
        as (t2 & w2 & E2 & Hs2 & Hl2 & Hnu2 & Hc2 & Hsome2 & Hnone2 & Hex2
            & Hok2 & Hm2).
      destruct Hex1 as [d1 Hd1]. destruct (Hsome2 d1 Hd1) as [-> ->].
      exists (t1 ++ []), w1. split; [by eapply bind_eq2|].
      rewrite app_nil_r. split; [done|]. split; [by eexists|]. done.
Qed.

(** ** C2: submitting *)

Lemma load_password_dialog_eq p x w :
  heap w !! p = Some (O_password_dialog x) →
  load_password_dialog p w = ([], Some (x, w)).
Proof.
  intros H. unfold load_password_dialog.
  by rewrite (bind_pure _ _ _ _ _ (load_eq _ _ _ H)).
Qed.

Lemma load_user_entry_eq p x w :
  heap w !! p = Some (O_user_entry x) →
  load_user_entry p w = ([], Some (x, w)).
Proof.
  intros H. unfold load_user_entry.
  by rewrite (bind_pure _ _ _ _ _ (load_eq _ _ _ H)).
Qed.

Lemma load_unlock_dialog_eq p x w :
  heap w !! p = Some (O_unlock_dialog x) →
  load_unlock_dialog p w = ([], Some (x, w)).
Proof.
  intros H. unfold load_unlock_dialog.
  by rewrite (bind_pure _ _ _ _ _ (load_eq _ _ _ H)).
Qed.

Lemma store_eq p o o' w :
  heap w !! p = Some o →
  store p o' w = ([], Some ((), with_heap (insert p o') w)).
Proof. intros H. unfold store. by rewrite H. Qed.

Lemma free_eq p o w :
  heap w !! p = Some o → free p w = ([], Some ((), with_heap (delete p) w)).
Proof. intros H. unfold free. by rewrite H. Qed.

(** The key handler on a sub-dialog that no longer exists reads freed
    memory. *)
Lemma key_handler_dangling xkb d st sym w :
  heap w !! d = None → password_dialog_key_handler xkb d st sym w = ([], None).
Proof.
  intros H. unfold password_dialog_key_handler. apply bind_crash.
  unfold load_password_dialog. apply bind_crash. unfold load. by rewrite H.
Qed.

(** [password_dialog_destroy] on a live sub-dialog. *)
Lemma password_dialog_destroy_eq d x data w :
  heap w !! d = Some (O_password_dialog x) →
  heap w !! pd_window x = Some (O_window data) →
  password_dialog_destroy d w
  = ([PasswordDialogDestroy d],
     Some ((), with_heap (delete d) (with_heap (delete (pd_window x)) w))).
Proof.
  intros Hd Hw. unfold password_dialog_destroy. rewrite bind_emit.
  rewrite (bind_pure _ _ _ _ _ (load_password_dialog_eq _ _ _ Hd)).
  rewrite (bind_pure _ _ _ _ _ (free_eq _ _ _ Hw)).
  assert (Hne : pd_window x ≠ d) by (intros Heq; rewrite Heq in Hw; congruence).
  assert (Hd' : heap (with_heap (delete (pd_window x)) w) !! d
                = Some (O_password_dialog x)).
  { simpl. by rewrite lookup_delete_ne. }
  by rewrite (free_eq _ _ _ Hd').
Qed.

(** One submit on a live sub-dialog, by either Enter key. *)
Lemma submit_key_spec xkb d udp c s w sym :
  enter_key sym →
  shell (desk w) = Some s → sub_dialog w udp d → closing_is w udp c →
  ∃ t w',
    password_dialog_key_handler xkb d WL_KEYBOARD_KEY_STATE_PRESSED
      sym w = (t, Some ((), w'))
    ∧ count_if is_switch_user t = (if c then 0 else 1)%nat
    ∧ (∀ d', count_if (is_password_destroy d') t
             = if bool_decide (d = d') then 1%nat else 0%nat)
    ∧ submitted udp d w w'.
Proof.
  intros Hk Hs (x & e & data & Hd & He & <- & Hw) (ud & Hu & <-).
  unfold password_dialog_key_handler.
  rewrite (bind_pure _ _ _ _ _ (load_password_dialog_eq _ _ _ Hd)).
  rewrite (bind_pure _ _ _ _ _ (load_user_entry_eq _ _ _ He)).
  rewrite (bind_pure _ _ _ _ _ (load_unlock_dialog_eq _ _ _ Hu)).
  rewrite bool_decide_eq_false_2 by (by destruct Hk as [-> | ->]).
  rewrite bool_decide_eq_true_2 by exact Hk.
  assert (Hdu : d ≠ ue_dialog e) by (intros Heq; rewrite Heq in Hd; congruence).
  assert (Hwu : pd_window x ≠ ue_dialog e)
    by (intros Heq; rewrite Heq in Hw; congruence).
  assert (Hcells : password_cells w d = [pd_window x; d]).
  { unfold password_cells. by rewrite Hd. }
  destruct (ud_closing ud) eqn:Hc.
  - rewrite bind_ret.
    rewrite (password_dialog_destroy_eq d x data w Hd Hw).
    eexists _, _. split; [done|]. split; [done|]. split.
    { intros d'. unfold count_if. simpl. by destruct (bool_decide (d = d')). }
    split; [done|]. split.
    { exists ud. simpl. by rewrite !lookup_delete_ne. }
    split; [simpl; by rewrite lookup_delete_eq|].
    split.
    { intros q Hq. simpl. rewrite !lookup_delete. by repeat case_decide. }
    intros q Hq _. rewrite Hcells in Hq. simpl.
    rewrite !lookup_delete_ne; [done| |];
      intros <-; apply Hq; repeat constructor.
  - set (ud' := mk_unlock_dialog (ud_window ud) (ud_user_list ud) true).
    set (w1 := with_heap (insert (ue_dialog e) (O_unlock_dialog ud')) w).
    assert (Hd1 : heap w1 !! d = Some (O_password_dialog x)).
    { simpl. by rewrite lookup_insert_ne. }
    assert (Hw1 : heap w1 !! pd_window x = Some (O_window data)).
    { simpl. by rewrite lookup_insert_ne. }
    eexists _, _. split.
    { eapply bind_eq2.
      - eapply bind_eq2; [by eapply shell_request_eq|].
        apply (store_eq _ _ _ _ Hu).
      - apply (password_dialog_destroy_eq d x data w1 Hd1 Hw1). }
    split; [done|]. split.
    { intros d'. unfold count_if. simpl. by destruct (bool_decide (d = d')). }
    split; [done|]. split.
    { exists ud'. simpl. by rewrite !lookup_delete_ne, lookup_insert_eq. }
    split; [simpl; by rewrite lookup_delete_eq|].
    split.
    { intros q Hq. simpl. rewrite !lookup_delete. repeat case_decide; try done.
      rewrite lookup_insert_ne; [done|]. intros <-. congruence. }
    intros q Hq Hqu. rewrite Hcells in Hq. simpl.
    rewrite !lookup_delete_ne, lookup_insert_ne; [done|done| |];
      intros <-; apply Hq; repeat constructor.
Qed.

Lemma submit_spec xkb d udp c s w :
  shell (desk w) = Some s → sub_dialog w udp d → closing_is w udp c →
  ∃ t w',
    password_dialog_key_handler xkb d WL_KEYBOARD_KEY_STATE_PRESSED
      XKB_KEY_Return w = (t, Some ((), w'))
    ∧ count_if is_switch_user t = (if c then 0 else 1)%nat
    ∧ (∀ d', count_if (is_password_destroy d') t
             = if bool_decide (d = d') then 1%nat else 0%nat)
    ∧ submitted udp d w w'.
Proof. apply submit_key_spec. by left. Qed.

(** Keys delivered to a sub-dialog that is gone log nothing. *)
Lemma submits_dangling xkb accounts d syms w :
  heap w !! d = None →
  trace_of (run xkb accounts (submits d syms)) w = [].
Proof.
  intros Hd. destruct syms as [|sym syms]; [done|].
  unfold trace_of, run, submits. rewrite fmap_cons. simpl for_each.
  by rewrite (bind_crash _ _ _ _ (key_handler_dangling xkb d _ sym w Hd)).
Qed.

(** A submit elsewhere leaves a sub-dialog as it was. *)
Lemma sub_dialog_stable udp c d d' w w' :
  closing_is w udp c → sub_dialog w udp d → submitted udp d w w' →
  sub_dialog w udp d' →
  (∀ q, q ∈ password_cells w d' → q ∉ password_cells w d) →
  sub_dialog w' udp d' ∧ password_cells w' d' = password_cells w d'.
Proof.
  intros (ud & Hu & _) (x & e & data & Hd & He & Heu & Hw)
    (_ & _ & _ & _ & Hsame) (x' & e' & data' & Hd' & He' & Heu' & Hw') Hdis.
  assert (Hc : password_cells w d = [pd_window x; d]).
  { unfold password_cells. by rewrite Hd. }
  assert (Hc' : password_cells w d' = [pd_window x'; d']).
  { unfold password_cells. by rewrite Hd'. }
  rewrite Hc' in Hdis.
  assert (Hd1 : heap w' !! d' = Some (O_password_dialog x')).
  { rewrite Hsame; [done| |].
    - apply Hdis. repeat constructor.
    - intros Heq. rewrite Heq in Hd'. congruence. }
  assert (Hw1 : heap w' !! pd_window x' = Some (O_window data')).
  { rewrite Hsame; [done| |].
    - apply Hdis. repeat constructor.
    - intros Heq. rewrite Heq in Hw'. congruence. }
  assert (He1 : heap w' !! pd_entry x' = Some (O_user_entry e')).
  { rewrite Hsame; [done| |].
    - rewrite Hc. intros Hin.
      apply elem_of_cons in Hin as [Heq|Hin];
        [rewrite Heq in He'; congruence|].
      apply elem_of_cons in Hin as [Heq|Hin];
        [rewrite Heq in He'; congruence|].
      by apply elem_of_nil in Hin.
    - intros Heq. rewrite Heq in He'. congruence. }
  split; [by exists x', e', data'|].
  unfold password_cells. by rewrite Hd1, Hd'.
Qed.

Lemma password_cells_self w udp d :
  sub_dialog w udp d → d ∈ password_cells w d.
Proof.
  intros (x & e & data & Hd & _). unfold password_cells. rewrite Hd.
  repeat constructor.
Qed.

(** Submits delivered one after the other to distinct live sub-dialogs of
    one unlock dialog. *)
Lemma submits_spec xkb accounts ds w udp c s :
  shell (desk w) = Some s → closing_is w udp c →
  Forall (sub_dialog w udp) ds →
  NoDup (concat (password_cells w <$> ds)) →
  ∃ t w',
    run xkb accounts (submit <$> ds) w = (t, Some ((), w'))
    ∧ count_if is_switch_user t
      = (if c then 0 else match ds with [] => 0 | _ => 1 end)%nat
    ∧ (∀ d, count_if (is_password_destroy d) t
            = if bool_decide (d ∈ ds) then 1%nat else 0%nat)
    ∧ (∀ d, d ∈ ds → heap w' !! d = None)
    ∧ (∀ q, heap w !! q = None → heap w' !! q = None)
    ∧ (ds ≠ [] → closing_is w' udp true).
Proof.
  revert w c. induction ds as [|d ds IH]; intros w c Hs Hc Hds Hnd.
  - exists [], w. split; [done|]. split; [by destruct c|].
    split; [done|]. split; [by intros ? ?%elem_of_nil|]. done.
  - apply Forall_cons in Hds as [Hd Hds].
    destruct (submit_spec xkb d udp c s w Hs Hd Hc)
      as (t1 & w1 & E1 & Hsw1 & Hde1 & Hsub).
    pose proof Hsub as (Hdk & Hcl1 & Hgone & Hnone & Hsame).
    rewrite fmap_cons in Hnd. cbn [concat] in Hnd.
    apply NoDup_app in Hnd as (_ & Hdis & Hnd).
    assert (Hst : ∀ d', d' ∈ ds →
              sub_dialog w1 udp d'
              ∧ password_cells w1 d' = password_cells w d').
    { intros d' Hin. rewrite Forall_forall in Hds.
      apply (sub_dialog_stable udp c d d' w w1 Hc Hd Hsub (Hds d' Hin)).
      intros q Hq Hq'. apply (Hdis q Hq').
      apply list_elem_of_In, in_concat. exists (password_cells w d').
      split; [|by apply list_elem_of_In].
      by apply list_elem_of_In, list_elem_of_fmap_2. }
    assert (Hds1 : Forall (sub_dialog w1 udp) ds).
    { apply Forall_forall. intros d' Hin. by apply Hst. }
    assert (Hcells : password_cells w1 <$> ds = password_cells w <$> ds).
    { apply Forall_fmap_ext_1, Forall_forall. intros d' Hin. by apply Hst. }
    assert (Hs1 : shell (desk w1) = Some s) by (by rewrite Hdk).
    destruct (IH w1 true Hs1 Hcl1 Hds1) as
      (t2 & w2 & E2 & Hsw2 & Hde2 & Hgone2 & Hnone2 & _).
    { by rewrite Hcells. }
    assert (Hnin : d ∉ ds).
    { intros Hin. apply (Hdis d (password_cells_self w udp d Hd)).
      apply list_elem_of_In, in_concat. exists (password_cells w d).
      split; [by apply list_elem_of_In, list_elem_of_fmap_2|].
      by apply list_elem_of_In, (password_cells_self w udp). }
    exists (t1 ++ t2), w2. split.
    { unfold run. rewrite fmap_cons. simpl for_each.
      eapply bind_eq2; [exact E1|exact E2]. }
    split.
    { rewrite count_if_app, Hsw1, Hsw2. destruct c; lia. }
    split.
    { intros d'. rewrite count_if_app, Hde1, Hde2.
      destruct (decide (d = d')) as [<-|Hne].
      - rewrite bool_decide_eq_true_2 by done.
        rewrite (bool_decide_eq_false_2 _ Hnin).
        by rewrite bool_decide_eq_true_2 by apply list_elem_of_here.
      - rewrite (bool_decide_eq_false_2 _ Hne). simpl.
        destruct (decide (d' ∈ ds)) as [Hin|Hin].
        + rewrite !bool_decide_eq_true_2; [done| |done].
          by apply list_elem_of_further.
        + rewrite !bool_decide_eq_false_2; [done| |done].
          intros [?|?]%elem_of_cons; by simplify_eq. }
    split.
    { intros d' [->|Hin]%elem_of_cons; [by apply Hnone2|by apply Hgone2]. }
    split; [by auto|].
    intros _. destruct ds as [|d2 ds'].
    + simpl in E2. injection E2 as <- <-. done.
    + destruct (IH w1 true Hs1 Hcl1 Hds1) as (? & ? & E2' & _ & _ & _ & _ & Hcl);
        [by rewrite Hcells|].
      rewrite E2 in E2'. injection E2' as <- <-. by apply Hcl.
Qed.

(** C2. For every sequence of Enter-key submit events delivered to one
    live password sub-dialog of one unlock dialog (on a bound shell), at
    most one switch-user request is sent: the first submit sends it,
    when the dialog's closing flag is clear, and sets the flag, and every
    later submit sends nothing, so that the submits together log what the
    first one logs; and exactly one destruction of the sub-dialog is
    performed. *)
Theorem submits_to_one_sub_dialog (xkb : Z → list ascii)
    (accounts : list passwd) (d udp : ptr) (c : bool) (sym : Z)
    (syms : list Z) (w : world) :
  is_Some (shell (desk w)) → closing_is w udp c → sub_dialog w udp d →
  Forall enter_key (sym :: syms) →
  (count_if is_switch_user
     (trace_of (run xkb accounts (submits d (sym :: syms))) w) ≤ 1)%nat
  ∧ count_if (is_password_destroy d)
      (trace_of (run xkb accounts (submits d (sym :: syms))) w) = 1%nat
  ∧ ∃ t1 w1,
      handle xkb accounts
        (PasswordKey d WL_KEYBOARD_KEY_STATE_PRESSED sym) w
      = (t1, Some ((), w1))
      ∧ count_if is_switch_user t1 = (if c then 0 else 1)%nat
      ∧ count_if (is_password_destroy d) t1 = 1%nat
      ∧ closing_is w1 udp true
      ∧ trace_of (run xkb accounts (submits d syms)) w1 = []
      ∧ trace_of (run xkb accounts (submits d (sym :: syms))) w = t1.
Proof.
  intros [s Hs] Hc Hd [Hk _]%Forall_cons.
  destruct (submit_key_spec xkb d udp c s w sym Hk Hs Hd Hc)
    as (t1 & w1 & E1 & Hsw1 & Hde1 & Hsub).
  destruct Hsub as (_ & Hcl1 & Hgone & _).
  pose proof (submits_dangling xkb accounts d syms w1 Hgone) as Hlater.
  assert (Ht : trace_of (run xkb accounts (submits d (sym :: syms))) w = t1).
  { unfold trace_of, run, submits in *. rewrite fmap_cons. simpl for_each.
    change (handle xkb accounts
              (PasswordKey d WL_KEYBOARD_KEY_STATE_PRESSED sym))
      with (password_dialog_key_handler xkb d WL_KEYBOARD_KEY_STATE_PRESSED
              sym).
    rewrite (bind_eq _ _ _ _ _ _ E1). simpl. rewrite Hlater.
    by rewrite app_nil_r. }
  assert (Hde : count_if (is_password_destroy d) t1 = 1%nat).
  { by rewrite Hde1, bool_decide_eq_true_2. }
  rewrite Ht. split; [rewrite Hsw1; destruct c; lia|]. split; [done|].
  by exists t1, w1.
Qed.

(** X24. The closing flag guards the request across the sub-dialogs of
    one unlock dialog: for every sequence of Enter-key submit events
    delivered to distinct live password sub-dialogs of one unlock dialog
    (on a bound shell), every submit is handled; at most one switch-user
    request is sent: none if the dialog was closing already, otherwise
    one, by the first submit, which sets the closing flag, and every later
    submit sends nothing; and every submit, first or later, destroys the
    sub-dialog it was delivered to, exactly once, after which the
    sub-dialog is freed memory to the key handler. *)
Theorem submits_send_at_most_once (xkb : Z → list ascii)
    (accounts : list passwd) (ds : list ptr) (w : world) (udp : ptr)
    (c : bool) :
  is_Some (shell (desk w)) → closing_is w udp c →
  Forall (sub_dialog w udp) ds →
  NoDup (concat (password_cells w <$> ds)) →
  ∃ t w',
    run xkb accounts (submit <$> ds) w = (t, Some ((), w'))
    ∧ (count_if is_switch_user t ≤ 1)%nat
    ∧ count_if is_switch_user t
      = (if c then 0 else match ds with [] => 0 | _ => 1 end)%nat
    ∧ (∀ d, d ∈ ds →
         count_if (is_password_destroy d) t = 1%nat
         ∧ heap w' !! d = None
         ∧ ∀ st sym,
             password_dialog_key_handler xkb d st sym w' = ([], None))
    ∧ (ds ≠ [] → closing_is w' udp true)
    ∧ (∀ d ds', ds = d :: ds' →
         ∃ t1 w1,
           handle xkb accounts (submit d) w = (t1, Some ((), w1))
           ∧ count_if is_switch_user t1 = (if c then 0 else 1)%nat
           ∧ count_if (is_password_destroy d) t1 = 1%nat
           ∧ closing_is w1 udp true
           ∧ count_if is_switch_user
               (trace_of (run xkb accounts (submit <$> ds')) w1) = 0%nat).
Proof.
  intros [s Hs] Hc Hds Hnd.
  destruct (submits_spec xkb accounts ds w udp c s Hs Hc Hds Hnd)
    as (t & w' & E & Hsw & Hde & Hgone & _ & Hcl).
  exists t, w'. split; [done|]. split.
  { rewrite Hsw. destruct c, ds; lia. }
  split; [done|]. split.
  { intros d Hin. rewrite Hde, bool_decide_eq_true_2 by done.
    split; [done|]. split; [by apply Hgone|].
    intros st sym. by apply key_handler_dangling, Hgone. }
  split; [done|].
  intros d ds' ->. apply Forall_cons in Hds as [Hd Hds'].
  destruct (submit_spec xkb d udp c s w Hs Hd Hc)
    as (t1 & w1 & E1 & Hsw1 & Hde1 & Hsub).
  exists t1, w1. split; [done|]. split; [done|]. split.
  { by rewrite Hde1, bool_decide_eq_true_2. }
  split; [apply Hsub|].
  unfold run in E. rewrite fmap_cons in E. simpl for_each in E.
  unfold trace_of, run.
  change (handle xkb accounts (submit d)) with
    (password_dialog_key_handler xkb d WL_KEYBOARD_KEY_STATE_PRESSED
       XKB_KEY_Return) in E.
  rewrite (bind_eq _ _ _ _ _ _ E1) in E. injection E as Et _.
  apply (f_equal (count_if is_switch_user)) in Et.
  rewrite count_if_app, Hsw, Hsw1 in Et. destruct c; simpl in *; lia.
Qed.

(** ** C4: user switch *)

Arguments panel_created : simpl never.
Arguments background_created : simpl never.

Lemma rebind_panels_spec u wl ps st w s :
  shell (desk w) = Some s →
  Forall (λ p, ∃ x, heap w !! p = Some (O_panel x)) ps →
  ∃ t st', rebind_panels u wl ps st w = (t, Some (st', w))
    ∧ Forall rebinding t ∧ count_if is_panel_create t = 0%nat
    ∧ count_if is_background_create t = 0%nat
    ∧ ((existsb (panel_for w u) ps = false ∧ st' = st ∧ t = [])
       ∨ (existsb (panel_for w u) ps = true
          ∧ ∃ p x, st' = (true, Some p) ∧ p ∈ ps
                   ∧ heap w !! p = Some (O_panel x)
                   ∧ panel_switcher_username x = u
                   ∧ Request (set_panel wl (panel_window x)) ∈ t)).
Proof.
  intros Hs Hps. revert st.
  induction Hps as [|p ps [x Hp] _ IH]; intros st.
  - exists [], st. split; [done|]. split; [constructor|].
    split; [done|]. split; [done|]. by left.
  - simpl. unfold panel_for at 1. unfold panel_for at 2. rewrite Hp.
    rewrite (bind_pure _ _ _ _ _ (load_panel_eq _ _ _ Hp)). simpl.
    case_bool_decide as Hu; simpl.
    + destruct (IH (true, Some p)) as (t & st' & E & Hr & Hc & Hc' & Hcase).
      exists (Request (set_panel wl (panel_window x)) :: t), st'. split.
      { change (?a :: t) with ([a] ++ t).
        eapply bind_eq2; [by eapply shell_request_eq|exact E]. }
      split; [by constructor|]. split; [done|]. split; [done|].
      right. split; [done|].
      destruct Hcase as [(_ & -> & ->)|(_ & q & y & -> & Hq & Hy & Hyu & Hin)].
      * exists p, x. split; [done|]. split; [apply list_elem_of_here|].
        split; [done|]. split; [done|]. apply list_elem_of_here.
      * exists q, y. split; [done|]. split; [by apply list_elem_of_further|].
        split; [done|]. split; [done|]. by apply list_elem_of_further.
    + destruct (IH st) as (t & st' & E & Hr & Hc & Hc' & Hcase).
      exists t, st'. split; [done|]. split; [done|]. split; [done|].
      split; [done|].
      destruct Hcase as [?|(? & q & y & -> & Hq & Hy & Hyu & Hin)];
        [by left|right].
      split; [done|]. exists q, y. split; [done|].
      split; [by apply list_elem_of_further|]. done.
Qed.

Lemma rebind_backgrounds_spec u wl bs st w s :
  shell (desk w) = Some s →
  Forall (λ b, ∃ x, heap w !! b = Some (O_background x)) bs →
  ∃ t st', rebind_backgrounds u wl bs st w = (t, Some (st', w))
    ∧ Forall rebinding t ∧ count_if is_panel_create t = 0%nat
    ∧ count_if is_background_create t = 0%nat
    ∧ ((existsb (background_for w u) bs = false ∧ st' = st ∧ t = [])
       ∨ (existsb (background_for w u) bs = true
          ∧ ∃ b x, st' = (true, Some b) ∧ b ∈ bs
                   ∧ heap w !! b = Some (O_background x)
                   ∧ background_username x = u
                   ∧ Request (set_background wl (background_window x)) ∈ t)).
Proof.
  intros Hs Hbs. revert st.
  induction Hbs as [|b bs [x Hb] _ IH]; intros st.
  - exists [], st. split; [done|]. split; [constructor|].
    split; [done|]. split; [done|]. by left.
  - simpl. unfold background_for at 1. unfold background_for at 2.
    rewrite Hb.
    rewrite (bind_pure _ _ _ _ _ (load_background_eq _ _ _ Hb)). simpl.
    case_bool_decide as Hu; simpl.
    + destruct (IH (true, Some b)) as (t & st' & E & Hr & Hc & Hc' & Hcase).
      exists (Request (set_background wl (background_window x)) :: t), st'.
      split.
      { change (?a :: t) with ([a] ++ t).
        eapply bind_eq2; [by eapply shell_request_eq|exact E]. }
      split; [by constructor|]. split; [done|]. split; [done|].
      right. split; [done|].
      destruct Hcase as [(_ & -> & ->)|(_ & q & y & -> & Hq & Hy & Hyu & Hin)].
      * exists b, x. split; [done|]. split; [apply list_elem_of_here|].
        split; [done|]. split; [done|]. apply list_elem_of_here.
      * exists q, y. split; [done|]. split; [by apply list_elem_of_further|].
        split; [done|]. split; [done|]. by apply list_elem_of_further.
    + destruct (IH st) as (t & st' & E & Hr & Hc & Hc' & Hcase).
      exists t, st'. split; [done|]. split; [done|]. split; [done|].
      split; [done|].
      destruct Hcase as [?|(? & q & y & -> & Hq & Hy & Hyu & Hin)];
        [by left|right].
      split; [done|]. exists q, y. split; [done|].
      split; [by apply list_elem_of_further|]. done.
Qed.

Lemma cached_lookup_mono w w' p (o : object) :
  heap w ⊆ heap w' → heap w !! p = Some o → heap w' !! p = Some o.
Proof. intros Hsub Hp. by eapply lookup_weaken. Qed.

Lemma panel_for_mono w w' u ps :
  heap w ⊆ heap w' →
  Forall (λ p, ∃ x, heap w !! p = Some (O_panel x)) ps →
  existsb (panel_for w' u) ps = existsb (panel_for w u) ps.
Proof.
  intros Hsub. induction 1 as [|p ps [x Hp] _ IH]; [done|]. simpl.
  rewrite IH. unfold panel_for.
  by rewrite Hp, (cached_lookup_mono _ _ _ _ Hsub Hp).
Qed.

Lemma background_for_mono w w' u bs :
  heap w ⊆ heap w' →
  Forall (λ b, ∃ x, heap w !! b = Some (O_background x)) bs →
  existsb (background_for w' u) bs = existsb (background_for w u) bs.
Proof.
  intros Hsub. induction 1 as [|b bs [x Hb] _ IH]; [done|]. simpl.
  rewrite IH. unfold background_for.
  by rewrite Hb, (cached_lookup_mono _ _ _ _ Hsub Hb).
Qed.

(** The panel half of one iteration. *)
Lemma switch_panel_spec u o ps w s :
  shell (desk w) = Some s → heap_ok w → current_user (desk w) = u →
  out_panels o = Some ps →
  Forall (λ p, ∃ x, heap w !! p = Some (O_panel x)) ps →
  ∃ t pp w1, switch_panel u o ps w = (t, Some (pp, w1))
    ∧ desk w1 = desk w ∧ deferred w1 = deferred w
    ∧ heap_ok w1 ∧ heap w ⊆ heap w1
    ∧ Forall rebinding t
    ∧ count_if is_panel_create t
      = (if cached_panel w u o then 0 else 1)%nat
    ∧ count_if is_background_create t = 0%nat
    ∧ (cached_panel w u o = true → w1 = w)
    ∧ ∀ o' w' t',
        out_panel o' = pp.1 → out_panels o' = Some pp.2 →
        heap w1 ⊆ heap w' → t ⊆ t' →
        panel_switched w w' u t' o o'.
Proof.
  intros Hs Hok Hu Hps Flive. unfold switch_panel, cached_panel.
  rewrite Hps.
  destruct (rebind_panels_spec u (wl_output o) ps (false, out_panel o) w s
              Hs Flive) as (t & st' & E & Hr & Hc & Hc' & Hcase).
  destruct Hcase as [(Hex & -> & ->)|(Hex & p & x & -> & Hp & Hx & Hxu & Hin)].
  - eexists _, _, _. split.
    { eapply bind_eq2; [exact E|]. cbn [fst snd].
      eapply bind_eq2; [apply panel_create_eq|].
      rewrite (bind_pure _ _ _ _ _
                 (load_panel_eq _ _ _ (panel_created_lookup w))).
      eapply bind_eq2; [by eapply shell_request_eq|]. reflexivity. }
    rewrite Hex. simpl.
    split; [done|]. split; [done|].
    split; [by apply panel_created_ok|].
    split; [by apply panel_created_subseteq|].
    split; [by repeat constructor|]. split; [done|]. split; [done|].
    split; [done|].
    intros o' w' t' Ho' Hl' Hsub Ht.
    eapply (panel_made _ _ _ _ _ _ (S (next w))
              (mk_panel (next w) false (current_user (desk w)))).
    + unfold cached_panel. by rewrite Hps.
    + done.
    + apply Hok. lia.
    + apply (cached_lookup_mono (panel_created w) _ _ _ Hsub).
      apply (panel_created_lookup w).
    + done.
    + done.
    + done.
    + done.
    + apply Ht. apply list_elem_of_here.
    + apply Ht. apply list_elem_of_further, list_elem_of_here.
  - eexists _, _, _. split.
    { eapply bind_eq2; [exact E|]. reflexivity. }
    rewrite Hex. simpl.
    split; [done|]. split; [done|]. split; [done|]. split; [done|].
    rewrite app_nil_r.
    split; [done|]. split; [done|]. split; [done|]. split; [done|].
    intros o' w' t' Ho' Hl' Hsub Ht.
    eapply (panel_reused _ _ _ _ _ _ p x ps); try done.
    + unfold cached_panel. by rewrite Hps.
    + by apply Ht.
Qed.

(** The background half of one iteration. *)
Lemma switch_background_spec u o ps w s :
  shell (desk w) = Some s → heap_ok w → current_user (desk w) = u →
  out_backgrounds o = Some ps →
  Forall (λ p, ∃ x, heap w !! p = Some (O_background x)) ps →
  ∃ t pp w1, switch_background u o ps w = (t, Some (pp, w1))
    ∧ desk w1 = desk w ∧ deferred w1 = deferred w
    ∧ heap_ok w1 ∧ heap w ⊆ heap w1
    ∧ Forall rebinding t
    ∧ count_if is_background_create t
      = (if cached_background w u o then 0 else 1)%nat
    ∧ count_if is_panel_create t = 0%nat
    ∧ (cached_background w u o = true → w1 = w)
    ∧ ∀ o' w' t',
        out_background o' = pp.1 → out_backgrounds o' = Some pp.2 →
        heap w1 ⊆ heap w' → t ⊆ t' →
        background_switched w w' u t' o o'.
Proof.
  intros Hs Hok Hu Hps Flive. unfold switch_background, cached_background.
  rewrite Hps.
  destruct (rebind_backgrounds_spec u (wl_output o) ps (false, out_background o) w s
              Hs Flive) as (t & st' & E & Hr & Hc & Hc' & Hcase).
  destruct Hcase as [(Hex & -> & ->)|(Hex & p & x & -> & Hp & Hx & Hxu & Hin)].
  - eexists _, _, _. split.
    { eapply bind_eq2; [exact E|]. cbn [fst snd].
      eapply bind_eq2; [apply background_create_eq|].
      rewrite (bind_pure _ _ _ _ _
                 (load_background_eq _ _ _ (background_created_lookup w))).
      eapply bind_eq2; [by eapply shell_request_eq|]. reflexivity. }
    rewrite Hex. simpl.
    split; [done|]. split; [done|].
    split; [by apply background_created_ok|].
    split; [by apply background_created_subseteq|].
    split; [by repeat constructor|]. split; [done|]. split; [done|].
    split; [done|].
    intros o' w' t' Ho' Hl' Hsub Ht.
    eapply (background_made _ _ _ _ _ _ (S (next w))
              (mk_background (next w) false (current_user (desk w)))).
    + unfold cached_background. by rewrite Hps.
    + done.
    + apply Hok. lia.
    + apply (cached_lookup_mono (background_created w) _ _ _ Hsub).
      apply (background_created_lookup w).
    + done.
    + done.
    + done.
    + done.
    + apply Ht. apply list_elem_of_here.
    + apply Ht. apply list_elem_of_further, list_elem_of_here.
  - eexists _, _, _. split.
    { eapply bind_eq2; [exact E|]. reflexivity. }
    rewrite Hex. simpl.
    split; [done|]. split; [done|]. split; [done|]. split; [done|].
    rewrite app_nil_r.
    split; [done|]. split; [done|]. split; [done|]. split; [done|].
    intros o' w' t' Ho' Hl' Hsub Ht.
    eapply (background_reused _ _ _ _ _ _ p x ps); try done.
    + unfold cached_background. by rewrite Hps.
    + by apply Ht.
Qed.

Lemma output_ok_mono w w' o :
  heap w ⊆ heap w' → output_ok w o → output_ok w' o.
Proof.
  intros Hsub (ps & bs & Hps & Hbs & Fp & Fb). exists ps, bs.
  split; [done|]. split; [done|]. split.
  - eapply Forall_impl; [exact Fp|]. intros p [x Hx]. exists x.
    by eapply cached_lookup_mono.
  - eapply Forall_impl; [exact Fb|]. intros b [x Hx]. exists x.
    by eapply cached_lookup_mono.
Qed.

Lemma cached_panel_mono w w' u o :
  heap w ⊆ heap w' → output_ok w o →
  cached_panel w' u o = cached_panel w u o.
Proof.
  intros Hsub (ps & bs & Hps & _ & Fp & _). unfold cached_panel.
  rewrite Hps. by apply panel_for_mono.
Qed.

Lemma cached_background_mono w w' u o :
  heap w ⊆ heap w' → output_ok w o →
  cached_background w' u o = cached_background w u o.
Proof.
  intros Hsub (ps & bs & _ & Hbs & _ & Fb). unfold cached_background.
  rewrite Hbs. by apply background_for_mono.
Qed.

(** The relations seen from an earlier start, a later end and a longer
    trace. *)
Lemma panel_switched_mono w0 w w' w'' u t t' o o' :
  heap w0 ⊆ heap w → output_ok w0 o → heap w' ⊆ heap w'' → t ⊆ t' →
  panel_switched w w' u t o o' → panel_switched w0 w'' u t' o o'.
Proof.
  intros Hpre Hok Hpost Ht H. pose proof Hok as (ps0 & bs0 & Hps0 & _ & Fp & _).
  destruct H as [p x ps Hc Hps Hp Hx Hu Ho Hl Hin
                |p x ps Hc Hps Hn Hx Hu Hpt Ho Hl Hin1 Hin2].
  - assert (ps0 = ps) as -> by congruence.
    rewrite Forall_forall in Fp. destruct (Fp p Hp) as [x0 Hx0].
    pose proof (cached_lookup_mono _ _ _ _ Hpre Hx0) as Hx0'.
    assert (x0 = x) as -> by congruence.
    eapply (panel_reused _ _ _ _ _ _ p x ps); try done.
    + by rewrite <- (cached_panel_mono w0 w u o Hpre Hok).
    + by apply Ht.
  - eapply (panel_made _ _ _ _ _ _ p x ps); try done.
    + by rewrite <- (cached_panel_mono w0 w u o Hpre Hok).
    + by eapply lookup_weaken_None.
    + by eapply cached_lookup_mono.
    + by apply Ht.
    + by apply Ht.
Qed.

Lemma background_switched_mono w0 w w' w'' u t t' o o' :
  heap w0 ⊆ heap w → output_ok w0 o → heap w' ⊆ heap w'' → t ⊆ t' →
  background_switched w w' u t o o' → background_switched w0 w'' u t' o o'.
Proof.
  intros Hpre Hok Hpost Ht H. pose proof Hok as (ps0 & bs0 & _ & Hbs0 & _ & Fb).
  destruct H as [b x bs Hc Hbs Hb Hx Hu Ho Hl Hin
                |b x bs Hc Hbs Hn Hx Hu Hpt Ho Hl Hin1 Hin2].
  - assert (bs0 = bs) as -> by congruence.
    rewrite Forall_forall in Fb. destruct (Fb b Hb) as [x0 Hx0].
    pose proof (cached_lookup_mono _ _ _ _ Hpre Hx0) as Hx0'.
    assert (x0 = x) as -> by congruence.
    eapply (background_reused _ _ _ _ _ _ b x bs); try done.
    + by rewrite <- (cached_background_mono w0 w u o Hpre Hok).
    + by apply Ht.
  - eapply (background_made _ _ _ _ _ _ b x bs); try done.
    + by rewrite <- (cached_background_mono w0 w u o Hpre Hok).
    + by eapply lookup_weaken_None.
    + by eapply cached_lookup_mono.
    + by apply Ht.
    + by apply Ht.
Qed.

Lemma output_switched_mono w0 w w' w'' u t t' o o' :
  heap w0 ⊆ heap w → output_ok w0 o → heap w' ⊆ heap w'' → t ⊆ t' →
  output_switched w w' u t o o' → output_switched w0 w'' u t' o o'.
Proof.
  intros H1 H2 H3 H4 (A & B & C & D). split; [done|]. split; [done|].
  split; [by eapply panel_switched_mono | by eapply background_switched_mono].
Qed.

Lemma outputs_switched_mono w0 w w' w'' u t t' os os' :
  heap w0 ⊆ heap w → Forall (output_ok w0) os → heap w' ⊆ heap w'' →
  t ⊆ t' →
  Forall2 (output_switched w w' u t) os os' →
  Forall2 (output_switched w0 w'' u t') os os'.
Proof.
  intros H1 Hos H3 H4 H. revert Hos.
  induction H as [|o o' os os' Hh _ IH]; intros Hos; [constructor|].
  apply Forall_cons in Hos as [Ho Hos]. constructor; [|by apply IH].
  by apply (output_switched_mono w0 w w' w'' u t t' o o').
Qed.

(** One iteration of the loop over outputs. *)
Lemma switch_output_spec u o w s :
  shell (desk w) = Some s → heap_ok w → current_user (desk w) = u →
  output_ok w o →
  ∃ t o' w', switch_output u o w = (t, Some (o', w'))
    ∧ desk w' = desk w ∧ deferred w' = deferred w
    ∧ heap_ok w' ∧ heap w ⊆ heap w'
    ∧ Forall rebinding t
    ∧ output_switched w w' u t o o'
    ∧ count_if is_panel_create t
      = (if cached_panel w u o then 0 else 1)%nat
    ∧ count_if is_background_create t
      = (if cached_background w u o then 0 else 1)%nat
    ∧ (cached_panel w u o = true → cached_background w u o = true → w' = w).
Proof.
  intros Hs Hok Hu Ho. pose proof Ho as (ps & bs & Hps & Hbs & Fp & Fb).
  destruct (switch_panel_spec u o ps w s Hs Hok Hu Hps Fp)
    as (t1 & pp & w1 & E1 & Hd1 & Hdf1 & Hok1 & Hsub1 & Hr1 & Hc1 & Hc1'
        & Hsame1 & Hk1).
  assert (Hs1 : shell (desk w1) = Some s) by (by rewrite Hd1).
  assert (Hu1 : current_user (desk w1) = u) by (by rewrite Hd1).
  assert (Fb1 : Forall (λ b, ∃ x, heap w1 !! b = Some (O_background x)) bs).
  { eapply Forall_impl; [exact Fb|]. intros b [x Hx]. exists x.
    by eapply cached_lookup_mono. }
  destruct (switch_background_spec u o bs w1 s Hs1 Hok1 Hu1 Hbs Fb1)
    as (t2 & bb & w2 & E2 & Hd2 & Hdf2 & Hok2 & Hsub2 & Hr2 & Hc2 & Hc2'
        & Hsame2 & Hk2).
  set (o' := mk_output (wl_output o) (server_output_id o)
                       pp.1 (Some pp.2) bb.1 (Some bb.2)).
  exists (t1 ++ t2 ++ []), o', w2. split.
  { unfold switch_output. rewrite Hps. eapply bind_eq2; [exact E1|].
    rewrite Hbs. eapply bind_eq2; [exact E2|]. reflexivity. }
  rewrite app_nil_r.
  split; [congruence|]. split; [congruence|]. split; [done|].
  split; [by etrans|]. split; [by apply Forall_app|].
  split.
  { split; [done|]. split; [done|]. split.
    - apply (Hk1 o' w2 (t1 ++ t2)); try done.
      intros a Ha. apply elem_of_app. by left.
    - eapply (background_switched_mono w w1 w2 w2); try done.
      apply (Hk2 o' w2 (t1 ++ t2)); try done.
      intros a Ha. apply elem_of_app. by right. }
  rewrite !count_if_app, Hc1, Hc1', Hc2, Hc2'.
  rewrite (cached_background_mono w w1 u o Hsub1 Ho).
  split; [lia|]. split; [lia|].
  intros A B. rewrite Hsame2; [by apply Hsame1|].
  by rewrite (cached_background_mono w w1 u o Hsub1 Ho).
Qed.

Lemma without_panel_cons w u o os :
  without_panel w u (o :: os)
  = ((if cached_panel w u o then 0 else 1) + without_panel w u os)%nat.
Proof. unfold without_panel. simpl. by destruct (cached_panel w u o). Qed.

Lemma without_background_cons w u o os :
  without_background w u (o :: os)
  = ((if cached_background w u o then 0 else 1)
     + without_background w u os)%nat.
Proof.
  unfold without_background. simpl. by destruct (cached_background w u o).
Qed.

Lemma without_panel_mono w w' u os :
  heap w ⊆ heap w' → Forall (output_ok w) os →
  without_panel w' u os = without_panel w u os.
Proof.
  intros Hsub. induction 1 as [|o os Ho _ IH]; [done|].
  by rewrite !without_panel_cons, IH, (cached_panel_mono w w' u o Hsub Ho).
Qed.

Lemma without_background_mono w w' u os :
  heap w ⊆ heap w' → Forall (output_ok w) os →
  without_background w' u os = without_background w u os.
Proof.
  intros Hsub. induction 1 as [|o os Ho _ IH]; [done|].
  by rewrite !without_background_cons, IH,
       (cached_background_mono w w' u o Hsub Ho).
Qed.

(** The whole loop over outputs. *)
Lemma switch_outputs_spec u os w s :
  shell (desk w) = Some s → heap_ok w → current_user (desk w) = u →
  Forall (output_ok w) os →
  ∃ t os' w', map_each (switch_output u) os w = (t, Some (os', w'))
    ∧ desk w' = desk w ∧ deferred w' = deferred w
    ∧ heap_ok w' ∧ heap w ⊆ heap w'
    ∧ Forall rebinding t
    ∧ Forall2 (output_switched w w' u t) os os'
    ∧ count_if is_panel_create t = without_panel w u os
    ∧ count_if is_background_create t = without_background w u os
    ∧ (without_panel w u os = 0%nat → without_background w u os = 0%nat →
       w' = w).
Proof.
  intros Hs Hok Hu Hos. revert w Hs Hok Hu Hos.
  induction os as [|o os IH]; intros w Hs Hok Hu Hos.
  - exists [], [], w. repeat split; try done.
  - apply Forall_cons in Hos as [Ho Hos].
    destruct (switch_output_spec u o w s Hs Hok Hu Ho)
      as (t1 & o1 & w1 & E1 & Hd1 & Hdf1 & Hok1 & Hsub1 & Hr1 & Hsw1 & Hc1
          & Hc1' & Hsame1).
    assert (Hs1 : shell (desk w1) = Some s) by (by rewrite Hd1).
    assert (Hu1 : current_user (desk w1) = u) by (by rewrite Hd1).
    assert (Hos1 : Forall (output_ok w1) os).
    { eapply Forall_impl; [exact Hos|]. intros ?. by apply output_ok_mono. }
    destruct (IH w1 Hs1 Hok1 Hu1 Hos1)
      as (t2 & os2 & w2 & E2 & Hd2 & Hdf2 & Hok2 & Hsub2 & Hr2 & Hsw2 & Hc2
          & Hc2' & Hsame2).
    exists (t1 ++ t2 ++ []), (o1 :: os2), w2. split.
    { simpl. eapply bind_eq2; [exact E1|].
      eapply bind_eq2; [exact E2|]. reflexivity. }
    rewrite app_nil_r.
    split; [congruence|]. split; [congruence|]. split; [done|].
    split; [by etrans|]. split; [by apply Forall_app|].
    split.
    { constructor.
      - apply (output_switched_mono w w w1 w2 u t1 _ o o1);
          [done|done|done| |done].
        intros a Ha. apply elem_of_app. by left.
      - apply (outputs_switched_mono w w1 w2 w2 u t2 _ os os2);
          [done|done|done| |done].
        intros a Ha. apply elem_of_app. by right. }
    rewrite !count_if_app, Hc1, Hc1', Hc2, Hc2'.
    rewrite without_panel_cons, without_background_cons.
    rewrite (without_panel_mono w w1 u os Hsub1 Hos).
    rewrite (without_background_mono w w1 u os Hsub1 Hos).
    split; [done|]. split; [done|].
    intros A B.
    destruct (cached_panel w u o) eqn:Hcp; [|lia].
    destruct (cached_background w u o) eqn:Hcb; [|lia].
    rewrite Hsame2.
    + by apply Hsame1.
    + rewrite (without_panel_mono w w1 u os Hsub1 Hos). lia.
    + rewrite (without_background_mono w w1 u os Hsub1 Hos). lia.
Qed.

(** [desktop_shell_user_switched] as a whole. *)
Lemma user_switched_spec u w :
  is_Some (shell (desk w)) → heap_ok w →
  Forall (output_ok w) (outputs (desk w)) →
  ∃ t w', desktop_shell_user_switched u w = (t, Some ((), w'))
    ∧ current_user (desk w') = u
    ∧ shell (desk w') = shell (desk w)
    ∧ unlock_dialog (desk w') = unlock_dialog (desk w)
    ∧ deferred w' = unlock_task :: deferred w
    ∧ heap_ok w' ∧ heap w ⊆ heap w'
    ∧ Forall rebinding t
    ∧ Forall2 (output_switched w w' u t)
              (outputs (desk w)) (outputs (desk w'))
    ∧ count_if is_panel_create t = without_panel w u (outputs (desk w))
    ∧ count_if is_background_create t
      = without_background w u (outputs (desk w))
    ∧ (without_panel w u (outputs (desk w)) = 0%nat →
       without_background w u (outputs (desk w)) = 0%nat →
       heap w' = heap w ∧ next w' = next w).
Proof.
  intros [s Hs] Hok Hos.
  set (w0 := with_desk (set_current_user u) w).
  destruct (switch_outputs_spec u (outputs (desk w)) w0 s Hs Hok eq_refl Hos)
    as (t & os' & w1 & E & Hd & Hdf & Hok1 & Hsub & Hr & Hsw & Hc & Hc'
        & Hsame).
  eexists _, _. split.
  { unfold desktop_shell_user_switched. rewrite bind_modify, bind_gets.
    eapply bind_eq2; [exact E|]. rewrite bind_modify. reflexivity. }
  simpl. rewrite Hd, Hdf. simpl.
  split; [done|]. split; [done|]. split; [done|]. split; [done|].
  split; [done|]. split; [done|]. rewrite app_nil_r. split; [done|].
  split.
  { by apply (outputs_switched_mono w w0 w1 _ u t t _ os'). }
  split; [done|]. split; [done|].
  intros A B. by rewrite (Hsame A B).
Qed.

(** C4. For every user-switched(username) event received on a bound shell,
    with every output initialised: the handler completes; the current
    username is the new one; every registered output keeps its identity
    and, for its panel and likewise for its background, either a cached one
    of that user exists, the cache is unchanged (nothing is allocated for
    the output), and that cached one is active and announced by
    [set_panel] ([set_background]), or none exists and a new one, of that
    user, is created, put in the cache, made active and announced; as many
    panels (backgrounds) are created as there are outputs without a cached
    one, and none at all, the heap untouched, when every output has its
    cached pair; every object that existed still exists unchanged, the
    previously active pair included; the handler does nothing but create
    and announce (in particular no unlock is sent and no dialog
    destroyed), and the unlock-finish task is queued. *)
Theorem user_switched_rebinds (u : string) (w : world) :
  is_Some (shell (desk w)) → heap_ok w →
  Forall (output_ok w) (outputs (desk w)) →
  ∃ t w', desktop_shell_user_switched u w = (t, Some ((), w'))
    ∧ current_user (desk w') = u
    ∧ Forall2 (output_switched w w' u t)
              (outputs (desk w)) (outputs (desk w'))
    ∧ count_if is_panel_create t = without_panel w u (outputs (desk w))
    ∧ count_if is_background_create t
      = without_background w u (outputs (desk w))
    ∧ (without_panel w u (outputs (desk w)) = 0%nat →
       without_background w u (outputs (desk w)) = 0%nat →
       heap w' = heap w ∧ next w' = next w)
    ∧ heap w ⊆ heap w'
    ∧ Forall rebinding t
    ∧ deferred w' = unlock_task :: deferred w.
Proof.
  intros Hs Hok Hos.
  destruct (user_switched_spec u w Hs Hok Hos)
    as (t & w' & E & H1 & H2 & H3 & H4 & H5 & H6 & H7 & H8 & H9 & H10 & H11).
  exists t, w'. repeat split; try done; by apply H11.
Qed.

(** ** C5: the shell global and the outputs that came before it *)

Lemma output_bound_mono w w' o :
  heap w ⊆ heap w' → output_bound w o → output_bound w' o.
Proof.
  intros Hsub (p & b & x & y & H1 & H2 & H3 & H4 & H5 & H6).
  exists p, b, x, y. repeat split; try done; by eapply lookup_weaken.
Qed.

Lemma output_inited_bound w o :
  heap_ok w → output_bound (background_created (panel_created w))
                           (output_inited w o).
Proof.
  intros Hok. eexists _, _, _, _. repeat split.
  - rewrite background_created_old by (simpl; lia).
    apply panel_created_lookup.
  - apply (background_created_lookup (panel_created w)).
Qed.

Lemma with_panel_cons id o os :
  with_panel id (o :: os)
  = ((if bool_decide (wl_output o = id) && bool_decide (is_Some (out_panel o))
      then 1 else 0) + with_panel id os)%nat.
Proof. unfold with_panel. simpl. by destruct (_ && _). Qed.

Lemma with_background_cons id o os :
  with_background id (o :: os)
  = ((if bool_decide (wl_output o = id)
         && bool_decide (is_Some (out_background o))
      then 1 else 0) + with_background id os)%nat.
Proof. unfold with_background. simpl. by destruct (_ && _). Qed.

(** The trace of one [output_init] holds one request of each kind, for
    that output. *)
Lemma output_init_counts w o id :
  let t := [PanelCreate (S (next w));
            Request (set_panel (wl_output o) (next w));
            BackgroundCreate (S (S (S (next w))));
            Request (set_background (wl_output o) (S (S (next w))))] in
  count_if (is_set_panel id) t
  = (if bool_decide (wl_output o = id) then 1 else 0)%nat
  ∧ count_if (is_set_background id) t
    = (if bool_decide (wl_output o = id) then 1 else 0)%nat.
Proof. unfold count_if. simpl. by destruct (bool_decide _). Qed.

Lemma startup_step_trans ids1 ids2 w t1 w1 t2 w2 :
  startup_step ids1 w t1 w1 → startup_step ids2 w1 t2 w2 →
  startup_step (ids1 ++ ids2) w (t1 ++ t2) w2.
Proof.
  intros (H1 & H2 & H3 & H4 & H5) (G1 & G2 & G3 & G4 & G5).
  split; [done|]. split; [by etrans|]. split; [done|]. split.
  - by rewrite G4, H4, reverse_app, app_assoc.
  - intros id. destruct (H5 id), (G5 id). rewrite !count_if_app. lia.
Qed.

Lemma unbound_or_bound_mono w w' os :
  heap w ⊆ heap w' →
  Forall (λ o, output_unbound o ∨ output_bound w o) os →
  Forall (λ o, output_unbound o ∨ output_bound w' o) os.
Proof.
  intros Hsub H. eapply Forall_impl; [exact H|]. intros o [H'|H']; [by left|right].
  by eapply output_bound_mono.
Qed.

(** [global_handler] in closed form on a shell global. *)
Lemma global_handler_shell g w :
  g_interface g = "desktop_shell" →
  global_handler g w =
    ([DisplayBind (g_id g) "desktop_shell" (Z.min (g_version g) 2);
      AddListener (g_id g)],
     Some ((), with_desk (set_shell (Some (g_id g)))
                 (with_desk (set_interface_version (Z.min (g_version g) 2))
                            w))).
Proof.
  intros Hg. unfold global_handler. rewrite bool_decide_eq_true_2 by done.
  replace (if bool_decide (g_version g < 2) then g_version g else 2)
    with (Z.min (g_version g) 2) by (case_bool_decide; lia).
  by rewrite bind_modify, bind_emit, bind_modify.
Qed.

Lemma global_handler_other g w :
  g_interface g ≠ "desktop_shell" → g_interface g ≠ "wl_output" →
  global_handler g w = ([], Some ((), w)).
Proof.
  intros H1 H2. unfold global_handler.
  by rewrite !bool_decide_eq_false_2 by done.
Qed.

Lemma output_ids_cons g gs :
  output_ids (g :: gs)
  = (if negb (bool_decide (g_interface g = "desktop_shell"))
        && bool_decide (g_interface g = "wl_output")
     then [g_id g] else []) ++ output_ids gs.
Proof. unfold output_ids. simpl. by destruct (_ && _). Qed.

(** One global handled, from a world start-up can be in. *)
Lemma global_handler_step g w :
  heap_ok w →
  Forall (λ o, output_unbound o ∨ output_bound w o) (outputs (desk w)) →
  ∃ t w', global_handler g w = (t, Some ((), w'))
          ∧ startup_step (output_ids [g]) w t w'
          ∧ (g_interface g ≠ "desktop_shell" →
             shell (desk w') = shell (desk w)
             ∧ interface_version (desk w') = interface_version (desk w)
             ∧ AddListener (g_id g) ∉ t).
Proof.
  intros Hok Hos. rewrite output_ids_cons. unfold output_ids at 1. simpl.
  rewrite app_nil_r.
  destruct (decide (g_interface g = "desktop_shell")) as [Hg|Hg].
  { rewrite (global_handler_shell _ _ Hg). eexists _, _. split; [done|].
    rewrite bool_decide_eq_true_2 by done. simpl.
    split; [|done]. repeat split; try done. }
  rewrite (bool_decide_eq_false_2 _ Hg). simpl.
  destruct (decide (g_interface g = "wl_output")) as [Ho|Ho].
  2:{ rewrite (global_handler_other _ _ Hg Ho). eexists _, _.
      split; [done|]. rewrite bool_decide_eq_false_2 by done.
      split; [|by split; [|split; [|apply not_elem_of_nil]]].
      repeat split; try done. }
  rewrite bool_decide_eq_true_2 by done.
  unfold global_handler. rewrite bool_decide_eq_false_2 by done.
  rewrite bool_decide_eq_true_2 by done.
  unfold create_output. rewrite bind_emit. cbv zeta.
  rewrite bind_gets, bind_modify, bind_gets. simpl.
  destruct (shell (desk w)) as [s|] eqn:Hs.
  - set (o := mk_output (g_id g) (g_id g) None None None None).
    set (w1 := with_desk (set_outputs (o :: outputs (desk w))) w).
    assert (Hs1 : shell (desk w1) = Some s) by done.
    rewrite (bind_eq _ _ _ _ _ _ (output_init_eq o s w1 Hs1)).
    assert (Hok1 : heap_ok w1) by done.
    eexists _, _. split; [done|]. simpl.
    split; [|split; [done|split; [done|]]].
    + split; [apply background_created_ok, panel_created_ok, Hok1|].
      split.
      { etrans; [apply (panel_created_subseteq w1 Hok1)|].
        apply background_created_subseteq, panel_created_ok, Hok1. }
      split.
      { constructor.
        - right. apply (output_inited_bound w1 o Hok1).
        - eapply unbound_or_bound_mono; [|exact Hos].
          etrans; [apply (panel_created_subseteq w1 Hok1)|].
          apply background_created_subseteq, panel_created_ok, Hok1. }
      split; [done|].
      intros id.
      change (outputs (desk (with_desk _ _)))
        with (output_inited w1 o :: outputs (desk w)).
      rewrite with_panel_cons, with_background_cons. simpl.
      unfold count_if. simpl.
      by destruct (bool_decide (g_id g = id)).
    + intros Hin. repeat (apply elem_of_cons in Hin as [Hin|Hin]; [done|]).
      by apply elem_of_nil in Hin.
  - eexists _, _. split; [done|]. simpl.
    split; [|split; [done|split; [done|]]].
    + split; [done|]. split; [done|]. split.
      { constructor; [by left|done]. }
      split; [done|].
      intros id.
      change (outputs (desk (with_desk _ _)))
        with (mk_output (g_id g) (g_id g) None None None None
                :: outputs (desk w)).
      rewrite with_panel_cons, with_background_cons. simpl.
      rewrite !andb_false_r. done.
    + intros Hin. apply elem_of_cons in Hin as [Hin|Hin]; [done|].
      by apply elem_of_nil in Hin.
Qed.

Lemma for_each_app {A} (f : A → M unit) l1 l2 w :
  for_each f (l1 ++ l2) w = (for_each f l1 ;;; for_each f l2) w.
Proof.
  revert w. induction l1 as [|x l1 IH]; intros w; simpl.
  - by rewrite bind_ret.
  - rewrite bind_assoc. apply bind_ext. intros _ w1. apply IH.
Qed.

Lemma for_each_app_eq {A} (f : A → M unit) l1 l2 w t1 w1 t2 r :
  for_each f l1 w = (t1, Some ((), w1)) → for_each f l2 w1 = (t2, r) →
  for_each f (l1 ++ l2) w = (t1 ++ t2, r).
Proof. intros H1 H2. rewrite for_each_app. by eapply bind_eq2. Qed.

Lemma output_ids_app l1 l2 : output_ids (l1 ++ l2) = output_ids l1 ++ output_ids l2.
Proof. unfold output_ids. by rewrite List.filter_app, fmap_app. Qed.

(** All the globals handled. *)
Lemma globals_steps gs w :
  heap_ok w →
  Forall (λ o, output_unbound o ∨ output_bound w o) (outputs (desk w)) →
  ∃ t w', for_each global_handler gs w = (t, Some ((), w'))
          ∧ startup_step (output_ids gs) w t w'
          ∧ (Forall (λ g, g_interface g ≠ "desktop_shell") gs →
             shell (desk w') = shell (desk w)
             ∧ interface_version (desk w') = interface_version (desk w)).
Proof.
  revert w. induction gs as [|g gs IH]; intros w Hok Hos.
  - exists [], w. split; [done|]. split; [|done].
    split; [done|]. split; [done|]. split; [done|]. split; [done|].
    intros id. unfold count_if. simpl. lia.
  - destruct (global_handler_step g w Hok Hos) as (t1 & w1 & E1 & S1 & K1).
    destruct S1 as (Hok1 & Hsub1 & Hos1 & Hids1 & Hc1).
    destruct (IH w1 Hok1 Hos1) as (t2 & w2 & E2 & S2 & K2).
    exists (t1 ++ t2), w2. split.
    { simpl. by rewrite (bind_eq _ _ _ _ _ _ E1), E2. }
    split.
    { change (g :: gs) with ([g] ++ gs). rewrite output_ids_app.
      by eapply startup_step_trans. }
    intros Hns. apply Forall_cons in Hns as [Hg Hns].
    destruct (K1 Hg) as (A1 & A2 & _). destruct (K2 Hns) as (B1 & B2).
    split; congruence.
Qed.

Lemma init_missing_spec os w s :
  shell (desk w) = Some s → heap_ok w →
  Forall (λ o, output_unbound o ∨ output_bound w o) os →
  ∃ t os' w', map_each init_missing os w = (t, Some (os', w'))
    ∧ heap_ok w' ∧ heap w ⊆ heap w' ∧ desk w' = desk w
    ∧ Forall (output_bound w') os'
    ∧ wl_output <$> os' = wl_output <$> os
    ∧ ∀ id,
        (count_if (is_set_panel id) t + with_panel id os
         = with_panel id os')%nat
        ∧ (count_if (is_set_background id) t + with_background id os
           = with_background id os')%nat.
Proof.
  revert w. induction os as [|o os IH]; intros w Hs Hok Hos.
  - exists [], [], w. repeat split; try done.
  - apply Forall_cons in Hos as [Ho Hos]. simpl.
    assert (∃ t1 o1 w1, init_missing o w = (t1, Some (o1, w1))
              ∧ heap_ok w1 ∧ heap w ⊆ heap w1 ∧ desk w1 = desk w
              ∧ output_bound w1 o1 ∧ wl_output o1 = wl_output o
              ∧ ∀ id,
                  (count_if (is_set_panel id) t1 + with_panel id [o]
                   = with_panel id [o1])%nat
                  ∧ (count_if (is_set_background id) t1
                     + with_background id [o]
                     = with_background id [o1])%nat)
      as (t1 & o1 & w1 & E1 & Hok1 & Hsub1 & Hd1 & Hb1 & Hwl1 & Hc1).
    { unfold init_missing. destruct Ho as [[Hp Hb]|Hb].
      - rewrite Hp, (output_init_eq o s w Hs). eexists _, _, _.
        split; [done|].
        split; [by apply background_created_ok, panel_created_ok|].
        split.
        { etrans; [by apply panel_created_subseteq|].
          by apply background_created_subseteq, panel_created_ok. }
        split; [done|]. split; [by apply output_inited_bound|].
        split; [done|]. intros id.
        rewrite !with_panel_cons, !with_background_cons, Hp, Hb.
        unfold count_if. simpl. by destruct (bool_decide (wl_output o = id)).
      - destruct Hb as (p & b & x & y & Hp & Hb'). rewrite Hp.
        exists [], o, w. repeat split; try done.
        by exists p, b, x, y. }
    assert (Hs1 : shell (desk w1) = Some s) by (by rewrite Hd1).
    destruct (IH w1 Hs1 Hok1 (unbound_or_bound_mono _ _ _ Hsub1 Hos))
      as (t2 & os2 & w2 & E2 & Hok2 & Hsub2 & Hd2 & Hb2 & Hwl2 & Hc2).
    exists (t1 ++ t2), (o1 :: os2), w2.
    rewrite (bind_eq _ _ _ _ _ _ E1), (bind_eq _ _ _ _ _ _ E2). simpl.
    rewrite app_nil_r. split; [done|]. split; [done|].
    split; [by etrans|]. split; [by rewrite Hd2|].
    split; [constructor; [by eapply output_bound_mono|done]|].
    split; [by f_equal|].
    intros id. destruct (Hc1 id) as [A1 B1], (Hc2 id) as [A2 B2].
    rewrite !with_panel_cons, !with_background_cons in *.
    unfold with_panel, with_background in A1, B1. simpl in A1, B1.
    rewrite !count_if_app. lia.
Qed.

Lemma with_panel_bound w id os :
  Forall (output_bound w) os →
  with_panel id os = count_occ Z.eq_dec (wl_output <$> os) id
  ∧ with_background id os = count_occ Z.eq_dec (wl_output <$> os) id.
Proof.
  induction 1 as [|o os Ho _ [IH1 IH2]]; [done|].
  destruct Ho as (p & b & x & y & Hp & _ & Hb & _).
  rewrite with_panel_cons, with_background_cons, Hp, Hb, IH1, IH2. simpl.
  destruct (Z.eq_dec (wl_output o) id) as [->|Hne].
  - by rewrite bool_decide_eq_true_2.
  - by rewrite bool_decide_eq_false_2.
Qed.

Lemma count_occ_reverse (l : list Z) x :
  count_occ Z.eq_dec (reverse l) x = count_occ Z.eq_dec l x.
Proof.
  revert x. apply Permutation_count_occ, reverse_Permutation.
Qed.

Lemma grab_surface_create_eq s w :
  shell (desk w) = Some s →
  grab_surface_create w =
    ([Request (set_grab_surface (next w))],
     Some ((), mk_world (desk w) (<[next w := O_window None]> (heap w))
                        (S (next w)) (deferred w))).
Proof.
  intros Hs. unfold grab_surface_create, window_create_custom.
  unfold bind, alloc. simpl. unfold shell_request, bind, gets. simpl.
  by rewrite Hs.
Qed.

Lemma initial_world_ok cfg : heap_ok (initial_world cfg).
Proof. intros p _. apply lookup_empty. Qed.

(** C5. When a global-added event carries the shell interface, the handler
    records min(server version, 2) as the negotiated version, binds the
    shell and registers the listener.  At start-up, whatever globals come
    before and after the (last) shell global, [main] completes, the
    version, the shell and the listener are those of that global, the
    registry holds one output per output global, every one of them is
    initialised (panel and background bound, live, alone in their lists),
    and for every output id the trace holds as many [set_panel] and as many
    [set_background] requests as there are output globals with that id:
    one for each output, none missing and none sent twice, whether the
    output came before the shell or after it. *)
Theorem shell_global_binds_outputs_once (cfg : bool) (l1 l2 : list global)
    (g : global) :
  g_interface g = "desktop_shell" →
  Forall (λ g', g_interface g' ≠ "desktop_shell") l2 →
  (∀ w, global_handler g w =
          ([DisplayBind (g_id g) "desktop_shell" (Z.min (g_version g) 2);
            AddListener (g_id g)],
           Some ((), with_desk (set_shell (Some (g_id g)))
                       (with_desk
                          (set_interface_version (Z.min (g_version g) 2))
                          w))))
  ∧ ∃ t w',
      main_startup (l1 ++ g :: l2) (initial_world cfg) = (t, Some ((), w'))
      ∧ shell (desk w') = Some (g_id g)
      ∧ interface_version (desk w') = Z.min (g_version g) 2
      ∧ AddListener (g_id g) ∈ t
      ∧ wl_output <$> outputs (desk w') = reverse (output_ids (l1 ++ g :: l2))
      ∧ Forall (output_bound w') (outputs (desk w'))
      ∧ ∀ id,
          count_if (is_set_panel id) t
          = count_occ Z.eq_dec (output_ids (l1 ++ g :: l2)) id
          ∧ count_if (is_set_background id) t
            = count_occ Z.eq_dec (output_ids (l1 ++ g :: l2)) id.
Proof.
  intros Hg Hl2. split; [intros w; by apply global_handler_shell|].
  set (w0 := initial_world cfg).
  destruct (globals_steps l1 w0 (initial_world_ok cfg)) as
    (t1 & w1 & E1 & S1 & _); [constructor|].
  pose proof S1 as (Hok1 & _ & Hos1 & _).
  destruct (global_handler_step g w1 Hok1 Hos1) as (tg & wg & Eg & Sg & _).
  pose proof Sg as (Hokg & _ & Hosg & _).
  destruct (globals_steps l2 wg Hokg Hosg) as (t2 & w2 & E2 & S2 & K2).
  destruct (K2 Hl2) as (Hs2 & Hv2).
  pose proof Eg as Eg'. rewrite (global_handler_shell _ _ Hg) in Eg'.
  injection Eg' as <- <-. simpl in Hs2, Hv2.
  pose proof (startup_step_trans _ _ _ _ _ _ _ S1
                (startup_step_trans _ _ _ _ _ _ _ Sg S2)) as S.
  change [g] with ([] ++ [g]) in S.
  rewrite <- !output_ids_app in S. simpl in S.
  destruct S as (Hok2 & _ & Hos2 & Hids & Hc).
  destruct (init_missing_spec (outputs (desk w2)) w2 (g_id g) Hs2 Hok2 Hos2)
    as (t3 & os3 & w3 & E3 & Hok3 & Hsub3 & Hd3 & Hb3 & Hwl3 & Hc3).
  set (w4 := with_desk (set_outputs os3) w3).
  assert (Hs4 : shell (desk w4) = Some (g_id g)).
  { simpl. by rewrite Hd3. }
  eexists _, _. split.
  { unfold main_startup. eapply bind_eq2.
    { eapply for_each_app_eq; [exact E1|]. simpl.
      eapply bind_eq2; [exact Eg|exact E2]. }
    rewrite bind_gets. eapply bind_eq2; [exact E3|].
    rewrite bind_modify. apply (grab_surface_create_eq _ _ Hs4). }
  simpl. rewrite Hd3. split; [done|]. split; [done|].
  split.
  { apply elem_of_app. left. apply elem_of_app. right.
    apply elem_of_cons. right. apply list_elem_of_here. }
  split.
  { rewrite Hwl3, Hids. simpl. by rewrite app_nil_r. }
  split.
  { eapply Forall_impl; [exact Hb3|]. intros o Ho.
    eapply output_bound_mono; [|exact Ho]. simpl.
    apply insert_subseteq, Hok3. lia. }
  intros id. destruct (Hc id) as [A B], (Hc3 id) as [A3 B3].
  destruct (with_panel_bound w3 id os3 Hb3) as [P3 Q3].
  assert (Hfin : count_occ Z.eq_dec (wl_output <$> os3) id
                 = count_occ Z.eq_dec (output_ids (l1 ++ g :: l2)) id).
  { rewrite Hwl3, Hids. simpl. by rewrite app_nil_r, count_occ_reverse. }
  change (with_panel id (outputs (desk w0))) with 0%nat in A.
  change (with_background id (outputs (desk w0))) with 0%nat in B.
  rewrite count_if_app in A, B. rewrite <- Hfin. split.
  - rewrite <- P3, !count_if_app.
    change (count_if (is_set_panel id) [Request _]) with 0%nat. lia.
  - rewrite <- Q3, !count_if_app.
    change (count_if (is_set_background id) [Request _]) with 0%nat. lia.
Qed.

(** ** C6: removal of an output *)

Lemma background_destroy_eq b x w :
  heap w !! b = Some (O_background x) →
  is_Some (heap w !! background_window x) →
  background_window x ≠ b →
  background_destroy b w
  = ([BackgroundDestroy b],
     Some ((), with_heap (delete b)
                 (with_heap (delete (background_window x)) w))).
Proof.
  intros Hb [o Ho] Hne. unfold background_destroy.
  rewrite (bind_pure _ _ _ _ _ (load_background_eq _ _ _ Hb)).
  rewrite (bind_pure _ _ _ _ _ (free_eq _ _ _ Ho)).
  assert (Hb' : heap (with_heap (delete (background_window x)) w) !! b
                = Some (O_background x)).
  { simpl. by rewrite lookup_delete_ne. }
  by rewrite (bind_pure _ _ _ _ _ (free_eq _ _ _ Hb')).
Qed.

Lemma panel_destroy_eq p x w :
  heap w !! p = Some (O_panel x) →
  is_Some (heap w !! panel_window x) →
  panel_window x ≠ p →
  panel_destroy p w
  = ([PanelDestroy p],
     Some ((), with_heap (delete p)
                 (with_heap (delete (panel_window x)) w))).
Proof.
  intros Hp [o Ho] Hne. unfold panel_destroy.
  rewrite (bind_pure _ _ _ _ _ (load_panel_eq _ _ _ Hp)).
  rewrite (bind_pure _ _ _ _ _ (free_eq _ _ _ Ho)).
  assert (Hp' : heap (with_heap (delete (panel_window x)) w) !! p
                = Some (O_panel x)).
  { simpl. by rewrite lookup_delete_ne. }
  by rewrite (bind_pure _ _ _ _ _ (free_eq _ _ _ Hp')).
Qed.

Lemma freed_nil w : freed [] w w.
Proof. intros q. rewrite bool_decide_eq_false_2; [done|]. apply not_elem_of_nil. Qed.

Lemma freed_app c1 c2 w w1 w2 :
  freed c1 w w1 → freed c2 w1 w2 → freed (c1 ++ c2) w w2.
Proof.
  intros H1 H2 q. rewrite H2, H1.
  destruct (decide (q ∈ c2)) as [Hq2|Hq2].
  - rewrite (bool_decide_eq_true_2 _ Hq2).
    rewrite bool_decide_eq_true_2; [done|]. apply elem_of_app. by right.
  - rewrite (bool_decide_eq_false_2 _ Hq2).
    destruct (decide (q ∈ c1)) as [Hq1|Hq1].
    + rewrite (bool_decide_eq_true_2 _ Hq1).
      rewrite bool_decide_eq_true_2; [done|]. apply elem_of_app. by left.
    + rewrite (bool_decide_eq_false_2 _ Hq1).
      rewrite bool_decide_eq_false_2; [done|].
      intros [?|?]%elem_of_app; done.
Qed.

Lemma freed_two a b w :
  freed [a; b] w (with_heap (delete b) (with_heap (delete a) w)).
Proof.
  intros q. simpl. rewrite !lookup_delete.
  destruct (decide (b = q)) as [->|Hb].
  { rewrite bool_decide_eq_true_2; [done|].
    apply list_elem_of_further, list_elem_of_here. }
  destruct (decide (a = q)) as [->|Ha].
  { rewrite bool_decide_eq_true_2; [done|]. apply list_elem_of_here. }
  rewrite bool_decide_eq_false_2; [done|].
  intros Hq. apply elem_of_cons in Hq as [->|Hq]; [done|].
  apply elem_of_cons in Hq as [->|Hq]; [done|]. by apply elem_of_nil in Hq.
Qed.

Lemma freed_other c w w' q : freed c w w' → q ∉ c → heap w' !! q = heap w !! q.
Proof. intros H Hq. by rewrite H, bool_decide_eq_false_2. Qed.

Lemma freed_gone c w w' q : freed c w w' → q ∈ c → heap w' !! q = None.
Proof. intros H Hq. by rewrite H, bool_decide_eq_true_2. Qed.

(** Freeing other addresses leaves live backgrounds live, with the same
    cells. *)
Lemma background_cells_stable c w w1 bs :
  freed c w w1 →
  (∀ q, q ∈ concat (background_cells w <$> bs) → q ∉ c) →
  Forall (background_live w) bs →
  Forall (background_live w1) bs
  ∧ background_cells w1 <$> bs = background_cells w <$> bs.
Proof.
  intros Hf Hdis Hl. induction Hl as [|b bs (x & Hb & Hw) _ IH]; [done|].
  simpl in Hdis. unfold background_cells at 1 in Hdis. rewrite Hb in Hdis.
  assert (Hb1 : heap w1 !! b = Some (O_background x)).
  { rewrite (freed_other _ _ _ _ Hf); [done|]. apply Hdis.
    apply list_elem_of_further, list_elem_of_here. }
  assert (Hw1 : heap w1 !! background_window x
                = heap w !! background_window x).
  { apply (freed_other _ _ _ _ Hf), Hdis, list_elem_of_here. }
  destruct IH as [IH1 IH2].
  { intros q Hq. apply Hdis. by do 2 apply list_elem_of_further. }
  split.
  - constructor; [|done]. exists x. by rewrite Hw1.
  - rewrite !fmap_cons, IH2. unfold background_cells. by rewrite Hb, Hb1.
Qed.

Lemma panel_cells_stable c w w1 ps :
  freed c w w1 →
  (∀ q, q ∈ concat (panel_cells w <$> ps) → q ∉ c) →
  Forall (panel_live w) ps →
  Forall (panel_live w1) ps
  ∧ panel_cells w1 <$> ps = panel_cells w <$> ps.
Proof.
  intros Hf Hdis Hl. induction Hl as [|p ps (x & Hp & Hw) _ IH]; [done|].
  simpl in Hdis. unfold panel_cells at 1 in Hdis. rewrite Hp in Hdis.
  assert (Hp1 : heap w1 !! p = Some (O_panel x)).
  { rewrite (freed_other _ _ _ _ Hf); [done|]. apply Hdis.
    apply list_elem_of_further, list_elem_of_here. }
  assert (Hw1 : heap w1 !! panel_window x = heap w !! panel_window x).
  { apply (freed_other _ _ _ _ Hf), Hdis, list_elem_of_here. }
  destruct IH as [IH1 IH2].
  { intros q Hq. apply Hdis. by do 2 apply list_elem_of_further. }
  split.
  - constructor; [|done]. exists x. by rewrite Hw1.
  - rewrite !fmap_cons, IH2. unfold panel_cells. by rewrite Hp, Hp1.
Qed.

(** The loop of [output_destroy] over the backgrounds. *)
Lemma destroy_backgrounds_spec bs w :
  Forall (background_live w) bs →
  NoDup (concat (background_cells w <$> bs)) →
  ∃ w', for_each background_destroy bs w
        = (BackgroundDestroy <$> bs, Some ((), w'))
    ∧ desk w' = desk w ∧ next w' = next w ∧ deferred w' = deferred w
    ∧ freed (concat (background_cells w <$> bs)) w w'.
Proof.
  revert w. induction bs as [|b bs IH]; intros w Hl Hnd.
  - exists w. repeat split; try done.
  - apply Forall_cons in Hl as [(x & Hb & Hw) Hl].
    simpl in Hnd. unfold background_cells at 1 in Hnd. rewrite Hb in Hnd.
    simpl in Hnd. apply NoDup_cons in Hnd as [Hwin Hnd].
    apply NoDup_cons in Hnd as [Hbn Hnd].
    assert (Hne : background_window x ≠ b).
    { intros Heq. apply Hwin. rewrite Heq. apply list_elem_of_here. }
    pose proof (background_destroy_eq b x w Hb Hw Hne) as E1.
    set (w1 := with_heap (delete b)
                 (with_heap (delete (background_window x)) w)) in *.
    pose proof (freed_two (background_window x) b w) as Hf1. fold w1 in Hf1.
    destruct (background_cells_stable _ w w1 bs Hf1) as [Hl1 Hc1]; [|done|].
    { intros q Hq Hq'. apply elem_of_cons in Hq' as [->|Hq'].
      - apply Hwin. by apply list_elem_of_further.
      - apply elem_of_cons in Hq' as [->|Hq']; [done|].
        by apply elem_of_nil in Hq'. }
    destruct (IH w1 Hl1) as (w2 & E2 & Hd2 & Hn2 & Hdf2 & Hf2).
    { by rewrite Hc1. }
    exists w2. split.
    { change (BackgroundDestroy <$> b :: bs)
        with ([BackgroundDestroy b] ++ (BackgroundDestroy <$> bs)).
      simpl for_each. eapply bind_eq2; [exact E1|exact E2]. }
    split; [done|]. split; [done|]. split; [done|].
    rewrite fmap_cons. cbn [concat]. unfold background_cells at 1.
    rewrite Hb. eapply freed_app; [exact Hf1|]. by rewrite <- Hc1.
Qed.

Lemma destroy_panels_spec ps w :
  Forall (panel_live w) ps →
  NoDup (concat (panel_cells w <$> ps)) →
  ∃ w', for_each panel_destroy ps w
        = (PanelDestroy <$> ps, Some ((), w'))
    ∧ desk w' = desk w ∧ next w' = next w ∧ deferred w' = deferred w
    ∧ freed (concat (panel_cells w <$> ps)) w w'.
Proof.
  revert w. induction ps as [|p ps IH]; intros w Hl Hnd.
  - exists w. repeat split; try done.
  - apply Forall_cons in Hl as [(x & Hp & Hw) Hl].
    simpl in Hnd. unfold panel_cells at 1 in Hnd. rewrite Hp in Hnd.
    simpl in Hnd. apply NoDup_cons in Hnd as [Hwin Hnd].
    apply NoDup_cons in Hnd as [Hpn Hnd].
    assert (Hne : panel_window x ≠ p).
    { intros Heq. apply Hwin. rewrite Heq. apply list_elem_of_here. }
    pose proof (panel_destroy_eq p x w Hp Hw Hne) as E1.
    set (w1 := with_heap (delete p)
                 (with_heap (delete (panel_window x)) w)) in *.
    pose proof (freed_two (panel_window x) p w) as Hf1. fold w1 in Hf1.
    destruct (panel_cells_stable _ w w1 ps Hf1) as [Hl1 Hc1]; [|done|].
    { intros q Hq Hq'. apply elem_of_cons in Hq' as [->|Hq'].
      - apply Hwin. by apply list_elem_of_further.
      - apply elem_of_cons in Hq' as [->|Hq']; [done|].
        by apply elem_of_nil in Hq'. }
    destruct (IH w1 Hl1) as (w2 & E2 & Hd2 & Hn2 & Hdf2 & Hf2).
    { by rewrite Hc1. }
    exists w2. split.
    { change (PanelDestroy <$> p :: ps)
        with ([PanelDestroy p] ++ (PanelDestroy <$> ps)).
      simpl for_each. eapply bind_eq2; [exact E1|exact E2]. }
    split; [done|]. split; [done|]. split; [done|].
    rewrite fmap_cons. cbn [concat]. unfold panel_cells at 1.
    rewrite Hp. eapply freed_app; [exact Hf1|]. by rewrite <- Hc1.
Qed.

Lemma surface_cells_members w bs ps :
  Forall (background_live w) bs → Forall (panel_live w) ps →
  (∀ b, b ∈ bs → b ∈ surface_cells w bs ps)
  ∧ (∀ p, p ∈ ps → p ∈ surface_cells w bs ps).
Proof.
  intros Hb Hp. unfold surface_cells. split.
  - intros b Hin. apply elem_of_app. left.
    rewrite Forall_forall in Hb. destruct (Hb b Hin) as (x & Hx & _).
    apply list_elem_of_In, in_concat. exists (background_cells w b). split.
    + by apply list_elem_of_In, list_elem_of_fmap_2.
    + apply list_elem_of_In. unfold background_cells. rewrite Hx.
      apply list_elem_of_further, list_elem_of_here.
  - intros p Hin. apply elem_of_app. right.
    rewrite Forall_forall in Hp. destruct (Hp p Hin) as (x & Hx & _).
    apply list_elem_of_In, in_concat. exists (panel_cells w p). split.
    + by apply list_elem_of_In, list_elem_of_fmap_2.
    + apply list_elem_of_In. unfold panel_cells. rewrite Hx.
      apply list_elem_of_further, list_elem_of_here.
Qed.

(** [output_destroy] on an output it can run on. *)
Lemma output_destroy_spec i o w :
  outputs (desk w) !! i = Some o → output_owned w o →
  ∃ ps bs w',
    out_panels o = Some ps ∧ out_backgrounds o = Some bs
    ∧ output_destroy i w
      = ((BackgroundDestroy <$> bs) ++ (PanelDestroy <$> ps)
           ++ [WlOutputDestroy (wl_output o)],
         Some ((), w'))
    ∧ outputs (desk w') = delete i (outputs (desk w))
    ∧ freed (surface_cells w bs ps) w w'
    ∧ (∀ p, p ∈ ps → heap w' !! p = None)
    ∧ (∀ b, b ∈ bs → heap w' !! b = None)
    ∧ (∀ p, out_panel o = Some p → heap w' !! p = None)
    ∧ (∀ b, out_background o = Some b → heap w' !! b = None).
Proof.
  intros Hi (ps & bs & Hps & Hbs & Lp & Lb & Hnd & Ap & Ab).
  unfold surface_cells in Hnd. apply NoDup_app in Hnd as (Hnb & Hdis & Hnp).
  destruct (destroy_backgrounds_spec bs w Lb Hnb)
    as (w1 & E1 & Hd1 & Hn1 & Hdf1 & Hf1).
  destruct (panel_cells_stable _ w w1 ps Hf1) as [Lp1 Hc1]; [|done|].
  { intros q Hq Hq'. by apply (Hdis q). }
  destruct (destroy_panels_spec ps w1 Lp1) as (w2 & E2 & Hd2 & Hn2 & Hdf2 & Hf2).
  { by rewrite Hc1. }
  rewrite Hc1 in Hf2.
  pose proof (freed_app _ _ _ _ _ Hf1 Hf2) as Hf.
  destruct (surface_cells_members w bs ps Lb Lp) as [Mb Mp].
  exists ps, bs, (with_desk (set_outputs (delete i (outputs (desk w)))) w2).
  split; [done|]. split; [done|]. split.
  { unfold output_destroy. rewrite bind_gets, Hi, Hbs, Hps.
    eapply bind_eq2; [exact E1|]. eapply bind_eq2; [exact E2|].
    rewrite bind_emit. reflexivity. }
  split; [done|]. split; [done|].
  split; [intros p Hp; by apply (freed_gone _ _ _ _ Hf), Mp|].
  split; [intros b Hb; by apply (freed_gone _ _ _ _ Hf), Mb|].
  split.
  - intros p Hp. by apply (freed_gone _ _ _ _ Hf), Mp, Ap.
  - intros b Hb. by apply (freed_gone _ _ _ _ Hf), Mb, Ab.
Qed.

(** C6. For every global-removed event naming an output id: if no output
    with that id is registered the handler does nothing and the state is
    unchanged; if one is (the first in the registry), and it owns live
    surfaces, the handler completes, the output is removed from the
    registry (no output with that id remains when ids are unique), every
    panel and every background of its lists is destroyed, one destroy call
    each, backgrounds first, the active panel and background among them,
    and the heap loses exactly the destroyed surfaces and their windows. *)
Theorem global_remove_destroys_output (id : Z) (w : world) :
  (list_find (λ o, server_output_id o = id) (outputs (desk w)) = None →
   global_handler_remove id "wl_output" w = ([], Some ((), w)))
  ∧ (∀ i o,
       list_find (λ o, server_output_id o = id) (outputs (desk w))
       = Some (i, o) →
       output_owned w o →
       ∃ ps bs w',
         out_panels o = Some ps ∧ out_backgrounds o = Some bs
         ∧ global_handler_remove id "wl_output" w
           = ((BackgroundDestroy <$> bs) ++ (PanelDestroy <$> ps)
                ++ [WlOutputDestroy (wl_output o)],
              Some ((), w'))
         ∧ outputs (desk w') = delete i (outputs (desk w))
         ∧ (NoDup (server_output_id <$> outputs (desk w)) →
            Forall (λ o', server_output_id o' ≠ id) (outputs (desk w')))
         ∧ freed (surface_cells w bs ps) w w'
         ∧ (∀ p, p ∈ ps → heap w' !! p = None)
         ∧ (∀ b, b ∈ bs → heap w' !! b = None)
         ∧ (∀ p, out_panel o = Some p → heap w' !! p = None)
         ∧ (∀ b, out_background o = Some b → heap w' !! b = None)).
Proof.
  split.
  - intros Hnone. unfold global_handler_remove.
    rewrite bool_decide_eq_true_2 by done. by rewrite bind_gets, Hnone.
  - intros i o Hfind Hown.
    pose proof Hfind as (Hi & Hid & _)%list_find_Some.
    destruct (output_destroy_spec i o w Hi Hown)
      as (ps & bs & w' & Hps & Hbs & E & Hos & Hf & H1 & H2 & H3 & H4).
    exists ps, bs, w'. split; [done|]. split; [done|]. split.
    { unfold global_handler_remove.
      rewrite bool_decide_eq_true_2 by done. by rewrite bind_gets, Hfind. }
    split; [done|]. split; [|done].
    intros Hnd. rewrite Hos. apply Forall_forall. intros o' Hin Hid'.
    apply list_elem_of_lookup in Hin as [j Hj].
    assert (∃ j', j' ≠ i ∧ outputs (desk w) !! j' = Some o') as (j' & Hne & Hj').
    { destruct (decide (j < i)%nat).
      - exists j. split; [lia|]. by rewrite list_lookup_delete_lt in Hj.
      - exists (S j). split; [lia|]. by rewrite list_lookup_delete_ge in Hj by lia. }
    apply Hne. eapply (NoDup_lookup _ j' i id Hnd).
    + by rewrite list_lookup_fmap, Hj'; simpl; rewrite Hid'.
    + by rewrite list_lookup_fmap, Hi; simpl; rewrite Hid.
Qed.

(** ** C7: the painted flag *)

Lemma read_only_ret {A} (a : A) : read_only (ret a).
Proof. by apply preserves_ret. Qed.
Lemma read_only_crash {A} : read_only (@crash A).
Proof. apply preserves_crash. Qed.
Lemma read_only_emit a : read_only (emit a).
Proof. by apply preserves_emit. Qed.
Lemma read_only_load p : read_only (load p).
Proof. by apply preserves_load. Qed.
Lemma read_only_bind {A B} (m : M A) (k : A → M B) :
  read_only m → (∀ a, read_only (k a)) → read_only (bind m k).
Proof. apply preserves_bind; [done|]. by intros ? ? ? -> ->. Qed.

Ltac read_only_tac :=
  repeat first
    [ apply read_only_ret | apply read_only_crash | apply read_only_emit
    | apply read_only_load | apply read_only_bind; [|intros ?]
    | match goal with
      | |- read_only (match ?x with _ => _ end) => destruct x
      end ].

Lemma read_only_configure s e width height :
  read_only (desktop_shell_configure s e width height).
Proof.
  unfold desktop_shell_configure, panel_configure, background_configure,
    window_get_user_data, load_panel, load_background.
  read_only_tac.
Qed.

Lemma read_only_panel_resize p width height :
  read_only (panel_resize_handler p width height).
Proof. unfold panel_resize_handler, load_panel. read_only_tac. Qed.

Lemma read_only_final {A} (m : M A) w w' :
  read_only m → final m w = Some w' → w' = w.
Proof.
  intros Hm. unfold final, outcome. destruct (Hm w) as [_ H].
  destruct ((m w).2) as [[a w1]|]; [|done]. intros [= <-].
  symmetry. by apply (H a).
Qed.

Lemma check_desktop_ready_heap w w' :
  final check_desktop_ready w = Some w' → heap w' = heap w.
Proof.
  unfold final, outcome.
  destruct (is_desktop_painted_spec w) as (r & Hr & _).
  rewrite (check_desktop_ready_unfold _ _ Hr).
  destruct (painted (desk w)); [by intros [= <-]|].
  destruct r as [[|]|]; [|by intros [= <-]|done].
  destruct (bool_decide _); [destruct (shell (desk w))|]; simpl;
    by intros [= <-].
Qed.

(** C7, as stated, fails: a configure event on the surface of a panel
    that has painted leaves its painted flag set. *)
Lemma painted_survives_resize : ¬ resize_clears_painted painted_world 2.
Proof.
  intros H.
  destruct (H (mk_panel 1 true "Guest") 0 1024 768 painted_world
              eq_refl eq_refl) as (x' & Hx' & Hp).
  vm_compute in Hx'. injection Hx' as <-. discriminate Hp.
Qed.

(** C7, amended. For every panel and background surface, the painted flag
    becomes true when the surface completes a paint, and a resize does not
    clear it: a configure event, on any surface, and the resize handler of
    a panel leave the whole state, the painted flags included, as it
    was. *)
Theorem painted_set_by_paint_kept_by_resize (w : world) :
  (∀ p w', final (panel_redraw_handler p) w = Some w' →
           ∃ x, heap w' !! p = Some (O_panel x) ∧ panel_painted x = true)
  ∧ (∀ b w', final (background_draw b) w = Some w' →
             ∃ x, heap w' !! b = Some (O_background x)
                  ∧ background_painted x = true)
  ∧ (∀ s e width height w',
       final (desktop_shell_configure s e width height) w = Some w' →
       w' = w)
  ∧ (∀ p width height w',
       final (panel_resize_handler p width height) w = Some w' → w' = w).
Proof.
  split; [|split; [|split]].
  - intros p w'. unfold final, outcome.
    rewrite panel_redraw_handler_unfold.
    destruct (heap w !! p) as [[x| | | | |]|]; try done.
    intros H. apply check_desktop_ready_heap in H. rewrite H. simpl.
    eexists. by rewrite lookup_insert_eq.
  - intros b w'. unfold final, outcome.
    rewrite background_draw_unfold.
    destruct (heap w !! b) as [[|x| | | |]|]; try done.
    intros H. apply check_desktop_ready_heap in H. rewrite H. simpl.
    eexists. by rewrite lookup_insert_eq.
  - intros s e width height w'. apply read_only_final, read_only_configure.
  - intros p width height w'. apply read_only_final, read_only_panel_resize.
Qed.

(** ** C8: the resize policy of configure *)

(** C8. For every configure event with requested size (width, height) on a
    surface whose window belongs to a panel, the handler schedules the size
    (width, 32) whatever the requested height; on a surface whose window
    belongs to a background it schedules exactly (width, height).  Nothing
    else is done and the state is unchanged. *)
Theorem configure_resize_policy (w : world) (surface owner : ptr)
    (edges width height : Z) :
  heap w !! surface = Some (O_window (Some owner)) →
  (∀ x, heap w !! owner = Some (O_panel x) →
     desktop_shell_configure surface edges width height w
     = ([WindowScheduleResize (panel_window x) width 32], Some ((), w)))
  ∧ (∀ x, heap w !! owner = Some (O_background x) →
     desktop_shell_configure surface edges width height w
     = ([WidgetScheduleResize (background_window x) width height],
        Some ((), w))).
Proof.
  intros Hs. split; intros x Hx; unfold desktop_shell_configure.
  - rewrite (bind_eq _ _ _ _ _ _ (window_get_user_data_eq _ _ _ Hs)).
    rewrite (bind_eq _ _ _ _ _ _ (load_eq _ _ _ Hx)). simpl.
    unfold panel_configure.
    rewrite (bind_eq _ _ _ _ _ _ (window_get_user_data_eq _ _ _ Hs)).
    rewrite (bind_eq _ _ _ _ _ _ (load_panel_eq _ _ _ Hx)). reflexivity.
  - rewrite (bind_eq _ _ _ _ _ _ (window_get_user_data_eq _ _ _ Hs)).
    rewrite (bind_eq _ _ _ _ _ _ (load_eq _ _ _ Hx)). simpl.
    unfold background_configure.
    rewrite (bind_eq _ _ _ _ _ _ (window_get_user_data_eq _ _ _ Hs)).
    rewrite (bind_eq _ _ _ _ _ _ (load_background_eq _ _ _ Hx)). reflexivity.
Qed.

(** ** C9: text edits of the password sub-dialog *)

Lemma password_dialog_edit_spec xkb x sym :
  cursor_ok x →
  ∃ x', (∀ w, password_dialog_edit xkb x sym w = ([], Some (x', w)))
        ∧ edited xkb sym x x'.
Proof.
  intros Hc. unfold cursor_ok in Hc. unfold password_dialog_edit, edited.
  destruct x as [win text n entry]. simpl in *.
  case_bool_decide as Hbs.
  { case_bool_decide as Hz.
    - exists (mk_password_dialog win text n entry). split; [done|].
      subst n. unfold cursor_ok. simpl. repeat split; try done; try lia.
    - unfold text_backspace. simpl.
      rewrite bool_decide_eq_true_2 by lia.
      eexists. split; [done|]. unfold cursor_ok. simpl.
      rewrite length_app, length_take, length_drop.
      repeat split; try done; try lia. }
  case_bool_decide as Hsp.
  { exists (mk_password_dialog win text n entry). split; [done|].
    unfold cursor_ok. simpl. repeat split; try done; try lia. }
  case_bool_decide as Hlen.
  { exists (mk_password_dialog win text n entry). split; [done|].
    unfold cursor_ok. simpl. repeat split; try done; try lia. }
  destruct (xkb sym) as [|c [|c' l]] eqn:Hx.
  - exists (mk_password_dialog win text n entry). split; [done|].
    unfold cursor_ok. simpl. repeat split; try done; try lia.
  - unfold text_insert. simpl. rewrite bool_decide_eq_true_2 by lia.
    eexists. split; [done|]. unfold cursor_ok. simpl.
    rewrite length_app. simpl. rewrite length_take, length_drop.
    repeat split; try done; try lia.
    intros _ _. by exists c.
  - exists (mk_password_dialog win text n entry). split; [done|].
    unfold cursor_ok. simpl. repeat split; try done; try lia.
Qed.

(** One editing key event handled. *)
Lemma key_handler_edit xkb d st sym w x e ud :
  heap w !! d = Some (O_password_dialog x) →
  heap w !! pd_entry x = Some (O_user_entry e) →
  heap w !! ue_dialog e = Some (O_unlock_dialog ud) →
  cursor_ok x → edit_key (st, sym) →
  ∃ x',
    password_dialog_key_handler xkb d st sym w
    = (match st with
       | WL_KEYBOARD_KEY_STATE_RELEASED => []
       | WL_KEYBOARD_KEY_STATE_PRESSED => [WidgetScheduleRedraw (pd_window x)]
       end,
       Some ((), match st with
                 | WL_KEYBOARD_KEY_STATE_RELEASED => w
                 | WL_KEYBOARD_KEY_STATE_PRESSED =>
                     with_heap (insert d (O_password_dialog x')) w
                 end))
    ∧ match st with
      | WL_KEYBOARD_KEY_STATE_RELEASED => x' = x
      | WL_KEYBOARD_KEY_STATE_PRESSED => edited xkb sym x x'
      end.
Proof.
  intros Hd He Hu Hc Hk. unfold password_dialog_key_handler.
  rewrite (bind_pure _ _ _ _ _ (load_password_dialog_eq _ _ _ Hd)).
  rewrite (bind_pure _ _ _ _ _ (load_user_entry_eq _ _ _ He)).
  rewrite (bind_pure _ _ _ _ _ (load_unlock_dialog_eq _ _ _ Hu)).
  destruct st; [by exists x|].
  destruct (Hk eq_refl) as (H1 & H2 & H3). simpl in H1, H2, H3.
  rewrite bool_decide_eq_false_2 by done.
  rewrite bool_decide_eq_false_2 by (by intros [?|?]).
  destruct (password_dialog_edit_spec xkb x sym Hc) as (x' & E & Hed).
  exists x'. split; [|done].
  rewrite (bind_pure _ _ _ _ _ (E w)).
  by rewrite (bind_pure _ _ _ _ _ (store_eq _ _ _ _ Hd)).
Qed.

Lemma key_handler_keeps_typing xkb d st sym w :
  typing_ok w d → edit_key (st, sym) →
  ∃ t w', password_dialog_key_handler xkb d st sym w = (t, Some ((), w'))
          ∧ typing_ok w' d.
Proof.
  intros (x & e & ud & Hd & He & Hu & Hc) Hk.
  destruct (key_handler_edit xkb d st sym w x e ud Hd He Hu Hc Hk)
    as (x' & E & Hx').
  eexists _, _. split; [exact E|]. destruct st.
  - by exists x, e, ud.
  - destruct Hx' as (Hw & Hen & Hc' & _).
    assert (d ≠ pd_entry x) by (intros Heq; rewrite <- Heq in He; congruence).
    assert (d ≠ ue_dialog e) by (intros Heq; rewrite <- Heq in Hu; congruence).
    exists x', e, ud. simpl. rewrite lookup_insert_eq, Hen.
    by rewrite !lookup_insert_ne.
Qed.

(** C9, as stated, fails in its last clause: the code tests how long the
    encoding of the key is (lines 1015 to 1018 of the source), not what
    the character is.  The line feed key has an encoding of one unit, the
    control character 10, and a press of it in the empty sub-dialog at 11
    puts that character into the text. *)
Lemma control_character_is_inserted :
  ¬ only_printable_inserted linefeed_xkb example_accounts locked_world 11
      [(WL_KEYBOARD_KEY_STATE_PRESSED, 0xff0a)].
Proof.
  intros H.
  pose (x' := mk_password_dialog 10 ["010"%char] 1 8).
  pose (w' := with_heap (insert 11%nat (O_password_dialog x')) locked_world).
  assert (E : final (run linefeed_xkb example_accounts
                       ((λ k, PasswordKey 11 k.1 k.2)
                          <$> [(WL_KEYBOARD_KEY_STATE_PRESSED, 0xff0a)]))
                    locked_world = Some w')
    by (vm_compute; reflexivity).
  assert (E' : heap w' !! 11%nat = Some (O_password_dialog x'))
    by (vm_compute; reflexivity).
  specialize (H w' x' E E'). apply Forall_cons in H as [Hp _].
  destruct Hp as [Hp _]. vm_compute in Hp. lia.
Qed.

(** C9, amended. Every edit of a password sub-dialog whose cursor offset
    is within its text is defined and leaves the offset within the text
    (0 ≤ offset ≤ length), and a text of at most 30 units stays so:
    backspace at offset 0 changes nothing, elsewhere it removes the unit
    before the cursor; another key changes nothing when the text already
    has 30 units, or when the key has no encoding or one longer than one
    unit; and whenever something is inserted it is the single unit of the
    key's encoding, at the cursor.  Hence over every sequence of editing
    key events delivered to a sub-dialog, the handler completes and the
    invariant holds at the end.  What the single unit is does not
    matter: a key other than BackSpace, Delete, Left, Right and Tab whose
    encoding is one unit long is inserted into a text of fewer than 30
    units, printable or not. *)
Theorem password_edits_keep_cursor_in_text (xkb : Z → list ascii)
    (accounts : list passwd) :
  (∀ x sym, cursor_ok x →
     ∃ x', (∀ w, password_dialog_edit xkb x sym w = ([], Some (x', w)))
           ∧ edited xkb sym x x')
  ∧ (∀ d sym w x e ud,
       heap w !! d = Some (O_password_dialog x) →
       heap w !! pd_entry x = Some (O_user_entry e) →
       heap w !! ue_dialog e = Some (O_unlock_dialog ud) →
       cursor_ok x →
       edit_key (WL_KEYBOARD_KEY_STATE_PRESSED, sym) →
       ∃ x', password_dialog_key_handler xkb d
               WL_KEYBOARD_KEY_STATE_PRESSED sym w
             = ([WidgetScheduleRedraw (pd_window x)],
                Some ((), with_heap (insert d (O_password_dialog x')) w))
             ∧ edited xkb sym x x')
  ∧ (∀ keys d w,
       typing_ok w d → Forall edit_key keys →
       ∃ t w',
         run xkb accounts ((λ k, PasswordKey d k.1 k.2) <$> keys) w
         = (t, Some ((), w'))
         ∧ typing_ok w' d)
  ∧ (∀ x sym c w,
       cursor_ok x → (length (pd_text x) < 30)%nat → xkb sym = [c] →
       sym ≠ XKB_KEY_BackSpace → sym ≠ XKB_KEY_Delete →
       sym ≠ XKB_KEY_Left → sym ≠ XKB_KEY_Right → sym ≠ XKB_KEY_Tab →
       password_dialog_edit xkb x sym w
       = ([], Some (mk_password_dialog (pd_window x)
                      (take (Z.to_nat (pd_cursor_pos x)) (pd_text x)
                         ++ c :: drop (Z.to_nat (pd_cursor_pos x))
                                   (pd_text x))
                      (pd_cursor_pos x + 1) (pd_entry x), w))).
Proof.
  split; [apply password_dialog_edit_spec|]. split; [|split].
  - intros d sym w x e ud Hd He Hu Hc Hk.
    apply (key_handler_edit xkb d _ sym w x e ud Hd He Hu Hc Hk).
  - intros keys d. induction keys as [|[st sym] keys IH]; intros w Hw Hks.
    + by exists [], w.
    + apply Forall_cons in Hks as [Hk Hks].
      destruct (key_handler_keeps_typing xkb d st sym w Hw Hk)
        as (t1 & w1 & E1 & Hw1).
      destruct (IH w1 Hw1 Hks) as (t2 & w2 & E2 & Hw2).
      exists (t1 ++ t2), w2. split; [|done].
      unfold run. rewrite fmap_cons. simpl for_each.
      eapply bind_eq2; [exact E1|exact E2].
  - intros x sym c w Hc Hlen Hx Hbs Hdel Hl Hr Ht.
    unfold cursor_ok in Hc. unfold password_dialog_edit.
    rewrite bool_decide_eq_false_2 by done.
    rewrite bool_decide_eq_false_2 by (by intros [?|[?|[?|?]]]).
    rewrite bool_decide_eq_false_2 by lia.
    rewrite Hx. unfold text_insert.
    by rewrite bool_decide_eq_true_2 by lia.
Qed.

(** ** C10: the deferred unlock-finish without a dialog *)

(** [unlock_dialog_finish] when there is no dialog: the acknowledgment is
    sent, [unlock_dialog_destroy] is called on NULL and dereferences it. *)
Lemma unlock_dialog_finish_null s w :
  shell (desk w) = Some s → unlock_dialog (desk w) = None →
  unlock_dialog_finish w = ([Request unlock; UnlockDialogDestroy None], None).
Proof.
  intros Hs Hd. unfold unlock_dialog_finish.
  change [Request unlock; UnlockDialogDestroy None]
    with ([Request unlock] ++ [UnlockDialogDestroy None]).
  eapply bind_eq2; [by eapply shell_request_eq|].
  rewrite bind_gets, Hd. unfold unlock_dialog_destroy.
  eapply bind_crash. by rewrite bind_emit.
Qed.

Lemma run_deferred_queued t ts w :
  deferred w = t :: ts →
  run_deferred w
  = unlock_dialog_finish
      (mk_world (desk w) (heap w) (next w)
                (reverse match reverse (t :: ts) with
                         | [] => []
                         | _ :: rest => rest
                         end)).
Proof.
  intros Hd. unfold run_deferred. rewrite bind_gets, Hd.
  destruct (reverse (t :: ts)) as [|[] rest] eqn:Hr.
  - apply (f_equal length) in Hr. rewrite length_reverse in Hr. done.
  - by rewrite bind_modify.
Qed.

(** C10. For every user-switched event (on a bound shell, with every
    output initialised) the handler queues the unlock-finish task whether
    or not an unlock dialog exists, and leaves the dialog reference as it
    was.  When the reference is NULL, the queued task, run on the next
    turn, sends the unlock acknowledgment and calls
    [unlock_dialog_destroy] on the NULL reference, which the call
    dereferences. *)
Theorem user_switched_defers_unconditionally (u : string) (w : world) :
  is_Some (shell (desk w)) → heap_ok w →
  Forall (output_ok w) (outputs (desk w)) →
  ∃ t w', desktop_shell_user_switched u w = (t, Some ((), w'))
    ∧ deferred w' = unlock_task :: deferred w
    ∧ unlock_dialog (desk w') = unlock_dialog (desk w)
    ∧ (unlock_dialog (desk w) = None →
       run_deferred w'
       = ([Request unlock; UnlockDialogDestroy None], None)).
Proof.
  intros Hs Hok Hos.
  destruct (user_switched_spec u w Hs Hok Hos)
    as (t & w' & E & _ & Hs' & Hd' & Hdf & _).
  exists t, w'. split; [done|]. split; [done|]. split; [done|].
  intros Hnone. rewrite (run_deferred_queued _ _ _ Hdf).
  destruct Hs as [s Hs]. apply (unlock_dialog_finish_null s).
  - simpl. congruence.
  - simpl. congruence.
Qed.

(** ** The model on concrete inputs *)

Example startup_reaches_example_world :
  main_startup example_globals (initial_world true)
  = ([DisplayBind 7 "wl_output" 2; DisplayBind 1 "desktop_shell" 2;
      AddListener 1; PanelCreate 2; Request (set_panel 7 1);
      BackgroundCreate 4; Request (set_background 7 3);
      Request (set_grab_surface 5)],
     Some ((), example_world)).
Proof. vm_compute. reflexivity. Qed.

Example lock_reaches_locked_world :
  final (run example_xkb example_accounts
           [PrepareLock; PrepareLock;
            UserEntryButton 8 WL_POINTER_BUTTON_STATE_RELEASED;
            UserEntryButton 8 WL_POINTER_BUTTON_STATE_RELEASED])
        example_world
  = Some locked_world.
Proof. vm_compute. reflexivity. Qed.

Example ready_sent_once :
  trace_of (run example_xkb example_accounts
              [PanelRedraw 2; BackgroundDraw 4; PanelRedraw 2;
               Configure 1 0 1024 768; BackgroundDraw 4])
           example_world
  = [Request desktop_ready; WindowScheduleResize 1 1024 32].
Proof. vm_compute. reflexivity. Qed.

Example typing_and_submitting :
  trace_of (run example_xkb example_accounts
              [PasswordKey 11 WL_KEYBOARD_KEY_STATE_PRESSED 97;
               PasswordKey 11 WL_KEYBOARD_KEY_STATE_PRESSED XKB_KEY_BackSpace;
               PasswordKey 11 WL_KEYBOARD_KEY_STATE_PRESSED XKB_KEY_BackSpace;
               submit 11; submit 13; UserSwitched "alice"; RunDeferred])
           locked_world
  = [WidgetScheduleRedraw 10; WidgetScheduleRedraw 10;
     WidgetScheduleRedraw 10;
     Request (switch_user "alice"); PasswordDialogDestroy 11;
     PasswordDialogDestroy 13;
     PanelCreate 15; Request (set_panel 7 14);
     BackgroundCreate 17; Request (set_background 7 16);
     Request unlock; UnlockDialogDestroy (Some 7%nat)].
Proof. vm_compute. reflexivity. Qed.

(** ** The theorems at concrete states *)

Lemma example_world_heap_ok : heap_ok example_world.
Proof.
  intros p Hp. simpl in *. rewrite !lookup_insert_ne by lia.
  apply lookup_empty.
Qed.

Lemma example_world_outputs_ok :
  Forall (output_ok example_world) (outputs (desk example_world)).
Proof.
  repeat constructor. exists [2%nat], [4%nat].
  repeat split; repeat constructor; by eexists.
Qed.

Lemma example_output_owned : output_owned example_world example_output.
Proof.
  exists [2%nat], [4%nat]. split; [done|]. split; [done|].
  split; [repeat constructor; eexists; split; [done|by eexists]|].
  split; [repeat constructor; eexists; split; [done|by eexists]|].
  split; [apply (bool_decide_unpack _); vm_compute; exact I|].
  split; intros ? [= <-]; repeat constructor.
Qed.

Lemma locked_world_sub_dialogs :
  Forall (sub_dialog locked_world 7) [11%nat; 13%nat].
Proof. repeat constructor; by eexists _, _, _. Qed.

(** C1 at the state reached by start-up. *)
Lemma prepare_lock_idempotent_witness :
  is_Some (shell (desk example_world))
  ∧ ∃ t w',
      (desktop_shell_prepare_lock_surface example_accounts ;;;
       desktop_shell_prepare_lock_surface example_accounts) example_world
      = (t, Some ((), w'))
      ∧ count_if is_unlock_dialog_create t = 1%nat
      ∧ is_Some (unlock_dialog (desk w')).
Proof.
  split; [by eexists|].
  destruct (prepare_lock_idempotent example_accounts example_world)
    as [_ H]; [by eexists|].
  destruct (H eq_refl) as [_ (t & w' & E & Hc & Hd & _)].
  by exists t, w'.
Defined.

(** C2 on three submits, by both Enter keys, to the sub-dialog at 11. *)
Lemma submits_to_one_sub_dialog_witness :
  closing_is locked_world 7 false ∧ sub_dialog locked_world 7 11
  ∧ trace_of (run example_xkb example_accounts
                (submits 11 [XKB_KEY_Return; XKB_KEY_KP_Enter;
                             XKB_KEY_Return])) locked_world
    = [Request (switch_user "alice"); PasswordDialogDestroy 11]
  ∧ (count_if is_switch_user
       (trace_of (run example_xkb example_accounts
                    (submits 11 [XKB_KEY_Return; XKB_KEY_KP_Enter;
                                 XKB_KEY_Return])) locked_world) ≤ 1)%nat
  ∧ count_if (is_password_destroy 11)
      (trace_of (run example_xkb example_accounts
                   (submits 11 [XKB_KEY_Return; XKB_KEY_KP_Enter;
                                XKB_KEY_Return])) locked_world) = 1%nat.
Proof.
  assert (H1 : closing_is locked_world 7 false) by (by eexists).
  assert (H2 : sub_dialog locked_world 7 11).
  { apply (proj1 (Forall_forall _ _) locked_world_sub_dialogs).
    apply list_elem_of_here. }
  assert (H3 : Forall enter_key
                 [XKB_KEY_Return; XKB_KEY_KP_Enter; XKB_KEY_Return]).
  { apply Forall_cons; split; [by left|].
    apply Forall_cons; split; [by right|].
    apply Forall_cons; split; [by left|apply Forall_nil_2]. }
  split; [exact H1|]. split; [exact H2|]. split; [vm_compute; reflexivity|].
  destruct (submits_to_one_sub_dialog example_xkb example_accounts 11 7
              false XKB_KEY_Return [XKB_KEY_KP_Enter; XKB_KEY_Return]
              locked_world) as (Hle & Hde & _);
    [by eexists|exact H1|exact H2|exact H3|].
  split; [exact Hle|exact Hde].
Defined.

(** X24 at the state with two password sub-dialogs. *)
Lemma submits_send_at_most_once_witness :
  closing_is locked_world 7 false
  ∧ NoDup (concat (password_cells locked_world <$> [11%nat; 13%nat]))
  ∧ ∃ t w',
      run example_xkb example_accounts (submit <$> [11%nat; 13%nat])
          locked_world
      = (t, Some ((), w'))
      ∧ (count_if is_switch_user t ≤ 1)%nat.
Proof.
  assert (H1 : closing_is locked_world 7 false) by (by eexists).
  assert (H2 : NoDup (concat (password_cells locked_world
                                <$> [11%nat; 13%nat])))
    by (apply (bool_decide_unpack _); vm_compute; exact I).
  split; [done|]. split; [done|].
  destruct (submits_send_at_most_once example_xkb example_accounts
              [11%nat; 13%nat] locked_world 7 false)
    as (t & w' & E & Hle & _); [by eexists|done| |done|].
  - apply locked_world_sub_dialogs.
  - by exists t, w'.
Defined.

(** C3 on a sequence of paints. *)
Lemma desktop_ready_at_most_once_witness :
  (sent desktop_ready
     (trace_of (run example_xkb example_accounts
                  [PanelRedraw 2; BackgroundDraw 4; PanelRedraw 2])
               example_world) ≤ 1)%nat.
Proof.
  apply (proj1 (desktop_ready_at_most_once example_xkb example_accounts)).
Defined.

(** C4 at the state reached by start-up. *)
Lemma user_switched_rebinds_witness :
  is_Some (shell (desk example_world)) ∧ heap_ok example_world
  ∧ Forall (output_ok example_world) (outputs (desk example_world))
  ∧ ∃ t w',
      desktop_shell_user_switched "alice" example_world = (t, Some ((), w'))
      ∧ current_user (desk w') = "alice"
      ∧ deferred w' = unlock_task :: deferred example_world.
Proof.
  split; [by eexists|]. split; [apply example_world_heap_ok|].
  split; [apply example_world_outputs_ok|].
  destruct (user_switched_rebinds "alice" example_world)
    as (t & w' & E & Hu & _ & _ & _ & _ & _ & _ & Hd).
  - by eexists.
  - apply example_world_heap_ok.
  - apply example_world_outputs_ok.
  - by exists t, w'.
Defined.

(** C5 on an output announced before the shell. *)
Lemma shell_global_binds_outputs_once_witness :
  g_interface (mk_global 1 "desktop_shell" 3) = "desktop_shell"
  ∧ ∃ t w',
      main_startup example_globals (initial_world true) = (t, Some ((), w'))
      ∧ interface_version (desk w') = 2
      ∧ count_if (is_set_panel 7) t = 1%nat
      ∧ count_if (is_set_background 7) t = 1%nat.
Proof.
  split; [done|].
  destruct (shell_global_binds_outputs_once true
              [mk_global 7 "wl_output" 2] []
              (mk_global 1 "desktop_shell" 3) eq_refl)
    as [_ (t & w' & E & _ & Hv & _ & _ & _ & Hc)]; [constructor|].
  exists t, w'. split; [exact E|]. split; [exact Hv|]. apply (Hc 7).
Defined.

(** C6 at the state reached by start-up. *)
Lemma global_remove_destroys_output_witness :
  list_find (λ o, server_output_id o = 7) (outputs (desk example_world))
  = Some (0%nat, example_output)
  ∧ output_owned example_world example_output
  ∧ ∃ w',
      global_handler_remove 7 "wl_output" example_world
      = ([BackgroundDestroy 4; PanelDestroy 2; WlOutputDestroy 7],
         Some ((), w'))
      ∧ outputs (desk w') = []
      ∧ heap w' !! 2%nat = None ∧ heap w' !! 4%nat = None.
Proof.
  split; [done|]. split; [apply example_output_owned|].
  destruct (proj2 (global_remove_destroys_output 7 example_world)
              0%nat example_output eq_refl example_output_owned)
    as (ps & bs & w' & Hps & Hbs & E & Hos & _ & _ & Hp & Hb & _).
  injection Hps as <-. injection Hbs as <-.
  exists w'. split; [exact E|]. split; [exact Hos|].
  split; [apply Hp | apply Hb]; repeat constructor.
Defined.

(** C7 (amended): the paint of the panel of the start-up state sets its
    flag, and a configure event on the painted panel leaves the state,
    flag included, as it was. *)
Lemma painted_set_by_paint_kept_by_resize_witness :
  final (panel_redraw_handler 2) example_world = Some painted_world
  ∧ (∃ x, heap painted_world !! 2%nat = Some (O_panel x)
          ∧ panel_painted x = true)
  ∧ final (desktop_shell_configure 1 0 1024 768) painted_world
    = Some painted_world.
Proof.
  assert (E : final (panel_redraw_handler 2) example_world
              = Some painted_world) by (vm_compute; reflexivity).
  split; [exact E|]. split.
  - apply (proj1 (painted_set_by_paint_kept_by_resize example_world)
             2%nat painted_world E).
  - destruct (final (desktop_shell_configure 1 0 1024 768) painted_world)
      as [w'|] eqn:E'; [|vm_compute in E'; discriminate E'].
    f_equal.
    apply (proj1 (proj2 (proj2
             (painted_set_by_paint_kept_by_resize painted_world)))
             1%nat 0 1024 768 w' E').
Defined.

(** C8 on the panel and on the background of the output. *)
Lemma configure_resize_policy_witness :
  heap example_world !! 1%nat = Some (O_window (Some 2%nat))
  ∧ desktop_shell_configure 1 0 1024 768 example_world
    = ([WindowScheduleResize 1 1024 32], Some ((), example_world)).
Proof.
  split; [done|].
  apply (proj1 (configure_resize_policy example_world 1 2 0 1024 768
                  eq_refl) (mk_panel 1 false "Guest") eq_refl).
Defined.

(** C9 (amended) on a sequence of keys typed into a fresh sub-dialog. *)
Lemma password_edits_keep_cursor_in_text_witness :
  typing_ok locked_world 11
  ∧ ∃ t w',
      run example_xkb example_accounts
          ((λ k, PasswordKey 11 k.1 k.2)
             <$> [(WL_KEYBOARD_KEY_STATE_PRESSED, XKB_KEY_BackSpace);
                  (WL_KEYBOARD_KEY_STATE_PRESSED, 97);
                  (WL_KEYBOARD_KEY_STATE_RELEASED, 97);
                  (WL_KEYBOARD_KEY_STATE_PRESSED, XKB_KEY_Left);
                  (WL_KEYBOARD_KEY_STATE_PRESSED, 233)])
          locked_world
      = (t, Some ((), w'))
      ∧ typing_ok w' 11.
Proof.
  assert (H : typing_ok locked_world 11).
  { eexists _, _, _. split; [done|]. split; [done|]. split; [done|].
    by vm_compute. }
  split; [exact H|].
  apply (proj1 (proj2 (proj2 (password_edits_keep_cursor_in_text
                                example_xkb example_accounts)))
           _ 11%nat _ H).
  repeat (apply Forall_cons; split;
            [intros Hk; first [discriminate Hk | by repeat split]|]).
  apply Forall_nil_2.
Defined.

(** C10 at the state reached by start-up, where no dialog exists. *)
Lemma user_switched_defers_unconditionally_witness :
  is_Some (shell (desk example_world)) ∧ heap_ok example_world
  ∧ Forall (output_ok example_world) (outputs (desk example_world))
  ∧ unlock_dialog (desk example_world) = None
  ∧ ∃ t w',
      desktop_shell_user_switched "alice" example_world = (t, Some ((), w'))
      ∧ deferred w' = [unlock_task]
      ∧ run_deferred w' = ([Request unlock; UnlockDialogDestroy None], None).
Proof.
  split; [by eexists|]. split; [apply example_world_heap_ok|].
  split; [apply example_world_outputs_ok|]. split; [done|].
  destruct (user_switched_defers_unconditionally "alice" example_world)
    as (t & w' & E & Hd & _ & Hr).
  - by eexists.
  - apply example_world_heap_ok.
  - apply example_world_outputs_ok.
  - exists t, w'. split; [exact E|]. split; [exact Hd|]. by apply Hr.
Defined.
(** ** Further properties: the lock flow *)

Lemma name_excess_nonneg names : 0 ≤ name_excess names.
Proof. induction names as [|n names IH]; simpl; lia. Qed.

Lemma add_user_entry_eq d name x w :
  heap w !! d = Some (O_unlock_dialog x) → (d < next w)%nat →
  unlock_dialog_add_user_entry d name w
  = ([], Some ((), mk_world (desk w)
                     (<[d := O_unlock_dialog
                               (mk_unlock_dialog (ud_window x)
                                  (ud_user_list x ++ [next w])
                                  (ud_closing x))]>
                        (<[next w := O_user_entry (mk_user_entry name d)]>
                           (heap w)))
                     (S (next w)) (deferred w))).
Proof.
  intros Hd Hlt.
  unfold unlock_dialog_add_user_entry, load_unlock_dialog, bind, alloc,
    load, store, ret; simpl.
  rewrite lookup_insert_ne by lia. rewrite Hd. simpl.
  rewrite lookup_insert_ne by lia. rewrite Hd. done.
Qed.

Lemma add_accounts_closed accounts : ∀ d win l0 c ew uc w,
  heap w !! d = Some (O_unlock_dialog (mk_unlock_dialog win l0 c)) →
  (d < next w)%nat → heap_ok w → 0 ≤ ew →
  ∃ w',
    unlock_dialog_add_accounts d accounts ew uc w
    = ([], Some ((Z.max ew (name_excess (selectable_names accounts)),
                  uc + Z.of_nat (length (selectable_names accounts))), w'))
    ∧ desk w' = desk w ∧ deferred w' = deferred w
    ∧ next w' = (next w + length (selectable_names accounts))%nat
    ∧ heap w' !! d
      = Some (O_unlock_dialog
                (mk_unlock_dialog win
                   (l0 ++ seq (next w) (length (selectable_names accounts)))
                   c))
    ∧ (∀ i n, selectable_names accounts !! i = Some n →
              heap w' !! (next w + i)%nat
              = Some (O_user_entry (mk_user_entry n d)))
    ∧ (∀ p, p ≠ d → (p < next w)%nat → heap w' !! p = heap w !! p)
    ∧ heap_ok w'.
Proof.
  induction accounts as [|pwd accounts IH]; intros d win l0 c ew uc w Hd Hlt Hok Hew.
  { exists w. unfold selectable_names. simpl.
    rewrite Z.max_l, Z.add_0_r, Nat.add_0_r, app_nil_r by lia.
    repeat split; try done. }
  unfold selectable_names in *. simpl.
  destruct (selectable pwd) eqn:Hsel; [|by apply IH].
  rewrite fmap_cons. simpl.
  rewrite (bind_pure _ _ _ _ _ (add_user_entry_eq d (pw_name pwd) _ w Hd Hlt)).
  simpl.
  set (w1 := mk_world _ _ _ _).
  set (ext := Z.of_nat (String.length (pw_name pwd)) - 7).
  set (ew1 := if bool_decide (ext > 0)
              then if bool_decide (ext > ew) then ext else ew else ew).
  assert (Hew1 : ew1 = Z.max ew ext).
  { unfold ew1. repeat case_bool_decide; lia. }
  destruct (IH d win (l0 ++ [next w]) c ew1 (uc + 1) w1)
    as (w' & E & Hdk & Hdf & Hn & Hd' & Hent & Hold & Hok').
  - unfold w1. simpl. by rewrite lookup_insert_eq.
  - unfold w1. simpl. lia.
  - intros p Hp. unfold w1 in *. simpl in *.
    rewrite !lookup_insert_ne by lia. apply Hok. lia.
  - lia.
  - exists w'. split.
    { rewrite E. do 3 f_equal. f_equal; lia. }
    split; [done|]. split; [done|].
    split; [rewrite Hn; unfold w1; simpl; lia|]. split.
    { rewrite Hd'. unfold w1. simpl. by rewrite <- app_assoc. }
    split; [|split; [|done]].
    + intros [|i] n Hi.
      * simpl in Hi. injection Hi as <-. rewrite Nat.add_0_r.
        rewrite Hold by (unfold w1; simpl; lia).
        unfold w1. simpl.
        by rewrite lookup_insert_ne, lookup_insert_eq by lia.
      * simpl in Hi. specialize (Hent i n Hi). unfold w1 in Hent.
        simpl in Hent. rewrite <- Hent. f_equal. lia.
    + intros p Hne Hp. rewrite Hold by (unfold w1; simpl; lia).
      unfold w1. simpl. by rewrite !lookup_insert_ne by lia.
Qed.

(** [unlock_dialog_create] in closed form. *)
Lemma unlock_dialog_create_closed (accounts : list passwd) (w : world) :
  is_Some (shell (desk w)) → heap_ok w →
  ∃ w',
    unlock_dialog_create accounts w
    = ([UnlockDialogCreate (S (next w));
        Request (set_lock_surface (next w));
        WindowScheduleResize (next w)
          (260 + name_excess (selectable_names accounts) * 10)
          (200 + (Z.of_nat (length (selectable_names accounts)) - 1) * 68)],
       Some (S (next w), w'))
    ∧ desk w' = desk w
    ∧ next w' = (next w + 2 + length (selectable_names accounts))%nat
    ∧ heap w' !! next w = Some (O_window (Some (S (next w))))
    ∧ heap w' !! S (next w)
      = Some (O_unlock_dialog
                (mk_unlock_dialog (next w)
                   (seq (next w + 2) (length (selectable_names accounts)))
                   false))
    ∧ (∀ i n, selectable_names accounts !! i = Some n →
              heap w' !! (next w + 2 + i)%nat
              = Some (O_user_entry (mk_user_entry n (S (next w)))))
    ∧ (∀ p, (p < next w)%nat → heap w' !! p = heap w !! p)
    ∧ heap_ok w'.
Proof.
  intros [s Hs] Hok. unfold unlock_dialog_create.
  unfold window_create_custom.
  set (w1 := mk_world (desk w)
               (<[next w := O_window (Some (S (next w)))]>
                  (<[S (next w) := O_unlock_dialog
                                     (mk_unlock_dialog (next w) [] false)]>
                     (<[next w := O_window None]> (heap w))))
               (S (S (next w))) (deferred w)).
  destruct (add_accounts_closed accounts (S (next w)) (next w) [] false 0 0 w1)
    as (w' & E & Hdk & Hdf & Hn & Hd' & Hent & Hold & Hok').
  - unfold w1. simpl. by rewrite lookup_insert_ne, lookup_insert_eq by lia.
  - unfold w1. simpl. lia.
  - intros p Hp. unfold w1 in *. simpl in *.
    rewrite !lookup_insert_ne by lia. apply Hok. lia.
  - lia.
  - exists w'. split.
    { assert (E0 : (window <- alloc (O_window None) ;;
                    d <- alloc (O_unlock_dialog
                                  (mk_unlock_dialog window [] false)) ;;
                    window_set_user_data window d ;;;
                    emit (UnlockDialogCreate d) ;;;
                    ret (window, d)) w
                   = ([UnlockDialogCreate (S (next w))],
                      Some ((next w, S (next w)), w1))).
      { unfold window_set_user_data, window_get_user_data, bind, alloc,
          load, store, emit, ret; simpl.
        rewrite lookup_insert_ne, lookup_insert_eq by lia. simpl.
        rewrite lookup_insert_ne, lookup_insert_eq by lia. done. }
      transitivity
        ((r0 <- (window <- alloc (O_window None) ;;
                 d <- alloc (O_unlock_dialog
                               (mk_unlock_dialog window [] false)) ;;
                 window_set_user_data window d ;;;
                 emit (UnlockDialogCreate d) ;;;
                 ret (window, d)) ;;
          r <- unlock_dialog_add_accounts r0.2 accounts 0 0 ;;
          shell_request (set_lock_surface r0.1) ;;;
          emit (WindowScheduleResize r0.1 (260 + r.1 * 10)
                                     (200 + (r.2 - 1) * 68)) ;;;
          ret r0.2) w).
      { rewrite !bind_assoc. apply bind_ext. intros window w0.
        rewrite !bind_assoc. apply bind_ext. intros d w2.
        rewrite !bind_assoc. apply bind_ext. intros [] w3.
        rewrite !bind_assoc. apply bind_ext. intros [] w4.
        by rewrite bind_ret. }
      change [UnlockDialogCreate (S (next w));
              Request (set_lock_surface (next w));
              WindowScheduleResize (next w)
                (260 + name_excess (selectable_names accounts) * 10)
                (200 + (Z.of_nat (length (selectable_names accounts)) - 1) * 68)]
        with ([UnlockDialogCreate (S (next w))]
                ++ [Request (set_lock_surface (next w));
                    WindowScheduleResize (next w)
                      (260 + name_excess (selectable_names accounts) * 10)
                      (200 + (Z.of_nat (length (selectable_names accounts)) - 1)
                             * 68)]).
      eapply bind_eq2; [exact E0|]. simpl.
      rewrite (bind_pure _ _ _ _ _ E). simpl.
      assert (Hs' : shell (desk w') = Some s) by (rewrite Hdk; done).
      unfold shell_request. rewrite bind_assoc, bind_gets, Hs'.
      rewrite Z.max_r by apply name_excess_nonneg.
      by unfold bind, emit, ret. }
    split; [by rewrite Hdk|].
    split; [rewrite Hn; unfold w1; simpl; lia|]. split.
    { rewrite Hold by (unfold w1; simpl; lia). unfold w1. simpl.
      by rewrite lookup_insert_eq. }
    split.
    { rewrite Hd'. unfold w1. simpl. do 4 f_equal. lia. }
    split; [|split; [|done]].
    + intros i n Hi. specialize (Hent i n Hi). unfold w1 in Hent.
      simpl in Hent. rewrite <- Hent. f_equal. lia.
    + intros p Hp. rewrite Hold by (unfold w1; simpl; lia).
      unfold w1. simpl. by rewrite !lookup_insert_ne by lia.
Qed.

(** X1. On a bound shell, [unlock_dialog_create] makes one entry for
    every account that is selectable (uid between 1000 and 6000, a shell
    other than /bin/false and /sbin/nologin), in the order of the account
    database and with the account's name, and no other entry; it announces
    the dialog's window as the lock surface and asks for a window 260
    pixels wide plus 10 for every character by which the longest name
    exceeds 7, and 200 pixels high plus 68 for every entry after the
    first (132 when there is no entry at all).  Nothing that was
    allocated before is touched. *)
Theorem unlock_dialog_lists_selectable_accounts (accounts : list passwd)
    (w : world) :
  is_Some (shell (desk w)) → heap_ok w →
  ∃ w',
    unlock_dialog_create accounts w
    = ([UnlockDialogCreate (S (next w));
        Request (set_lock_surface (next w));
        WindowScheduleResize (next w)
          (260 + name_excess (selectable_names accounts) * 10)
          (200 + (Z.of_nat (length (selectable_names accounts)) - 1) * 68)],
       Some (S (next w), w'))
    ∧ desk w' = desk w
    ∧ next w' = (next w + 2 + length (selectable_names accounts))%nat
    ∧ heap w' !! next w = Some (O_window (Some (S (next w))))
    ∧ heap w' !! S (next w)
      = Some (O_unlock_dialog
                (mk_unlock_dialog (next w)
                   (seq (next w + 2) (length (selectable_names accounts)))
                   false))
    ∧ (∀ i n, selectable_names accounts !! i = Some n →
              heap w' !! (next w + 2 + i)%nat
              = Some (O_user_entry (mk_user_entry n (S (next w)))))
    ∧ (∀ p, (p < next w)%nat → heap w' !! p = heap w !! p)
    ∧ heap_ok w'.
Proof. apply unlock_dialog_create_closed. Qed.

Lemma for_each_free_spec l : ∀ w,
  NoDup l → Forall (λ p, is_Some (heap w !! p)) l →
  ∃ w', for_each free l w = ([], Some ((), w'))
        ∧ desk w' = desk w ∧ next w' = next w ∧ deferred w' = deferred w
        ∧ freed l w w'.
Proof.
  induction l as [|p l IH]; intros w Hnd Hl.
  { exists w. repeat split; try done. }
  apply NoDup_cons in Hnd as [Hp Hnd].
  apply Forall_cons in Hl as [[o Ho] Hl].
  destruct (IH (with_heap (delete p) w)) as (w' & E & Hd & Hn & Hdf & Hfr).
  - done.
  - apply Forall_forall. intros q Hq. simpl.
    rewrite lookup_delete_ne by (intros ->; done).
    by apply (proj1 (Forall_forall _ _) Hl).
  - exists w'. simpl for_each.
    rewrite (bind_pure _ _ _ _ _ (free_eq _ _ _ Ho)).
    split; [done|]. split; [done|]. split; [done|]. split; [done|].
    intros q. rewrite (Hfr q). simpl.
    destruct (decide (q = p)) as [->|Hne].
    + rewrite (bool_decide_eq_true_2 (p ∈ p :: l)) by apply list_elem_of_here.
      case_bool_decide; [done|]. by rewrite lookup_delete_eq.
    + rewrite lookup_delete_ne by done.
      repeat case_bool_decide; try done.
      * exfalso. apply H0. by apply list_elem_of_further.
      * exfalso. apply elem_of_cons in H0 as [?|?]; done.
Qed.

Lemma unlock_dialog_destroy_spec d x w :
  heap w !! d = Some (O_unlock_dialog x) →
  NoDup (ud_user_list x) →
  Forall (λ p, ∃ e, heap w !! p = Some (O_user_entry e)) (ud_user_list x) →
  ∃ w', unlock_dialog_destroy (Some d) w
        = ([UnlockDialogDestroy (Some d)], Some ((), w'))
        ∧ desk w' = desk w ∧ next w' = next w ∧ deferred w' = deferred w
        ∧ freed (d :: ud_user_list x) w w'.
Proof.
  intros Hd Hnd Hl.
  assert (Hnin : d ∉ ud_user_list x).
  { intros Hin. destruct (proj1 (Forall_forall _ _) Hl d Hin) as [e He].
    congruence. }
  destruct (for_each_free_spec (ud_user_list x) w Hnd)
    as (w1 & E1 & Hdk & Hn & Hdf & Hfr).
  { eapply Forall_impl; [exact Hl|]. intros p [e He]. by rewrite He. }
  assert (Hd1 : heap w1 !! d = Some (O_unlock_dialog x)).
  { rewrite (Hfr d). by rewrite bool_decide_eq_false_2. }
  exists (with_heap (delete d) w1). split.
  { unfold unlock_dialog_destroy. rewrite bind_emit.
    rewrite (bind_pure _ _ _ _ _ (load_unlock_dialog_eq _ _ _ Hd)).
    rewrite (bind_pure _ _ _ _ _ E1).
    by rewrite (free_eq _ _ _ Hd1). }
  split; [done|]. split; [done|]. split; [done|].
  intros q. simpl. destruct (decide (q = d)) as [->|Hne].
  - rewrite lookup_delete_eq.
    by rewrite bool_decide_eq_true_2 by apply list_elem_of_here.
  - rewrite lookup_delete_ne by done. rewrite (Hfr q).
    repeat case_bool_decide; try done.
    + exfalso. apply H0. by apply list_elem_of_further.
    + exfalso. apply elem_of_cons in H0 as [?|?]; done.
Qed.

(** X2. A lock cycle gives back everything but one window: on a bound
    shell with locking enabled and no dialog open, a prepare-lock event
    followed by the unlock-finish task completes, sends the lock surface
    and then the unlock acknowledgment, leaves the desktop as it was (no
    dialog) and frees the dialog and every entry it had created; the
    dialog's window is not destroyed (the call is commented out in
    [unlock_dialog_destroy]) and is the one object the heap has gained,
    its user data still the address of the freed dialog. *)
Theorem lock_cycle_leaves_the_window (accounts : list passwd) (w : world) :
  is_Some (shell (desk w)) → heap_ok w →
  locking (desk w) = true → unlock_dialog (desk w) = None →
  ∃ w',
    (desktop_shell_prepare_lock_surface accounts ;;; unlock_dialog_finish) w
    = ([UnlockDialogCreate (S (next w));
        Request (set_lock_surface (next w));
        WindowScheduleResize (next w)
          (260 + name_excess (selectable_names accounts) * 10)
          (200 + (Z.of_nat (length (selectable_names accounts)) - 1) * 68);
        Request unlock;
        UnlockDialogDestroy (Some (S (next w)))],
       Some ((), w'))
    ∧ desk w' = desk w
    ∧ heap w' = <[next w := O_window (Some (S (next w)))]> (heap w).
Proof.
  intros Hs Hok Hl Hnone.
  destruct (unlock_dialog_create_closed accounts w Hs Hok)
    as (w1 & E1 & Hdk & Hn & Hwin & Hdlg & Hent & Hold & Hok1).
  destruct Hs as [s Hs].
  set (w2 := with_desk (set_unlock_dialog (Some (S (next w)))) w1).
  destruct (unlock_dialog_destroy_spec (S (next w)) _ w2 Hdlg)
    as (w3 & E3 & Hdk3 & Hn3 & Hdf3 & Hfr).
  { simpl. apply NoDup_seq. }
  { simpl. apply Forall_forall. intros p Hp.
    apply list_elem_of_In, in_seq in Hp.
    destruct (lookup_lt_is_Some_2 (selectable_names accounts)
                (p - (next w + 2))) as [n Hi]; [lia|].
    exists (mk_user_entry n (S (next w))).
    rewrite <- (Hent _ _ Hi). f_equal. lia. }
  exists (with_desk (set_unlock_dialog None) w3). split; [|split].
  - change [UnlockDialogCreate (S (next w));
            Request (set_lock_surface (next w));
            WindowScheduleResize (next w)
              (260 + name_excess (selectable_names accounts) * 10)
              (200 + (Z.of_nat (length (selectable_names accounts)) - 1) * 68);
            Request unlock; UnlockDialogDestroy (Some (S (next w)))]
      with ([UnlockDialogCreate (S (next w));
             Request (set_lock_surface (next w));
             WindowScheduleResize (next w)
               (260 + name_excess (selectable_names accounts) * 10)
               (200 + (Z.of_nat (length (selectable_names accounts)) - 1) * 68)]
              ++ [Request unlock] ++ [UnlockDialogDestroy (Some (S (next w)))]).
    eapply bind_eq2.
    + unfold desktop_shell_prepare_lock_surface.
      rewrite bind_gets, Hl. change (negb true) with false. cbv iota.
      rewrite bind_gets, Hnone.
      rewrite <- (app_nil_r [UnlockDialogCreate _; _; _]).
      eapply bind_eq2; [exact E1|]. reflexivity.
    + fold w2. unfold unlock_dialog_finish.
      eapply bind_eq2.
      { apply (shell_request_eq _ s). unfold w2. simpl. by rewrite Hdk. }
      rewrite bind_gets. simpl unlock_dialog.
      rewrite <- (app_nil_r [UnlockDialogDestroy _]).
      eapply bind_eq2; [exact E3|]. reflexivity.
  - simpl. rewrite Hdk3. unfold w2. simpl. rewrite Hdk.
    destruct (desk w). simpl in *. by subst.
  - apply map_eq. intros q. simpl. rewrite (Hfr q). unfold w2. simpl.
    destruct (decide (q = next w)) as [->|Hne].
    { rewrite lookup_insert_eq, bool_decide_eq_false_2; [done|].
      intros Hin. apply elem_of_cons in Hin as [?|Hin]; [lia|].
      apply list_elem_of_In, in_seq in Hin. lia. }
    rewrite lookup_insert_ne by done.
    destruct (decide (q < next w)%nat) as [Hlt|Hge].
    { rewrite bool_decide_eq_false_2; [by apply Hold|].
      intros Hin. apply elem_of_cons in Hin as [?|Hin]; [lia|].
      apply list_elem_of_In, in_seq in Hin. lia. }
    rewrite (Hok q) by lia.
    case_bool_decide; [done|]. apply Hok1. rewrite Hn.
    destruct (decide (q < next w + 2 + length (selectable_names accounts))%nat);
      [|lia].
    exfalso. apply H. destruct (decide (q = S (next w))) as [->|];
      [apply list_elem_of_here|].
    apply list_elem_of_further, list_elem_of_In, in_seq. lia.
Qed.

Lemma unlock_dialog_finish_spec s udp ud w :
  shell (desk w) = Some s → unlock_dialog (desk w) = Some udp →
  heap w !! udp = Some (O_unlock_dialog ud) →
  NoDup (ud_user_list ud) →
  Forall (λ p, ∃ e, heap w !! p = Some (O_user_entry e)) (ud_user_list ud) →
  ∃ w', unlock_dialog_finish w
        = ([Request unlock; UnlockDialogDestroy (Some udp)], Some ((), w'))
        ∧ desk w' = set_unlock_dialog None (desk w)
        ∧ next w' = next w ∧ deferred w' = deferred w
        ∧ freed (udp :: ud_user_list ud) w w'.
Proof.
  intros Hs Hu Hd Hnd Hl.
  destruct (unlock_dialog_destroy_spec udp ud w Hd Hnd Hl)
    as (w1 & E1 & Hdk & Hn & Hdf & Hfr).
  exists (with_desk (set_unlock_dialog None) w1). split.
  { unfold unlock_dialog_finish.
    change [Request unlock; UnlockDialogDestroy (Some udp)]
      with ([Request unlock] ++ [UnlockDialogDestroy (Some udp)]).
    eapply bind_eq2; [by eapply shell_request_eq|].
    rewrite bind_gets, Hu.
    rewrite <- (app_nil_r [UnlockDialogDestroy _]).
    eapply bind_eq2; [exact E1|]. reflexivity. }
  simpl. rewrite Hdk. repeat split; try done.
Qed.

(** X3. The unlock-finish task frees the unlock dialog and its entries
    and nothing else (every other address of the heap is as it was): the
    dialog's window and every password sub-dialog that is still open,
    with its window, stay allocated.  Such a
    sub-dialog points at a freed entry, and the key handler, which starts
    by reading [dialog->entry->dialog], dereferences freed memory on its
    next key event, whatever the key. *)
Theorem unlock_finish_leaves_sub_dialogs (xkb : Z → list ascii)
    (udp d : ptr) (ud : unlock_dialog_t) (x : password_dialog)
    (data data' : option ptr) (w : world) :
  is_Some (shell (desk w)) → unlock_dialog (desk w) = Some udp →
  heap w !! udp = Some (O_unlock_dialog ud) →
  heap w !! ud_window ud = Some (O_window data) →
  NoDup (ud_user_list ud) →
  Forall (λ p, ∃ e, heap w !! p = Some (O_user_entry e)) (ud_user_list ud) →
  heap w !! d = Some (O_password_dialog x) →
  heap w !! pd_window x = Some (O_window data') →
  pd_entry x ∈ ud_user_list ud →
  ∃ w', unlock_dialog_finish w
        = ([Request unlock; UnlockDialogDestroy (Some udp)], Some ((), w'))
    ∧ unlock_dialog (desk w') = None
    ∧ heap w' !! udp = None
    ∧ (∀ p, p ∈ ud_user_list ud → heap w' !! p = None)
    ∧ heap w' !! ud_window ud = Some (O_window data)
    ∧ heap w' !! d = Some (O_password_dialog x)
    ∧ heap w' !! pd_window x = Some (O_window data')
    ∧ (∀ st sym, password_dialog_key_handler xkb d st sym w' = ([], None))
    ∧ freed (udp :: ud_user_list ud) w w'.
Proof.
  intros [s Hs] Hu Hd Hwin Hnd Hl Hx Hxw Hin.
  destruct (unlock_dialog_finish_spec s udp ud w Hs Hu Hd Hnd Hl)
    as (w' & E & Hdk & Hn & Hdf & Hfr).
  assert (Hkeep : ∀ q o, heap w !! q = Some o →
            (∀ y, o ≠ O_unlock_dialog y) → (∀ y, o ≠ O_user_entry y) →
            heap w' !! q = Some o).
  { intros q o Hq H1 H2. rewrite <- Hq. apply (freed_other _ _ _ _ Hfr).
    intros Hmem. apply elem_of_cons in Hmem as [->|Hmem].
    - rewrite Hd in Hq. injection Hq as <-. by eapply H1.
    - destruct (proj1 (Forall_forall _ _) Hl q Hmem) as [e He].
      rewrite He in Hq. injection Hq as <-. by eapply H2. }
  assert (Hd' : heap w' !! d = Some (O_password_dialog x))
    by (by apply Hkeep).
  exists w'. split; [done|]. split; [by rewrite Hdk|].
  split; [apply (freed_gone _ _ _ _ Hfr), list_elem_of_here|].
  split.
  { intros p Hp. by apply (freed_gone _ _ _ _ Hfr), list_elem_of_further. }
  split; [by apply Hkeep|]. split; [done|]. split; [by apply Hkeep|].
  split; [|exact Hfr].
  intros st sym. unfold password_dialog_key_handler.
  rewrite (bind_pure _ _ _ _ _ (load_password_dialog_eq _ _ _ Hd')).
  unfold load_user_entry, load, bind.
  by rewrite (freed_gone _ _ _ _ Hfr) by by apply list_elem_of_further.
Qed.

Lemma password_dialog_create_eq entry e ud s w :
  heap w !! entry = Some (O_user_entry e) →
  heap w !! ue_dialog e = Some (O_unlock_dialog ud) →
  shell (desk w) = Some s →
  password_dialog_create entry w
  = ([PasswordDialogCreate (S (next w));
      Request (set_lock_surface (next w));
      WindowScheduleResize (next w) 400 100],
     Some ((), password_dialog_created entry w)).
Proof.
  intros He Hu Hs. unfold password_dialog_create.
  rewrite (bind_pure _ _ _ _ _ (load_user_entry_eq _ _ _ He)).
  rewrite (bind_pure _ _ _ _ _ (load_unlock_dialog_eq _ _ _ Hu)).
  unfold window_create_custom, window_set_user_data,
    window_get_user_data, shell_request, bind, alloc, gets, load, store,
    emit, ret; simpl.
  rewrite lookup_insert_ne, lookup_insert_eq by lia. simpl.
  rewrite lookup_insert_ne, lookup_insert_eq by lia. simpl.
  rewrite Hs. done.
Qed.

Lemma password_dialog_created_old entry w p :
  (p < next w)%nat → heap (password_dialog_created entry w) !! p = heap w !! p.
Proof. intros H. simpl. by rewrite !lookup_insert_ne by lia. Qed.

Lemma password_dialog_created_ok entry w :
  heap_ok w → heap_ok (password_dialog_created entry w).
Proof.
  intros Hok p Hp. simpl in *. rewrite !lookup_insert_ne by lia.
  apply Hok. lia.
Qed.


Lemma user_entry_release_eq entry e ud s w :
  heap w !! entry = Some (O_user_entry e) →
  heap w !! ue_dialog e = Some (O_unlock_dialog ud) →
  shell (desk w) = Some s →
  user_entry_button_handler entry WL_POINTER_BUTTON_STATE_RELEASED w
  = ([WidgetScheduleRedraw entry;
      PasswordDialogCreate (S (next w));
      Request (set_lock_surface (next w));
      WindowScheduleResize (next w) 400 100],
     Some ((), password_dialog_created entry w)).
Proof.
  intros He Hu Hs. unfold user_entry_button_handler. rewrite bind_emit.
  by rewrite (password_dialog_create_eq entry e ud s w He Hu Hs).
Qed.

(** X4. A press of the button on a user entry only schedules the redraw
    of the entry: it sends no request and leaves the state as it was.
    Every release schedules the redraw and then opens one more password
    sub-dialog for the entry, whether or not one is open already: [k]
    releases create [k] sub-dialogs, each with a window of its own, an
    empty text and the cursor at 0, and send [k] lock-surface requests;
    nothing that was allocated before is touched. *)
Theorem entry_release_opens_sub_dialog (xkb : Z → list ascii)
    (accounts : list passwd) (entry : ptr) (e : user_entry)
    (ud : unlock_dialog_t) (k : nat) (w : world) :
  is_Some (shell (desk w)) → heap_ok w →
  heap w !! entry = Some (O_user_entry e) →
  heap w !! ue_dialog e = Some (O_unlock_dialog ud) →
  user_entry_button_handler entry WL_POINTER_BUTTON_STATE_PRESSED w
  = ([WidgetScheduleRedraw entry], Some ((), w))
  ∧ user_entry_button_handler entry WL_POINTER_BUTTON_STATE_RELEASED w
    = ([WidgetScheduleRedraw entry;
        PasswordDialogCreate (S (next w));
        Request (set_lock_surface (next w));
        WindowScheduleResize (next w) 400 100],
       Some ((), password_dialog_created entry w))
  ∧ ∃ t w',
      run xkb accounts
          (replicate k (UserEntryButton entry
                          WL_POINTER_BUTTON_STATE_RELEASED)) w
      = (t, Some ((), w'))
      ∧ count_if is_password_create t = k
      ∧ count_if is_set_lock_surface t = k
      ∧ count_if (is_redraw_of entry) t = k
      ∧ desk w' = desk w ∧ next w' = (next w + 2 * k)%nat
      ∧ heap_ok w'
      ∧ (∀ p, (p < next w)%nat → heap w' !! p = heap w !! p)
      ∧ ∀ i, (i < k)%nat →
          heap w' !! (next w + 2 * i)%nat
          = Some (O_window (Some (next w + 2 * i + 1)%nat))
          ∧ heap w' !! (next w + 2 * i + 1)%nat
            = Some (O_password_dialog
                      (mk_password_dialog (next w + 2 * i)%nat [] 0 entry)).
Proof.
  intros [s Hs] Hok He Hu. split; [done|].
  split; [by apply (user_entry_release_eq entry e ud s)|].
  revert w Hs Hok He Hu. induction k as [|k IH]; intros w Hs Hok He Hu.
  { exists [], w. repeat split; try done; try lia. }
  pose proof (user_entry_release_eq entry e ud s w He Hu Hs) as E1.
  set (w1 := password_dialog_created entry w) in *.
  assert (Hlt1 : (entry < next w)%nat) by (by eapply heap_ok_lt).
  assert (Hlt2 : (ue_dialog e < next w)%nat) by (by eapply heap_ok_lt).
  destruct (IH w1)
    as (t2 & w2 & E2 & Hc & Hl & Hr & Hd & Hn & Hok2 & Hold & Hnew).
  - done.
  - by apply password_dialog_created_ok.
  - unfold w1. by rewrite password_dialog_created_old.
  - unfold w1. by rewrite password_dialog_created_old.
  - eexists _, w2. split.
    { unfold run. rewrite replicate_S. simpl for_each.
      eapply bind_eq2; [exact E1|exact E2]. }
    rewrite !count_if_app, Hc, Hl, Hr.
    split; [done|]. split; [done|]. split.
    { unfold count_if. simpl. by rewrite bool_decide_eq_true_2. }
    split; [by rewrite Hd|].
    split; [rewrite Hn; simpl; lia|]. split; [done|]. split.
    + intros p Hp. rewrite Hold by (simpl; lia).
      unfold w1. by rewrite password_dialog_created_old.
    + intros [|i] Hi.
      * replace (next w + 2 * 0)%nat with (next w) by lia.
        replace (next w + 1)%nat with (S (next w)) by lia.
        rewrite !Hold by (simpl; lia). simpl.
        rewrite lookup_insert_eq.
        by rewrite lookup_insert_ne, lookup_insert_eq by lia.
      * destruct (Hnew i ltac:(lia)) as [H1 H2]. simpl next in H1, H2.
        replace (next w + 2 * S i)%nat with (S (S (next w)) + 2 * i)%nat by lia.
        split; [rewrite H1|rewrite H2]; repeat f_equal; lia.
Qed.

Lemma edit_at_end xkb x sym :
  cursor_at_end x →
  ∃ x', (∀ w, password_dialog_edit xkb x sym w = ([], Some (x', w)))
        ∧ cursor_at_end x'
        ∧ pd_window x' = pd_window x ∧ pd_entry x' = pd_entry x
        ∧ (sym = XKB_KEY_Delete ∨ sym = XKB_KEY_Left ∨ sym = XKB_KEY_Right
           ∨ sym = XKB_KEY_Tab → x' = x)
        ∧ (x' = x
           ∨ (sym = XKB_KEY_BackSpace ∧ pd_text x ≠ []
              ∧ pd_text x' = removelast (pd_text x))
           ∨ (∃ c, xkb sym = [c] ∧ (length (pd_text x) < 30)%nat
                   ∧ pd_text x' = pd_text x ++ [c])).
Proof.
  unfold cursor_at_end, password_dialog_edit.
  destruct x as [win text n entry]. simpl. intros ->.
  case_bool_decide as Hbs.
  { case_bool_decide as Hz.
    - eexists. split; [done|]. repeat split; try done. by left.
    - unfold text_backspace. simpl.
      rewrite bool_decide_eq_true_2 by lia.
      eexists. split; [done|]. simpl.
      assert (Htk : take (Z.to_nat (Z.of_nat (length text) - 1)) text
                    ++ drop (Z.to_nat (Z.of_nat (length text))) text
                    = removelast text).
      { rewrite Nat2Z.id, drop_all, app_nil_r, removelast_firstn_len.
        f_equal. lia. }
      rewrite Htk. split.
      { rewrite <- Htk, length_app, length_take, length_drop. lia. }
      split; [done|]. split; [done|]. split.
      { subst sym. intros [?|[?|[?|?]]]; discriminate. }
      right; left. split; [done|]. split; [|done].
      intros Ht. subst text. done. }
  case_bool_decide as Hsp.
  { eexists. split; [done|]. repeat split; try done. by left. }
  case_bool_decide as Hlen.
  { eexists. split; [done|]. repeat split; try done; try tauto. }
  destruct (xkb sym) as [|c [|c' l]] eqn:Hx.
  - eexists. split; [done|]. repeat split; try done; try tauto.
  - unfold text_insert. simpl. rewrite bool_decide_eq_true_2 by lia.
    eexists. split; [done|]. simpl.
    rewrite Nat2Z.id, drop_all, firstn_all.
    split; [rewrite length_app; simpl; lia|].
    split; [done|]. split; [done|]. split; [tauto|].
    right; right. exists c. repeat split; try done. lia.
  - eexists. split; [done|]. repeat split; try done; try tauto.
Qed.

Lemma key_handler_at_end xkb d st sym w :
  typing_at_end w d → edit_key (st, sym) →
  ∃ t w', password_dialog_key_handler xkb d st sym w = (t, Some ((), w'))
          ∧ typing_at_end w' d.
Proof.
  intros (x & e & ud & Hd & He & Hu & Hc) Hk.
  unfold password_dialog_key_handler.
  rewrite (bind_pure _ _ _ _ _ (load_password_dialog_eq _ _ _ Hd)).
  rewrite (bind_pure _ _ _ _ _ (load_user_entry_eq _ _ _ He)).
  rewrite (bind_pure _ _ _ _ _ (load_unlock_dialog_eq _ _ _ Hu)).
  destruct st.
  { eexists _, _. split; [done|]. by exists x, e, ud. }
  destruct (Hk eq_refl) as (H1 & H2 & H3). simpl in H1, H2, H3.
  rewrite bool_decide_eq_false_2 by done.
  rewrite bool_decide_eq_false_2 by (by intros [?|?]).
  destruct (edit_at_end xkb x sym Hc) as (x' & E & Hc' & Hw & Hen & _).
  rewrite (bind_pure _ _ _ _ _ (E w)).
  rewrite (bind_pure _ _ _ _ _ (store_eq _ _ _ _ Hd)).
  eexists _, _. split; [done|].
  assert (d ≠ pd_entry x) by (intros Heq; rewrite <- Heq in He; congruence).
  assert (d ≠ ue_dialog e) by (intros Heq; rewrite <- Heq in Hu; congruence).
  exists x', e, ud. simpl. rewrite lookup_insert_eq, Hen.
  by rewrite !lookup_insert_ne.
Qed.

(** X5. The cursor of a password sub-dialog is always at the end of the
    text: no key moves it (Left, Right, Delete and Tab change nothing),
    so from a cursor at the end every edit leaves the dialog as it was,
    removes the last character (Backspace on a non-empty text) or appends
    the single character of the key (to a text of fewer than 30), and the
    cursor is at the end again; over every sequence of editing keys the
    handler completes and the cursor ends at the end of the text. *)
Theorem password_cursor_stays_at_end (xkb : Z → list ascii)
    (accounts : list passwd) :
  (∀ x sym, cursor_at_end x →
     ∃ x', (∀ w, password_dialog_edit xkb x sym w = ([], Some (x', w)))
           ∧ cursor_at_end x'
           ∧ (sym = XKB_KEY_Delete ∨ sym = XKB_KEY_Left
              ∨ sym = XKB_KEY_Right ∨ sym = XKB_KEY_Tab → x' = x)
           ∧ (x' = x
              ∨ (sym = XKB_KEY_BackSpace ∧ pd_text x ≠ []
                 ∧ pd_text x' = removelast (pd_text x))
              ∨ (∃ c, xkb sym = [c] ∧ (length (pd_text x) < 30)%nat
                      ∧ pd_text x' = pd_text x ++ [c])))
  ∧ (∀ keys d w,
       typing_at_end w d → Forall edit_key keys →
       ∃ t w',
         run xkb accounts ((λ k, PasswordKey d k.1 k.2) <$> keys) w
         = (t, Some ((), w'))
         ∧ typing_at_end w' d).
Proof.
  split.
  - intros x sym Hc.
    destruct (edit_at_end xkb x sym Hc) as (x' & E & Hc' & _ & _ & Hn & Hor).
    by exists x'.
  - intros keys d. induction keys as [|[st sym] keys IH]; intros w Hw Hks.
    + by exists [], w.
    + apply Forall_cons in Hks as [Hk Hks].
      destruct (key_handler_at_end xkb d st sym w Hw Hk)
        as (t1 & w1 & E1 & Hw1).
      destruct (IH w1 Hw1 Hks) as (t2 & w2 & E2 & Hw2).
      exists (t1 ++ t2), w2. split; [|done].
      unfold run. rewrite fmap_cons. simpl for_each.
      eapply bind_eq2; [exact E1|exact E2].
Qed.

(** X6. Escape closes a password sub-dialog without submitting: the
    sub-dialog and its window are destroyed, no request is sent, and the
    unlock dialog, its closing flag included, is as it was, so another
    sub-dialog can still submit.  The release of a key, Enter and Escape
    included, does nothing at all. *)
Theorem escape_closes_without_submitting (xkb : Z → list ascii)
    (d udp : ptr) (ud : unlock_dialog_t) (w : world) :
  sub_dialog w udp d → heap w !! udp = Some (O_unlock_dialog ud) →
  ∃ x, heap w !! d = Some (O_password_dialog x)
    ∧ password_dialog_key_handler xkb d WL_KEYBOARD_KEY_STATE_PRESSED
        XKB_KEY_Escape w
      = ([PasswordDialogDestroy d],
         Some ((), with_heap (delete d)
                     (with_heap (delete (pd_window x)) w)))
    ∧ heap (with_heap (delete d) (with_heap (delete (pd_window x)) w)) !! udp
      = Some (O_unlock_dialog ud)
    ∧ ∀ sym, password_dialog_key_handler xkb d
               WL_KEYBOARD_KEY_STATE_RELEASED sym w
             = ([], Some ((), w)).
Proof.
  intros (x & e & data & Hd & He & Hu & Hw) Hud. subst udp.
  exists x. split; [done|].
  assert (E : ∀ st sym,
    password_dialog_key_handler xkb d st sym w
    = match st with
      | WL_KEYBOARD_KEY_STATE_RELEASED => ret ()
      | WL_KEYBOARD_KEY_STATE_PRESSED =>
          if bool_decide (sym = XKB_KEY_Escape) then password_dialog_destroy d
          else if bool_decide (sym = XKB_KEY_Return ∨ sym = XKB_KEY_KP_Enter)
          then
            (if ud_closing ud then ret () else
               shell_request (switch_user (ue_name e)) ;;;
               store (ue_dialog e)
                 (O_unlock_dialog
                    (mk_unlock_dialog (ud_window ud) (ud_user_list ud) true))) ;;;
            password_dialog_destroy d
          else
            x' <- password_dialog_edit xkb x sym ;;
            store d (O_password_dialog x') ;;;
            emit (WidgetScheduleRedraw (pd_window x))
      end w).
  { intros st sym. unfold password_dialog_key_handler.
    rewrite (bind_pure _ _ _ _ _ (load_password_dialog_eq _ _ _ Hd)).
    rewrite (bind_pure _ _ _ _ _ (load_user_entry_eq _ _ _ He)).
    by rewrite (bind_pure _ _ _ _ _ (load_unlock_dialog_eq _ _ _ Hud)). }
  split; [|split].
  - rewrite E. rewrite bool_decide_eq_true_2 by done.
    by apply (password_dialog_destroy_eq d x data).
  - simpl.
    assert (ue_dialog e ≠ d) by (intros Heq; rewrite Heq in Hud; congruence).
    assert (ue_dialog e ≠ pd_window x)
      by (intros Heq; rewrite Heq in Hud; congruence).
    by rewrite !lookup_delete_ne.
  - intros sym. by rewrite E.
Qed.
(** ** Further properties: readiness *)

Lemma reads_fun {A} (m : M A) w r r' : reads m w r → reads m w r' → r = r'.
Proof.
  unfold reads. intros -> [= H]. destruct r as [a|], r' as [a'|]; simpl in *;
    congruence.
Qed.

Lemma panel_unpainted_live op w :
  (∀ p, op = Some p → ∃ x, heap w !! p = Some (O_panel x)) →
  ∃ b, reads (panel_unpainted op) w (Some b).
Proof.
  intros H. unfold reads, panel_unpainted. destruct op as [p|].
  - destruct (H p eq_refl) as [x Hx]. eexists.
    by rewrite (bind_pure _ _ _ _ _ (load_panel_eq _ _ _ Hx)).
  - by eexists.
Qed.

Lemma background_unpainted_live ob w :
  (∀ b, ob = Some b → ∃ y, heap w !! b = Some (O_background y)) →
  ∃ b, reads (background_unpainted ob) w (Some b).
Proof.
  intros H. unfold reads, background_unpainted. destruct ob as [b|].
  - destruct (H b eq_refl) as [x Hx]. eexists.
    by rewrite (bind_pure _ _ _ _ _ (load_background_eq _ _ _ Hx)).
  - by eexists.
Qed.

Lemma is_desktop_painted_live w :
  surfaces_live w →
  ∃ b, reads is_desktop_painted w (Some b) ∧ (b = true ↔ all_active_painted w).
Proof.
  intros Hl.
  assert (H : ∃ b, reads (is_desktop_painted_from (outputs (desk w))) w (Some b)).
  { unfold surfaces_live in Hl. induction Hl as [|o os [Hp Hb] Hos IH].
    - by exists true.
    - destruct (panel_unpainted_live _ w Hp) as [c Hc].
      destruct (background_unpainted_live _ w Hb) as [c' Hc'].
      destruct IH as [b IH]. unfold reads in *.
      cbn [is_desktop_painted_from]. rewrite (bind_reads _ _ _ _ Hc).
      destruct c; [by eexists|]. rewrite (bind_reads _ _ _ _ Hc').
      destruct c'; [by eexists|]. by exists b. }
  destruct H as [b Hb]. exists b.
  assert (Hr : reads is_desktop_painted w (Some b)).
  { unfold reads, is_desktop_painted. rewrite bind_gets. exact Hb. }
  split; [done|].
  destruct (is_desktop_painted_spec w) as (r & Hr' & Hall).
  rewrite <- (reads_fun _ _ _ _ Hr Hr') in Hall. rewrite <- Hall.
  split; [by intros ->|by intros [= ->]].
Qed.

(** [check_desktop_ready] when the active surfaces are live. *)
Lemma check_desktop_ready_live s w :
  shell (desk w) = Some s → surfaces_live w →
  ∃ t w1, check_desktop_ready w = (t, Some ((), w1))
    ∧ heap w1 = heap w
    ∧ outputs (desk w1) = outputs (desk w)
    ∧ shell (desk w1) = shell (desk w)
    ∧ interface_version (desk w1) = interface_version (desk w)
    ∧ (painted (desk w1) = true
       ↔ painted (desk w) = true ∨ all_active_painted w)
    ∧ sent desktop_ready t
      = (if bool_decide (2 ≤ interface_version (desk w))%Z
         then ready_left w - ready_left w1 else 0)%nat.
Proof.
  intros Hs Hl. destruct (is_desktop_painted_live w Hl) as (b & Hr & Hb).
  rewrite (check_desktop_ready_unfold _ _ Hr). unfold ready_left.
  destruct (painted (desk w)) eqn:Hp.
  { exists [], w. rewrite Hp. repeat split; try done; try (by left).
    by case_bool_decide. }
  destruct b.
  - rewrite Hs. case_bool_decide; eexists _, _; (split; [done|]); simpl;
      repeat split; try done; try (intros _; right; by apply Hb).
  - exists [], w. rewrite Hp. repeat split; try done.
    + intros [?|H]; [done|]. apply Hb in H. done.
    + by case_bool_decide.
Qed.

Lemma surfaces_live_step w w1 :
  paint_step w w1 → surfaces_live w → surfaces_live w1.
Proof.
  intros (Ho & _ & _ & _ & Hp & Hb) Hl. unfold surfaces_live in *.
  rewrite Ho. eapply Forall_impl; [exact Hl|].
  intros o [H1 H2]. split.
  - intros p Hp'. destruct (H1 p Hp') as [x Hx].
    destruct (Hp p x Hx) as (x' & Hx' & _). by exists x'.
  - intros b Hb'. destruct (H2 b Hb') as [y Hy].
    destruct (Hb b y Hy) as (y' & Hy' & _). by exists y'.
Qed.

Lemma paint_step_insert_panel p x w :
  heap w !! p = Some (O_panel x) → paint_step w (panel_painted_now p x w).
Proof.
  intros Hp. repeat split; try done.
  - intros q x0 Hq. simpl. destruct (decide (q = p)) as [->|Hne].
    + rewrite lookup_insert_eq. eexists. split; [done|]. done.
    + rewrite lookup_insert_ne by done. by exists x0.
  - intros q y Hq. simpl. destruct (decide (q = p)) as [->|Hne].
    + congruence.
    + rewrite lookup_insert_ne by done. by exists y.
Qed.

Lemma paint_step_insert_background b y w :
  heap w !! b = Some (O_background y) →
  paint_step w (background_painted_now b y w).
Proof.
  intros Hb. repeat split; try done.
  - intros q x Hq. simpl. destruct (decide (q = b)) as [->|Hne].
    + congruence.
    + rewrite lookup_insert_ne by done. by exists x.
  - intros q y0 Hq. simpl. destruct (decide (q = b)) as [->|Hne].
    + rewrite lookup_insert_eq. eexists. split; [done|]. done.
    + rewrite lookup_insert_ne by done. by exists y0.
Qed.

Lemma paint_step_check w0 w1 :
  heap w1 = heap w0 → outputs (desk w1) = outputs (desk w0) →
  shell (desk w1) = shell (desk w0) →
  interface_version (desk w1) = interface_version (desk w0) →
  (painted (desk w0) = true → painted (desk w1) = true) →
  paint_step w0 w1.
Proof.
  intros Hh Ho Hs Hv Hp. repeat split; try done.
  - intros q x Hq. rewrite Hh. by exists x.
  - intros q y Hq. rewrite Hh. by exists y.
Qed.

Lemma paint_step_trans w w1 w2 :
  paint_step w w1 → paint_step w1 w2 → paint_step w w2.
Proof.
  intros (A1 & B1 & C1 & D1 & E1 & F1) (A2 & B2 & C2 & D2 & E2 & F2).
  repeat split; try congruence; try auto.
  - intros q x Hq. destruct (E1 q x Hq) as (x1 & Hx1 & Hm1).
    destruct (E2 q x1 Hx1) as (x2 & Hx2 & Hm2). exists x2. auto.
  - intros q y Hq. destruct (F1 q y Hq) as (y1 & Hy1 & Hm1).
    destruct (F2 q y1 Hy1) as (y2 & Hy2 & Hm2). exists y2. auto.
Qed.

Lemma all_painted_same_heap w w' :
  heap w' = heap w → outputs (desk w') = outputs (desk w) →
  all_active_painted w ↔ all_active_painted w'.
Proof.
  intros Hh Ho. unfold all_active_painted, output_painted, panel_is_painted,
    background_is_painted. by rewrite Hh, Ho.
Qed.

(** One paint. *)
Lemma paint_handled xkb accounts e s w :
  shell (desk w) = Some s → surfaces_live w → paint_of w e →
  ∃ t w1, handle xkb accounts e w = (t, Some ((), w1))
    ∧ paint_step w w1
    ∧ match e with
      | PanelRedraw p => panel_is_painted w1 p
      | BackgroundDraw b => background_is_painted w1 b
      | _ => True
      end
    ∧ (painted (desk w1) = true
       ↔ painted (desk w) = true ∨ all_active_painted w1)
    ∧ sent desktop_ready t
      = (if bool_decide (2 ≤ interface_version (desk w))%Z
         then ready_left w - ready_left w1 else 0)%nat.
Proof.
  intros Hs Hl He. destruct e; try done; simpl in He; destruct He as [x Hx].
  - simpl handle. rewrite panel_redraw_handler_unfold, Hx.
    pose proof (paint_step_insert_panel p x w Hx) as Hst.
    destruct (check_desktop_ready_live s (panel_painted_now p x w))
      as (t & w1 & E & Hh & Ho & Hs1 & Hv & Hp & Hsent);
      [done|by eapply surfaces_live_step|].
    exists t, w1. split; [done|]. split.
    { eapply paint_step_trans; [exact Hst|].
      apply paint_step_check; try done. intros H. apply Hp. by left. }
    split.
    { eexists. rewrite Hh. simpl. by rewrite lookup_insert_eq. }
    split.
    { rewrite Hp. simpl.
      by rewrite (all_painted_same_heap (panel_painted_now p x w) w1). }
    exact Hsent.
  - simpl handle. rewrite background_draw_unfold, Hx.
    pose proof (paint_step_insert_background b x w Hx) as Hst.
    destruct (check_desktop_ready_live s (background_painted_now b x w))
      as (t & w1 & E & Hh & Ho & Hs1 & Hv & Hp & Hsent);
      [done|by eapply surfaces_live_step|].
    exists t, w1. split; [done|]. split.
    { eapply paint_step_trans; [exact Hst|].
      apply paint_step_check; try done. intros H. apply Hp. by left. }
    split.
    { eexists. rewrite Hh. simpl. by rewrite lookup_insert_eq. }
    split.
    { rewrite Hp. simpl.
      by rewrite (all_painted_same_heap (background_painted_now b x w) w1). }
    exact Hsent.
Qed.

Lemma paint_step_refl w : paint_step w w.
Proof.
  repeat split; try done.
  - intros q x Hq. by exists x.
  - intros q y Hq. by exists y.
Qed.

Lemma paint_of_step w w1 e : paint_step w w1 → paint_of w e → paint_of w1 e.
Proof.
  intros (_ & _ & _ & _ & Hp & Hb). destruct e; try done; intros [x Hx].
  - destruct (Hp _ _ Hx) as (x' & Hx' & _). by exists x'.
  - destruct (Hb _ _ Hx) as (x' & Hx' & _). by exists x'.
Qed.

Lemma painted_step_panel w w1 p :
  paint_step w w1 → panel_is_painted w p → panel_is_painted w1 p.
Proof.
  intros (_ & _ & _ & _ & Hp & _) (x & Hx & Hpx).
  destruct (Hp _ _ Hx) as (x' & Hx' & Hm). exists x'. auto.
Qed.

Lemma painted_step_background w w1 b :
  paint_step w w1 → background_is_painted w b → background_is_painted w1 b.
Proof.
  intros (_ & _ & _ & _ & _ & Hb) (x & Hx & Hpx).
  destruct (Hb _ _ Hx) as (x' & Hx' & Hm). exists x'. auto.
Qed.

Lemma paints_cover_nil w : paints_cover w [] → all_active_painted w.
Proof.
  unfold paints_cover, all_active_painted, output_painted.
  intros H. eapply Forall_impl; [exact H|]. intros o [H1 H2]. split.
  - intros p Hp. destruct (H1 p Hp) as [?|H']; [done|].
    by apply elem_of_nil in H'.
  - intros b Hb. destruct (H2 b Hb) as [?|H']; [done|].
    by apply elem_of_nil in H'.
Qed.

Lemma ready_left_step w w1 :
  paint_step w w1 → (ready_left w1 ≤ ready_left w)%nat.
Proof.
  intros (_ & _ & _ & Hp & _). unfold ready_left.
  destruct (painted (desk w)); [by rewrite Hp|].
  destruct (painted (desk w1)); lia.
Qed.

Lemma paints_run xkb accounts es : ∀ w s,
  shell (desk w) = Some s → surfaces_live w →
  Forall (paint_of w) es → paints_cover w es →
  ∃ t w', run xkb accounts es w = (t, Some ((), w'))
    ∧ paint_step w w' ∧ all_active_painted w'
    ∧ (es ≠ [] → painted (desk w') = true)
    ∧ sent desktop_ready t
      = (if bool_decide (2 ≤ interface_version (desk w))%Z
         then ready_left w - ready_left w' else 0)%nat.
Proof.
  induction es as [|e es IH]; intros w s Hs Hl Hes Hcov.
  { exists [], w. split; [done|]. split; [apply paint_step_refl|].
    split; [by apply paints_cover_nil|]. split; [done|].
    unfold sent. case_bool_decide; simpl; lia. }
  apply Forall_cons in Hes as [He Hes].
  destruct (paint_handled xkb accounts e s w Hs Hl He)
    as (t1 & w1 & E1 & Hst & Hpt & Hp1 & Hsent1).
  pose proof Hst as (Ho & Hs1 & Hv1 & Hm1 & _).
  assert (Hcov1 : paints_cover w1 es).
  { unfold paints_cover in *. rewrite Ho.
    eapply Forall_impl; [exact Hcov|]. intros o [H1 H2]. split.
    - intros p Hp. destruct (H1 p Hp) as [H|H].
      + left. by eapply painted_step_panel.
      + apply elem_of_cons in H as [<-|H]; [by left|by right].
    - intros b Hb. destruct (H2 b Hb) as [H|H].
      + left. by eapply painted_step_background.
      + apply elem_of_cons in H as [<-|H]; [by left|by right]. }
  destruct (IH w1 s) as (t2 & w' & E2 & Hst2 & Hall & Hne & Hsent2).
  - by rewrite Hs1.
  - by eapply surfaces_live_step.
  - eapply Forall_impl; [exact Hes|]. intros e'. by apply paint_of_step.
  - done.
  - exists (t1 ++ t2), w'. split.
    { unfold run. simpl for_each. eapply bind_eq2; [exact E1|exact E2]. }
    split; [by eapply paint_step_trans|]. split; [done|]. split.
    { intros _. destruct es as [|e' es'].
      - destruct Hst2 as (_ & _ & _ & Hm2 & _). apply Hm2, Hp1. right.
        by apply paints_cover_nil.
      - by apply Hne. }
    rewrite sent_app, Hsent1, Hsent2, Hv1.
    pose proof (ready_left_step _ _ Hst). pose proof (ready_left_step _ _ Hst2).
    repeat case_bool_decide; lia.
Qed.

(** X7. Readiness is reached: on a bound shell whose readiness flag is
    clear, a non-empty sequence of paint completions of live panels and
    backgrounds in which every active surface that has not painted yet
    paints at least once, in any order and with any repetitions, is
    handled to the end and leaves the readiness flag set and every active
    surface painted; the desktop-ready signal is sent exactly once if the
    negotiated version is at least 2 and not at all otherwise. *)
Theorem desktop_ready_after_all_paints (xkb : Z → list ascii)
    (accounts : list passwd) (es : list event) (w : world) :
  is_Some (shell (desk w)) → painted (desk w) = false →
  surfaces_live w → es ≠ [] →
  Forall (paint_of w) es → paints_cover w es →
  ∃ t w', run xkb accounts es w = (t, Some ((), w'))
    ∧ painted (desk w') = true ∧ all_active_painted w'
    ∧ sent desktop_ready t
      = (if bool_decide (2 ≤ interface_version (desk w))%Z then 1 else 0)%nat.
Proof.
  intros [s Hs] Hp Hl Hne Hes Hcov.
  destruct (paints_run xkb accounts es w s Hs Hl Hes Hcov)
    as (t & w' & E & _ & Hall & Hpt & Hsent).
  exists t, w'. split; [done|]. split; [by apply Hpt|]. split; [done|].
  rewrite Hsent. unfold ready_left. rewrite Hp, (Hpt Hne).
  by case_bool_decide.
Qed.
(** ** Further properties: requests and settings *)

Section Sends.
Variable Q : request → Prop.

Lemma sends_ret {A} (a : A) : sends Q (ret a).
Proof. by apply preserves_ret. Qed.
Lemma sends_crash {A} : sends Q (@crash A).
Proof. apply preserves_crash. Qed.
Lemma sends_gets {A} (f : world → A) : sends Q (gets f).
Proof. by apply preserves_gets. Qed.
Lemma sends_modify f : sends Q (modify f).
Proof. by apply preserves_modify. Qed.
Lemma sends_emit a : (∀ r, a = Request r → Q r) → sends Q (emit a).
Proof.
  intros H. by apply (preserves_emit (λ _ _, True)
                        (λ a, ∀ r, a = Request r → Q r)).
Qed.
Lemma sends_bind {A B} (m : M A) (k : A → M B) :
  sends Q m → (∀ a, sends Q (k a)) → sends Q (bind m k).
Proof. by apply preserves_bind. Qed.
Lemma sends_load p : sends Q (load p).
Proof. by apply preserves_load. Qed.
Lemma sends_alloc o : sends Q (alloc o).
Proof. by apply preserves_alloc. Qed.
Lemma sends_store p o : sends Q (store p o).
Proof. by apply preserves_store. Qed.
Lemma sends_free p : sends Q (free p).
Proof. by apply preserves_free. Qed.
Lemma sends_for_each {A} (f : A → M unit) l :
  (∀ x, sends Q (f x)) → sends Q (for_each f l).
Proof. by apply preserves_for_each. Qed.
Lemma sends_map_each {A} (f : A → M A) l :
  (∀ x, sends Q (f x)) → sends Q (map_each f l).
Proof. by apply preserves_map_each. Qed.
Lemma sends_shell_request r : Q r → sends Q (shell_request r).
Proof.
  intros Hr. unfold shell_request. apply sends_bind; [apply sends_gets|].
  intros [s|]; [|apply sends_crash]. apply sends_emit. by intros ? [= <-].
Qed.

End Sends.

(** One step of a proof about the requests of a handler. *)
Ltac sends_step :=
  first
    [ apply sends_ret | apply sends_crash | apply sends_gets
    | apply sends_load | apply sends_alloc | apply sends_store
    | apply sends_free | apply sends_modify
    | apply sends_emit; intros ? [=]
    | match goal with
      | |- sends _ (shell_request _) =>
          apply sends_shell_request; first [exact I | auto]
      end
    | apply sends_bind; [|intros ?]
    | apply sends_for_each; intros ?
    | apply sends_map_each; intros ?
    | assumption
    | match goal with
      | |- sends _ (match ?x with _ => _ end) => destruct x
      | |- sends _ (let _ := _ in _) => cbv zeta
      | IH : ∀ _, sends _ _ |- _ => apply IH
      | IH : ∀ _ _, sends _ _ |- _ => apply IH
      end ].
Ltac sends_tac := repeat sends_step.

Lemma sends_is_desktop_painted_from Q os : sends Q (is_desktop_painted_from os).
Proof.
  induction os as [|o os IH]; simpl;
    unfold panel_unpainted, background_unpainted, load_panel, load_background;
    sends_tac.
Qed.

Lemma sends_add_accounts Q d l : ∀ ew uc,
  sends Q (unlock_dialog_add_accounts d l ew uc).
Proof.
  induction l as [|pwd l IH]; intros ew uc; simpl;
    unfold unlock_dialog_add_user_entry, load_unlock_dialog; sends_tac.
Qed.

Lemma sends_rebind_panels (Q : request → Prop) u wl ps :
  (∀ s, Q (set_panel wl s)) → ∀ st, sends Q (rebind_panels u wl ps st).
Proof.
  intros HQ. induction ps as [|p ps IH]; intros st; simpl;
    unfold load_panel; sends_tac.
Qed.

Lemma sends_rebind_backgrounds (Q : request → Prop) u wl bs :
  (∀ s, Q (set_background wl s)) →
  ∀ st, sends Q (rebind_backgrounds u wl bs st).
Proof.
  intros HQ. induction bs as [|b bs IH]; intros st; simpl;
    unfold load_background; sends_tac.
Qed.

Lemma sends_handle xkb accounts e :
  sends (request_allowed e) (handle xkb accounts e).
Proof.
  destruct e; simpl.
  - unfold global_handler, create_output, output_init, panel_create,
      background_create, window_create_custom, window_set_user_data,
      window_get_user_data, load_panel, load_background.
    sends_tac.
  - unfold global_handler_remove, output_destroy, background_destroy,
      panel_destroy, load_panel, load_background.
    sends_tac.
  - unfold desktop_shell_configure, panel_configure, background_configure,
      window_get_user_data, load_panel, load_background.
    sends_tac.
  - unfold desktop_shell_prepare_lock_surface, unlock_dialog_create,
      window_create_custom, window_set_user_data, window_get_user_data.
    sends_tac. apply sends_add_accounts.
  - unfold desktop_shell_grab_cursor. sends_tac.
  - unfold desktop_shell_user_switched, switch_output, switch_panel,
      switch_background, display_defer, panel_create, background_create,
      window_create_custom, window_set_user_data, window_get_user_data,
      load_panel, load_background.
    sends_tac; first [by apply sends_rebind_panels
                     |by apply sends_rebind_backgrounds].
  - unfold panel_redraw_handler, check_desktop_ready, is_desktop_painted,
      load_panel.
    sends_tac. apply sends_is_desktop_painted_from.
  - unfold background_draw, check_desktop_ready, is_desktop_painted,
      load_background.
    sends_tac. apply sends_is_desktop_painted_from.
  - unfold panel_resize_handler, load_panel. sends_tac.
  - unfold user_entry_button_handler, password_dialog_create,
      window_create_custom, window_set_user_data, window_get_user_data,
      load_user_entry, load_unlock_dialog.
    sends_tac.
  - unfold password_dialog_key_handler, password_dialog_destroy,
      password_dialog_edit, text_backspace, text_insert,
      load_password_dialog, load_user_entry, load_unlock_dialog.
    sends_tac.
  - unfold run_deferred, unlock_dialog_finish, unlock_dialog_destroy,
      load_unlock_dialog.
    sends_tac.
Qed.

Lemma sends_switcher_menu_func window index :
  sends (λ r, r = lock) (switcher_menu_func window index).
Proof.
  unfold switcher_menu_func, window_get_user_data, load_panel. sends_tac.
Qed.

Lemma switcher_menu_func_eq window index p x s w :
  heap w !! window = Some (O_window (Some p)) →
  heap w !! p = Some (O_panel x) → shell (desk w) = Some s →
  switcher_menu_func window index w
  = (if bool_decide (interface_version (desk w) >= 2)
     then [Request lock] else [], Some ((), w)).
Proof.
  intros Hw Hp Hs. unfold switcher_menu_func.
  rewrite (bind_pure _ _ _ _ _ (window_get_user_data_eq _ _ _ Hw)).
  rewrite (bind_pure _ _ _ _ _ (load_panel_eq _ _ _ Hp)).
  rewrite bind_gets. case_bool_decide; [|done].
  by apply (shell_request_eq _ s).
Qed.

Lemma trace_of_bind {A B} (m : M A) (k : A → M B) w a :
  a ∈ trace_of (bind m k) w →
  a ∈ trace_of m w
  ∨ ∃ x w', outcome m w = Some (x, w') ∧ a ∈ trace_of (k x) w'.
Proof.
  unfold trace_of, outcome, bind.
  destruct (m w) as [t [[x w']|]]; simpl; [|by left].
  destruct (k x w') as [t' r] eqn:E. simpl.
  intros [?|?]%elem_of_app; [by left|right].
  exists x, w'. by rewrite E.
Qed.

(** X8. Every request has its events: whatever the state, a global
    announcement and a user switch send only set_panel and
    set_background, a prepare-lock only unlock and set_lock_surface, a
    paint only desktop_ready, a release on a user entry only
    set_lock_surface, a key in a password sub-dialog only switch_user,
    the deferred task only unlock, and the removal of a global, a
    configure, a grab-cursor and a resize send nothing.  So no sequence
    of events makes the client ask for the lock or set the grab surface:
    the lock request comes from the switcher menu only, whose callback
    sends nothing else, and which sends it for either menu entry when the
    version is at least 2 and nothing below that. *)
Theorem requests_follow_events (xkb : Z → list ascii)
    (accounts : list passwd) :
  (∀ e w r, Request r ∈ trace_of (handle xkb accounts e) w →
            request_allowed e r)
  ∧ (∀ es w r, Request r ∈ trace_of (run xkb accounts es) w →
               ∃ e, e ∈ es ∧ request_allowed e r)
  ∧ (∀ es w, (Request lock ∉ trace_of (run xkb accounts es) w)
             ∧ ∀ s, Request (set_grab_surface s)
                    ∉ trace_of (run xkb accounts es) w)
  ∧ (∀ window index w r,
       Request r ∈ trace_of (switcher_menu_func window index) w → r = lock)
  ∧ (∀ window index p x w,
       heap w !! window = Some (O_window (Some p)) →
       heap w !! p = Some (O_panel x) → is_Some (shell (desk w)) →
       switcher_menu_func window index w
       = (if bool_decide (interface_version (desk w) >= 2)
          then [Request lock] else [], Some ((), w))).
Proof.
  assert (H4 : ∀ window index w r,
            Request r ∈ trace_of (switcher_menu_func window index) w →
            r = lock).
  { intros window index w r Hr.
    destruct (sends_switcher_menu_func window index w) as [Ht _].
    by apply (proj1 (Forall_forall _ _) Ht (Request r) Hr). }
  assert (H5 : ∀ window index p x w,
            heap w !! window = Some (O_window (Some p)) →
            heap w !! p = Some (O_panel x) → is_Some (shell (desk w)) →
            switcher_menu_func window index w
            = (if bool_decide (interface_version (desk w) >= 2)
               then [Request lock] else [], Some ((), w))).
  { intros window index p x w Hw Hp [s Hs].
    by apply (switcher_menu_func_eq window index p x s). }
  assert (H1 : ∀ e w r, Request r ∈ trace_of (handle xkb accounts e) w →
                        request_allowed e r).
  { intros e w r Hr. destruct (sends_handle xkb accounts e w) as [Ht _].
    by apply (proj1 (Forall_forall _ _) Ht (Request r) Hr). }
  assert (H2 : ∀ es w r, Request r ∈ trace_of (run xkb accounts es) w →
                         ∃ e, e ∈ es ∧ request_allowed e r).
  { induction es as [|e es IH]; intros w r Hr.
    - by apply elem_of_nil in Hr.
    - unfold run in Hr. simpl for_each in Hr.
      apply trace_of_bind in Hr as [Hr|(x & w' & _ & Hr)].
      + exists e. split; [apply list_elem_of_here|by eapply H1].
      + destruct (IH w' r Hr) as (e' & He' & Ha).
        exists e'. split; [by apply list_elem_of_further|done]. }
  split; [done|]. split; [done|]. split; [|by split].
  intros es w. split.
  - intros Hr. destruct (H2 es w _ Hr) as (e & _ & Ha). by destruct e.
  - intros s Hr. destruct (H2 es w _ Hr) as (e & _ & Ha). by destruct e.
Qed.

Lemma settings_kept_refl w : settings_kept w w.
Proof. by repeat split. Qed.
Lemma settings_kept_trans w1 w2 w3 :
  settings_kept w1 w2 → settings_kept w2 w3 → settings_kept w1 w3.
Proof.
  intros (A1 & B1 & C1) (A2 & B2 & C2). repeat split; [auto|congruence|auto].
Qed.

Lemma keeps_ret {A} (a : A) : keeps (ret a).
Proof. apply preserves_ret, settings_kept_refl. Qed.
Lemma keeps_crash {A} : keeps (@crash A).
Proof. apply preserves_crash. Qed.
Lemma keeps_gets {A} (f : world → A) : keeps (gets f).
Proof. apply preserves_gets, settings_kept_refl. Qed.
Lemma keeps_emit a : keeps (emit a).
Proof. by apply (preserves_emit settings_kept (λ _, True) settings_kept_refl). Qed.
Lemma keeps_modify f : (∀ w, settings_kept w (f w)) → keeps (modify f).
Proof. apply preserves_modify. Qed.
Lemma keeps_bind {A B} (m : M A) (k : A → M B) :
  keeps m → (∀ a, keeps (k a)) → keeps (bind m k).
Proof.
  apply preserves_bind; [apply settings_kept_refl|apply settings_kept_trans].
Qed.
Lemma keeps_load p : keeps (load p).
Proof. apply preserves_load, settings_kept_refl. Qed.
Lemma keeps_alloc o : keeps (alloc o).
Proof. apply preserves_alloc. intros ? ?. by repeat split. Qed.
Lemma keeps_store p o : keeps (store p o).
Proof. apply preserves_store. intros ? ? ? ? ?. by repeat split. Qed.
Lemma keeps_free p : keeps (free p).
Proof. apply preserves_free. intros ? ? ? ?. by repeat split. Qed.
Lemma keeps_for_each {A} (f : A → M unit) l :
  (∀ x, keeps (f x)) → keeps (for_each f l).
Proof.
  apply preserves_for_each; [apply settings_kept_refl|apply settings_kept_trans].
Qed.
Lemma keeps_map_each {A} (f : A → M A) l :
  (∀ x, keeps (f x)) → keeps (map_each f l).
Proof.
  apply preserves_map_each; [apply settings_kept_refl|apply settings_kept_trans].
Qed.

Ltac keeps_step :=
  first
    [ apply keeps_ret | apply keeps_crash | apply keeps_gets
    | apply keeps_load | apply keeps_alloc | apply keeps_store
    | apply keeps_free | apply keeps_emit
    | apply keeps_modify; intros ?; by repeat split
    | apply keeps_bind; [|intros ?]
    | apply keeps_for_each; intros ?
    | apply keeps_map_each; intros ?
    | assumption
    | match goal with
      | |- keeps (match ?x with _ => _ end) => destruct x
      | |- keeps (let _ := _ in _) => cbv zeta
      | IH : ∀ _, keeps _ |- _ => apply IH
      | IH : ∀ _ _, keeps _ |- _ => apply IH
      end ].
Ltac keeps_tac := repeat keeps_step.

Lemma keeps_is_desktop_painted_from os : keeps (is_desktop_painted_from os).
Proof.
  induction os as [|o os IH]; simpl;
    unfold panel_unpainted, background_unpainted, load_panel, load_background;
    keeps_tac.
Qed.

Lemma keeps_add_accounts d l : ∀ ew uc,
  keeps (unlock_dialog_add_accounts d l ew uc).
Proof.
  induction l as [|pwd l IH]; intros ew uc; simpl;
    unfold unlock_dialog_add_user_entry, load_unlock_dialog; keeps_tac.
Qed.

Lemma keeps_rebind_panels u wl ps : ∀ st, keeps (rebind_panels u wl ps st).
Proof.
  induction ps as [|p ps IH]; intros st; simpl;
    unfold load_panel, shell_request; keeps_tac.
Qed.

Lemma keeps_rebind_backgrounds u wl bs :
  ∀ st, keeps (rebind_backgrounds u wl bs st).
Proof.
  induction bs as [|b bs IH]; intros st; simpl;
    unfold load_background, shell_request; keeps_tac.
Qed.

Lemma keeps_handle xkb accounts e : keeps (handle xkb accounts e).
Proof.
  destruct e; simpl.
  - unfold global_handler, create_output, output_init, panel_create,
      background_create, window_create_custom, window_set_user_data,
      window_get_user_data, load_panel, load_background, shell_request.
    keeps_tac.
    apply keeps_modify. intros w. repeat split; try done. simpl.
    intros _. case_bool_decide; lia.
  - unfold global_handler_remove, output_destroy, background_destroy,
      panel_destroy, load_panel, load_background.
    keeps_tac.
  - unfold desktop_shell_configure, panel_configure, background_configure,
      window_get_user_data, load_panel, load_background.
    keeps_tac.
  - unfold desktop_shell_prepare_lock_surface, unlock_dialog_create,
      window_create_custom, window_set_user_data, window_get_user_data,
      shell_request.
    keeps_tac. apply keeps_add_accounts.
  - unfold desktop_shell_grab_cursor. keeps_tac.
  - unfold desktop_shell_user_switched, switch_output, switch_panel,
      switch_background, display_defer, panel_create, background_create,
      window_create_custom, window_set_user_data, window_get_user_data,
      load_panel, load_background, shell_request.
    keeps_tac; first [apply keeps_rebind_panels
                     |apply keeps_rebind_backgrounds].
  - unfold panel_redraw_handler, check_desktop_ready, is_desktop_painted,
      load_panel, shell_request.
    keeps_tac. apply keeps_is_desktop_painted_from.
  - unfold background_draw, check_desktop_ready, is_desktop_painted,
      load_background, shell_request.
    keeps_tac. apply keeps_is_desktop_painted_from.
  - unfold panel_resize_handler, load_panel. keeps_tac.
  - unfold user_entry_button_handler, password_dialog_create,
      window_create_custom, window_set_user_data, window_get_user_data,
      load_user_entry, load_unlock_dialog, shell_request.
    keeps_tac.
  - unfold password_dialog_key_handler, password_dialog_destroy,
      password_dialog_edit, text_backspace, text_insert,
      load_password_dialog, load_user_entry, load_unlock_dialog,
      shell_request.
    keeps_tac.
  - unfold run_deferred, unlock_dialog_finish, unlock_dialog_destroy,
      load_unlock_dialog, shell_request.
    keeps_tac.
Qed.

(** X9. What no sequence of events undoes: whenever a run of events
    completes, a shell that was bound is still bound, the locking policy
    is the one the state started with, and a negotiated version of at
    most 2 is still at most 2. *)
Theorem settings_survive_every_event (xkb : Z → list ascii)
    (accounts : list passwd) (es : list event) (w w' : world) :
  final (run xkb accounts es) w = Some w' →
  (is_Some (shell (desk w)) → is_Some (shell (desk w')))
  ∧ locking (desk w') = locking (desk w)
  ∧ (interface_version (desk w) ≤ 2 → interface_version (desk w') ≤ 2).
Proof.
  intros Hf.
  assert (Hk : keeps (run xkb accounts es)).
  { apply keeps_for_each. intros e. apply keeps_handle. }
  unfold final, outcome in Hf. destruct (Hk w) as [_ Hw].
  destruct ((run xkb accounts es w).2) as [[[] w0]|] eqn:E; [|done].
  injection Hf as <-. by apply (Hw ()).
Qed.
(** ** Further properties: outputs and users *)

Lemma output_destroy_full i o w :
  outputs (desk w) !! i = Some o → output_owned w o →
  ∃ w',
    output_destroy i w = (output_teardown o, Some ((), w'))
    ∧ desk w' = set_outputs (delete i (outputs (desk w))) (desk w)
    ∧ next w' = next w ∧ deferred w' = deferred w
    ∧ freed (output_cells w o) w w'.
Proof.
  intros Hi (ps & bs & Hps & Hbs & Lp & Lb & Hnd & Ap & Ab).
  unfold surface_cells in Hnd. apply NoDup_app in Hnd as (Hnb & Hdis & Hnp).
  destruct (destroy_backgrounds_spec bs w Lb Hnb)
    as (w1 & E1 & Hd1 & Hn1 & Hdf1 & Hf1).
  destruct (panel_cells_stable _ w w1 ps Hf1) as [Lp1 Hc1]; [|done|].
  { intros q Hq Hq'. by apply (Hdis q). }
  destruct (destroy_panels_spec ps w1 Lp1) as (w2 & E2 & Hd2 & Hn2 & Hdf2 & Hf2).
  { by rewrite Hc1. }
  rewrite Hc1 in Hf2.
  pose proof (freed_app _ _ _ _ _ Hf1 Hf2) as Hf.
  exists (with_desk (set_outputs (delete i (outputs (desk w)))) w2).
  unfold output_teardown, output_cells. rewrite Hbs, Hps. split.
  { unfold output_destroy. rewrite bind_gets, Hi, Hbs, Hps.
    eapply bind_eq2; [exact E1|]. eapply bind_eq2; [exact E2|].
    rewrite bind_emit. reflexivity. }
  simpl. rewrite Hd2, Hd1, Hn2, Hn1, Hdf2, Hdf1. done.
Qed.

(** X10. An output that comes and goes leaves no trace: on a bound
    shell, the announcement of an output global followed by its removal
    binds the output, creates its panel and its background and announces
    them, then destroys the background, the panel and the proxy; the
    desktop and the heap end exactly as they were, the registry
    included (the allocator has moved on by four addresses). *)
Theorem output_add_remove_round_trip (xkb : Z → list ascii)
    (accounts : list passwd) (id v : Z) (w : world) :
  is_Some (shell (desk w)) → heap_ok w →
  ∃ w',
    run xkb accounts [GlobalAdded (mk_global id "wl_output" v);
                      GlobalRemoved id "wl_output"] w
    = ([DisplayBind id "wl_output" 2;
        PanelCreate (S (next w));
        Request (set_panel id (next w));
        BackgroundCreate (S (S (S (next w))));
        Request (set_background id (S (S (next w))));
        BackgroundDestroy (S (S (S (next w))));
        PanelDestroy (S (next w));
        WlOutputDestroy id],
       Some ((), w'))
    ∧ desk w' = desk w ∧ heap w' = heap w
    ∧ next w' = (next w + 4)%nat.
Proof.
  intros [s Hs] Hok.
  set (o := mk_output id id None None None None).
  set (w0 := with_desk (set_outputs (o :: outputs (desk w))) w).
  set (w1 := background_created (panel_created w0)).
  set (o' := output_inited w0 o).
  set (w2 := with_desk (set_outputs (o' :: outputs (desk w))) w1).
  assert (E1 : handle xkb accounts (GlobalAdded (mk_global id "wl_output" v)) w
               = ([DisplayBind id "wl_output" 2;
                   PanelCreate (S (next w));
                   Request (set_panel id (next w));
                   BackgroundCreate (S (S (S (next w))));
                   Request (set_background id (S (S (next w))))],
                  Some ((), w2))).
  { unfold handle, global_handler. cbn [g_interface g_id g_version].
    rewrite bool_decide_eq_false_2 by done.
    rewrite bool_decide_eq_true_2 by done.
    unfold create_output. rewrite bind_emit, bind_gets, bind_modify, bind_gets.
    fold o. fold w0.
    assert (Hs0 : shell (desk w0) = Some s) by done.
    rewrite Hs0.
    rewrite (bind_eq2 _ _ _ _ _ _ _ _ (output_init_eq o s w0 Hs0) eq_refl).
    by rewrite app_nil_r. }
  assert (Hh2 : heap w2 = <[S (S (next w)) := O_window (Some (S (S (S (next w)))))]>
                  (<[S (S (S (next w))) := O_background
                       (mk_background (S (S (next w))) false
                                      (current_user (desk w)))]>
                  (<[S (S (next w)) := O_window None]>
                  (<[next w := O_window (Some (S (next w)))]>
                  (<[S (next w) := O_panel (mk_panel (next w) false
                                              (current_user (desk w)))]>
                  (<[next w := O_window None]> (heap w))))))).
  { done. }
  assert (Hl1 : heap w2 !! next w = Some (O_window (Some (S (next w))))).
  { rewrite Hh2. rewrite !lookup_insert_ne by lia. by rewrite lookup_insert_eq. }
  assert (Hl2 : heap w2 !! S (next w)
                = Some (O_panel (mk_panel (next w) false
                                          (current_user (desk w))))).
  { rewrite Hh2. rewrite !lookup_insert_ne by lia. by rewrite lookup_insert_eq. }
  assert (Hl3 : heap w2 !! S (S (next w))
                = Some (O_window (Some (S (S (S (next w))))))).
  { rewrite Hh2. by rewrite lookup_insert_eq. }
  assert (Hl4 : heap w2 !! S (S (S (next w)))
                = Some (O_background (mk_background (S (S (next w))) false
                                                    (current_user (desk w))))).
  { rewrite Hh2. rewrite !lookup_insert_ne by lia. by rewrite lookup_insert_eq. }
  assert (Hcells : output_cells w2 o'
                   = [S (S (next w)); S (S (S (next w))); next w; S (next w)]).
  { unfold output_cells, o', output_inited, surface_cells. simpl.
    unfold background_cells, panel_cells.
    change (next w0) with (next w). by rewrite Hl4, Hl2. }
  assert (Hown : output_owned w2 o').
  { exists [S (next w)], [S (S (S (next w)))].
    split; [done|]. split; [done|].
    split; [apply Forall_singleton; eexists; split; [exact Hl2|cbn [panel_window]; by rewrite Hl1]|].
    split; [apply Forall_singleton; eexists; split; [exact Hl4|cbn [background_window]; by rewrite Hl3]|].
    split.
    { change (surface_cells w2 [S (S (S (next w)))] [S (next w)])
        with (output_cells w2 o'). rewrite Hcells.
      repeat (apply NoDup_cons_2;
              [rewrite ?elem_of_cons, elem_of_nil; lia|]).
      apply NoDup_nil_2. }
    split; intros ? [= <-]; apply list_elem_of_here. }
  destruct (output_destroy_full 0 o' w2 eq_refl Hown)
    as (w3 & E3 & Hdk & Hn & Hdf & Hfr).
  exists w3. split; [|split; [|split]].
  - change [DisplayBind id "wl_output" 2; PanelCreate (S (next w));
            Request (set_panel id (next w));
            BackgroundCreate (S (S (S (next w))));
            Request (set_background id (S (S (next w))));
            BackgroundDestroy (S (S (S (next w)))); PanelDestroy (S (next w));
            WlOutputDestroy id]
      with ([DisplayBind id "wl_output" 2; PanelCreate (S (next w));
             Request (set_panel id (next w));
             BackgroundCreate (S (S (S (next w))));
             Request (set_background id (S (S (next w))))]
              ++ output_teardown o' ++ []).
    unfold run. simpl for_each.
    eapply bind_eq2; [exact E1|].
    eapply bind_eq2; [|reflexivity].
    unfold handle, global_handler_remove.
    rewrite bool_decide_eq_true_2 by done.
    rewrite bind_gets.
    assert (Hfind : list_find (λ o0, server_output_id o0 = id)
                      (outputs (desk w2)) = Some (0%nat, o')).
    { apply list_find_Some. split; [done|]. split; [done|].
      intros j y Hj Hlt. lia. }
    rewrite Hfind. exact E3.
  - rewrite Hdk. unfold w2. simpl. by destruct (desk w).
  - apply map_eq. intros q. rewrite (Hfr q), Hcells.
    case_bool_decide as Hq; rewrite !elem_of_cons, elem_of_nil in Hq.
    + symmetry. apply Hok. lia.
    + rewrite Hh2. by rewrite !lookup_insert_ne by lia.
  - rewrite Hn. unfold w2, w1, background_created, panel_created. simpl. lia.
Qed.

Lemma output_owned_stable c w w1 o :
  freed c w w1 → (∀ q, q ∈ output_cells w o → q ∉ c) →
  output_owned w o →
  output_owned w1 o ∧ output_cells w1 o = output_cells w o.
Proof.
  intros Hfr Hdis (ps & bs & Hps & Hbs & Lp & Lb & Hnd & Ap & Ab).
  unfold output_cells in *. rewrite Hbs, Hps in *. unfold surface_cells in *.
  destruct (background_cells_stable c w w1 bs Hfr) as [Lb1 Hcb]; [|done|].
  { intros q Hq. apply Hdis. apply elem_of_app. by left. }
  destruct (panel_cells_stable c w w1 ps Hfr) as [Lp1 Hcp]; [|done|].
  { intros q Hq. apply Hdis. apply elem_of_app. by right. }
  split; [|by rewrite Hcb, Hcp].
  exists ps, bs. unfold surface_cells. rewrite Hcb, Hcp. done.
Qed.

Lemma destroy_outputs_spec os : ∀ w,
  outputs (desk w) = os → Forall (output_owned w) os →
  NoDup (concat (output_cells w <$> os)) →
  ∃ w', for_each (λ _ : output, output_destroy 0) os w
        = (concat (output_teardown <$> os), Some ((), w'))
    ∧ desk w' = set_outputs [] (desk w)
    ∧ next w' = next w ∧ deferred w' = deferred w
    ∧ freed (concat (output_cells w <$> os)) w w'.
Proof.
  induction os as [|o os IH]; intros w Hos Hown Hnd.
  { exists w. split; [done|]. split.
    { rewrite <- Hos. by destruct (desk w). }
    split; [done|]. split; [done|]. apply freed_nil. }
  apply Forall_cons in Hown as [Ho Hown].
  rewrite fmap_cons in Hnd. cbn [concat] in Hnd.
  apply NoDup_app in Hnd as (Hn1 & Hdis & Hn2).
  destruct (output_destroy_full 0 o w) as (w1 & E1 & Hdk & Hn & Hdf & Hfr);
    [by rewrite Hos|done|].
  assert (Hst : Forall (λ o', output_owned w1 o'
                              ∧ output_cells w1 o' = output_cells w o') os).
  { apply Forall_forall. intros o' Ho'.
    apply (output_owned_stable (output_cells w o) w w1 o' Hfr).
    - intros q Hq Hq'. apply (Hdis q Hq').
      apply list_elem_of_In, in_concat. exists (output_cells w o').
      split; [|by apply list_elem_of_In].
      apply list_elem_of_In, list_elem_of_fmap. by exists o'.
    - by apply (proj1 (Forall_forall _ _) Hown). }
  assert (Hcells : output_cells w1 <$> os = output_cells w <$> os).
  { apply Forall_fmap_ext_1. eapply Forall_impl; [exact Hst|]. by intros ? [_ ?]. }
  destruct (IH w1) as (w' & E2 & Hdk2 & Hn2' & Hdf2 & Hfr2).
  - rewrite Hdk, Hos. done.
  - eapply Forall_impl; [exact Hst|]. by intros ? [? _].
  - by rewrite Hcells.
  - exists w'. split.
    { simpl for_each. rewrite fmap_cons. cbn [concat].
      eapply bind_eq2; [exact E1|exact E2]. }
    split; [by rewrite Hdk2, Hdk|].
    split; [by rewrite Hn2', Hn|]. split; [by rewrite Hdf2, Hdf|].
    rewrite fmap_cons. cbn [concat]. rewrite Hcells in Hfr2.
    by eapply freed_app.
Qed.

(** X11. The teardown of [main] destroys every output: when every
    registered output owns live surfaces and no surface belongs to two
    outputs, [desktop_destroy_outputs] completes, destroys the outputs
    in registry order (for each its backgrounds, its panels, its proxy),
    leaves the registry empty, and frees exactly the panels, the
    backgrounds and their windows, the cached ones included. *)
Theorem teardown_destroys_every_output (w : world) :
  Forall (output_owned w) (outputs (desk w)) →
  NoDup (concat (output_cells w <$> outputs (desk w))) →
  ∃ w', desktop_destroy_outputs w
        = (concat (output_teardown <$> outputs (desk w)), Some ((), w'))
    ∧ desk w' = set_outputs [] (desk w)
    ∧ freed (concat (output_cells w <$> outputs (desk w))) w w'
    ∧ ∀ o ps bs, o ∈ outputs (desk w) →
        out_panels o = Some ps → out_backgrounds o = Some bs →
        (∀ p, p ∈ ps → heap w' !! p = None)
        ∧ (∀ b, b ∈ bs → heap w' !! b = None).
Proof.
  intros Hown Hnd.
  destruct (destroy_outputs_spec (outputs (desk w)) w eq_refl Hown Hnd)
    as (w' & E & Hdk & Hn & Hdf & Hfr).
  exists w'. split; [|split; [done|split; [done|]]].
  { unfold desktop_destroy_outputs. by rewrite bind_gets. }
  intros o ps bs Ho Hps Hbs.
  pose proof (proj1 (Forall_forall _ _) Hown o Ho)
    as (ps' & bs' & Hps' & Hbs' & Lp & Lb & _).
  rewrite Hps in Hps'. rewrite Hbs in Hbs'.
  injection Hps' as <-. injection Hbs' as <-.
  destruct (surface_cells_members w bs ps Lb Lp) as [Mb Mp].
  assert (Hin : ∀ q, q ∈ surface_cells w bs ps →
                     q ∈ concat (output_cells w <$> outputs (desk w))).
  { intros q Hq. apply list_elem_of_In, in_concat.
    exists (output_cells w o). split.
    - apply list_elem_of_In, list_elem_of_fmap. by exists o.
    - apply list_elem_of_In. unfold output_cells. by rewrite Hbs, Hps. }
  split.
  - intros p Hp. by apply (freed_gone _ _ _ _ Hfr), Hin, Mp.
  - intros b Hb. by apply (freed_gone _ _ _ _ Hfr), Hin, Mb.
Qed.

Lemma init_missing_no_shell os : ∀ w,
  shell (desk w) = None →
  (∃ t, map_each init_missing os w = (t, None))
  ∨ map_each init_missing os w = ([], Some (os, w)).
Proof.
  induction os as [|o os IH]; intros w Hs; [by right|].
  simpl map_each.
  destruct (out_panel o) as [p|] eqn:Hp.
  - assert (Ho : init_missing o = ret o)
      by (unfold init_missing; by rewrite Hp).
    rewrite Ho, bind_ret. destruct (IH w Hs) as [[t E]|E].
    + left. exists t. by rewrite (bind_crash _ _ _ _ E).
    + right. by rewrite (bind_pure _ _ _ _ _ E).
  - assert (Ho : init_missing o = output_init o)
      by (unfold init_missing; by rewrite Hp).
    rewrite Ho. left. eexists. apply bind_crash. by apply output_init_null.
Qed.

(** X12. Without the shell global the client does not start: when no
    announced global is the desktop shell, [main] does not reach its
    event loop, because [output_init] (if there is an output) or else
    [grab_surface_create] sends a request on the NULL shell proxy. *)
Theorem startup_needs_the_shell (cfg : bool) (globals : list global) :
  Forall (λ g, g_interface g ≠ "desktop_shell") globals →
  outcome (main_startup globals) (initial_world cfg) = None.
Proof.
  intros Hg. unfold outcome, main_startup.
  destruct (globals_steps globals (initial_world cfg))
    as (t & w1 & E & _ & Hsh); [apply initial_world_ok|by constructor|].
  destruct (Hsh Hg) as [Hs _]. simpl in Hs.
  rewrite (bind_eq _ _ _ _ _ _ E). simpl. rewrite bind_gets.
  destruct (init_missing_no_shell (outputs (desk w1)) w1 Hs) as [[t' E']|E'].
  - by rewrite (bind_crash _ _ _ _ E').
  - rewrite (bind_pure _ _ _ _ _ E'). rewrite bind_modify.
    unfold grab_surface_create, window_create_custom, shell_request, bind,
      alloc, gets. simpl. by rewrite Hs.
Qed.



Lemma existsb_cons_true {A} (f : A → bool) x l :
  existsb f l = true → existsb f (x :: l) = true.
Proof. simpl. intros ->. by rewrite orb_true_r. Qed.

Lemma output_switched_keeps w w' v t o o' :
  heap w ⊆ heap w' → output_ok w o → output_switched w w' v t o o' →
  output_ok w' o'
  ∧ cached_panel w' v o' = true ∧ cached_background w' v o' = true
  ∧ ∀ u, cached_panel w u o = true ∧ cached_background w u o = true →
         cached_panel w' u o' = true ∧ cached_background w' u o' = true.
Proof.
  intros Hsub (ps & bs & Hps & Hbs & Lp & Lb) (_ & _ & Hp & Hb).
  assert (Lp' : Forall (λ p, ∃ x, heap w' !! p = Some (O_panel x)) ps).
  { eapply Forall_impl; [exact Lp|]. intros p [x Hx]. exists x.
    by eapply cached_lookup_mono. }
  assert (Lb' : Forall (λ b, ∃ x, heap w' !! b = Some (O_background x)) bs).
  { eapply Forall_impl; [exact Lb|]. intros b [x Hx]. exists x.
    by eapply cached_lookup_mono. }
  assert (Hpm : ∀ u, existsb (panel_for w' u) ps = existsb (panel_for w u) ps)
    by (intros u; by apply panel_for_mono).
  assert (Hbm : ∀ u, existsb (background_for w' u) bs
                     = existsb (background_for w u) bs)
    by (intros u; by apply background_for_mono).
  assert (HP : ∃ ps', out_panels o' = Some ps'
             ∧ Forall (λ p, ∃ x, heap w' !! p = Some (O_panel x)) ps'
             ∧ existsb (panel_for w' v) ps' = true
             ∧ ∀ u, existsb (panel_for w u) ps = true →
                    existsb (panel_for w' u) ps' = true).
  { destruct Hp as [p x ps0 Hc Hps0 Hin Hx Hu Ho' Hps' _
                   |p x ps0 Hc Hps0 Hnew Hx Hu Hpt Ho' Hps' _ _].
    - rewrite Hps in Hps0. injection Hps0 as <-.
      exists ps. split; [done|]. split; [done|]. split.
      + rewrite Hpm. unfold cached_panel in Hc. by rewrite Hps in Hc.
      + intros u. by rewrite Hpm.
    - rewrite Hps in Hps0. injection Hps0 as <-.
      exists (p :: ps). split; [done|]. split.
      { apply Forall_cons. split; [by exists x|done]. }
      split.
      + simpl. unfold panel_for at 1. rewrite Hx.
        by rewrite bool_decide_eq_true_2.
      + intros u Hu'. apply existsb_cons_true. by rewrite Hpm. }
  assert (HB : ∃ bs', out_backgrounds o' = Some bs'
             ∧ Forall (λ b, ∃ x, heap w' !! b = Some (O_background x)) bs'
             ∧ existsb (background_for w' v) bs' = true
             ∧ ∀ u, existsb (background_for w u) bs = true →
                    existsb (background_for w' u) bs' = true).
  { destruct Hb as [b x bs0 Hc Hbs0 Hin Hx Hu Ho' Hbs' _
                   |b x bs0 Hc Hbs0 Hnew Hx Hu Hpt Ho' Hbs' _ _].
    - rewrite Hbs in Hbs0. injection Hbs0 as <-.
      exists bs. split; [done|]. split; [done|]. split.
      + rewrite Hbm. unfold cached_background in Hc. by rewrite Hbs in Hc.
      + intros u. by rewrite Hbm.
    - rewrite Hbs in Hbs0. injection Hbs0 as <-.
      exists (b :: bs). split; [done|]. split.
      { apply Forall_cons. split; [by exists x|done]. }
      split.
      + simpl. unfold background_for at 1. rewrite Hx.
        by rewrite bool_decide_eq_true_2.
      + intros u Hu'. apply existsb_cons_true. by rewrite Hbm. }
  destruct HP as (ps' & Hps' & Lps' & Hcv & Hcu).
  destruct HB as (bs' & Hbs' & Lbs' & Hbv & Hbu).
  split; [by exists ps', bs'|].
  unfold cached_panel, cached_background. rewrite Hps', Hbs', Hps, Hbs.
  split; [done|]. split; [done|].
  intros u [H1 H2]. split; [by apply Hcu|by apply Hbu].
Qed.

Lemma without_panel_cached w u :
  all_cached w u →
  without_panel w u (outputs (desk w)) = 0%nat
  ∧ without_background w u (outputs (desk w)) = 0%nat.
Proof.
  unfold all_cached, without_panel, without_background.
  induction (outputs (desk w)) as [|o os IH]; [done|].
  intros [[H1 H2] Hos]%Forall_cons. simpl. rewrite H1, H2. simpl.
  by apply IH.
Qed.

Lemma user_switched_keeps v w :
  switchable w →
  ∃ t w', desktop_shell_user_switched v w = (t, Some ((), w'))
    ∧ switchable w' ∧ all_cached w' v
    ∧ (∀ u, all_cached w u → all_cached w' u)
    ∧ count_if is_panel_create t = without_panel w v (outputs (desk w))
    ∧ count_if is_background_create t
      = without_background w v (outputs (desk w))
    ∧ (all_cached w v → heap w' = heap w ∧ next w' = next w).
Proof.
  intros (Hs & Hok & Hos).
  destruct (user_switched_spec v w Hs Hok Hos)
    as (t & w' & E & Hcu & Hs' & Hud & Hdf & Hok' & Hsub & Hreb & Hsw
        & Hcp & Hcb & Hsame).
  assert (Hall : Forall2 (λ o o',
            output_ok w' o'
            ∧ cached_panel w' v o' = true ∧ cached_background w' v o' = true
            ∧ ∀ u, cached_panel w u o = true ∧ cached_background w u o = true →
                   cached_panel w' u o' = true
                   ∧ cached_background w' u o' = true)
            (outputs (desk w)) (outputs (desk w'))).
  { revert Hos Hsw. generalize (outputs (desk w)) (outputs (desk w')).
    intros os os' Hos Hsw. induction Hsw as [|o o' os os' H1 H2 IH];
      [constructor|].
    apply Forall_cons in Hos as [Ho Hos]. constructor; [|by apply IH].
    by eapply output_switched_keeps. }
  exists t, w'. split; [done|]. split.
  { split; [by rewrite Hs'|]. split; [done|].
    eapply Forall2_Forall_r; [exact Hall|].
    apply Forall_true. by intros o o' (? & _). }
  split.
  { eapply Forall2_Forall_r; [exact Hall|].
    apply Forall_true. by intros o o' (_ & ? & ? & _). }
  split.
  { intros u Hu. unfold all_cached in *.
    revert Hu Hall. generalize (outputs (desk w)) (outputs (desk w')).
    intros os os' Hu Hall. induction Hall as [|o o' os os' H1 H2 IH];
      [constructor|].
    apply Forall_cons in Hu as [Ho Hu]. constructor; [|by apply IH].
    destruct H1 as (_ & _ & _ & H1). by apply H1. }
  split; [done|]. split; [done|].
  intros Hc. destruct (without_panel_cached w v Hc) as [H1 H2].
  by apply Hsame.
Qed.

Lemma switches_keep xkb accounts us : ∀ w,
  switchable w →
  ∃ t w', run xkb accounts (UserSwitched <$> us) w = (t, Some ((), w'))
    ∧ switchable w'
    ∧ (∀ u, u ∈ us → all_cached w' u)
    ∧ (∀ u, all_cached w u → all_cached w' u).
Proof.
  induction us as [|v us IH]; intros w Hw.
  { exists [], w. split; [done|]. split; [done|]. split; [|done].
    intros u Hu. by apply elem_of_nil in Hu. }
  destruct (user_switched_keeps v w Hw) as (t1 & w1 & E1 & Hw1 & Hv & Hmono & _).
  destruct (IH w1 Hw1) as (t2 & w2 & E2 & Hw2 & Hus & Hmono2).
  exists (t1 ++ t2), w2. split.
  { unfold run. rewrite fmap_cons. simpl for_each.
    eapply bind_eq2; [exact E1|exact E2]. }
  split; [done|]. split.
  - intros u [->|Hu]%elem_of_cons; [by apply Hmono2|by apply Hus].
  - intros u Hu. by apply Hmono2, Hmono.
Qed.

(** X13. A user that was switched to before is served from the cache:
    on a bound shell with initialised outputs, after any sequence of
    user switches, a further switch to any user of the sequence completes
    without creating a panel or a background and leaves the heap and the
    allocator as they were. *)
Theorem switching_back_allocates_nothing (xkb : Z → list ascii)
    (accounts : list passwd) (us : list string) (u : string) (w : world) :
  switchable w → u ∈ us →
  ∃ t1 w1 t2 w2,
    run xkb accounts (UserSwitched <$> us) w = (t1, Some ((), w1))
    ∧ desktop_shell_user_switched u w1 = (t2, Some ((), w2))
    ∧ count_if is_panel_create t2 = 0%nat
    ∧ count_if is_background_create t2 = 0%nat
    ∧ heap w2 = heap w1 ∧ next w2 = next w1
    ∧ current_user (desk w2) = u.
Proof.
  intros Hw Hu.
  destruct (switches_keep xkb accounts us w Hw) as (t1 & w1 & E1 & Hw1 & Hus & _).
  destruct (user_switched_keeps u w1 Hw1)
    as (t2 & w2 & E2 & _ & _ & _ & Hcp & Hcb & Hsame).
  destruct (without_panel_cached w1 u (Hus u Hu)) as [H1 H2].
  destruct (Hsame (Hus u Hu)) as [Hh Hn].
  exists t1, w1, t2, w2. rewrite Hcp, Hcb, H1, H2.
  repeat split; try done.
  destruct Hw1 as (Hs & Hok & Hos).
  destruct (user_switched_spec u w1 Hs Hok Hos) as (t & w' & E & Hcu & _).
  rewrite E in E2. by injection E2 as _ <-.
Qed.
(** ** Further properties: the command line of a launcher *)

Section LauncherFacts.
Variable isspace : ascii → bool.

Lemma scan_word_eq s : ∀ off eq,
  scan_word isspace s off eq
  = ((off + length (word_of isspace s))%nat,
     match last_assign (word_of isspace s) with
     | Some n => Some (off + n)%nat
     | None => eq
     end).
Proof.
  induction s as [|c s IH]; intros off eq; simpl.
  { by rewrite Nat.add_0_r. }
  destruct (isspace c); simpl.
  { by rewrite Nat.add_0_r. }
  rewrite IH. f_equal; [lia|].
  destruct (last_assign (word_of isspace s)) as [n|].
  - f_equal. lia.
  - case_bool_decide; [|done]. f_equal. lia.
Qed.

Lemma take_word s : take (length (word_of isspace s)) s = word_of isspace s.
Proof.
  induction s as [|c s IH]; simpl; [done|].
  destruct (isspace c); simpl; [done|]. by rewrite IH.
Qed.

Lemma drop_word s : drop (length (word_of isspace s)) s = after_word isspace s.
Proof.
  induction s as [|c s IH]; simpl; [done|].
  destruct (isspace c); simpl; [done|]. by rewrite IH.
Qed.

Lemma word_split s : s = word_of isspace s ++ after_word isspace s.
Proof.
  induction s as [|c s IH]; simpl; [done|].
  destruct (isspace c); simpl; [done|]. by rewrite <- IH.
Qed.

Lemma word_space_free s : space_free isspace (word_of isspace s).
Proof.
  induction s as [|c s IH]; simpl; [constructor|].
  destruct (isspace c) eqn:Hc; [constructor|]. by constructor.
Qed.

Lemma after_word_end s : word_end isspace (after_word isspace s).
Proof.
  induction s as [|c s IH]; simpl; [done|].
  destruct (isspace c) eqn:Hc; [done|]. exact IH.
Qed.

(** A word followed by a word end is the first word. *)
Lemma word_of_app w rest :
  space_free isspace w → word_end isspace rest →
  word_of isspace (w ++ rest) = w ∧ after_word isspace (w ++ rest) = rest.
Proof.
  intros Hw Hr. induction Hw as [|c w Hc Hw IH]; simpl.
  - destruct rest as [|c rest]; simpl in *; [done|]. by rewrite Hr.
  - rewrite Hc. destruct IH as [-> ->]. done.
Qed.

Lemma skip_space_length s : (length (skip_space isspace s) ≤ length s)%nat.
Proof.
  induction s as [|c s IH]; simpl; [done|].
  destruct (isspace c); simpl; lia.
Qed.

Lemma after_word_length s : (length (after_word isspace s) ≤ length s)%nat.
Proof.
  induction s as [|c s IH]; simpl; [done|].
  destruct (isspace c); simpl; lia.
Qed.

(** Every turn of the loop consumes at least one character. *)
Lemma turn_consumes c s :
  (length (skip_space isspace (after_word isspace (c :: s))) < length (c :: s))%nat.
Proof.
  simpl. destruct (isspace c) eqn:Hc; simpl.
  - rewrite Hc. pose proof (skip_space_length s). lia.
  - pose proof (skip_space_length (after_word isspace s)).
    pose proof (after_word_length s). lia.
Qed.

(** One turn of the loop. *)
Lemma parse_words_step fuel c s envp argv j :
  parse_words isspace (S fuel) (c :: s) envp argv j
  = let word := word_of isspace (c :: s) in
    let rest := skip_space isspace (after_word isspace (c :: s)) in
    match last_assign word, j with
    | Some n, O => parse_words isspace fuel rest (env_set envp word n) argv j
    | _, _ => parse_words isspace fuel rest envp (argv ++ [word]) (S j)
    end.
Proof.
  cbn [parse_words]. rewrite scan_word_eq. cbn [fst snd]. rewrite Nat.add_0_l.
  rewrite take_word, drop_word. cbv zeta.
  by destruct (last_assign (word_of isspace (c :: s))).
Qed.

(** Enough fuel: the loop ends, and more fuel changes nothing. *)
Lemma parse_words_fuel fuel : ∀ s envp argv j,
  (length s < fuel)%nat →
  is_Some (parse_words isspace fuel s envp argv j)
  ∧ ∀ fuel', (length s < fuel')%nat →
      parse_words isspace fuel' s envp argv j
      = parse_words isspace fuel s envp argv j.
Proof.
  induction fuel as [|fuel IH]; intros s envp argv j Hlt; [lia|].
  destruct s as [|c s].
  { split; [done|]. intros [|fuel'] Hf; [lia|done]. }
  pose proof (turn_consumes c s) as Hc.
  split.
  - rewrite parse_words_step. cbv zeta.
    destruct (last_assign (word_of isspace (c :: s))) as [n|];
      [destruct j|]; apply IH; simpl in *; lia.
  - intros [|fuel'] Hf; [lia|]. rewrite !parse_words_step. cbv zeta.
    assert (Hgen : ∀ e a j',
      parse_words isspace fuel'
        (skip_space isspace (after_word isspace (c :: s))) e a j'
      = parse_words isspace fuel
          (skip_space isspace (after_word isspace (c :: s))) e a j').
    { intros e a j'.
      destruct (IH (skip_space isspace (after_word isspace (c :: s))) e a j')
        as [_ H]; [simpl in *; lia|].
      apply H. simpl in *. lia. }
    destruct (last_assign (word_of isspace (c :: s))) as [n|];
      [destruct j|]; apply Hgen.
Qed.

Lemma skip_space_head s c r :
  skip_space isspace s = c :: r → isspace c = false.
Proof.
  induction s as [|c' s IH]; simpl; [done|].
  destruct (isspace c') eqn:Hc; [exact IH|]. by intros [= <- _].
Qed.

Lemma skip_space_start c r :
  isspace c = false → skip_space isspace (c :: r) = c :: r.
Proof. intros Hc. simpl. by rewrite Hc. Qed.

Lemma filter_word s :
  List.filter (λ c, negb (isspace c)) s
  = word_of isspace s
      ++ List.filter (λ c, negb (isspace c)) (after_word isspace s).
Proof.
  induction s as [|c s IH]; simpl; [done|].
  destruct (isspace c) eqn:Hc; simpl; [by rewrite Hc|]. by rewrite IH.
Qed.

Lemma filter_skip_space s :
  List.filter (λ c, negb (isspace c)) (skip_space isspace s)
  = List.filter (λ c, negb (isspace c)) s.
Proof.
  induction s as [|c s IH]; simpl; [done|].
  destruct (isspace c) eqn:Hc; simpl; [done|]. by rewrite Hc.
Qed.

Lemma no_assignment_after_word s :
  no_assignment s → no_assignment (after_word isspace s).
Proof.
  induction 1 as [|c s Hc Hs IH]; simpl; [constructor|].
  destruct (isspace c); [by constructor|done].
Qed.

Lemma no_assignment_skip_space s :
  no_assignment s → no_assignment (skip_space isspace s).
Proof.
  induction 1 as [|c s Hc Hs IH]; simpl; [constructor|].
  destruct (isspace c); [done|by constructor].
Qed.

Lemma no_assignment_word s :
  no_assignment s → no_assignment (word_of isspace s).
Proof.
  induction 1 as [|c s Hc Hs IH]; simpl; [constructor|].
  destruct (isspace c); [constructor|by constructor].
Qed.

Lemma last_assign_none w : no_assignment w → last_assign w = None.
Proof.
  induction 1 as [|c w Hc Hw IH]; simpl; [done|].
  rewrite IH. by rewrite bool_decide_eq_false_2.
Qed.

Lemma last_assign_app name value :
  no_assignment value →
  last_assign (name ++ "="%char :: value) = Some (length name).
Proof.
  intros Hv. induction name as [|c name IH]; simpl.
  - by rewrite (last_assign_none _ Hv).
  - by rewrite IH.
Qed.

(** Once an argument has been seen, the environment is settled and every
    word is an argument. *)
Lemma parse_words_arguments fuel : ∀ s envp argv j,
  (length s < fuel)%nat →
  ∃ ws, parse_words isspace fuel s envp argv (S j) = Some (envp, argv ++ ws).
Proof.
  induction fuel as [|fuel IH]; intros s envp argv j Hlt; [lia|].
  destruct s as [|c s].
  { exists []. by rewrite app_nil_r. }
  rewrite parse_words_step. cbv zeta.
  pose proof (turn_consumes c s) as Hc.
  destruct (IH (skip_space isspace (after_word isspace (c :: s))) envp
              (argv ++ [word_of isspace (c :: s)]) (S j)) as [ws E];
    [simpl in *; lia|].
  exists (word_of isspace (c :: s) :: ws).
  destruct (last_assign (word_of isspace (c :: s))); rewrite E;
    by rewrite <- app_assoc.
Qed.

(** A string without '=': every word is an argument. *)
Lemma parse_words_plain fuel : ∀ s envp argv j,
  (length s < fuel)%nat → no_assignment s →
  ∃ ws, parse_words isspace fuel s envp argv j = Some (envp, argv ++ ws)
    ∧ concat ws = List.filter (λ c, negb (isspace c)) s
    ∧ Forall (space_free isspace) ws
    ∧ Forall (λ w, w ≠ []) (tail ws)
    ∧ (ws = [] ↔ s = [])
    ∧ (head ws = Some [] ↔ s ≠ [] ∧ word_end isspace s).
Proof.
  induction fuel as [|fuel IH]; intros s envp argv j Hlt Hna; [lia|].
  destruct s as [|c s].
  { exists []. rewrite app_nil_r. repeat split; try done; try constructor.
    by intros [? _]. }
  rewrite parse_words_step. cbv zeta.
  pose proof (turn_consumes c s) as Hc.
  rewrite (last_assign_none _ (no_assignment_word _ Hna)).
  set (word := word_of isspace (c :: s)).
  set (rest := skip_space isspace (after_word isspace (c :: s))).
  destruct (IH rest envp (argv ++ [word]) (S j))
    as (ws & E & Hcat & Hsf & Hne & Hnil & Hhd).
  { fold rest in Hc. simpl in *. lia. }
  { by apply no_assignment_skip_space, no_assignment_after_word. }
  exists (word :: ws). split; [by rewrite E, <- app_assoc|]. split.
  { cbn [concat]. rewrite Hcat. unfold rest. rewrite filter_skip_space.
    symmetry. apply filter_word. }
  split; [constructor; [apply word_space_free|done]|]. split.
  { cbn [tail]. destruct ws as [|w ws]; [constructor|]. constructor; [|done].
    intros ->. destruct (proj1 Hhd eq_refl) as [Hr He].
    destruct rest as [|c' r] eqn:Hrest; [done|].
    simpl in He. apply skip_space_head in Hrest. congruence. }
  split; [split; discriminate|].
  cbn [head]. unfold word. simpl. destruct (isspace c) eqn:Hsp.
  - split; [done|]. done.
  - split; [discriminate|]. intros [_ H]. congruence.
Qed.

(** The white space after a word, and what it is followed by. *)
Lemma skip_space_run t :
  ∃ sep, white isspace sep ∧ t = sep ++ skip_space isspace t.
Proof.
  induction t as [|c t (sep & Hs & Ht)]; simpl.
  - exists []. split; [constructor|done].
  - destruct (isspace c) eqn:Hc.
    + exists (c :: sep). split; [by constructor|]. simpl. by rewrite <- Ht.
    + exists []. split; [constructor|done].
Qed.

Lemma skip_space_word_start t : word_start isspace (skip_space isspace t).
Proof.
  destruct (skip_space isspace t) as [|c r] eqn:E; [done|]. simpl.
  by apply (skip_space_head t c r).
Qed.

Lemma skip_space_app sep r :
  white isspace sep → word_start isspace r →
  skip_space isspace (sep ++ r) = r.
Proof.
  intros Hs Hr. induction Hs as [|c sep Hc Hs IH]; simpl.
  - destruct r as [|c r]; simpl in *; [done|]. by rewrite Hr.
  - by rewrite Hc.
Qed.

(** What a split says of its first word and of the rest. *)
Lemma split_cons_inv s w ws sep seps :
  split_into_words isspace s (w :: ws) (sep :: seps) →
  s = w ++ sep ++ concat (zip_with app ws seps)
  ∧ space_free isspace w ∧ white isspace sep
  ∧ word_end isspace (sep ++ concat (zip_with app ws seps))
  ∧ word_start isspace (concat (zip_with app ws seps))
  ∧ split_into_words isspace (concat (zip_with app ws seps)) ws seps.
Proof.
  intros (Hlen & Hs & Hws & Hseps & Htl & Hrl & _).
  apply Forall_cons in Hws as [Hw Hws].
  apply Forall_cons in Hseps as [Hsep Hseps].
  cbn [length tail] in Hlen, Htl. injection Hlen as Hlen.
  assert (Hne : ∀ w1 ws1, ws = w1 :: ws1 →
            ∃ c w1', w1 = c :: w1' ∧ isspace c = false).
  { intros w1 ws1 ->. apply Forall_cons in Htl as [Hne _].
    apply Forall_cons in Hws as [Hw1 _].
    destruct w1 as [|c w1]; [done|]. exists c, w1. split; [done|].
    by apply Forall_cons in Hw1 as [? _]. }
  assert (Hstart : word_start isspace (concat (zip_with app ws seps))).
  { destruct ws as [|w1 ws]; [done|]. destruct seps as [|s1 seps]; [done|].
    destruct (Hne w1 ws eq_refl) as (c & w1' & -> & Hc). done. }
  split; [by rewrite Hs; cbn [zip_with concat]; rewrite app_assoc|].
  split; [done|]. split; [done|]. split.
  { destruct sep as [|c sep]; simpl.
    - destruct seps as [|s1 seps]; [by destruct ws|].
      change (removelast ([] :: s1 :: seps))
        with ([] :: removelast (s1 :: seps)) in Hrl.
      by apply Forall_cons in Hrl as [? _].
    - by apply Forall_cons in Hsep as [? _]. }
  split; [done|].
  split; [done|]. split; [done|]. split; [done|]. split; [done|]. split.
  { destruct ws as [|w1 ws]; [constructor|]. by apply Forall_cons in Htl as [_ ?]. }
  split.
  { destruct seps as [|s1 seps]; [constructor|].
    change (removelast (sep :: s1 :: seps))
      with (sep :: removelast (s1 :: seps)) in Hrl.
    by apply Forall_cons in Hrl as [_ ?]. }
  destruct ws as [|w1 ws]; [done|]. destruct seps as [|s1 seps]; [done|].
  destruct (Hne w1 ws eq_refl) as (c & w1' & -> & Hc). done.
Qed.

(** The first word of a split is the first word of the path. *)
Lemma split_head s w ws seps :
  split_into_words isspace s (w :: ws) seps → w = word_of isspace s.
Proof.
  intros H. destruct seps as [|sep seps]; [by destruct H as (? & _)|].
  destruct (split_cons_inv _ _ _ _ _ H) as (Hs & Hw & _ & Hend & _).
  destruct (word_of_app w _ Hw Hend) as [Hw' _]. by rewrite <- Hs in Hw'.
Qed.

(** A word and the white space after it put before a split. *)
Lemma split_cons w sep r ws seps :
  space_free isspace w → white isspace sep → word_start isspace r →
  word_end isspace (sep ++ r) → w ++ sep ++ r ≠ [] →
  split_into_words isspace r ws seps →
  split_into_words isspace (w ++ sep ++ r) (w :: ws) (sep :: seps).
Proof.
  intros Hw Hsep Hstart Hend Hne (Hlen & Hr & Hws & Hseps & Htl & Hrl & Hnil).
  split; [simpl; by rewrite Hlen|].
  split; [cbn [zip_with concat]; by rewrite <- Hr, app_assoc|].
  split; [by constructor|]. split; [by constructor|]. split.
  { cbn [tail]. destruct ws as [|w1 ws]; [constructor|].
    constructor; [|exact Htl]. intros ->.
    destruct seps as [|s1 seps]; [done|].
    cbn [zip_with concat app] in Hr. destruct s1 as [|c s1].
    - destruct seps as [|s2 seps].
      + destruct ws; [|done]. simpl in Hr. by specialize (Hnil Hr).
      + change (removelast ([] :: s2 :: seps))
          with ([] :: removelast (s2 :: seps)) in Hrl.
        by apply Forall_cons in Hrl as [? _].
    - apply Forall_cons in Hseps as [Hs1 _].
      apply Forall_cons in Hs1 as [Hc _]. subst r. simpl in Hstart.
      congruence. }
  split; [|done].
  destruct seps as [|s1 seps]; [constructor|].
  change (removelast (sep :: s1 :: seps))
    with (sep :: removelast (s1 :: seps)).
  constructor; [|done]. intros ->. simpl in Hend.
  destruct r as [|c r]; [|simpl in *; congruence].
  specialize (Hnil eq_refl). subst ws. done.
Qed.

(** A path has one split into words. *)
Lemma split_into_words_unique ws : ∀ s seps ws' seps',
  split_into_words isspace s ws seps →
  split_into_words isspace s ws' seps' →
  ws' = ws ∧ seps' = seps.
Proof.
  induction ws as [|w ws IH]; intros s seps ws' seps' H H'.
  - destruct H as (Hlen & Hs & _). destruct seps; [|done]. simpl in Hs.
    destruct H' as (Hlen' & _ & _ & _ & _ & _ & Hnil').
    rewrite (Hnil' Hs) in *. by destruct seps'.
  - destruct seps as [|sep seps]; [by destruct H as (? & _)|].
    destruct ws' as [|w' ws'].
    { destruct H' as (_ & Hs' & _). simpl in Hs'.
      destruct H as (_ & _ & _ & _ & _ & _ & Hnil). by specialize (Hnil Hs'). }
    destruct seps' as [|sep' seps']; [by destruct H' as (? & _)|].
    destruct (split_cons_inv _ _ _ _ _ H)
      as (Hs & Hw & Hsep & Hend & Hstart & Hrest).
    destruct (split_cons_inv _ _ _ _ _ H')
      as (Hs' & Hw' & Hsep' & Hend' & Hstart' & Hrest').
    destruct (word_of_app w _ Hw Hend) as [E1 E2].
    destruct (word_of_app w' _ Hw' Hend') as [E1' E2'].
    rewrite <- Hs in E1, E2. rewrite <- Hs' in E1', E2'.
    assert (Hww : w' = w) by congruence. subst w'.
    assert (Hq : concat (zip_with app ws' seps')
                 = concat (zip_with app ws seps)).
    { rewrite <- (skip_space_app sep' _ Hsep' Hstart').
      rewrite <- (skip_space_app sep _ Hsep Hstart). congruence. }
    assert (Hss : sep' = sep).
    { rewrite E2 in E2'. rewrite Hq in E2'. by apply app_inv_tail in E2'. }
    subst sep'. rewrite Hq in Hrest'.
    destruct (IH _ _ _ _ Hrest Hrest') as [-> ->]. by rewrite E1.
Qed.

Lemma last_assign_none_inv w : last_assign w = None → no_assignment w.
Proof.
  induction w as [|c w IH]; simpl; [constructor|].
  destruct (last_assign w); [done|]. case_bool_decide; [done|].
  intros _. constructor; [done|by apply IH].
Qed.

(** Where no word is an assignment any more, the argument vector takes
    the words of what is left. *)
Lemma parse_words_split fuel : ∀ s envp argv j,
  (length s < fuel)%nat →
  (0 < j)%nat ∨ no_assignment (word_of isspace s) →
  ∃ ws seps,
    parse_words isspace fuel s envp argv j = Some (envp, argv ++ ws)
    ∧ split_into_words isspace s ws seps.
Proof.
  induction fuel as [|fuel IH]; intros s envp argv j Hlt Hj; [lia|].
  destruct s as [|c s].
  { exists [], []. rewrite app_nil_r. split; [done|].
    repeat split; try done; constructor. }
  rewrite parse_words_step. cbv zeta.
  pose proof (turn_consumes c s) as Hc.
  pose proof (word_split (c :: s)) as Hcs.
  pose proof (word_space_free (c :: s)) as Hsf.
  pose proof (after_word_end (c :: s)) as Hend.
  revert Hj Hc Hcs Hsf Hend.
  generalize (word_of isspace (c :: s)) (after_word isspace (c :: s)).
  intros word aw Hj Hc Hcs Hsf Hend.
  destruct (skip_space_run aw) as (sep & Hsep & Haw).
  destruct (IH (skip_space isspace aw) envp (argv ++ [word]) (S j))
    as (ws & seps & E & Hsplit); [simpl in *; lia|left; lia|].
  exists (word :: ws), (sep :: seps). split.
  - destruct Hj as [Hj|Hj].
    + destruct j; [lia|].
      destruct (last_assign word); by rewrite E, <- app_assoc.
    + rewrite (last_assign_none _ Hj). by rewrite E, <- app_assoc.
  - assert (Hne : word ++ sep ++ skip_space isspace aw ≠ [])
      by (by rewrite <- Haw, <- Hcs).
    rewrite Hcs. rewrite Haw at 1.
    apply split_cons; try done.
    + apply skip_space_word_start.
    + by rewrite <- Haw.
Qed.

(** The whole loop: the leading words with a '=' are set in the
    environment, one after the other, and the words from the first one
    without a '=' on are the arguments. *)
Lemma parse_words_full fuel : ∀ s envp argv,
  (length s < fuel)%nat →
  ∃ asg args seps,
    parse_words isspace fuel s envp argv 0
    = Some (foldl assign envp asg, argv ++ args)
    ∧ split_into_words isspace s (asg ++ args) seps
    ∧ Forall (λ w, ¬ no_assignment w) asg
    ∧ (∀ a, head args = Some a → no_assignment a).
Proof.
  induction fuel as [|fuel IH]; intros s envp argv Hlt; [lia|].
  destruct (last_assign (word_of isspace s)) as [n|] eqn:Hla.
  - destruct s as [|c s]; [done|].
    rewrite parse_words_step. cbv zeta. rewrite Hla.
    pose proof (turn_consumes c s) as Hc.
    pose proof (word_split (c :: s)) as Hcs.
    pose proof (word_space_free (c :: s)) as Hsf.
    pose proof (after_word_end (c :: s)) as Hend.
    revert Hla Hc Hcs Hsf Hend.
    generalize (word_of isspace (c :: s)) (after_word isspace (c :: s)).
    intros word aw Hla Hc Hcs Hsf Hend.
    destruct (skip_space_run aw) as (sep & Hsep & Haw).
    destruct (IH (skip_space isspace aw) (env_set envp word n) argv)
      as (asg & args & seps & E & Hsplit & Hasg & Hhd); [simpl in *; lia|].
    exists (word :: asg), args, (sep :: seps). split.
    { rewrite E. cbn [foldl].
      replace (assign envp word) with (env_set envp word n); [done|].
      unfold assign. by rewrite Hla. }
    split.
    { assert (Hne : word ++ sep ++ skip_space isspace aw ≠ [])
        by (by rewrite <- Haw, <- Hcs).
      rewrite Hcs. rewrite Haw at 1. cbn [app].
      apply split_cons; try done.
      + apply skip_space_word_start.
      + by rewrite <- Haw. }
    split; [|done]. constructor; [|done].
    intros Hna. by rewrite (last_assign_none _ Hna) in Hla.
  - destruct (parse_words_split (S fuel) s envp argv 0 Hlt)
      as (ws & seps & E & Hsp); [right; by apply last_assign_none_inv|].
    exists [], ws, seps. split; [done|]. split; [done|].
    split; [constructor|].
    intros a Ha. destruct ws as [|w0 ws]; [done|]. injection Ha as ->.
    rewrite (split_head _ _ _ _ Hsp). by apply last_assign_none_inv.
Qed.

(** X15. A launcher path without '=' is split into its words: the
    environment is [environ] unchanged and the argument vector holds the
    maximal runs of non-space characters of the path, in order: the path
    is these words with a run of white space after each of them, only
    the first word can be empty and only the last run, and no other list
    of words splits the path so.  Hence their concatenation is the path
    without its white space, the vector is empty exactly for the empty
    path, and its first word is the empty string exactly when the path
    starts with white space. *)
Theorem launcher_words_are_arguments (environ : list (list ascii))
    (path : list ascii) :
  no_assignment path →
  ∃ argv seps,
    panel_add_launcher isspace environ path = Some (environ, argv)
    ∧ split_into_words isspace path argv seps
    ∧ (∀ ws' seps', split_into_words isspace path ws' seps' → ws' = argv)
    ∧ concat argv = List.filter (λ c, negb (isspace c)) path
    ∧ Forall (space_free isspace) argv
    ∧ Forall (λ w, w ≠ []) (tail argv)
    ∧ (argv = [] ↔ path = [])
    ∧ (head argv = Some [] ↔ path ≠ [] ∧ word_end isspace path).
Proof.
  intros Hna. unfold panel_add_launcher.
  destruct (parse_words_plain (S (length path)) path environ [] 0)
    as (ws & E & H); [lia|done|].
  destruct (parse_words_split (S (length path)) path environ [] 0)
    as (ws2 & seps & E2 & Hsp); [lia|right; by apply no_assignment_word|].
  rewrite E in E2. injection E2 as <-.
  exists ws, seps. split; [exact E|]. split; [exact Hsp|]. split; [|exact H].
  intros ws' seps' H'.
  by destruct (split_into_words_unique _ _ _ _ _ Hsp H').
Qed.

(** X16. Once the command is seen, nothing is an assignment: when the
    path starts with a word without '=', the environment is [environ]
    unchanged and the argument vector is the split of the whole path into
    its words, that word first: every later word, with or without '=', is
    an argument, in the order of the path. *)
Theorem launcher_command_ends_assignments (environ : list (list ascii))
    (w rest : list ascii) :
  w ≠ [] → space_free isspace w → no_assignment w →
  word_end isspace rest →
  ∃ args seps,
    panel_add_launcher isspace environ (w ++ rest)
    = Some (environ, w :: args)
    ∧ split_into_words isspace (w ++ rest) (w :: args) seps
    ∧ (∀ ws' seps',
         split_into_words isspace (w ++ rest) ws' seps' → ws' = w :: args).
Proof.
  intros Hne Hsf Hna Hend. unfold panel_add_launcher.
  destruct (word_of_app w rest Hsf Hend) as [Hw _].
  destruct (parse_words_split (S (length (w ++ rest))) (w ++ rest)
              environ [] 0) as (ws & seps & E & Hsp);
    [lia|right; by rewrite Hw|].
  cbn [app] in E. destruct ws as [|w0 args].
  { destruct Hsp as (_ & Hp & _). simpl in Hp. by destruct w. }
  pose proof (split_head _ _ _ _ Hsp) as Hw0. rewrite Hw in Hw0. subst w0.
  exists args, seps. split; [exact E|]. split; [exact Hsp|].
  intros ws' seps' H'.
  by destruct (split_into_words_unique _ _ _ _ _ Hsp H').
Qed.

Lemma leading_assignment_eq (environ : list (list ascii))
    (name value rest : list ascii) :
  isspace "="%char = false →
  space_free isspace name → space_free isspace value →
  no_assignment value → word_end isspace rest →
  panel_add_launcher isspace environ (name ++ "="%char :: value ++ rest)
  = panel_add_launcher isspace
      (env_set environ (name ++ "="%char :: value) (length name))
      (skip_space isspace rest).
Proof.
  intros Heq Hn Hv Hna Hend. unfold panel_add_launcher.
  assert (Hsf : space_free isspace (name ++ "="%char :: value)).
  { apply Forall_app. split; [done|]. by constructor. }
  destruct (word_of_app _ rest Hsf Hend) as [Hw Ha].
  rewrite <- app_assoc in Hw, Ha. simpl in Hw, Ha.
  destruct (name ++ "="%char :: value ++ rest) as [|c s] eqn:Hp.
  { by destruct name. }
  rewrite parse_words_step. cbv zeta. rewrite Hw, Ha.
  rewrite (last_assign_app _ _ Hna).
  pose proof (skip_space_length rest).
  apply (f_equal length) in Hp. rewrite length_app in Hp. simpl in Hp.
  rewrite length_app in Hp.
  apply parse_words_fuel; simpl; lia.
Qed.

(** X17. A leading word NAME=value is an assignment: parsing the path is
    parsing what follows the word (and the white space after it) in the
    environment in which the word has been set for the first
    [strlen(NAME)] characters; the word does not reach the argument
    vector. *)
Theorem launcher_leading_assignment (environ : list (list ascii))
    (name value rest : list ascii) :
  isspace "="%char = false →
  space_free isspace name → space_free isspace value →
  no_assignment value → word_end isspace rest →
  panel_add_launcher isspace environ (name ++ "="%char :: value ++ rest)
  = panel_add_launcher isspace
      (env_set environ (name ++ "="%char :: value) (length name))
      (skip_space isspace rest).
Proof. apply leading_assignment_eq. Qed.

Lemma env_set_twice ps w1 w2 n :
  take n w1 = take n w2 →
  env_set (env_set ps w1 n) w2 n = env_set ps w2 n.
Proof.
  intros Hw. induction ps as [|e ps IH]; simpl.
  - unfold strncmp_eq. by rewrite bool_decide_eq_true_2.
  - unfold strncmp_eq in *. rewrite <- Hw.
    case_bool_decide as He; simpl.
    + unfold strncmp_eq. by rewrite bool_decide_eq_true_2.
    + unfold strncmp_eq. rewrite <- Hw.
      rewrite bool_decide_eq_false_2 by done. by rewrite IH.
Qed.

Lemma env_set_length ps word n :
  (length ps ≤ length (env_set ps word n))%nat.
Proof.
  induction ps as [|e ps IH]; simpl; [lia|].
  destruct (strncmp_eq e word n); simpl; lia.
Qed.

Lemma env_set_find ps word n :
  ∃ i, list_find (λ e, take n e = take n word) (env_set ps word n)
       = Some (i, word)
    ∧ (i ≤ length ps)%nat
    ∧ take i (env_set ps word n) = take i ps
    ∧ drop (S i) (env_set ps word n) = drop (S i) ps
    ∧ (i = length ps ↔ Forall (λ e, take n e ≠ take n word) ps).
Proof.
  induction ps as [|e ps IH]; simpl.
  { exists 0%nat. rewrite decide_True by done. repeat split; try done. }
  unfold strncmp_eq. case_bool_decide as He.
  - exists 0%nat. simpl. rewrite decide_True by done.
    split; [done|]. split; [lia|]. split; [done|]. split; [done|].
    split; [done|]. intros [? _]%Forall_cons. done.
  - destruct IH as (i & Hf & Hi & Ht & Hd & Hiff).
    exists (S i). simpl. rewrite decide_False by done. rewrite Hf. simpl.
    split; [done|]. split; [lia|]. split; [by rewrite Ht|].
    split; [done|]. split.
    + intros [= Hi']. constructor; [done|]. by apply Hiff.
    + intros [_ H]%Forall_cons. f_equal. by apply Hiff.
Qed.

Lemma env_set_at ps word n :
  ∃ i, env_set ps word n = take i ps ++ word :: drop (S i) ps
    ∧ Forall (λ e, take n e ≠ take n word) (take i ps)
    ∧ ∀ e, ps !! i = Some e → take n e = take n word.
Proof.
  induction ps as [|e ps (i & IH1 & IH2 & IH3)]; simpl.
  { exists 0%nat. split; [done|]. split; [constructor|done]. }
  unfold strncmp_eq. case_bool_decide as He.
  - exists 0%nat. split; [done|]. split; [constructor|].
    by intros e' [= <-].
  - exists (S i). cbn [take drop lookup]. split; [by rewrite IH1|].
    split; [by constructor|]. exact IH3.
Qed.

(** X18. An assignment enters the environment at the first entry whose
    first [n] characters are those of the word, or at the end when there
    is none; every other entry keeps its place, and looking the word's
    first [n] characters up afterwards finds the word.  Setting a second
    word with the same first [n] characters gives the environment of
    setting the second alone.  The match is on the first [n] characters
    only: an entry is replaced whatever follows them in it.  The entry
    that is replaced is a matching one, and no entry before it
    matches. *)
Theorem env_set_replaces_first_match (ps : list (list ascii))
    (word : list ascii) (n : nat) :
  (∃ i, list_find (λ e, take n e = take n word) (env_set ps word n)
        = Some (i, word)
     ∧ (i ≤ length ps)%nat
     ∧ take i (env_set ps word n) = take i ps
     ∧ drop (S i) (env_set ps word n) = drop (S i) ps
     ∧ (i = length ps ↔ Forall (λ e, take n e ≠ take n word) ps))
  ∧ (∀ word', take n word = take n word' →
       env_set (env_set ps word n) word' n = env_set ps word' n)
  ∧ (∀ e ps', ps = e :: ps' → take n e = take n word →
       env_set ps word n = word :: ps')
  ∧ (∃ i, env_set ps word n = take i ps ++ word :: drop (S i) ps
       ∧ Forall (λ e, take n e ≠ take n word) (take i ps)
       ∧ ∀ e, ps !! i = Some e → take n e = take n word).
Proof.
  split; [apply env_set_find|]. split; [intros; by apply env_set_twice|].
  split; [|apply env_set_at].
  intros e ps' -> He. simpl. unfold strncmp_eq.
  by rewrite bool_decide_eq_true_2.
Qed.

(** X19. Of two leading assignments of one name the later wins: a path
    that starts with NAME=v1 NAME=v2 is parsed as the path that starts
    with NAME=v2. *)
Theorem launcher_repeated_assignment (environ : list (list ascii))
    (name v1 v2 rest : list ascii) (sp : ascii) :
  isspace "="%char = false → isspace sp = true →
  space_free isspace name → space_free isspace v1 → space_free isspace v2 →
  no_assignment v1 → no_assignment v2 → word_end isspace rest →
  panel_add_launcher isspace environ
    (name ++ "="%char :: v1 ++ sp :: name ++ "="%char :: v2 ++ rest)
  = panel_add_launcher isspace environ (name ++ "="%char :: v2 ++ rest).
Proof.
  intros Heq Hsp Hn H1 H2 Hn1 Hn2 Hend.
  rewrite (leading_assignment_eq environ name v1
             (sp :: name ++ "="%char :: v2 ++ rest)) by done.
  assert (Hskip : skip_space isspace (sp :: name ++ "="%char :: v2 ++ rest)
                  = name ++ "="%char :: v2 ++ rest).
  { simpl. rewrite Hsp. destruct Hn as [|c name Hc Hn]; simpl.
    - by rewrite Heq.
    - by rewrite Hc. }
  rewrite Hskip.
  rewrite !(leading_assignment_eq _ name v2 rest) by done.
  rewrite env_set_twice; [done|].
  by rewrite !take_app_length.
Qed.

Lemma env_set_entries ps word n e :
  e ∈ env_set ps word n → e ∈ ps ∨ e = word.
Proof.
  induction ps as [|e' ps IH]; simpl.
  { intros [->|[]%elem_of_nil]%elem_of_cons. by right. }
  destruct (strncmp_eq e' word n).
  - intros [->|He]%elem_of_cons; [by right|]. left. by apply list_elem_of_further.
  - intros [->|He]%elem_of_cons; [left; apply list_elem_of_here|].
    destruct (IH He) as [?|?]; [left; by apply list_elem_of_further|by right].
Qed.

(** The entries of an environment after assignments are entries it had
    or words that were assigned. *)
Lemma foldl_assign_entries asg : ∀ envp,
  Forall (λ e, e ∈ envp ∨ e ∈ asg) (foldl assign envp asg).
Proof.
  induction asg as [|w asg IH]; intros envp; cbn [foldl].
  { apply Forall_forall. intros e He. by left. }
  eapply Forall_impl; [apply IH|]. intros e [He|He]; simpl in *.
  - unfold assign in He. destruct (last_assign w) as [n|].
    + destruct (env_set_entries _ _ _ _ He) as [?| ->]; [by left|].
      right. apply list_elem_of_here.
    + by left.
  - right. by apply list_elem_of_further.
Qed.

(** What the loop keeps, whatever the path. *)
Lemma parse_words_general environ fuel : ∀ s envp argv j,
  (length s < fuel)%nat →
  Forall (λ e, e ∈ environ ∨ (space_free isspace e ∧ ¬ no_assignment e)) envp →
  Forall (space_free isspace) argv →
  (length environ ≤ length envp)%nat →
  ∃ envp' argv',
    parse_words isspace fuel s envp argv j = Some (envp', argv')
    ∧ Forall (λ e, e ∈ environ ∨ (space_free isspace e ∧ ¬ no_assignment e))
             envp'
    ∧ Forall (space_free isspace) argv'
    ∧ (length environ ≤ length envp')%nat.
Proof.
  induction fuel as [|fuel IH]; intros s envp argv j Hlt He Ha Hl; [lia|].
  destruct s as [|c s]; [by exists envp, argv|].
  rewrite parse_words_step. cbv zeta.
  pose proof (turn_consumes c s) as Hc.
  pose proof (word_space_free (c :: s)) as Hsf.
  assert (Harg : ∀ j',
    ∃ envp' argv',
      parse_words isspace fuel
        (skip_space isspace (after_word isspace (c :: s))) envp
        (argv ++ [word_of isspace (c :: s)]) j' = Some (envp', argv')
      ∧ Forall (λ e, e ∈ environ ∨ (space_free isspace e ∧ ¬ no_assignment e))
               envp'
      ∧ Forall (space_free isspace) argv'
      ∧ (length environ ≤ length envp')%nat).
  { intros j'. apply IH; [simpl in *; lia|done| |done].
    apply Forall_app. split; [done|]. by constructor. }
  destruct (last_assign (word_of isspace (c :: s))) as [n|] eqn:Hla;
    [destruct j|]; try apply Harg.
  apply IH; [simpl in *; lia| |done|].
  - assert (Hw : space_free isspace (word_of isspace (c :: s))
                 ∧ ¬ no_assignment (word_of isspace (c :: s))).
    { split; [done|]. intros Hna. by rewrite (last_assign_none _ Hna) in Hla. }
    revert Hw. generalize (word_of isspace (c :: s)). intros word Hw.
    clear -He Hw. induction He as [|e envp He0 He IHe]; simpl.
    + constructor; [by right|constructor].
    + destruct (strncmp_eq e word n); constructor; try done. by right.
  - pose proof (env_set_length envp (word_of isspace (c :: s)) n). lia.
Qed.

(** X20. Whatever the path, the parse ends and gives an environment at
    least as long as [environ], every entry of which is an entry of
    [environ] or a word of the path with a '=' and without white space,
    and an argument vector whose words have no white space.  The words
    of the path are the assignments followed by the arguments: the
    leading words with a '=', set in [environ] one after the other, make
    the environment, and the words from the first one without a '=' on
    are the argument vector. *)
Theorem launcher_environment_extends (environ : list (list ascii))
    (path : list ascii) :
  ∃ envp argv,
    panel_add_launcher isspace environ path = Some (envp, argv)
    ∧ (length environ ≤ length envp)%nat
    ∧ Forall (λ e, e ∈ environ ∨ (space_free isspace e ∧ ¬ no_assignment e))
             envp
    ∧ Forall (space_free isspace) argv
    ∧ ∃ asg seps,
        split_into_words isspace path (asg ++ argv) seps
        ∧ Forall (λ w, ¬ no_assignment w) asg
        ∧ (∀ a, head argv = Some a → no_assignment a)
        ∧ envp = foldl assign environ asg
        ∧ Forall (λ e, e ∈ environ ∨ e ∈ asg) envp.
Proof.
  destruct (parse_words_general environ (S (length path)) path environ [] 0)
    as (envp & argv & E & He & Ha & Hl); [lia| |constructor|lia|].
  { apply Forall_forall. intros e He. by left. }
  destruct (parse_words_full (S (length path)) path environ [])
    as (asg & args & seps & E' & Hsp & Hasg & Hhd); [lia|].
  rewrite E in E'. cbn [app] in E'. injection E' as -> ->.
  exists (foldl assign environ asg), args. unfold panel_add_launcher.
  split; [exact E|]. split; [exact Hl|]. split; [exact He|].
  split; [exact Ha|]. exists asg, seps. split; [exact Hsp|].
  split; [exact Hasg|]. split; [exact Hhd|]. split; [done|].
  apply foldl_assign_entries.
Qed.

End LauncherFacts.
(** ** Further properties: drawing parameters *)

(** X22. [set_hex_color] reads a 32-bit colour as alpha, red, green and
    blue bytes from the top: each of the four numerators is between 0 and
    255, and the colour is alpha * 2^24 + red * 2^16 + green * 2^8 +
    blue. *)
Theorem hex_color_channels (color : Z) :
  0 ≤ color < 2 ^ 32 →
  ∃ r g b a, set_hex_color color = (r, g, b, a)
    ∧ 0 ≤ r ≤ 255 ∧ 0 ≤ g ≤ 255 ∧ 0 ≤ b ≤ 255 ∧ 0 ≤ a ≤ 255
    ∧ color = a * 2 ^ 24 + r * 2 ^ 16 + g * 2 ^ 8 + b.
Proof.
  intros Hc. unfold set_hex_color. eexists _, _, _, _. split; [done|].
  change 0xff with (Z.ones 8). rewrite !Z.land_ones by lia.
  rewrite !Z.shiftr_div_pow2 by lia.
  change (2 ^ 0) with 1. change (2 ^ 8) with 256.
  change (2 ^ 16) with 65536. change (2 ^ 24) with 16777216.
  change (2 ^ 32) with 4294967296 in Hc.
  rewrite Z.div_1_r. change (Z.ones 8) with 255.
  repeat split; Z.div_mod_to_equations; lia.
Qed.

Lemma int_add_ok a b : int_range (a + b) → int_add a b = Some (a + b).
Proof. intros H. unfold int_add. by rewrite bool_decide_eq_true_2. Qed.

Lemma panel_resize_launchers_spec icons : ∀ x,
  0 ≤ x → x + launchers_extent icons < 2 ^ 31 →
  Forall (λ i, 0 ≤ i.1 ∧ 0 ≤ i.2 < 2 ^ 31 - 1) icons →
  ∃ rs, panel_resize_launchers x icons = Some rs
    ∧ length rs = length icons
    ∧ (∀ i r ic, rs !! i = Some r → icons !! i = Some ic →
         rect_width r = ic.1 + 1 ∧ rect_height r = ic.2 + 1
         ∧ rect_y r + Z.quot ic.2 2 = 16)
    ∧ (∀ r, head rs = Some r → rect_x r = x)
    ∧ (∀ i r r', rs !! i = Some r → rs !! S i = Some r' →
         rect_x r' = rect_x r + rect_width r + 9).
Proof.
  induction icons as [|[w h] icons IH]; intros x Hx Hext Hic.
  { exists []. repeat split; try done. }
  apply Forall_cons in Hic as [[Hw Hh] Hic]. simpl in Hw, Hh.
  simpl in Hext.
  assert (Hpos : 0 ≤ launchers_extent icons).
  { clear -Hic. induction Hic as [|[w' h'] l [Hw' _] Hl IHl]; simpl in *; lia. }
  destruct (IH (x + (w + 10))) as (rs & E & Hlen & Hsz & Hhd & Hnx);
    [lia|lia|done|].
  assert (Hq : 0 ≤ Z.quot h 2 ≤ h).
  { split; [apply Z.quot_pos; lia|]. apply Z.quot_le_upper_bound; lia. }
  change (2 ^ 31) with 2147483648 in *.
  exists (mk_rectangle x (16 - Z.quot h 2) (w + 1) (h + 1) :: rs).
  split.
  { cbn [panel_resize_launchers].
    rewrite (int_add_ok w 1) by (unfold int_range; lia). simpl.
    rewrite (int_add_ok h 1) by (unfold int_range; lia). simpl.
    rewrite bool_decide_eq_true_2 by (unfold int_range; lia). simpl.
    rewrite (int_add_ok w 10) by (unfold int_range; lia). simpl.
    rewrite (int_add_ok x (w + 10)) by (unfold int_range; lia). simpl.
    by rewrite E. }
  split; [simpl; by rewrite Hlen|]. split.
  { intros [|i] r ic Hr Hi; simpl in Hr, Hi.
    - injection Hr as <-. injection Hi as <-. simpl. lia.
    - by eapply Hsz. }
  split; [by intros r [= <-]|].
  intros [|i] r r' Hr Hr'; simpl in Hr, Hr'.
  - injection Hr as <-. simpl.
    destruct rs as [|r0 rs0]; [done|]. injection Hr' as <-.
    rewrite (Hhd r0 eq_refl). lia.
  - by eapply Hnx.
Qed.

(** X21. The launchers of a panel are laid out side by side: for icons
    whose sizes are not negative and whose total width fits an [int], the
    resize handler gives every launcher a rectangle one pixel wider and
    higher than its icon, centred on row 16, the first at column 10,
    and every next one starts 9 pixels after the previous one ends. *)
Theorem launchers_are_laid_out_side_by_side (icons : list (Z * Z)) :
  10 + launchers_extent icons < 2 ^ 31 →
  Forall (λ i, 0 ≤ i.1 ∧ 0 ≤ i.2 < 2 ^ 31 - 1) icons →
  ∃ rs, panel_resize_launchers 10 icons = Some rs
    ∧ length rs = length icons
    ∧ (∀ i r ic, rs !! i = Some r → icons !! i = Some ic →
         rect_width r = ic.1 + 1 ∧ rect_height r = ic.2 + 1
         ∧ rect_y r + Z.quot ic.2 2 = 16)
    ∧ (∀ r, head rs = Some r → rect_x r = 10)
    ∧ (∀ i r r', rs !! i = Some r → rs !! S i = Some r' →
         rect_x r' = rect_x r + rect_width r + 9).
Proof. intros H1 H2. by apply panel_resize_launchers_spec. Qed.

Section BackgroundFacts.
Variable config_string : string → option string.
Variable config_uint : string → option Z.
Variable DATADIR : string.

(** X23. The settings of a user's background: the user's image is used
    when it is set and is not the default pattern, the global image (or
    the default pattern) otherwise; the user's colour when it is set and
    not 0, the global colour (or 0) otherwise; the type is tile when it
    is not configured and -1 exactly when it is configured to something
    other than scale, scale-crop and tile.  [background_draw] paints the
    image when it could be loaded and the type is known, and the colour
    otherwise: with an unknown type the background is the plain colour
    even when the image loads. *)
Theorem background_settings_fall_back (username : string) :
  let pattern := DATADIR +:+ "/weston/pattern.png" in
  let image := background_image config_string DATADIR username in
  let color := background_color config_uint username in
  let type := background_type config_string in
  (∀ i, config_string ("background-image-" +:+ username) = Some i →
        i ≠ pattern → image = i)
  ∧ (config_string ("background-image-" +:+ username) = None
     ∨ config_string ("background-image-" +:+ username) = Some pattern →
     image = default pattern (config_string "background-image"))
  ∧ (∀ c, config_uint ("background-color-" +:+ username) = Some c →
          c ≠ 0 → color = c)
  ∧ (config_uint ("background-color-" +:+ username) = None
     ∨ config_uint ("background-color-" +:+ username) = Some 0 →
     color = default 0 (config_uint "background-color"))
  ∧ (config_string "background-type" = None → type = BACKGROUND_TILE)
  ∧ (type = -1
     ↔ ∃ t, config_string "background-type" = Some t
            ∧ t ≠ "scale" ∧ t ≠ "scale-crop" ∧ t ≠ "tile")
  ∧ (∀ loaded,
       background_draw_source config_string config_uint DATADIR username
         loaded
       = if loaded && negb (bool_decide (type = -1))
         then SourcePattern image type
         else SourceColor (set_hex_color color))
  ∧ (type = -1 → ∀ loaded,
       background_draw_source config_string config_uint DATADIR username
         loaded
       = SourceColor (set_hex_color color)).
Proof.
  cbv zeta. unfold background_image, background_color, background_type,
    background_draw_source, weston_config_section_get_string,
    weston_config_section_get_uint.
  split; [|split; [|split; [|split; [|split; [|split; [|split]]]]]].
  - intros i -> Hi. cbn [default from_option id].
    by rewrite bool_decide_eq_false_2.
  - intros [->| ->]; cbn [default from_option id];
      by rewrite bool_decide_eq_true_2.
  - intros c -> Hc. cbn [default from_option id].
    by rewrite bool_decide_eq_false_2.
  - intros [->| ->]; cbn [default from_option id];
      by rewrite bool_decide_eq_true_2.
  - intros ->. done.
  - destruct (config_string "background-type") as [t|];
      cbn [default from_option id].
    + unfold BACKGROUND_SCALE, BACKGROUND_SCALE_CROP, BACKGROUND_TILE.
      repeat case_bool_decide; subst; split; try done;
        try (intros (t' & [= <-] & ? & ? & ?); done).
      intros _. by exists t.
    + split; [done|]. by intros (t & ? & _).
  - done.
  - intros Ht loaded. rewrite (bool_decide_eq_true_2 _ Ht).
    by rewrite andb_false_r.
Qed.

End BackgroundFacts.
(** ** The further properties at concrete states *)

Lemma locked_world_heap_ok : heap_ok locked_world.
Proof.
  intros p Hp. simpl in *. rewrite !lookup_insert_ne by lia.
  apply lookup_empty.
Qed.

Lemma example_world_switchable : switchable example_world.
Proof.
  split; [by eexists|]. split; [apply example_world_heap_ok|].
  apply example_world_outputs_ok.
Qed.

Lemma example_world_surfaces_live : surfaces_live example_world.
Proof.
  apply Forall_cons. split; [split|apply Forall_nil_2];
    intros ? [= <-]; by eexists.
Qed.

(** X1 on the accounts of the example: two of the four are selectable,
    and the longer name exceeds 7 characters by 3. *)
Lemma unlock_dialog_lists_selectable_accounts_witness :
  is_Some (shell (desk example_world)) ∧ heap_ok example_world
  ∧ ∃ w',
      unlock_dialog_create example_accounts example_world
      = ([UnlockDialogCreate 7; Request (set_lock_surface 6);
          WindowScheduleResize 6 290 268],
         Some (7%nat, w'))
      ∧ heap w' !! 8%nat = Some (O_user_entry (mk_user_entry "alice" 7))
      ∧ heap w' !! 9%nat
        = Some (O_user_entry (mk_user_entry "carolcarol" 7)).
Proof.
  split; [by eexists|]. split; [apply example_world_heap_ok|].
  destruct (unlock_dialog_lists_selectable_accounts example_accounts
              example_world)
    as (w' & E & _ & _ & _ & _ & Hent & _);
    [by eexists|apply example_world_heap_ok|].
  exists w'. split; [exact E|].
  split; [apply (Hent 0%nat); reflexivity|apply (Hent 1%nat); reflexivity].
Defined.

(** X2 at the state reached by start-up. *)
Lemma lock_cycle_leaves_the_window_witness :
  is_Some (shell (desk example_world)) ∧ heap_ok example_world
  ∧ locking (desk example_world) = true
  ∧ unlock_dialog (desk example_world) = None
  ∧ ∃ t w',
      (desktop_shell_prepare_lock_surface example_accounts ;;;
       unlock_dialog_finish) example_world
      = (t, Some ((), w'))
      ∧ desk w' = desk example_world
      ∧ heap w' = <[6%nat := O_window (Some 7%nat)]> (heap example_world).
Proof.
  split; [by eexists|]. split; [apply example_world_heap_ok|].
  split; [done|]. split; [done|].
  destruct (lock_cycle_leaves_the_window example_accounts example_world)
    as (w' & E & Hd & Hh);
    [by eexists|apply example_world_heap_ok|done|done|].
  eexists _, w'. split; [exact E|]. split; [exact Hd|exact Hh].
Defined.

(** X3 at the state with two open sub-dialogs. *)
Lemma unlock_finish_leaves_sub_dialogs_witness :
  is_Some (shell (desk locked_world))
  ∧ unlock_dialog (desk locked_world) = Some 7%nat
  ∧ heap locked_world !! 7%nat
    = Some (O_unlock_dialog (mk_unlock_dialog 6 [8%nat; 9%nat] false))
  ∧ heap locked_world !! 11%nat
    = Some (O_password_dialog (mk_password_dialog 10 [] 0 8))
  ∧ ∃ w',
      unlock_dialog_finish locked_world
      = ([Request unlock; UnlockDialogDestroy (Some 7%nat)], Some ((), w'))
      ∧ heap w' !! 11%nat
        = Some (O_password_dialog (mk_password_dialog 10 [] 0 8))
      ∧ password_dialog_key_handler example_xkb 11
          WL_KEYBOARD_KEY_STATE_PRESSED 97 w'
        = ([], None).
Proof.
  split; [by eexists|]. split; [done|]. split; [done|]. split; [done|].
  destruct (unlock_finish_leaves_sub_dialogs example_xkb 7 11
              (mk_unlock_dialog 6 [8%nat; 9%nat] false)
              (mk_password_dialog 10 [] 0 8) (Some 7%nat) (Some 11%nat)
              locked_world)
    as (w' & E & _ & _ & _ & _ & Hd & _ & Hk & _).
  - by eexists.
  - done.
  - done.
  - done.
  - apply (bool_decide_unpack _); vm_compute; exact I.
  - repeat constructor; by eexists.
  - done.
  - done.
  - simpl. apply list_elem_of_here.
  - exists w'. split; [exact E|]. split; [exact Hd|]. apply Hk.
Defined.

(** X4: two releases on the entry of "alice". *)
Lemma entry_release_opens_sub_dialog_witness :
  is_Some (shell (desk locked_world)) ∧ heap_ok locked_world
  ∧ heap locked_world !! 8%nat = Some (O_user_entry (mk_user_entry "alice" 7))
  ∧ ∃ t w',
      run example_xkb example_accounts
          (replicate 2 (UserEntryButton 8 WL_POINTER_BUTTON_STATE_RELEASED))
          locked_world
      = (t, Some ((), w'))
      ∧ count_if is_password_create t = 2%nat
      ∧ heap w' !! 15%nat
        = Some (O_password_dialog (mk_password_dialog 14 [] 0 8))
      ∧ heap w' !! 17%nat
        = Some (O_password_dialog (mk_password_dialog 16 [] 0 8)).
Proof.
  split; [by eexists|]. split; [apply locked_world_heap_ok|].
  split; [done|].
  destruct (entry_release_opens_sub_dialog example_xkb example_accounts 8
              (mk_user_entry "alice" 7)
              (mk_unlock_dialog 6 [8%nat; 9%nat] false) 2 locked_world)
    as [_ [_ (t & w' & E & Hc & _ & _ & _ & _ & _ & _ & Hnew)]];
    [by eexists|apply locked_world_heap_ok|done|done|].
  exists t, w'. split; [exact E|]. split; [exact Hc|].
  split; [apply (Hnew 0%nat); lia|apply (Hnew 1%nat); lia].
Defined.

(** X5 on a sequence of keys typed into a fresh sub-dialog. *)
Lemma password_cursor_stays_at_end_witness :
  typing_at_end locked_world 11
  ∧ ∃ t w',
      run example_xkb example_accounts
          ((λ k, PasswordKey 11 k.1 k.2)
             <$> [(WL_KEYBOARD_KEY_STATE_PRESSED, 97);
                  (WL_KEYBOARD_KEY_STATE_PRESSED, XKB_KEY_Left);
                  (WL_KEYBOARD_KEY_STATE_PRESSED, 98);
                  (WL_KEYBOARD_KEY_STATE_PRESSED, XKB_KEY_BackSpace)])
          locked_world
      = (t, Some ((), w'))
      ∧ typing_at_end w' 11.
Proof.
  assert (H : typing_at_end locked_world 11).
  { eexists _, _, _. split; [done|]. split; [done|]. split; [done|].
    by vm_compute. }
  split; [exact H|].
  apply (proj2 (password_cursor_stays_at_end example_xkb example_accounts)
           _ 11%nat _ H).
  repeat (apply Forall_cons; split;
          [intros Hk; first [discriminate Hk | by repeat split]|]).
  apply Forall_nil_2.
Defined.

(** X6 on a sub-dialog of the locked state. *)
Lemma escape_closes_without_submitting_witness :
  sub_dialog locked_world 7 11
  ∧ ∃ x,
      heap locked_world !! 11%nat = Some (O_password_dialog x)
      ∧ password_dialog_key_handler example_xkb 11
          WL_KEYBOARD_KEY_STATE_PRESSED XKB_KEY_Escape locked_world
        = ([PasswordDialogDestroy 11],
           Some ((), with_heap (delete 11%nat)
                       (with_heap (delete (pd_window x)) locked_world))).
Proof.
  assert (H : sub_dialog locked_world 7 11) by (by eexists _, _, _).
  split; [exact H|].
  destruct (escape_closes_without_submitting example_xkb 11 7
              (mk_unlock_dialog 6 [8%nat; 9%nat] false) locked_world H
              eq_refl)
    as (x & Hx & E & _).
  exists x. split; [exact Hx|exact E].
Defined.

(** X7: the background paints, then the panel, then the background
    again. *)
Lemma desktop_ready_after_all_paints_witness :
  is_Some (shell (desk example_world))
  ∧ painted (desk example_world) = false
  ∧ surfaces_live example_world
  ∧ ∃ t w',
      run example_xkb example_accounts
          [BackgroundDraw 4; PanelRedraw 2; BackgroundDraw 4] example_world
      = (t, Some ((), w'))
      ∧ painted (desk w') = true
      ∧ sent desktop_ready t = 1%nat.
Proof.
  split; [by eexists|]. split; [done|].
  split; [apply example_world_surfaces_live|].
  destruct (desktop_ready_after_all_paints example_xkb example_accounts
              [BackgroundDraw 4; PanelRedraw 2; BackgroundDraw 4]
              example_world)
    as (t & w' & E & Hp & _ & Hs).
  - by eexists.
  - done.
  - apply example_world_surfaces_live.
  - done.
  - repeat constructor; by eexists.
  - apply Forall_cons. split; [split|apply Forall_nil_2].
    + intros ? [= <-]. right. apply list_elem_of_further, list_elem_of_here.
    + intros ? [= <-]. right. apply list_elem_of_here.
  - exists t, w'. split; [exact E|]. split; [exact Hp|exact Hs].
Defined.

(** X8 on a lock cycle. *)
Lemma requests_follow_events_witness :
  Request lock
  ∉ trace_of (run example_xkb example_accounts
                [PrepareLock; UserSwitched "alice"; RunDeferred])
             example_world.
Proof.
  apply (proj1 (proj1 (proj2 (proj2
           (requests_follow_events example_xkb example_accounts))) _ _)).
Defined.

(** X9 on the announcement of a second shell global. *)
Lemma settings_survive_every_event_witness :
  final (run example_xkb example_accounts
           [GlobalAdded (mk_global 1 "desktop_shell" 5)]) example_world
  = Some (with_desk (set_shell (Some 1))
            (with_desk (set_interface_version 2) example_world))
  ∧ locking (desk (with_desk (set_shell (Some 1))
                     (with_desk (set_interface_version 2) example_world)))
    = locking (desk example_world).
Proof.
  assert (H : final (run example_xkb example_accounts
                       [GlobalAdded (mk_global 1 "desktop_shell" 5)])
                example_world
              = Some (with_desk (set_shell (Some 1))
                        (with_desk (set_interface_version 2) example_world)))
    by (vm_compute; reflexivity).
  split; [exact H|].
  apply (proj1 (proj2 (settings_survive_every_event example_xkb
                         example_accounts _ _ _ H))).
Defined.

(** X10 at the state reached by start-up. *)
Lemma output_add_remove_round_trip_witness :
  is_Some (shell (desk example_world)) ∧ heap_ok example_world
  ∧ ∃ t w',
      run example_xkb example_accounts
          [GlobalAdded (mk_global 9 "wl_output" 2);
           GlobalRemoved 9 "wl_output"] example_world
      = (t, Some ((), w'))
      ∧ desk w' = desk example_world ∧ heap w' = heap example_world.
Proof.
  split; [by eexists|]. split; [apply example_world_heap_ok|].
  destruct (output_add_remove_round_trip example_xkb example_accounts 9 2
              example_world)
    as (w' & E & Hd & Hh & _);
    [by eexists|apply example_world_heap_ok|].
  eexists _, w'. split; [exact E|]. split; [exact Hd|exact Hh].
Defined.

(** X11 at the state reached by start-up. *)
Lemma teardown_destroys_every_output_witness :
  Forall (output_owned example_world) (outputs (desk example_world))
  ∧ NoDup (concat (output_cells example_world
                     <$> outputs (desk example_world)))
  ∧ ∃ w',
      desktop_destroy_outputs example_world
      = ([BackgroundDestroy 4; PanelDestroy 2; WlOutputDestroy 7],
         Some ((), w'))
      ∧ desk w' = set_outputs [] (desk example_world).
Proof.
  assert (H1 : Forall (output_owned example_world)
                      (outputs (desk example_world)))
    by (repeat constructor; apply example_output_owned).
  assert (H2 : NoDup (concat (output_cells example_world
                                <$> outputs (desk example_world))))
    by (apply (bool_decide_unpack _); vm_compute; exact I).
  split; [exact H1|]. split; [exact H2|].
  destruct (teardown_destroys_every_output example_world H1 H2)
    as (w' & E & Hd & _).
  exists w'. split; [exact E|exact Hd].
Defined.

(** X12 on a compositor that announces an output and no shell. *)
Lemma startup_needs_the_shell_witness :
  Forall (λ g, g_interface g ≠ "desktop_shell") [mk_global 7 "wl_output" 2]
  ∧ outcome (main_startup [mk_global 7 "wl_output" 2]) (initial_world true)
    = None.
Proof.
  assert (H : Forall (λ g, g_interface g ≠ "desktop_shell")
                     [mk_global 7 "wl_output" 2])
    by (by repeat constructor).
  split; [exact H|]. apply (startup_needs_the_shell true _ H).
Defined.

(** X13: to "alice", to "bob", and back to "alice". *)
Lemma switching_back_allocates_nothing_witness :
  switchable example_world
  ∧ ∃ t1 w1 t2 w2,
      run example_xkb example_accounts
          (UserSwitched <$> ["alice"; "bob"]) example_world
      = (t1, Some ((), w1))
      ∧ desktop_shell_user_switched "alice" w1 = (t2, Some ((), w2))
      ∧ count_if is_panel_create t2 = 0%nat
      ∧ heap w2 = heap w1.
Proof.
  split; [apply example_world_switchable|].
  destruct (switching_back_allocates_nothing example_xkb example_accounts
              ["alice"; "bob"] "alice" example_world
              example_world_switchable)
    as (t1 & w1 & t2 & w2 & E1 & E2 & Hp & _ & Hh & _).
  - apply list_elem_of_here.
  - exists t1, w1, t2, w2. split; [exact E1|]. split; [exact E2|].
    split; [exact Hp|exact Hh].
Defined.


(** X15 on the command line of a terminal. *)
Lemma launcher_words_are_arguments_witness :
  no_assignment (chars "weston-terminal  --fullscreen")
  ∧ panel_add_launcher c_isspace
      [chars "HOME=/root"]
      (chars "weston-terminal  --fullscreen")
    = Some ([chars "HOME=/root"],
            [chars "weston-terminal"; chars "--fullscreen"])
  ∧ ∃ seps,
      split_into_words c_isspace (chars "weston-terminal  --fullscreen")
        [chars "weston-terminal"; chars "--fullscreen"] seps.
Proof.
  assert (H : no_assignment
                (chars "weston-terminal  --fullscreen"))
    by (apply (bool_decide_unpack _); vm_compute; exact I).
  split; [exact H|].
  destruct (launcher_words_are_arguments c_isspace
              [chars "HOME=/root"] _ H)
    as (argv & seps & E & Hsp & _).
  assert (E' : panel_add_launcher c_isspace
                 [chars "HOME=/root"]
                 (chars "weston-terminal  --fullscreen")
               = Some ([chars "HOME=/root"],
                       [chars "weston-terminal"; chars "--fullscreen"]))
    by (vm_compute; reflexivity).
  pose proof E as E0. rewrite E' in E0. injection E0 as <-.
  split; [exact E|]. exists seps. exact Hsp.
Defined.

(** X16: an assignment after the command is an argument. *)
Lemma launcher_command_ends_assignments_witness :
  chars "env" ≠ [] ∧ space_free c_isspace (chars "env")
  ∧ no_assignment (chars "env") ∧ word_end c_isspace (chars " A=1 b")
  ∧ panel_add_launcher c_isspace [] (chars "env" ++ chars " A=1 b")
    = Some ([], [chars "env"; chars "A=1"; chars "b"])
  ∧ ∃ seps,
      split_into_words c_isspace (chars "env" ++ chars " A=1 b")
        [chars "env"; chars "A=1"; chars "b"] seps.
Proof.
  assert (H0 : chars "env" ≠ []) by discriminate.
  assert (H1 : space_free c_isspace (chars "env"))
    by (apply (bool_decide_unpack _); vm_compute; exact I).
  assert (H2 : no_assignment (chars "env"))
    by (apply (bool_decide_unpack _); vm_compute; exact I).
  assert (H3 : word_end c_isspace (chars " A=1 b")) by reflexivity.
  split; [exact H0|]. split; [exact H1|]. split; [exact H2|].
  split; [exact H3|].
  destruct (launcher_command_ends_assignments c_isspace [] (chars "env")
              (chars " A=1 b") H0 H1 H2 H3) as (args & seps & E & Hsp & _).
  assert (E' : panel_add_launcher c_isspace []
                 (chars "env" ++ chars " A=1 b")
               = Some ([], [chars "env"; chars "A=1"; chars "b"]))
    by (vm_compute; reflexivity).
  pose proof E as E0. rewrite E' in E0. injection E0 as <-.
  split; [exact E|]. exists seps. exact Hsp.
Defined.

(** X17: an assignment before the command. *)
Lemma launcher_leading_assignment_witness :
  c_isspace "="%char = false
  ∧ space_free c_isspace (chars "A") ∧ space_free c_isspace (chars "1")
  ∧ no_assignment (chars "1") ∧ word_end c_isspace (chars " env")
  ∧ panel_add_launcher c_isspace [chars "A=0"]
      (chars "A" ++ "="%char :: chars "1" ++ chars " env")
    = panel_add_launcher c_isspace
        (env_set [chars "A=0"] (chars "A" ++ "="%char :: chars "1")
                 (length (chars "A")))
        (skip_space c_isspace (chars " env")).
Proof.
  assert (H0 : c_isspace "="%char = false) by reflexivity.
  assert (H1 : space_free c_isspace (chars "A"))
    by (apply (bool_decide_unpack _); vm_compute; exact I).
  assert (H2 : space_free c_isspace (chars "1"))
    by (apply (bool_decide_unpack _); vm_compute; exact I).
  assert (H3 : no_assignment (chars "1"))
    by (apply (bool_decide_unpack _); vm_compute; exact I).
  assert (H4 : word_end c_isspace (chars " env")) by reflexivity.
  split; [exact H0|]. split; [exact H1|]. split; [exact H2|].
  split; [exact H3|]. split; [exact H4|].
  apply (launcher_leading_assignment c_isspace [chars "A=0"] (chars "A")
           (chars "1") (chars " env") H0 H1 H2 H3 H4).
Defined.

(** X18: FOO=2 set in an environment whose first entry is FOOBAR=1. *)
Lemma env_set_replaces_first_match_witness :
  take 3 (chars "FOOBAR=1") = take 3 (chars "FOO=2")
  ∧ env_set [chars "FOOBAR=1"; chars "FOO=0"] (chars "FOO=2") 3
    = [chars "FOO=2"; chars "FOO=0"].
Proof.
  assert (H : take 3 (chars "FOOBAR=1") = take 3 (chars "FOO=2"))
    by reflexivity.
  split; [exact H|].
  apply (proj1 (proj2 (proj2 (env_set_replaces_first_match
                                [chars "FOOBAR=1"; chars "FOO=0"]
                                (chars "FOO=2") 3)))
           (chars "FOOBAR=1") [chars "FOO=0"] eq_refl H).
Defined.

(** X19: A=1 A=2 env. *)
Lemma launcher_repeated_assignment_witness :
  c_isspace "="%char = false ∧ c_isspace " "%char = true
  ∧ space_free c_isspace (chars "A")
  ∧ space_free c_isspace (chars "1") ∧ space_free c_isspace (chars "2")
  ∧ no_assignment (chars "1") ∧ no_assignment (chars "2")
  ∧ word_end c_isspace (chars " env")
  ∧ panel_add_launcher c_isspace []
      (chars "A" ++ "="%char :: chars "1" ++ " "%char
         :: chars "A" ++ "="%char :: chars "2" ++ chars " env")
    = panel_add_launcher c_isspace []
        (chars "A" ++ "="%char :: chars "2" ++ chars " env").
Proof.
  assert (H0 : c_isspace "="%char = false) by reflexivity.
  assert (H0' : c_isspace " "%char = true) by reflexivity.
  assert (H1 : space_free c_isspace (chars "A"))
    by (apply (bool_decide_unpack _); vm_compute; exact I).
  assert (H2 : space_free c_isspace (chars "1"))
    by (apply (bool_decide_unpack _); vm_compute; exact I).
  assert (H2' : space_free c_isspace (chars "2"))
    by (apply (bool_decide_unpack _); vm_compute; exact I).
  assert (H3 : no_assignment (chars "1"))
    by (apply (bool_decide_unpack _); vm_compute; exact I).
  assert (H3' : no_assignment (chars "2"))
    by (apply (bool_decide_unpack _); vm_compute; exact I).
  assert (H4 : word_end c_isspace (chars " env")) by reflexivity.
  split; [exact H0|]. split; [exact H0'|]. split; [exact H1|].
  split; [exact H2|]. split; [exact H2'|]. split; [exact H3|].
  split; [exact H3'|]. split; [exact H4|].
  apply (launcher_repeated_assignment c_isspace [] (chars "A") (chars "1")
           (chars "2") (chars " env") " "%char H0 H0' H1 H2 H2' H3 H3' H4).
Defined.

(** X20 on a path with an assignment and a command. *)
Lemma launcher_environment_extends_witness :
  panel_add_launcher c_isspace [chars "HOME=/root"]
    (chars "LANG=C weston-terminal")
  = Some ([chars "HOME=/root"; chars "LANG=C"], [chars "weston-terminal"])
  ∧ ∃ asg seps,
      split_into_words c_isspace (chars "LANG=C weston-terminal")
        (asg ++ [chars "weston-terminal"]) seps
      ∧ [chars "HOME=/root"; chars "LANG=C"]
        = foldl assign [chars "HOME=/root"] asg.
Proof.
  destruct (launcher_environment_extends c_isspace [chars "HOME=/root"]
              (chars "LANG=C weston-terminal"))
    as (envp & argv & E & _ & _ & _ & asg & seps & Hsp & _ & _ & Hf & _).
  assert (E' : panel_add_launcher c_isspace [chars "HOME=/root"]
                 (chars "LANG=C weston-terminal")
               = Some ([chars "HOME=/root"; chars "LANG=C"],
                       [chars "weston-terminal"]))
    by (vm_compute; reflexivity).
  pose proof E as E0. rewrite E' in E0. injection E0 as <- <-.
  split; [exact E|]. exists asg, seps. split; [exact Hsp|exact Hf].
Defined.

(** X21 on two icons, of 24 and of 32 pixels. *)
Lemma launchers_are_laid_out_side_by_side_witness :
  10 + launchers_extent [(24, 24); (32, 32)] < 2 ^ 31
  ∧ Forall (λ i : Z * Z, 0 ≤ i.1 ∧ 0 ≤ i.2 < 2 ^ 31 - 1)
           [(24, 24); (32, 32)]
  ∧ ∃ rs, panel_resize_launchers 10 [(24, 24); (32, 32)] = Some rs
          ∧ length rs = 2%nat.
Proof.
  assert (H1 : 10 + launchers_extent [(24, 24); (32, 32)] < 2 ^ 31)
    by (vm_compute; reflexivity).
  assert (H2 : Forall (λ i : Z * Z, 0 ≤ i.1 ∧ 0 ≤ i.2 < 2 ^ 31 - 1)
                      [(24, 24); (32, 32)]).
  { repeat (apply Forall_cons; split; [simpl; lia|]). apply Forall_nil_2. }
  split; [exact H1|]. split; [exact H2|].
  destruct (launchers_are_laid_out_side_by_side _ H1 H2)
    as (rs & E & Hl & _).
  exists rs. split; [exact E|exact Hl].
Defined.

(** X22 on the default colour of the panel. *)
Lemma hex_color_channels_witness :
  0 ≤ 0xaa000000 < 2 ^ 32
  ∧ ∃ r g b a, set_hex_color 0xaa000000 = (r, g, b, a)
               ∧ 0xaa000000 = a * 2 ^ 24 + r * 2 ^ 16 + g * 2 ^ 8 + b.
Proof.
  assert (H : 0 ≤ 0xaa000000 < 2 ^ 32) by lia.
  split; [exact H|].
  destruct (hex_color_channels 0xaa000000 H)
    as (r & g & b & a & E & _ & _ & _ & _ & Hc).
  exists r, g, b, a. split; [exact E|exact Hc].
Defined.

(** X23 on a configuration that sets an unknown type and an image for
    "alice". *)
Lemma background_settings_fall_back_witness :
  background_draw_source
    (λ k, if bool_decide (k = "background-type") then Some "stretch"
          else if bool_decide (k = "background-image-alice")
               then Some "/home/alice/bg.png" else None)
    (λ _, None) "/usr/share" "alice" true
  = SourceColor (set_hex_color 0).
Proof.
  apply (proj2 (proj2 (proj2 (proj2 (proj2 (proj2 (proj2
           (background_settings_fall_back
              (λ k, if bool_decide (k = "background-type")
                    then Some "stretch"
                    else if bool_decide (k = "background-image-alice")
                         then Some "/home/alice/bg.png" else None)
              (λ _, None) "/usr/share" "alice")))))))).
  reflexivity.
Defined.
